(* ===== verification/_CoqProject ===== *)
-Q . S2P
Prelude.v
ObjectId.v
PySort.v
Json.v
JsonType.v
PyString.v
PyFloat.v
Email.v
Documents.v
Aggregate.v
Content.v
Settings.v
Pricing.v
FreeAccess.v
Duplicate.v
Play.v
Channels.v
Responses.v
Prompts.v
Auth.v
AuthProps.v
AuthDocs.v
Validation.v
Space.v
SpaceProps.v
Thumbnails.v
Routing.v
Translations.v
OpenApi.v
Requests.v
Scripts.v
