(* ===== verification/Prelude.v ===== *)
(** * A verification development of the yaralex e-learning backend

    The program is the FastAPI + Beanie (MongoDB) backend under
    [src/backend/app]. A studio user builds a channel as a five-level
    outline (section, unit, activity, lesson/quiz, question), each level a
    pair of collections (the outline node and its authored content) linked
    by stringified parent ids; players subscribe to published channels and
    record progress. Every studio mutation re-runs one routine,
    [get_channel_content_outline_stats] (middlewares.py), which walks the
    tree, recounts every level and caches a nested JSON blob
    ([outline_content]) on the Channel document; deletion, duplication,
    the free-access percentages and the player's progress tree all read
    that blob rather than the collections.

    ** Files, in dependency order

    - [Prelude]: the handler monad [PyM S A = S -> (exn + A) * S] (state
      and Python exceptions; writes done before a raise persist, there are
      no transactions), [except_500] for the handlers' blanket
      [except Exception as e: raise HTTPException(500, str(e))] with
      starlette's [str(HTTPException)] = ["<status>: <detail>"], Python
      loops ([py_mapM], [py_foldM]), the invariant combinator
      [preserves] with the [preserve] tactic and hint database, list and
      sum lemmas, the [pyrun] rewrite database, [lift_exn] (a pure
      result that may raise), the [pyunfold] tactic and the loop
      lemma [py_mapM_trace] (an invariant, a trace relation and a
      per-item guarantee carried through a Python [for] loop), and the
      postconditions [returns] (on the value a computation returns) and
      [raises] (on the exception it raises), with their rules and the
      [raises_tac] tactic.
    - [ObjectId]: ObjectIds as 96-bit [N], [str(ObjectId)] as 24
      lowercase hex digits, [PydanticObjectId(str)] parsing; a string
      [_id] [s] as the key [str_key s] at or above [16^24] (its bytes in
      bijective base 257), kept apart from every ObjectId, with [id_str]
      giving [str(doc.id)] for both kinds.
    - [PySort]: the stable sort shared by Mongo's [.sort("order")] and
      Python's [list.sort(key=...)], over a [KeyOrder] class.
    - [Json]: the untyped [Dict[str, Any]] blobs as a [json] inductive
      with [d.get], [d[k]], iteration, truthiness and [in].
    - [JsonType]: a schema language [jty] for JSON values, the typing
      judgement [has_type] as an [Inductive] (dict fields in order,
      string literals for ["type"] tags, [Dict[str, X]], unions), a
      checker [type_check] that decides it, the [jtype] hints and the
      [typed] tactic.
    - [PyString]: the [str] methods the handlers call ([split()],
      [split(sep)], [lower()], [upper()], [strip()], [strip(c)],
      [repr], [in] (with the substring search [str_contains] of
      [ObjectId]), [[-1]], [[:n]], truthiness, [f"{x}"] of an
      [Optional[str]]).
    - [PyFloat]: Python floats as IEEE doubles (Stdlib's SpecFloat):
      [int / int], [float * int], [int(x)], [round(x, 2)] with
      round-half-even, [float - int].
    - [Email]: utils/email.py. The SMTP server is an oracle record
      [SmtpServer] answering [connect], [starttls], [login] and
      [sendmail]; [send_email] builds the [MIMEMultipart] message and
      runs the four commands, re-raising the first exception; the four
      mails keep the exact texts of their f-strings; [get_template]
      looks in app/templates/email, which the repository lacks.
    - [Documents]: one Module per Beanie model class (models/channel.py,
      models/play.py, models/user.py) with a Record keeping the Python
      field names; one global store [DB] (documents in insertion order,
      which is Mongo's natural order, and an id generator); the class-
      directed API ([find], [find_one], [insert], [save], [delete],
      [delete_one_where], [delete_many_where]) through the [Document]
      typeclass; the frame lemmas ([keeps]) and well-formedness
      ([wf_db]: unique ids below the generator, at most [16^24]).
    - [Aggregate]: [get_channel_content_outline_stats] whole (Section
      [Walk]: one definition per loop body of lines 28-177), its algebra of
      counters, and what the counters count (Sections [WalkSums],
      [WalkCounts], [Live]).
    - [Content]: the 22 handlers of api/studio/channel/content.py.
    - [Settings]: create_channel, publish, channel info and
      delete_channel of setting.py, the delete cascade over the blob.
    - [Pricing]: tiers and coupons of setting.py.
    - [FreeAccess]: get_activity_percentage with IEEE doubles (Stdlib's
      SpecFloat), update_free_access, get_free_access.
    - [Duplicate]: duplicate_channel, one definition per loop body.
    - [Play]: the player API of api/play/play.py and the progress tree.
    - [Channels]: the two read endpoints of api/studio/channel/channel.py
      (Module [ChannelApi]: the channel list and the channel page with
      its re-aggregation) and the schemas of their answers, the outline
      schema level by level.
    - [Responses]: the [XResponse] classes of models/channel.py as
      instances of the [ResponseModel] class (fields in declaration
      order, then the [id] of [validate_id]) with their laws in
      [ResponseLaws], [respond]/[respond_list] composing them with the
      handlers, the shape of the percentage outline, and the OpenAPI
      examples of the models checked against the schemas.
    - [Prompts]: prompt_preparation.py and the two AI endpoints of
      channel.py: [clean_json_text] with its regular expressions written
      out, the messages, the retry loops with their prints and sleeps;
      the chat model, [json.loads] and template.json are the [ChatEnv]
      record, and the state [PromptIO] counts calls, seconds slept and
      lines printed.
    - [Auth]: the eleven endpoints of api/public/auth.py, the
      [get_user_id] dependency (utils/user.py), token creation and
      [verify_token] (utils/security.py), [handle_exception]
      (messages/__init__.py) with its [Error] log, and the unique indexes
      of the [User] collection ([save_user], [insert_user]). bcrypt and
      JWT signing are the [Crypto] typeclass, with the one law each
      handler relies on; the clock, the random code, the SMTP server of
      [Email] and the logged traceback are an [Env] record. Sign-up,
      resend and password reset send [send_verification_email], e-mail
      verification [send_welcome_email]. The claims on
      the error paths of [get_user_id] and [verify_token] (C18-C20) and
      on [PATCH /me] (C25) close the file.
    - [AuthProps]: the invariants of the user collection and their
      preservation by the handlers (every handler but [PATCH /me], whose
      body may carry an [id]), run lemmas of single handlers, the auth
      claims, and [RefCrypto], an implementation of [Crypto] used by the
      witnesses.
    - [AuthDocs]: the error statuses each route of auth.py documents,
      the statuses each handler can answer (a [raises] postcondition on
      its body carried through [auth_endpoint]), and runs that answer
      the undocumented ones.
    - [Validation]: the [password] and [email] validators of
      models/user.py ([PASSWORD_REGEX] and [EMAIL_REGEX] as executable
      checks on the characters, with Python's [$]) and the helpers of
      utils/security.py that no endpoint calls: random tokens (the
      [secrets] draws are an oracle), the token refresher, the login
      lockout over [User.t], the password-strength test, the sanitizers,
      and token hashing over [Crypto].
    - [Space]: the file spaces. Module [FileService] is
      services/file_service.py method by method (upload with its
      thumbnail, get, delete, move, list, directories with the recursive
      delete, stats, breadcrumbs, thumbnail read), over a store of
      [GalleryFile] and [Directory] documents (models/gallery.py) and an
      environment [SpaceEnv] holding GridFS ([GridFS]: upload, download,
      delete, each of which may raise), the thumbnailer's answer and the
      clock; base64 is the [Base64] class with its two laws. Module
      [Studio] is api/studio/space.py (the response models, the
      recursive [convert_dir_to_response], every endpoint) and Module
      [PlaySpace] is api/play/space.py (subscription check, download,
      thumbnail). The rendered directory statistics (C31) and the storage
      statistics (C36), checked by one table evaluated with
      [vm_compute], close the file.
    - [SpaceProps]: the directory forest invariant [space_inv] and its
      preservation by every store write and every endpoint, the endpoints
      as an [Inductive] step relation [space_step], the traces of the
      recursive delete ([shrinks]), which endpoints only read, the
      termination of the breadcrumb loop, [RefBase64] (an instance of
      [Base64] for the witnesses), the space claims and a demo store
      [SpaceDemo.db0].
    - [Thumbnails]: services/thumbnail_service.py (Module
      [ThumbnailService]: the dispatch on settings.THUMBNAIL's type
      sets, every generator with its fallbacks, the icon's label and
      colour) over the [Imaging] oracle for PIL, OpenCV and PyPDF2, and
      [service_env], the file service with this thumbnailer.
    - [Routing]: main.py's [include_router] table over the routes of the
      seven routers of api/ (method, path, endpoint, in declaration
      order; the two routers whose modules are missing are parameters),
      Starlette's first-match dispatch with path patterns cut at ['/'],
      and the overlapping pairs of the table.
    - [Translations]: translations/__init__.py, the global dict and the
      YAML files as a state [TState] of stdpp maps; [load_translations],
      [translate] with its file writes, and the invariant [ready]
      (memory equals file, every code asked present).
    - [OpenApi]: utils/openapi.py ([get_unique_tags], [categorize_tags]
      with the source's [SEP] as UTF-8 bytes, [x-tagGroups], the
      [FailResponse] component, the 422 patch, [patch_openapi] over the
      schema [get_openapi] gives) and the two exception handlers of
      main.py.
    - [Requests]: FastAPI's body validation composed with the auth
      endpoints and the 422 handler, over [AppState] (the store and the
      translations together, with [on_db] and [on_tr] lifting a
      computation on either): [with_body] and the three bodies with
      field validators.
    - [Scripts]: scripts/fill_channel_db.py, with each model class
      called with keyword arguments as pydantic's validation (one
      constructor per class: fields in declaration order, defaults,
      [ValidationError] for a missing or mistyped field, extra arguments
      dropped), and scripts/cleanup_db.py, dropping its listed
      collections from the store by collection name.

    ** What the theorems show (claims C1-C40 of the manifest)

    - Aggregation (C1, C3, C6): the saved counters equal the number of
      live outline documents of each level on a well-formed store; a
      caller who owns no matching Channel gets HTTP 500 "404: ..." and
      nothing is written; each iteration of the activity loop appends an
      activity whose content list is sorted by [order], lessons before
      quizzes on ties, each group in query order (C6).
    - Content handlers (C2, C4, C5): no ownership check and no rollback (a
      foreign caller's insert persists behind a 500); deleting a section
      outline leaves every lower level in place; [create_lesson]
      overwrites [lesson_count] with the request's length.
    - Settings (C8): [delete_channel] never deletes lesson or quiz
      documents of an aggregated outline (its type test looks for
      "lesson" in hex ids); a lemma shows a valid [create_channel]
      succeeds.
    - Pricing (C9): [update_tier] works for a caller [create_tier] refuses.
    - Free access (C10, C11): the double-precision percentage is the
      spec's floor or one below it for totals up to 100 (28 for 29/100);
      a first [update_free_access] always fails. A lemma shows the
      percentages count the items' ["count"] fields, giving 0% or 300%
      where the spec gives 100%.
    - Documented statuses (C12): every auth endpoint answers 200, 500 or
      a status its OpenAPI [responses] list, except the 409 of
      [/verify-email/], the 404 of [/sign-in/] and the 401 of
      [/google-token], each of which some request gets.
    - Duplication (C13): a section with content makes the copy raise
      [AttributeError] after partial inserts.
    - Player (C15, C16): the progress tree mirrors the aggregated outline;
      the subscription page never finds channel info, tiers or coupons.
    - Authentication (C17-C25, C27, C35): logout clears the stored tokens, so the
      refresh token is refused, but the access token that authenticated
      it still passes [get_user_id] (C17); [get_user_id] answers every
      failure with 401, its 404 is dead code (C18); an expired refresh
      token yields 500 through an [UnboundLocalError] (C19); an access
      token verifies exactly up to its [exp] second, then fails within
      jose's 10 s leeway and crashes beyond it (C20); sign-up followed by
      verification with the mailed code succeeds (C21), and the same code
      resets the password and logs in an account sign-in refuses as
      unverified (C22); a wrong password changes nothing, so guesses are
      unlimited (C23); Google login ignores the requested role (C24);
      [PATCH /me] without [id] lets a user set role, e-mail and verified
      flag (C25); with an [id] it upserts the profile under that string
      [_id]: a 500 when the copy hits the (email, role) index, otherwise
      a second account holding the caller's password hash and tokens
      (C27); the password reset stores a code valid one hour and
      mails it in the sign-up mail, which says 24 hours (C35). A lemma
      shows the header split equals the documented [str.split()].
    - Spaces (C28-C34, C36): a recursive [delete_directory] keeps the
      directories a forest on every path, GridFS errors and
      [RecursionError] half-way included, and when it answers [True] the
      directory is gone and is nobody's parent (C28); any sequence of
      space requests keeps the forest (C29); the breadcrumb [while] loop
      ends within [c + 1] iterations from directory id [c] (C30); every
      rendered directory reports zero files, directories and bytes,
      because [get_directory_stats] passes [count] an argument it does
      not take (C31); an upload into a directory that does not exist
      succeeds where a move there answers 404 (C32); the stored JPEG
      data URL decodes back to the thumbnailer's bytes (C33); the
      player's access check grants all of an owner's files or none
      (C34); storage statistics in doubles for 0..2048 whole MB, with no
      cap at the 1024 MB quota (C36). Lemmas show that a malformed
      directory id answers a triply wrapped 500 and that the file format
      is the lower-cased text after the last dot.
    - Channel endpoints (lemmas of [Channels.v]): the answers of the
      channel list and the channel page have their schemas, the
      [outline_content] blob included at every level.
    - Prompts (C39): the retry loop returns the first answer that is a
      JSON list of the requested length, after exactly [k + 1] calls and
      [k] seconds of sleep; other lemmas show at most [max_retries]
      calls in every run, [ValueError] when all answers are retries, the
      fenced answer cleaned back to its JSON text, the empty revision of
      an answer of quotes, and the 400 that becomes a 500.
    - Application (C14, C26, C37): ReDoc's tag groups group nothing,
      because [SEP] is the mis-decoded separator and no tag contains it
      (C14); after [load_translations] any sequence of [translate] calls
      keeps each language's dict equal to its file, so a restart loads
      the same messages (C26); two routes that match the same request are
      only the channel list and the channel page, and the list, declared
      first, gets it (C37).
    - Request bodies (C7): [/sign-up/] reaches [sign_up] exactly when
      the e-mail and password pass their validators, and otherwise
      answers 422 (not the 406 the route documents) with the store
      unchanged; lemmas show the same of [/update-password/] and that an
      empty refresh token never reaches [refresh_token].
    - Scripts (C38): the seed script raises [ValidationError] at
      [Channel(...)] on every store, having inserted only the demo user;
      a lemma shows the cleanup leaves every document of the
      channel infos, publish records, free-access settings, tiers,
      coupons, error log and gallery.
    - E-mail (lemmas of [Email.v]): [send_email] returns exactly when the
      server accepts its four commands for the message it builds, and
      raises only what the server raises; the welcome mail of a user
      without first name says "None"; [send_password_changed_email]
      always raises [TemplateNotFound].
    - Thumbnails (C40): composed with the file service, a non-image,
      non-video upload stores its category's icon and the thumbnail
      read returns exactly the icon's bytes; the service never raises,
      and an image PIL cannot read gets no thumbnail at all.
    - Responses (lemmas of [Responses.v]): every Response class
      renders a checked document with its schema; the lesson and
      question endpoints answer with their schemas when the request
      passes pydantic; [get_activity_percentage] writes a
      [Dict[str, {name, order, percentage, count}]]; the documented
      outline example does not have the outline schema, and the
      documented [question_lesson] is refused by its own annotation.
      [type_check] decides [has_type] ([has_type_dec]).
    - Validation (lemmas of [Validation.v]): [email_shape] is exactly
      the language of [EMAIL_REGEX]; six to twenty lower-case letters
      pass [PASSWORD_REGEX] (which the strength test rejects) and so does
      a valid password followed by a newline; tokens have the requested
      length over letters and digits; the lockout raises because its
      field is not in the model.

    Each theorem with hypotheses has a witness, a closed instance on a
    small store ([demo_db] of [Aggregate.v] is the spec's example channel).

    ** Bounds and modelling choices

    - Ids are [N] below [16^24]; [wf_db] requires the generator to stay
      there. Integers are [Z]: Python ints do not overflow.
    - Doubles: 53-bit precision, [emax = 1024]; [int] to [float] is exact
      below [2^53], so [py_truediv] is Python's [int / int] for counts
      below [2^53]. The percentage check of C10 is exhaustive for totals
      up to 100 (5150 cases, evaluated by [vm_compute]).
    - Loops are structural recursion over the lists they iterate: every
      definition terminates, and [py_mapM_total] shows a loop whose body
      cannot raise always returns. The retry loops of prompt_preparation.py
      ([while attempt < max_retries], [attempt] counting from 0) recurse
      on [Z.to_nat max_retries], which is their exact number of
      iterations.
    - Mongo queries are boolean functions on the typed document; a query
      on a field the class does not have matches nothing. Beanie drops
      keyword arguments that are not model fields (the [count=] of the
      duplication) and [$set] keys of no model field (the ["count"] of
      the percentage walk): the typed store does not keep them.
    - Times are an input of the handlers that stamp documents; request
      bodies record which fields the client set ([exclude_unset]). The
      auth handlers count time in microseconds, so that
      [int(t.timestamp())] (truncation) and jose's clock (whole seconds)
      are exact; doubles of the float timestamp order the same as the
      microsecond counts at present-day magnitudes.
    - Auth theorems are proved for every [Crypto] instance; their
      witnesses run the handlers with [RefCrypto] on a store where Alice
      signs up at t = 1000 and verifies at t = 2000.
    - Space fuel: [FileService.delete_directory] takes the Python
      frames left as fuel and raises [RecursionError] when they run out,
      so every theorem about it holds for every stack depth; the
      breadcrumb loop [directory_path_loop] counts iterations and answers
      [None] while still running, and C30 shows [c + 1] iterations
      suffice on a forest, because each step moves to a smaller id.
      Storage statistics are checked for every whole MB in [0, 2048] by
      one table evaluated with [vm_compute] and a generic soundness
      lemma. Store writes that insert need a free id ([ids_left]).
    - The statuses of C12 assume what the libraries document: smtplib
      and google-auth raise their own exceptions, never FastAPI's
      [HTTPException] (hypotheses of [AuthDocs.Statuses]).
    - Routes: the overlapping pairs of the 74 routes are computed once
      by [vm_compute] ([api_routes_overlapping]); the generic lemmas
      [matches_overlap] and [overlapping_pairs_spec] turn that table into
      C37 for every request. A GET route also answers HEAD; the model
      compares the method as written.
    - Strings are byte strings; non-ASCII text (the tags' ['▸'], the
      mis-decoded [SEP]) is written as its UTF-8 bytes, on which
      substring search and split agree with Python's on characters;
      [s[:n]] takes [n] UTF-8 characters.
    - String [_id]s are keys from [16^24] up; [wf_db] (ids below the
      generator, at most [16^24]) excludes them, so the claims that
      assume it are about stores no [PATCH /me] with an [id] has
      written.
    - Exceptions keep pydantic's, bson's and Python's type and the first
      line of their message; no theorem depends on the rest of the text.

    ** Not modelled

    In authentication: pydantic's own parsing of request bodies (the
    [EmailStr] normalisation that runs before the [email] validator,
    field types). Of the response
    models, [TierResponse] (its [price] is a float, which the [json]
    model does not have) and the classes no endpoint returns
    ([ChannelSettings*], [Prompt*], [A_*], [Channel*Response]). In the
    spaces: GridFS itself and base64 are oracles of [SpaceEnv] and [Base64]; the Document classes
    [File] and [Directory] of models/space.py, which file_service.py and
    space.py replace by those of models/gallery.py (its request and
    response models are modelled). The imaging libraries behind the
    thumbnail service, OpenAI's chat model, [json.loads] and the missing
    template.json are oracles ([Imaging], [ChatEnv]). Case mapping
    ([str.lower], [str.upper], [re.IGNORECASE]) and the space test know
    the ASCII characters only: Python also maps the case of non-ASCII
    letters, so a non-ASCII file type or extension may differ. In e-mail: smtplib's protocol, [message.as_string()],
    the debug prints and the [QUIT] of the [with] block. In the
    application: FastAPI's [get_openapi] (an input of [patch_openapi]),
    the lifespan (database connection, [load_translations],
    [inject_messages] over message enums partly missing from the
    repository), CORS, YAML parsing and dumping (the identity on
    dicts); database.py, changelog.py and the environment variables of
    settings.py are wiring (the settings the code reads are
    definitions of the files that use them); the scripts' prints and
    prompt. PROJECT.json lists each with its reason. *)

From stdpp Require Export base list strings pretty.
From Stdlib Require Export ZArith Lia.

Declare Scope py_scope.
Delimit Scope py_scope with py.
Open Scope Z_scope.

(** ** Python exceptions

    Handlers of the backend raise [fastapi.HTTPException(status_code,
    detail)] and let other exceptions (AttributeError, ValueError,
    pydantic ValidationError, ...) escape. *)
Inductive exn :=
  | HTTPException (status_code : Z) (detail : string)
  | PyException (kind : string) (msg : string).

(** [ValueError(m)] *)
Definition value_error (m : string) : exn := PyException "ValueError" m.

(** [str(e)]: starlette's [HTTPException.__str__] is
    [f"{self.status_code}: {self.detail}"]; other exceptions print their
    message. *)
Definition exn_str (e : exn) : string :=
  match e with
  | HTTPException c d => pretty c +:+ ": " +:+ d
  | PyException _ m => m
  end.

(** ** The state-and-exception monad of a request handler

    A handler runs against the document store [S] and either returns a
    value or raises. Writes done before a raise stay in the store: the
    backend never wraps a request in a transaction. *)
Definition PyM (S A : Type) : Type := S -> (exn + A) * S.

#[export] Instance pym_ret {S} : MRet (PyM S) := fun A x s => (inr x, s).
#[export] Instance pym_bind {S} : MBind (PyM S) := fun A B f m s =>
  match m s with
  | (inl e, s') => (inl e, s')
  | (inr x, s') => f x s'
  end.

Definition raise {S A} (e : exn) : PyM S A := fun s => (inl e, s).
Definition gets {S A} (f : S -> A) : PyM S A := fun s => (inr (f s), s).
Definition modify {S} (f : S -> S) : PyM S unit := fun s => (inr tt, f s).

(** [if not x: raise e] *)
Definition py_assert {S} (b : bool) (e : exn) : PyM S unit :=
  if b then mret tt else raise e.

(** The idiom that closes nearly every handler:
    [except Exception as e: raise HTTPException(status_code=500, detail=str(e))] *)
Definition except_500 {S A} (m : PyM S A) : PyM S A := fun s =>
  match m s with
  | (inl e, s') => (inl (HTTPException 500 (exn_str e)), s')
  | r => r
  end.

(** [try: m] [except Exception as e: h(e)]: the handler runs on the
    store the failed block left. *)
Definition py_try {S A} (m : PyM S A) (h : exn -> PyM S A) : PyM S A := fun s =>
  match m s with
  | (inl e, s') => h e s'
  | r => r
  end.

(** A [try] whose handlers all raise succeeds exactly when its body does. *)
Lemma py_try_reraise_inr {S A} (m : PyM S A) (f : exn -> exn) s x :
  fst (py_try m (fun e => raise (f e)) s) = inr x <-> fst (m s) = inr x.
Proof. unfold py_try, raise. destruct (m s) as [[e|y] s']; simpl; split; congruence. Qed.

Lemma py_try_reraise_fst {S A} (m : PyM S A) (f : exn -> exn) s :
  fst (py_try m (fun e => raise (f e)) s) = match fst (m s) with inl e => inl (f e) | inr x => inr x end.
Proof. unfold py_try, raise. by destruct (m s) as [[e|y] s']. Qed.

Lemma py_try_reraise_snd {S A} (m : PyM S A) (f : exn -> exn) s :
  snd (py_try m (fun e => raise (f e)) s) = snd (m s).
Proof. unfold py_try, raise. by destruct (m s) as [[e|y] s']. Qed.

Lemma py_try_reraise_run {S A} (m : PyM S A) (f : exn -> exn) s x s' :
  m s = (inr x, s') -> py_try m (fun e => raise (f e)) s = (inr x, s').
Proof. unfold py_try. by intros ->. Qed.

(** Lifting a fallible pure computation into a handler. *)
Definition lift_exn {S A} (r : exn + A) : PyM S A := fun s => (r, s).

(** [raise HTTPException(status_code=404, detail=d)] *)
Definition not_found {S A} (d : string) : PyM S A := raise (HTTPException 404 d).

(** Running a handler: its outcome and the store it leaves. *)
Definition outcome {S A} (m : PyM S A) (s : S) : exn + A := fst (m s).
Definition final {S A} (m : PyM S A) (s : S) : S := snd (m s).

(** Python's sequential [for] loop over a fallible body: the first
    exception stops it. *)
Fixpoint py_mapM {S A B} (f : A -> PyM S B) (l : list A) : PyM S (list B) :=
  match l with
  | [] => mret []
  | x :: l' => y ← f x; ys ← py_mapM f l'; mret (y :: ys)
  end.
Arguments py_mapM {S A B} f l _ : simpl never.

(** A [for] loop that updates local variables [acc] on each pass. *)
Fixpoint py_foldM {S A B} (f : B -> A -> PyM S B) (acc : B) (l : list A) : PyM S B :=
  match l with
  | [] => mret acc
  | x :: l' => acc' ← f acc x; py_foldM f acc' l'
  end.

(** [if <c>: t else: e] where evaluating the condition may raise. *)
Definition py_if {S A} (c : PyM S bool) (t e : PyM S A) : PyM S A :=
  c ≫= fun b : bool => if b then t else e.

(** A property of the store that a handler keeps, on every path,
    including the ones that raise. *)
Definition preserves {S A} (P : S -> Prop) (m : PyM S A) : Prop :=
  forall s, P s -> P (snd (m s)).

(** A property of the value a computation returns, whenever it returns
    one, whatever the store. *)
Definition returns {S A} (Q : A -> Prop) (m : PyM S A) : Prop :=
  forall s x s', m s = (inr x, s') -> Q x.

(** A property of the exception a computation raises, whenever it
    raises one. *)
Definition raises {S A} (E : exn -> Prop) (m : PyM S A) : Prop :=
  forall s e s', m s = (inl e, s') -> E e.

(** ** Generic list helpers shared by the components *)

(** [sum(f(x) for x in l)] on Python ints. *)
Definition sumZ {A} (f : A -> Z) (l : list A) : Z := fold_right (fun x acc => f x + acc) 0 l.

(** [len(l)] as a Python int. *)
Definition lenZ {A} (l : list A) : Z := Z.of_nat (length l).

(** ** Lemmas on the monad *)
Section MonadLaws.
Context {S : Type}.

Lemma bind_run {A B} (m : PyM S A) (f : A -> PyM S B) s :
  (m ≫= f) s = match m s with
               | (inl e, s') => (inl e, s')
               | (inr x, s') => f x s'
               end.
Proof. reflexivity. Qed.

Lemma ret_run {A} (x : A) s : (mret x : PyM S A) s = (inr x, s).
Proof. reflexivity. Qed.
Lemma final_run {A} (m : PyM S A) s r s' : m s = (r, s') -> final m s = s'.
Proof. intros E. unfold final. by rewrite E. Qed.


Lemma raise_run {A} e s : (raise e : PyM S A) s = (inl e, s).
Proof. reflexivity. Qed.

Lemma except_500_ok {A} (m : PyM S A) s x s' :
  m s = (inr x, s') -> except_500 m s = (inr x, s').
Proof. intros H. unfold except_500. by rewrite H. Qed.

Lemma except_500_err {A} (m : PyM S A) s e s' :
  m s = (inl e, s') -> except_500 m s = (inl (HTTPException 500 (exn_str e)), s').
Proof. intros H. unfold except_500. by rewrite H. Qed.

Lemma except_500_inr {A} (m : PyM S A) s x s' :
  except_500 m s = (inr x, s') -> m s = (inr x, s').
Proof. unfold except_500. destruct (m s) as [[e|y] s'']; simpl; congruence. Qed.

Lemma except_500_inl {A} (m : PyM S A) s e s' :
  except_500 m s = (inl e, s') -> exists e', m s = (inl e', s') /\ e = HTTPException 500 (exn_str e').
Proof. unfold except_500. destruct (m s) as [[e0|y] s'']; simpl; intros; simplify_eq; eauto. Qed.

(** A handler wrapped in [except_500] never answers with any status but
    500 when it fails. *)
Lemma except_500_status {A} (m : PyM S A) s c d :
  outcome (except_500 m) s = inl (HTTPException c d) -> c = 500.
Proof.
  unfold outcome, except_500. destruct (m s) as [[e|x] s']; simpl; congruence.
Qed.
Lemma py_mapM_nil {A B} (f : A -> PyM S B) : py_mapM f [] = mret [].
Proof. reflexivity. Qed.

Lemma py_mapM_cons {A B} (f : A -> PyM S B) x l :
  py_mapM f (x :: l) = (y ← f x; ys ← py_mapM f l; mret (y :: ys)).
Proof. reflexivity. Qed.

Lemma py_foldM_cons_run {A B} (f : B -> A -> PyM S B) acc x l s :
  py_foldM f acc (x :: l) s = match f acc x s with (inr a, s1) => py_foldM f a l s1 | (inl e, s1) => (inl e, s1) end.
Proof. simpl. by rewrite bind_run. Qed.

Lemma py_mapM_cons_run {A B} (f : A -> PyM S B) x l s :
  py_mapM f (x :: l) s =
    match f x s with
    | (inr y, s1) => match py_mapM f l s1 with (inr ys, s2) => (inr (y :: ys), s2) | (inl e, s2) => (inl e, s2) end
    | (inl e, s1) => (inl e, s1)
    end.
Proof.
  rewrite py_mapM_cons, bind_run. destruct (f x s) as [[e|y] s1]; [done|].
  simpl. rewrite bind_run. by destruct (py_mapM f l s1) as [[e|ys] s2].
Qed.

End MonadLaws.

(** ** Invariants kept by handlers *)
Section Preserves.
Context {S : Type} (P : S -> Prop).

Lemma preserves_ret {A} (x : A) : preserves P (mret x : PyM S A).
Proof. by intros s. Qed.

Lemma preserves_raise {A} e : preserves P (raise e : PyM S A).
Proof. by intros s. Qed.

Lemma preserves_gets {A} (f : S -> A) : preserves P (gets f).
Proof. by intros s. Qed.

Lemma preserves_modify (f : S -> S) : (forall s, P s -> P (f s)) -> preserves P (modify f).
Proof. intros Hf s. apply Hf. Qed.

Lemma preserves_bind {A B} (m : PyM S A) (f : A -> PyM S B) :
  preserves P m -> (forall x, preserves P (f x)) -> preserves P (m ≫= f).
Proof.
  intros Hm Hf s Hs. rewrite bind_run. specialize (Hm s Hs).
  destruct (m s) as [[e|x] s']; simpl in *; auto. by apply Hf.
Qed.

Lemma preserves_except_500 {A} (m : PyM S A) : preserves P m -> preserves P (except_500 m).
Proof. intros Hm s Hs. unfold except_500. specialize (Hm s Hs). by destruct (m s) as [[] ?]. Qed.

Lemma preserves_py_assert b e : preserves P (py_assert b e).
Proof. unfold py_assert. destruct b; [apply preserves_ret|apply preserves_raise]. Qed.

Lemma preserves_py_try {A} (m : PyM S A) (h : exn -> PyM S A) :
  preserves P m -> (forall e, preserves P (h e)) -> preserves P (py_try m h).
Proof. intros Hm Hh s Hs. unfold py_try. specialize (Hm s Hs). destruct (m s) as [[e|] ?]; auto. by apply Hh. Qed.

Lemma preserves_py_mapM {A B} (f : A -> PyM S B) l :
  (forall x, preserves P (f x)) -> preserves P (py_mapM f l).
Proof.
  intros Hf. induction l as [|x l IH]; rewrite ?py_mapM_nil, ?py_mapM_cons.
  - apply preserves_ret.
  - apply preserves_bind; [done|]. intros y. apply preserves_bind; [done|].
    intros ys. apply preserves_ret.
Qed.
Lemma preserves_py_mapM_in {A B} (f : A -> PyM S B) l :
  (forall x, x ∈ l -> preserves P (f x)) -> preserves P (py_mapM f l).
Proof.
  induction l as [|x l IH]; intros Hf; rewrite ?py_mapM_nil, ?py_mapM_cons.
  - apply preserves_ret.
  - apply preserves_bind; [apply Hf; left|]. intros y. apply preserves_bind.
    + apply IH. intros z Hz. apply Hf. by right.
    + intros ys. apply preserves_ret.
Qed.
Lemma preserves_py_foldM {A B} (f : B -> A -> PyM S B) acc l :
  (forall acc x, preserves P (f acc x)) -> preserves P (py_foldM f acc l).
Proof.
  intros Hf. revert acc. induction l as [|x l IH]; intros acc; simpl; [apply preserves_ret|].
  by apply preserves_bind.
Qed.
End Preserves.

(** ** Postconditions on results *)
Section Returns.
Context {S : Type}.

Lemma returns_ret {A} (Q : A -> Prop) x : Q x -> returns Q (mret x : PyM S A).
Proof. by intros Hx s y s' [= <- _]. Qed.

Lemma returns_raise {A} (Q : A -> Prop) e : returns Q (raise e : PyM S A).
Proof. by intros s y s' [=]. Qed.

Lemma returns_lift_exn {A} (Q : A -> Prop) (r : exn + A) :
  (forall x, r = inr x -> Q x) -> returns (S:=S) Q (lift_exn r).
Proof. intros Hr s y s' [= Ey _]. by apply Hr. Qed.

Lemma returns_bind {A B} (Q : A -> Prop) (R : B -> Prop) (m : PyM S A) (f : A -> PyM S B) :
  returns Q m -> (forall x, Q x -> returns R (f x)) -> returns R (m ≫= f).
Proof.
  intros Hm Hf s y s'. rewrite bind_run. destruct (m s) as [[e|x] s1] eqn:E; [discriminate|].
  by apply Hf, (Hm s x s1).
Qed.

Lemma returns_any {A} (m : PyM S A) : returns (fun _ => True) m.
Proof. done. Qed.

Lemma returns_impl {A} (Q R : A -> Prop) (m : PyM S A) :
  (forall x, Q x -> R x) -> returns Q m -> returns R m.
Proof. intros HQR Hm s x s' E. by eapply HQR, Hm. Qed.

Lemma returns_except_500 {A} (Q : A -> Prop) (m : PyM S A) : returns Q m -> returns Q (except_500 m).
Proof. intros Hm s y s'. unfold except_500. destruct (m s) as [[e|x] s1] eqn:E; [discriminate|]. intros [= -> ->]. eauto. Qed.

Lemma returns_py_foldM {A B} (I : B -> Prop) (f : B -> A -> PyM S B) acc l :
  I acc -> (forall acc x, I acc -> returns I (f acc x)) -> returns I (py_foldM f acc l).
Proof.
  intros Hacc Hf. revert acc Hacc. induction l as [|x l IH]; intros acc Hacc; simpl.
  - by apply returns_ret.
  - eapply returns_bind; [by apply Hf|]. intros acc' Hacc'. by apply IH.
Qed.

Lemma returns_py_mapM {A B} (Q : B -> Prop) (f : A -> PyM S B) l :
  (forall x, x ∈ l -> returns Q (f x)) -> returns (Forall Q) (py_mapM f l).
Proof.
  intros Hf. induction l as [|x l IH]; rewrite ?py_mapM_nil, ?py_mapM_cons.
  - apply returns_ret. constructor.
  - eapply returns_bind; [apply Hf, list_elem_of_here|]. intros y Hy.
    eapply returns_bind; [apply IH; intros z Hz; apply Hf; by right|]. intros ys Hys.
    apply returns_ret. by constructor.
Qed.
End Returns.

(** ** Postconditions on exceptions *)
Section Raises.
Context {S : Type} (E : exn -> Prop).

Lemma raises_ret {A} (x : A) : raises (S:=S) E (mret x).
Proof. by intros s e s' [=]. Qed.

Lemma raises_raise {A} e : E e -> raises (S:=S) (A:=A) E (raise e).
Proof. by intros He s e' s' [= <- _]. Qed.

Lemma raises_gets {A} (f : S -> A) : raises E (gets f).
Proof. by intros s e s' [=]. Qed.

Lemma raises_modify (f : S -> S) : raises E (modify f).
Proof. by intros s e s' [=]. Qed.

Lemma raises_lift_exn {A} (r : exn + A) : (forall e, r = inl e -> E e) -> raises (S:=S) E (lift_exn r).
Proof. intros Hr s e s' [= Ee _]. by apply Hr. Qed.

Lemma raises_bind {A B} (m : PyM S A) (f : A -> PyM S B) :
  raises E m -> (forall x, raises E (f x)) -> raises E (m ≫= f).
Proof.
  intros Hm Hf s e s'. rewrite bind_run. destruct (m s) as [[e'|x] s1] eqn:Em.
  - intros [= <- _]. by apply (Hm s e' s1).
  - apply Hf.
Qed.
End Raises.

Create HintDb raises discriminated.
#[export] Hint Resolve raises_ret raises_gets raises_modify : raises.

(** Prove a postcondition on the exceptions of a handler: walk its
    binds, split its conditionals, and close the leaves with the
    [raises] hints. *)
Ltac raises_tac :=
  repeat match goal with
  | |- raises _ (mbind _ _) => apply raises_bind; [|intro]
  | |- raises _ (match ?x with _ => _ end) => destruct x
  | |- raises _ (let '(_, _) := ?x in _) => destruct x
  | |- raises _ (raise _) => apply raises_raise; try solve [eauto with raises]
  | |- raises _ _ => progress (eauto with raises)
  end.

(** ** A loop that leaves a trace

    A relation [T] between the state before and after each pass, kept
    under an invariant [I]; a fact [G x] that a successful pass on [x]
    establishes and that later passes do not undo. After a loop that
    completes, [G x] holds of every [x] of the list. *)
Section LoopTrace.
Context {S A B : Type} (I : S -> Prop) (T : S -> S -> Prop) `{!Reflexive T} `{!Transitive T}
        (f : A -> PyM S B) (G : A -> S -> Prop).

Lemma py_mapM_trace l s :
  (forall x s, x ∈ l -> I s ->
     I (snd (f x s)) /\ T s (snd (f x s)) /\ (forall y, fst (f x s) = inr y -> G x (snd (f x s)))) ->
  (forall x s s', x ∈ l -> G x s -> T s s' -> G x s') ->
  I s ->
  I (snd (py_mapM f l s)) /\ T s (snd (py_mapM f l s)) /\
  (forall ys, fst (py_mapM f l s) = inr ys -> forall x, x ∈ l -> G x (snd (py_mapM f l s))).
Proof.
  revert s. induction l as [|x l IH]; intros s Hf Hg Hs; rewrite ?py_mapM_nil, ?py_mapM_cons.
  - split_and!; [done|done|]. intros _ _ z Hz. by apply not_elem_of_nil in Hz.
  - rewrite bind_run. destruct (Hf x s (list_elem_of_here _ _) Hs) as (Hs1 & Ht1 & Hg1).
    destruct (f x s) as [[e|y] s1]; simpl in *; [split_and!; [done|done|discriminate]|].
    rewrite bind_run.
    destruct (IH s1) as (Hs2 & Ht2 & Hg2); [intros; apply Hf; [by right|done]|
                                            intros; eapply Hg; [by right|..]; done|done|].
    destruct (py_mapM f l s1) as [[e|ys] s2]; simpl in *; [split_and!; [done|by etrans|discriminate]|].
    split_and!; [done|by etrans|]. intros _ _ z [->|Hz]%elem_of_cons.
    + eapply Hg; [apply list_elem_of_here|exact (Hg1 y eq_refl)|done].
    + by apply (Hg2 ys eq_refl).
Qed.
End LoopTrace.

(** A loop whose body only reads the state computes a map. *)
Lemma py_mapM_pure {S A B} (f : A -> PyM S B) (g : A -> B) l s :
  (forall x, f x s = (inr (g x), s)) -> py_mapM f l s = (inr (map g l), s).
Proof.
  intros Hf. induction l as [|x l IH]; rewrite ?py_mapM_nil, ?py_mapM_cons; [done|].
  rewrite bind_run, Hf, bind_run, IH. done.
Qed.

(** A loop whose body never raises never raises. *)
Lemma py_mapM_total {S A B} (f : A -> PyM S B) l s :
  (forall x s, exists y s', f x s = (inr y, s')) -> exists ys s', py_mapM f l s = (inr ys, s').
Proof.
  intros Hf. revert s. induction l as [|x l IH]; intros s;
    rewrite ?py_mapM_nil, ?py_mapM_cons; [by eexists _, _|].
  destruct (Hf x s) as (y & s1 & E). rewrite bind_run, E.
  destruct (IH s1) as (ys & s2 & E2). rewrite bind_run, E2. by eexists _, _.
Qed.

(** ** Lemmas on the list helpers *)

Lemma sumZ_app {A} (f : A -> Z) l1 l2 : sumZ f (l1 ++ l2) = sumZ f l1 + sumZ f l2.
Proof. induction l1; simpl; lia. Qed.

Lemma sumZ_nonneg {A} (f : A -> Z) l : (forall x, 0 <= f x) -> 0 <= sumZ f l.
Proof. intros H. induction l; simpl; [lia|]. specialize (H a). lia. Qed.

Lemma sumZ_0 {A} (l : list A) : sumZ (fun _ => 0) l = 0.
Proof. induction l; simpl; lia. Qed.

Lemma sumZ_const1 {A} (l : list A) : sumZ (fun _ => 1) l = lenZ l.
Proof. unfold lenZ. induction l; simpl; lia. Qed.

Lemma lenZ_app {A} (l1 l2 : list A) : lenZ (l1 ++ l2) = lenZ l1 + lenZ l2.
Proof. unfold lenZ. rewrite length_app. lia. Qed.

Lemma lenZ_map {A B} (f : A -> B) l : lenZ (map f l) = lenZ l.
Proof. unfold lenZ. by rewrite length_map. Qed.

Lemma lenZ_nonneg {A} (l : list A) : 0 <= lenZ l.
Proof. unfold lenZ. lia. Qed.

(** ** Automation *)
Create Rewrite HintDb pyrun.
Create HintDb pyauto discriminated.
#[export] Hint Rewrite @bind_run @ret_run @raise_run : pyrun.
#[export] Hint Rewrite @sumZ_app @sumZ_0 @lenZ_app @lenZ_map : pyrun.
#[export] Hint Resolve lenZ_nonneg sumZ_nonneg : pyauto.

Create HintDb preserve discriminated.
#[export] Hint Resolve preserves_ret preserves_raise preserves_gets preserves_except_500 preserves_py_assert
  preserves_py_mapM preserves_py_foldM : preserve.

(** Prove that a handler keeps an invariant: walk its binds, split its
    matches, and close the leaves with the [preserve] hints. *)
Ltac preserve :=
  repeat match goal with
  | |- preserves _ (mbind _ _) => apply preserves_bind; [|intro]
  | |- preserves _ (match ?x with _ => _ end) => destruct x
  | |- preserves _ (let '(_, _) := ?x in _) => destruct x
  | |- preserves _ (except_500 _) => apply preserves_except_500
  | |- preserves _ (py_try _ _) => apply preserves_py_try; [|intro]
  | |- preserves _ (py_mapM _ _) => apply preserves_py_mapM; intro
  | |- preserves _ _ => progress (eauto with preserve)
  end.

(** Unfold the handler monad down to its state-passing code. *)
Ltac pyunfold := unfold mbind, pym_bind, mret, pym_ret, gets, modify, raise, py_try, lift_exn in *; simpl in *.

(** Unfold one step of a handler run: the monad's instances and the
    definitions given, then simplify. *)
Ltac pyrun := unfold outcome, final, gets, modify, py_assert, not_found in *;
              autorewrite with pyrun in *; simpl in *;
              repeat progress (rewrite ?bind_run, ?ret_run, ?raise_run; simpl).

(** ** Filtering by keys

    A query [find({"parent": k})] repeated for each key [k] of a list of
    distinct keys finds, up to order, exactly the documents whose key is
    one of them. *)
Section KeyFilter.
Context {A : Type} (key : A -> string).

Lemma filter_app_disjoint (p q : A -> bool) l :
  (forall x, p x = true -> q x = false) ->
  List.filter p l ++ List.filter q l ≡ₚ List.filter (fun x => p x || q x) l.
Proof.
  intros Hd. induction l as [|x l IH]; simpl; [done|].
  destruct (p x) eqn:Hp; simpl.
  - rewrite (Hd x Hp). simpl. by rewrite IH.
  - destruct (q x); simpl; [|done]. by rewrite <- Permutation_middle, IH.
Qed.

Lemma filter_in_nil (l : list A) : List.filter (fun x => bool_decide (key x ∈ @nil string)) l = [].
Proof.
  induction l as [|x l IH]; [done|]. cbn [List.filter].
  rewrite (bool_decide_eq_false_2 (key x ∈ [])); [done | apply not_elem_of_nil].
Qed.

Lemma flat_map_filter_keys (ks : list string) (l : list A) :
  NoDup ks ->
  flat_map (fun k => List.filter (fun x => String.eqb (key x) k) l) ks ≡ₚ
  List.filter (fun x => bool_decide (key x ∈ ks)) l.
Proof.
  induction 1 as [|k ks Hk Hnd IH]; simpl; [by rewrite filter_in_nil|].
  rewrite IH, filter_app_disjoint.
  - apply Permutation_refl'. apply filter_ext. intros x.
    destruct (String.eqb_spec (key x) k) as [->|Hne]; simpl.
    + symmetry. apply bool_decide_eq_true. apply list_elem_of_here.
    + apply bool_decide_ext. rewrite elem_of_cons. naive_solver.
  - intros x Hx. apply String.eqb_eq in Hx as ->. by apply bool_decide_eq_false_2.
Qed.
End KeyFilter.

Lemma elem_of_flat_map {A B} (f : A -> list B) l y :
  y ∈ flat_map f l <-> exists x, x ∈ l /\ y ∈ f x.
Proof.
  rewrite list_elem_of_In, in_flat_map. by setoid_rewrite list_elem_of_In.
Qed.

Lemma map_flat_map {A B C} (g : B -> C) (f : A -> list B) l :
  map g (flat_map f l) = flat_map (fun x => map g (f x)) l.
Proof. induction l as [|x l IH]; simpl; [done|]. by rewrite map_app, IH. Qed.

Lemma flat_map_map_perm {A B C} (f : A -> B) (g : B -> list C) l :
  flat_map g (map f l) = flat_map (fun x => g (f x)) l.
Proof. induction l; simpl; [done|]. by rewrite IHl. Qed.

Lemma flat_map_perm_ext {A B} (f g : A -> list B) l :
  (forall x, f x ≡ₚ g x) -> flat_map f l ≡ₚ flat_map g l.
Proof. intros H. induction l; simpl; [done|]. by rewrite H, IHl. Qed.

Lemma flat_map_flat_map {A B C} (f : A -> list B) (g : B -> list C) l :
  flat_map g (flat_map f l) = flat_map (fun x => flat_map g (f x)) l.
Proof. induction l; simpl; [done|]. by rewrite flat_map_app, IHl. Qed.

Lemma lenZ_perm {A} (l1 l2 : list A) : l1 ≡ₚ l2 -> lenZ l1 = lenZ l2.
Proof. unfold lenZ. by intros ->. Qed.

Lemma filter_map_comm {A B} (p : B -> bool) (f : A -> B) l :
  List.filter p (map f l) = map f (List.filter (fun x => p (f x)) l).
Proof. induction l as [|x l IH]; simpl; [done|]. destruct (p (f x)); simpl; by rewrite IH. Qed.
