(* ===== verification/ObjectId.v ===== *)
(** * Document identifiers

    Every document of the store has a MongoDB ObjectId. The backend turns
    them into strings with [str(doc.id)] (24 lowercase hexadecimal digits)
    whenever it stores a parent reference or writes an id into the
    denormalised [outline_content], and parses them back with
    [PydanticObjectId(s)] before a query. This file models both directions,
    proves their round trip, models Python's substring test
    [needle in hay], which [delete_channel] applies to these strings, and
    keys the documents saved under a string [_id]. *)

From S2P Require Import Prelude.

Local Open Scope N_scope.

(** An ObjectId is a 96-bit number. *)
Definition oid := N.

(** Width of [str(ObjectId)]: 12 bytes, two hex digits each. *)
Definition oid_width : nat := 24.

Definition hex_digit (d : N) : Ascii.ascii :=
  Ascii.ascii_of_N (if d <? 10 then 48 + d else 87 + d).

(** The [k] low hexadecimal digits of [n], most significant first. *)
Fixpoint hex_digits (k : nat) (n : N) : list Ascii.ascii :=
  match k with
  | O => []
  | S k' => hex_digits k' (n / 16) ++ [hex_digit (n mod 16)]
  end.

(** [str(oid)] *)
Definition oid_str (i : oid) : string := String.string_of_list_ascii (hex_digits oid_width i).

(** Value of one hexadecimal digit; bson accepts both cases. *)
Definition hex_val (c : Ascii.ascii) : option N :=
  let n := Ascii.N_of_ascii c in
  if (48 <=? n) && (n <=? 57) then Some (n - 48)
  else if (97 <=? n) && (n <=? 102) then Some (n - 87)
  else if (65 <=? n) && (n <=? 70) then Some (n - 55)
  else None.

Definition parse_hex (l : list Ascii.ascii) : option N :=
  fold_left (fun acc c => match acc, hex_val c with
                          | Some a, Some v => Some (16 * a + v)
                          | _, _ => None
                          end) l (Some 0).

(** [PydanticObjectId(s)]: [None] where bson raises [InvalidId]. *)
Definition parse_oid (s : string) : option oid :=
  let l := String.list_ascii_of_string s in
  if Nat.eqb (length l) oid_width then parse_hex l else None.

(** ** String ids

    An [_id] need not be an ObjectId: a document saved after
    [setattr(doc, "id", s)] with a [str] [s] is stored under the BSON
    string [s], which equals no ObjectId. The store keys both kinds by a
    number: the ObjectIds are the numbers below [16^24], and the string
    [s] is [str_key s], at or above [16^24] (its bytes in bijective base
    257). *)
Fixpoint str_code (l : list Ascii.ascii) : N :=
  match l with [] => 0 | c :: l' => 1 + Ascii.N_of_ascii c + 257 * str_code l' end.

Definition str_key (s : string) : oid := 16 ^ 24 + str_code (String.list_ascii_of_string s).

Fixpoint str_decode (fuel : nat) (n : N) : list Ascii.ascii :=
  match fuel with
  | O => []
  | S f => if n =? 0 then [] else Ascii.ascii_of_N ((n - 1) mod 257) :: str_decode f ((n - 1) / 257)
  end.

(** [str(doc.id)] for either kind of id. *)
Definition id_str (k : oid) : string :=
  if k <? 16 ^ 24 then oid_str k
  else let n := k - 16 ^ 24 in String.string_of_list_ascii (str_decode (N.to_nat (N.log2 n) + 1) n).

(** Python's [needle in hay] on strings: substring search. *)
Fixpoint py_contains (needle hay : list Ascii.ascii) : bool :=
  match hay with
  | [] => match needle with [] => true | _ => false end
  | c :: hay' =>
      if bool_decide (needle = take (length needle) hay) then true
      else py_contains needle hay'
  end.

Definition str_contains (needle hay : string) : bool :=
  py_contains (String.list_ascii_of_string needle) (String.list_ascii_of_string hay).

(** A character that [str(ObjectId)] can produce. *)
Definition is_hex_char (c : Ascii.ascii) : bool := bool_decide (is_Some (hex_val c)).

(** ** Lemmas *)

Lemma hex_val_digit d : d < 16 -> hex_val (hex_digit d) = Some d.
Proof.
  intros Hd.
  assert (d = 0 \/ d = 1 \/ d = 2 \/ d = 3 \/ d = 4 \/ d = 5 \/ d = 6 \/ d = 7 \/
          d = 8 \/ d = 9 \/ d = 10 \/ d = 11 \/ d = 12 \/ d = 13 \/ d = 14 \/ d = 15)
    as Hcases by lia.
  repeat destruct Hcases as [-> | Hcases]; try reflexivity; subst; reflexivity.
Qed.

Lemma length_hex_digits k n : length (hex_digits k n) = k.
Proof.
  revert n. induction k as [|k IH]; intros n; simpl; [done|].
  rewrite length_app, IH. simpl. lia.
Qed.

Lemma parse_hex_app l c a v :
  parse_hex l = Some a -> hex_val c = Some v -> parse_hex (l ++ [c]) = Some (16 * a + v).
Proof.
  unfold parse_hex. intros Hl Hc. rewrite fold_left_app, Hl. simpl. by rewrite Hc.
Qed.

Lemma parse_hex_digits k n : parse_hex (hex_digits k n) = Some (n mod 16 ^ N.of_nat k).
Proof.
  revert n. induction k as [|k IH]; intros n.
  - simpl. by rewrite N.mod_1_r.
  - simpl hex_digits. erewrite parse_hex_app; [| apply IH | apply hex_val_digit, N.mod_lt; lia].
    f_equal. rewrite Nat2N.inj_succ, N.pow_succ_r', N.mul_comm, N.Div0.mod_mul_r. lia.
Qed.

Lemma list_ascii_of_oid_str i : String.list_ascii_of_string (oid_str i) = hex_digits oid_width i.
Proof. apply String.list_ascii_of_string_of_list_ascii. Qed.

(** Every character of [str(oid)] is a hexadecimal digit. *)
Lemma hex_digits_hex k n : Forall (fun c => is_hex_char c = true) (hex_digits k n).
Proof.
  revert n. induction k as [|k IH]; intros n; simpl; [constructor|].
  apply Forall_app; split; [apply IH|]. constructor; [|constructor].
  unfold is_hex_char. apply bool_decide_eq_true.
  rewrite hex_val_digit; [eauto | apply N.mod_lt; lia].
Qed.

(** A needle with a non-hex character never occurs in a string of hex
    characters. *)
Lemma py_contains_hex_false needle hay :
  Exists (fun c => is_hex_char c = false) needle ->
  Forall (fun c => is_hex_char c = true) hay ->
  py_contains needle hay = false.
Proof.
  intros Hn. induction hay as [|c hay IH]; intros Hh; simpl.
  - destruct needle; [inversion Hn | done].
  - inversion Hh as [|? ? Hc Hrest]; subst.
    case_bool_decide as Heq; [|by apply IH].
    exfalso. apply Exists_exists in Hn as (x & Hx & Hxf).
    assert (Hin : x ∈ c :: hay).
    { eapply elem_of_prefix; [| apply (prefix_take _ (length needle))]. by rewrite <- Heq. }
    rewrite Forall_forall in Hh. specialize (Hh x Hin). congruence.
Qed.

(** ** Properties *)

Lemma oid_str_roundtrip (i : oid) : i < 16 ^ 24 -> parse_oid (oid_str i) = Some i.
Proof.
  intros Hi. unfold parse_oid. rewrite list_ascii_of_oid_str, length_hex_digits.
  simpl Nat.eqb. cbv iota. rewrite parse_hex_digits. f_equal. by apply N.mod_small.
Qed.

(** Neither ["lesson"] nor ["quiz"] is a substring of any [str(oid)]:
    both contain letters outside [0-9a-f]. *)
Theorem oid_str_no_type_word (i : oid) :
  str_contains "lesson" (oid_str i) = false /\ str_contains "quiz" (oid_str i) = false.
Proof.
  unfold str_contains. rewrite list_ascii_of_oid_str.
  split; apply py_contains_hex_false; try apply hex_digits_hex;
    simpl; repeat constructor.
Qed.

(** [str] is injective on ObjectIds. *)
Lemma oid_str_inj (i j : oid) : i < 16 ^ 24 -> j < 16 ^ 24 -> oid_str i = oid_str j -> i = j.
Proof.
  intros Hi Hj Heq. pose proof (oid_str_roundtrip i Hi) as Pi. pose proof (oid_str_roundtrip j Hj) as Pj.
  rewrite Heq in Pi. congruence.
Qed.

(** ** String ids *)

Lemma str_decode_code l f : (length l <= f)%nat -> str_decode f (str_code l) = l.
Proof.
  revert f. induction l as [|c l IH]; intros [|f] Hf; simpl in *; try done; [lia|].
  pose proof (Ascii.N_ascii_bounded c) as Hc.
  rewrite (proj2 (N.eqb_neq _ 0)) by lia.
  replace (1 + Ascii.N_of_ascii c + 257 * str_code l - 1) with (Ascii.N_of_ascii c + str_code l * 257) by lia.
  rewrite N.Div0.mod_add, N.div_add, N.mod_small, N.div_small, Ascii.ascii_N_embedding by lia.
  simpl. f_equal. apply IH. lia.
Qed.

Lemma str_code_pow l : 2 ^ N.of_nat (length l) <= 1 + str_code l.
Proof.
  induction l as [|c l IH]; simpl; [lia|].
  rewrite Nat2N.inj_succ, N.pow_succ_r'. lia.
Qed.

Lemma str_code_fuel l : (length l <= N.to_nat (N.log2 (str_code l)) + 1)%nat.
Proof.
  destruct l as [|c l]; [simpl; lia|].
  pose proof (str_code_pow (c :: l)) as Hp. set (n := length (c :: l)) in *.
  assert (Hn : (n = S (n - 1))%nat) by (unfold n; simpl; lia).
  assert (H1 : 2 ^ N.of_nat (n - 1) <= str_code (c :: l)).
  { rewrite Hn, Nat2N.inj_succ, N.pow_succ_r' in Hp. simpl str_code in *. lia. }
  apply N.log2_le_pow2 in H1; [lia|simpl; lia].
Qed.

Lemma str_key_big s : 16 ^ 24 <= str_key s.
Proof. unfold str_key. lia. Qed.

Lemma id_str_oid k : k < 16 ^ 24 -> id_str k = oid_str k.
Proof. intros Hk. unfold id_str. by rewrite (proj2 (N.ltb_lt _ _) Hk). Qed.

(** [str(doc.id)] of a document stored under the string [s] is [s]. *)
Lemma id_str_str_key s : id_str (str_key s) = s.
Proof.
  unfold id_str. rewrite (proj2 (N.ltb_ge _ _) (str_key_big s)). unfold str_key.
  rewrite N.add_comm, N.add_sub, str_decode_code by apply str_code_fuel.
  apply String.string_of_list_ascii_of_string.
Qed.

Lemma str_key_inj s t : str_key s = str_key t -> s = t.
Proof. intros E. by rewrite <- (id_str_str_key s), E, id_str_str_key. Qed.

Lemma str_key_not_oid s i : i < 16 ^ 24 -> str_key s <> i.
Proof. pose proof (str_key_big s). lia. Qed.

Lemma hex_val_lt c v : hex_val c = Some v -> v < 16.
Proof.
  unfold hex_val. set (n := Ascii.N_of_ascii c).
  repeat match goal with |- context [if ?b then _ else _] => destruct b eqn:? end; intros; simplify_eq;
  repeat match goal with H : (_ && _)%bool = true |- _ => apply andb_true_iff in H as [? ?] end;
  repeat match goal with H : (_ <=? _) = true |- _ => apply N.leb_le in H end; lia.
Qed.

Lemma fold_parse_hex_bound l a n :
  fold_left (fun acc c => match acc, hex_val c with
                          | Some a, Some v => Some (16 * a + v)
                          | _, _ => None
                          end) l (Some a) = Some n -> n < (a + 1) * 16 ^ N.of_nat (length l).
Proof.
  revert a. induction l as [|c l IH]; intros a; simpl.
  - intros [= ->]. lia.
  - destruct (hex_val c) as [v|] eqn:Hv.
    + intros Hn%IH. apply hex_val_lt in Hv. rewrite Nat2N.inj_succ, N.pow_succ_r'. nia.
    + clear IH. intros H. exfalso. revert H. induction l as [|c' l IH]; simpl; [done|exact IH].
Qed.

(** Every id [PydanticObjectId] accepts is an ObjectId, below [16^24]. *)
Lemma parse_oid_lt s i : parse_oid s = Some i -> i < 16 ^ 24.
Proof.
  unfold parse_oid. destruct (Nat.eqb_spec (length (String.list_ascii_of_string s)) oid_width) as [Hl|]; [|done].
  unfold parse_hex. intros Hn%fold_parse_hex_bound. rewrite Hl in Hn. unfold oid_width in Hn. simpl in Hn. lia.
Qed.
