(* ===== verification/PySort.v ===== *)
(** * Sorting by a key

    Two sorts occur in the backend: MongoDB's [find(...).sort("order")]
    and Python's [list.sort(key=lambda x: x["order"])] (middlewares.py,
    line 144). Python documents [list.sort] as stable; the model resolves
    MongoDB's ties the same way, by the order in which documents were
    inserted. Both are modelled by one stable insertion sort,
    parameterised by a typeclass [KeyOrder] for the total preorder on
    keys: Python ints ([Z]) and optional ints ([option Z], where MongoDB
    sorts [null] before every number). *)

From S2P Require Import Prelude.
From Stdlib Require Export Sorted.

Class KeyOrder (K : Type) := {
  key_leb : K -> K -> bool;
  key_leb_total : forall a b, key_leb a b = true \/ key_leb b a = true;
  key_leb_trans : forall a b c, key_leb a b = true -> key_leb b c = true -> key_leb a c = true
}.

#[export] Program Instance key_order_Z : KeyOrder Z := {| key_leb := Z.leb |}.
Next Obligation. intros a b. destruct (Z.leb_spec a b), (Z.leb_spec b a); auto; lia. Qed.
Next Obligation. intros a b c H1 H2. apply Z.leb_le in H1, H2. apply Z.leb_le. lia. Qed.

(** MongoDB orders [null] before numbers. *)
Definition option_key_leb {K} `{KeyOrder K} (a b : option K) : bool :=
  match a, b with
  | None, _ => true
  | Some _, None => false
  | Some x, Some y => key_leb x y
  end.

#[export] Program Instance key_order_option {K} `{KeyOrder K} : KeyOrder (option K) :=
  {| key_leb := option_key_leb |}.
Next Obligation.
  intros K ? [a|] [b|]; simpl; auto. apply key_leb_total.
Qed.
Next Obligation.
  intros K ? [a|] [b|] [c|]; simpl; try congruence. apply key_leb_trans.
Qed.

Section SortBy.
Context {A K : Type} `{KeyOrder K} (key : A -> K).

(** Two keys that compare equal. *)
Definition key_eqb (a b : K) : bool := key_leb a b && key_leb b a.

(** Insert [x] before the first element whose key is not smaller. *)
Fixpoint insert_by (x : A) (l : list A) : list A :=
  match l with
  | [] => [x]
  | y :: l' => if key_leb (key x) (key y) then x :: y :: l' else y :: insert_by x l'
  end.

(** [sorted(l, key=key)] *)
Fixpoint sort_by (l : list A) : list A :=
  match l with
  | [] => []
  | x :: l' => insert_by x (sort_by l')
  end.

Definition key_le (a b : A) : Prop := key_leb (key a) (key b) = true.

(** ** Permutation *)
Lemma insert_by_perm x l : insert_by x l ≡ₚ x :: l.
Proof.
  induction l as [|y l IH]; simpl; [done|].
  destruct (key_leb _ _); [done|]. rewrite IH. apply Permutation_swap.
Qed.

Lemma sort_by_perm l : sort_by l ≡ₚ l.
Proof.
  induction l as [|x l IH]; simpl; [done|]. by rewrite insert_by_perm, IH.
Qed.

(** ** Sortedness *)
Lemma key_leb_not x y : key_leb x y = false -> key_leb y x = true.
Proof. intros Hf. destruct (key_leb_total x y); congruence. Qed.

Lemma insert_by_sorted x l : Sorted key_le l -> Sorted key_le (insert_by x l).
Proof.
  induction 1 as [|y l Hs IH Hhd]; simpl; [repeat constructor|].
  destruct (key_leb (key x) (key y)) eqn:Hxy.
  - constructor; [by constructor|]. by constructor.
  - constructor; [done|].
    destruct l as [|z l]; simpl; [constructor; apply key_leb_not; done|].
    simpl in IH. inversion Hhd; subst.
    destruct (key_leb (key x) (key z)); constructor; try done; by apply key_leb_not.
Qed.

Lemma sort_by_sorted l : Sorted key_le (sort_by l).
Proof. induction l; simpl; [constructor|]. by apply insert_by_sorted. Qed.

(** ** Stability: elements with equal keys keep their relative order *)
Lemma key_eqb_trans a b c : key_eqb a b = true -> key_eqb b c = true -> key_eqb a c = true.
Proof.
  unfold key_eqb. rewrite !andb_true_iff. intros [? ?] [? ?].
  split; eapply key_leb_trans; eauto.
Qed.

Lemma key_eqb_sym a b : key_eqb a b = key_eqb b a.
Proof. unfold key_eqb. apply andb_comm. Qed.

Lemma filter_insert_by k x l :
  Sorted key_le l ->
  List.filter (fun a => key_eqb (key a) k) (insert_by x l) =
  List.filter (fun a => key_eqb (key a) k) (x :: l).
Proof.
  induction l as [|y l IH]; intros Hs; simpl; [done|].
  destruct (key_leb (key x) (key y)) eqn:Hxy; [done|].
  apply Sorted_inv in Hs as [Hs _]. simpl. rewrite IH by done. simpl.
  destruct (key_eqb (key x) k) eqn:Hx, (key_eqb (key y) k) eqn:Hy; try done.
  exfalso. rewrite key_eqb_sym in Hy.
  pose proof (key_eqb_trans _ _ _ Hx Hy) as Hxy'. unfold key_eqb in Hxy'.
  rewrite Hxy in Hxy'. done.
Qed.

Lemma sort_by_stable k l :
  List.filter (fun a => key_eqb (key a) k) (sort_by l) = List.filter (fun a => key_eqb (key a) k) l.
Proof.
  induction l as [|x l IH]; simpl; [done|].
  rewrite filter_insert_by by apply sort_by_sorted. simpl. by rewrite IH.
Qed.

Lemma length_sort_by l : length (sort_by l) = length l.
Proof. apply Permutation_length, sort_by_perm. Qed.

Lemma sort_by_map_perm {B} (f : A -> B) l : map f (sort_by l) ≡ₚ map f l.
Proof. by rewrite sort_by_perm. Qed.
End SortBy.

(** On Python ints, keys compare equal exactly when they are equal. *)
Lemma key_eqb_Z (a b : Z) : key_eqb a b = Z.eqb a b.
Proof.
  unfold key_eqb. simpl. destruct (Z.leb_spec a b), (Z.leb_spec b a), (Z.eqb_spec a b); simpl; lia.
Qed.

Lemma sorted_mono {A} (R R' : A -> A -> Prop) l :
  (forall x y, R x y -> R' x y) -> Sorted R l -> Sorted R' l.
Proof.
  intros Himp. induction 1 as [|x l Hs IH Hhd]; constructor; [done|].
  destruct Hhd; constructor. by apply Himp.
Qed.

Lemma sorted_key_le_Z {A} (key : A -> Z) l :
  Sorted (key_le key) l -> Sorted (fun x y => key x <= key y) l.
Proof. apply sorted_mono. unfold key_le. simpl. intros x y H. by apply Z.leb_le. Qed.

#[export] Hint Resolve sort_by_perm sort_by_sorted : pyauto.
