(* ===== verification/Json.v ===== *)
(** * Python/JSON values

    [Channel.outline_content], [FreeAccess.precentage_outline] and
    [PlayerProgress.progress_level] are untyped [Dict[str, Any]] values
    that the backend builds as Python literals and reads back with
    [d.get(k, default)], [d[k]] and [for x in l]. They are modelled as
    JSON values: a dict is a list of (key, value) pairs in insertion
    order, as Python keeps it. Reading a missing key with [d[k]] raises
    [KeyError]; calling [.get] on a non-dict raises [AttributeError];
    iterating a non-list raises [TypeError]. *)

From S2P Require Import Prelude ObjectId.
Local Set Warnings "-register-all".


Inductive json :=
  | JNull
  | JBool (b : bool)
  | JInt (z : Z)
  | JStr (s : string)
  | JList (l : list json)
  | JDict (kvs : list (string * json)).

(** Lookup of a key in a dict's pairs. *)
Fixpoint assoc (k : string) (kvs : list (string * json)) : option json :=
  match kvs with
  | [] => None
  | (k', v) :: kvs' => if String.eqb k k' then Some v else assoc k kvs'
  end.

Definition type_error (what : string) : exn := PyException "TypeError" what.

(** [j.get(k, default)] *)
Definition py_get (j : json) (k : string) (dflt : json) : exn + json :=
  match j with
  | JDict kvs => inr (default dflt (assoc k kvs))
  | _ => inl (PyException "AttributeError" "object has no attribute 'get'")
  end.

(** [j[k]] on a dict *)
Definition py_item (j : json) (k : string) : exn + json :=
  match j with
  | JDict kvs => match assoc k kvs with Some v => inr v | None => inl (PyException "KeyError" k) end
  | _ => inl (type_error "object is not subscriptable")
  end.

(** [for x in j] on a list *)
Definition py_iter (j : json) : exn + list json :=
  match j with
  | JList l => inr l
  | _ => inl (type_error "object is not iterable")
  end.

(** [isinstance(j, dict)] *)
Definition is_dict (j : json) : bool := match j with JDict _ => true | _ => false end.

(** Optional values: [None] becomes [JNull]. *)
Definition jopt {A} (f : A -> json) (o : option A) : json :=
  match o with Some x => f x | None => JNull end.

(** Python truthiness: [None], [False], [0], [""], [[]] and [{}] are false. *)
Definition json_truthy (j : json) : bool :=
  match j with
  | JNull => false
  | JBool b => b
  | JInt z => negb (Z.eqb z 0)
  | JStr s => negb (String.eqb s "")
  | JList l => negb (bool_decide (l = []))
  | JDict kvs => negb (bool_decide (kvs = []))
  end.

(** [needle in j] for a string [needle]: a substring test on a str, an
    element test on a list, a key test on a dict; a TypeError otherwise. *)
Definition py_in (needle : string) (j : json) : exn + bool :=
  match j with
  | JStr s => inr (str_contains needle s)
  | JList l => inr (existsb (fun x => match x with JStr s => String.eqb s needle | _ => false end) l)
  | JDict kvs => inr (existsb (fun kv => String.eqb kv.1 needle) kvs)
  | _ => inl (type_error "argument is not iterable")
  end.

(** A Mongo equality query [{"field": j}] on a string field: only a str
    value can match. *)
Definition json_is_str (field : string) (j : json) : bool :=
  match j with JStr s => String.eqb field s | _ => false end.

(** Sequencing pure fallible computations: the first exception wins. *)
Definition bindE {A B} (r : exn + A) (f : A -> exn + B) : exn + B :=
  match r with inl e => inl e | inr x => f x end.

Notation "'let?' x := r 'in' k" := (bindE r (fun x => k))
  (at level 10, x name, r at level 100, k at level 200) : py_scope.
Open Scope py_scope.

(** [d[k] = v] on a dict: an existing key keeps its place. *)
Definition dict_set {V} (kvs : list (string * V)) (k : string) (v : V) : list (string * V) :=
  if existsb (fun kv => String.eqb kv.1 k) kvs
  then map (fun kv => if String.eqb kv.1 k then (k, v) else kv) kvs
  else kvs ++ [(k, v)].

(** A Python loop appending [f(x)] for each [x], as a pure computation. *)
Fixpoint mapE {A B} (f : A -> exn + B) (l : list A) : exn + list B :=
  match l with
  | [] => inr []
  | x :: l' => let? y := f x in let? ys := mapE f l' in inr (y :: ys)
  end.

(** [for x in j.get(k, [])]: the list iterated. *)
Definition iter_get (j : json) (k : string) : exn + list json :=
  let? l := py_get j k (JList []) in py_iter l.


(** [for x in j.get(k, []): ...] threading the loop's local variables. *)
Definition py_fold_get {S B} (j : json) (k : string) (f : B -> json -> PyM S B) (acc : B) : PyM S B :=
  l ← lift_exn (py_get j k (JList []));
  xs ← lift_exn (py_iter l);
  py_foldM f acc xs.

Lemma preserves_lift_exn {S A} (P : S -> Prop) (r : exn + A) : preserves P (lift_exn r).
Proof. by intros s. Qed.

(** Binding a pure fallible value: only the value it has matters. *)
Lemma preserves_lift_bind {S A B} (P : S -> Prop) (r : exn + A) (f : A -> PyM S B) :
  (forall x, r = inr x -> preserves P (f x)) -> preserves P (lift_exn r ≫= f).
Proof. intros Hf s Hs. rewrite bind_run. unfold lift_exn. destruct r as [e|x]; [done|]. by apply Hf. Qed.

#[export] Hint Resolve preserves_lift_exn : preserve.

Lemma mapE_map {A B} (f : A -> exn + B) (g : A -> B) l :
  (forall x, x ∈ l -> f x = inr (g x)) -> mapE f l = inr (map g l).
Proof.
  induction l as [|x l IH]; intros Hf; [done|]. simpl.
  rewrite (Hf x (list_elem_of_here _ _)), IH; [done|].
  intros y Hy. apply Hf. by apply list_elem_of_further.
Qed.

Lemma mapE_map_comp {A B C} (f : B -> exn + C) (h : A -> B) (g : A -> C) l :
  (forall x, x ∈ l -> f (h x) = inr (g x)) -> mapE f (map h l) = inr (map g l).
Proof.
  induction l as [|x l IH]; intros Hf; [done|]. simpl.
  rewrite (Hf x (list_elem_of_here _ _)), IH; [done|].
  intros y Hy. apply Hf. by apply list_elem_of_further.
Qed.

Lemma py_get_dict kvs k d : py_get (JDict kvs) k d = inr (default d (assoc k kvs)).
Proof. reflexivity. Qed.

Lemma py_item_dict kvs k v : assoc k kvs = Some v -> py_item (JDict kvs) k = inr v.
Proof. simpl. by intros ->. Qed.

Lemma assoc_cons_eq k v kvs : assoc k ((k, v) :: kvs) = Some v.
Proof. simpl. by rewrite String.eqb_refl. Qed.

Lemma assoc_cons_ne k k' v kvs : k <> k' -> assoc k ((k', v) :: kvs) = assoc k kvs.
Proof. intros Hne. simpl. destruct (String.eqb_spec k k'); congruence. Qed.

Lemma py_in_str n s : py_in n (JStr s) = inr (str_contains n s).
Proof. reflexivity. Qed.

#[export] Hint Rewrite py_get_dict assoc_cons_eq : pyrun.
