(* ===== verification/JsonType.v ===== *)
(** * Types of JSON values

    The backend's responses are Python dicts and lists that FastAPI sends
    as JSON. Their shape is what the frontend relies on, and what the
    code of the backend itself relies on when it reads a blob back with
    [d["sections"]], [d.get("units", [])], ... This file gives JSON
    values of [Json.v] types: [jty] is a small schema language (scalars,
    string literals for the ["type"] tags, [Optional], lists, dicts with
    their keys in order, [Dict[str, X]], unions), [has_type] is the typing judgement as an
    [Inductive] (as qcert's [data_type] does, with [Forall2] over the
    fields of a record), and [type_check] is an executable checker that
    implies it. *)

From S2P Require Import Prelude Json.
Local Set Warnings "-register-all".

Inductive jty :=
  | TAny
  | TNull
  | TBool
  | TInt
  | TStr
  | TLit (s : string)
  | TOpt (t : jty)
  | TList (t : jty)
  | TObj (fields : list (string * jty))
  | TMap (t : jty)
  | TUnion (a b : jty).

(** A dict has type [TObj fs] when its keys are those of [fs], in the
    same order (Python dicts keep insertion order), and each value has
    the type of its field. *)
Inductive has_type : json -> jty -> Prop :=
  | ht_any j : has_type j TAny
  | ht_null : has_type JNull TNull
  | ht_bool b : has_type (JBool b) TBool
  | ht_int z : has_type (JInt z) TInt
  | ht_str s : has_type (JStr s) TStr
  | ht_lit s : has_type (JStr s) (TLit s)
  | ht_opt_none t : has_type JNull (TOpt t)
  | ht_opt_some j t : has_type j t -> has_type j (TOpt t)
  | ht_list l t : Forall (fun j => has_type j t) l -> has_type (JList l) (TList t)
  | ht_obj kvs fs :
      Forall2 (fun kv f => kv.1 = f.1 /\ has_type kv.2 f.2) kvs fs ->
      has_type (JDict kvs) (TObj fs)
  | ht_map kvs t : Forall (fun kv => has_type kv.2 t) kvs -> has_type (JDict kvs) (TMap t)
  | ht_union_l j a b : has_type j a -> has_type j (TUnion a b)
  | ht_union_r j a b : has_type j b -> has_type j (TUnion a b).

Fixpoint type_check (t : jty) (j : json) {struct t} : bool :=
  match t with
  | TAny => true
  | TNull => match j with JNull => true | _ => false end
  | TBool => match j with JBool _ => true | _ => false end
  | TInt => match j with JInt _ => true | _ => false end
  | TStr => match j with JStr _ => true | _ => false end
  | TLit s => match j with JStr s' => String.eqb s s' | _ => false end
  | TOpt t => match j with JNull => true | _ => type_check t j end
  | TList t => match j with JList l => forallb (type_check t) l | _ => false end
  | TObj fs =>
      match j with
      | JDict kvs =>
          (fix go fs kvs :=
             match fs, kvs with
             | [], [] => true
             | (k, t) :: fs, (k', v) :: kvs => String.eqb k k' && type_check t v && go fs kvs
             | _, _ => false
             end) fs kvs
      | _ => false
      end
  | TMap t => match j with JDict kvs => forallb (fun kv => type_check t kv.2) kvs | _ => false end
  | TUnion a b => type_check a j || type_check b j
  end.

(** Induction on schemas, with the hypothesis for every field of a dict
    type (the nested principle Rocq does not generate). *)
Section JtyInd.
Variable P : jty -> Prop.
Hypothesis HAny : P TAny.
Hypothesis HNull : P TNull.
Hypothesis HBool : P TBool.
Hypothesis HInt : P TInt.
Hypothesis HStr : P TStr.
Hypothesis HLit : forall s, P (TLit s).
Hypothesis HOpt : forall t, P t -> P (TOpt t).
Hypothesis HList : forall t, P t -> P (TList t).
Hypothesis HObj : forall fs, Forall (fun f => P f.2) fs -> P (TObj fs).
Hypothesis HMap : forall t, P t -> P (TMap t).
Hypothesis HUnion : forall a b, P a -> P b -> P (TUnion a b).

Fixpoint jty_ind' (t : jty) : P t :=
  match t with
  | TAny => HAny
  | TNull => HNull
  | TBool => HBool
  | TInt => HInt
  | TStr => HStr
  | TLit s => HLit s
  | TOpt t => HOpt t (jty_ind' t)
  | TList t => HList t (jty_ind' t)
  | TObj fs =>
      HObj fs ((fix go (fs : list (string * jty)) : Forall (fun f => P f.2) fs :=
                  match fs with
                  | [] => List.Forall_nil _
                  | f :: fs => List.Forall_cons _ f fs (jty_ind' f.2) (go fs)
                  end) fs)
  | TMap t => HMap t (jty_ind' t)
  | TUnion a b => HUnion a b (jty_ind' a) (jty_ind' b)
  end.
End JtyInd.

Lemma type_check_sound t j : type_check t j = true -> has_type j t.
Proof.
  revert j. induction t as [| | | | |s|t IH|t IH|fs IH|t IH|a b IHa IHb] using jty_ind'; intros j H;
    try (destruct j; simpl in H; try discriminate; constructor; done).
  - destruct j; simpl in H; try discriminate; apply String.eqb_eq in H; subst; constructor.
  - destruct j; [apply ht_opt_none|..]; apply ht_opt_some, IH; done.
  - destruct j; simpl in H; try discriminate. constructor.
    apply Forall_forall. intros x Hx. apply IH. eapply forallb_forall; [exact H|]. by apply list_elem_of_In.
  - destruct j as [| | | | |kvs]; simpl in H; try discriminate. constructor.
    revert kvs H. induction IH as [|[k t] fs Hf _ IHfs]; intros [|[k' v] kvs] H; try discriminate.
    + constructor.
    + apply andb_true_iff in H as [[Hk Hv]%andb_true_iff H]. apply String.eqb_eq in Hk. subst.
      constructor; [split; [done|by apply Hf]|by apply IHfs].
  - destruct j; simpl in H; try discriminate. constructor.
    apply Forall_forall. intros x Hx. apply IH. eapply forallb_forall in H; [exact H|]. by apply list_elem_of_In.
  - simpl in H. apply orb_true_iff in H as [H|H]; [apply ht_union_l, IHa|apply ht_union_r, IHb]; done.
Qed.

(** The checker decides the judgement: it is also complete. *)
Lemma type_check_complete t j : has_type j t -> type_check t j = true.
Proof.
  revert j. induction t as [| | | | |s|t IH|t IH|fs IH|t IH|a b IHa IHb] using jty_ind'; intros j H;
    inversion H; subst; simpl; try done.
  - apply String.eqb_refl.
  - destruct j; auto.
  - apply forallb_forall. intros x Hx. apply IH.
    match goal with Hl : Forall _ _ |- _ => exact (proj1 (List.Forall_forall _ _) Hl x Hx) end.
  - match goal with Hf : Forall2 _ _ _ |- _ => clear H; revert IH; induction Hf as [|[k v] [k' t] kvs fs' [Hk Hv] _ IHf] end;
      intros IH; [done|]. simpl in *. subst.
    apply Forall_cons in IH as [Hh IH]. rewrite String.eqb_refl, Hh by done. simpl. by apply IHf.
  - apply forallb_forall. intros x Hx. apply IH.
    match goal with Hl : Forall _ _ |- _ => exact (proj1 (List.Forall_forall _ _) Hl x Hx) end.
  - by rewrite IHa.
  - rewrite IHb by done. apply orb_true_r.
Qed.

Lemma type_check_spec t j : type_check t j = true <-> has_type j t.
Proof. split; [apply type_check_sound|apply type_check_complete]. Qed.

#[export] Instance has_type_dec j t : Decision (has_type j t).
Proof. destruct (type_check t j) eqn:E; [left|right]; rewrite <- type_check_spec; congruence. Qed.

(** ** Building typings *)

Lemma ht_obj_nil : has_type (JDict []) (TObj []).
Proof. by constructor. Qed.

Lemma ht_obj_cons k v t kvs fs :
  has_type v t -> has_type (JDict kvs) (TObj fs) -> has_type (JDict ((k, v) :: kvs)) (TObj ((k, t) :: fs)).
Proof. intros Hv Hkvs. inversion Hkvs; subst. apply ht_obj. by constructor. Qed.

Lemma ht_obj_app kvs1 kvs2 fs1 fs2 :
  has_type (JDict kvs1) (TObj fs1) -> has_type (JDict kvs2) (TObj fs2) ->
  has_type (JDict (kvs1 ++ kvs2)) (TObj (fs1 ++ fs2)).
Proof. inversion 1; inversion 1; subst. apply ht_obj. by apply Forall2_app. Qed.

Lemma ht_map_iff kvs t : has_type (JDict kvs) (TMap t) <-> forall k v, (k, v) ∈ kvs -> has_type v t.
Proof.
  split.
  - inversion 1; subst. intros k v Hkv.
    match goal with Hf : Forall _ _ |- _ => exact (proj1 (Forall_forall _ _) Hf _ Hkv) end.
  - intros H. constructor. apply Forall_forall. intros [k v] Hkv. by apply (H k).
Qed.

Lemma ht_jopt {A} (f : A -> json) t o : (forall x, o = Some x -> has_type (f x) t) -> has_type (jopt f o) (TOpt t).
Proof. destruct o; simpl; intros H; [apply ht_opt_some, H|apply ht_opt_none]; done. Qed.

Lemma ht_list_map {A} (f : A -> json) t l :
  (forall x, x ∈ l -> has_type (f x) t) -> has_type (JList (map f l)) (TList t).
Proof. intros H. constructor. apply Forall_fmap, Forall_forall. done. Qed.

Lemma ht_list_app l1 l2 t :
  has_type (JList l1) (TList t) -> has_type (JList l2) (TList t) -> has_type (JList (l1 ++ l2)) (TList t).
Proof. inversion 1; inversion 1; subst. constructor. by apply Forall_app. Qed.

Lemma ht_list_perm l1 l2 t : l1 ≡ₚ l2 -> has_type (JList l1) (TList t) -> has_type (JList l2) (TList t).
Proof. intros Hp. inversion 1; subst. constructor. by rewrite <- Hp. Qed.

Lemma ht_list_inv l t : has_type (JList l) (TList t) -> forall j, j ∈ l -> has_type j t.
Proof. inversion 1; subst. by apply Forall_forall. Qed.

Create HintDb jtype discriminated.
#[export] Hint Resolve ht_any ht_null ht_bool ht_int ht_str ht_lit ht_opt_none ht_opt_some ht_obj_nil ht_obj_cons : jtype.

(** Proves [has_type] goals of literal dicts field by field, leaving the
    fields that need a lemma of their own. *)
Ltac typed :=
  repeat first
    [ apply ht_obj_cons
    | apply ht_obj_nil
    | apply ht_jopt; intros ? ?
    | apply ht_list_map; intros ? ?
    | solve [eauto with jtype] ].
