(* ===== verification/PyString.v ===== *)
(** * Python's string methods

    The [str] methods the handlers call, on ASCII text: [split()] of the
    Authorization header (utils/user.py), [lower()], [repr()] (through
    [str()] of a pydantic model), the extension test and split of a
    file name (services/file_service.py), and [strip()] of the language
    model's answers (prompt_preparation.py). Strings are UTF-8 bytes;
    slicing counts characters, while [lower()], [upper()] and the space
    test know the ASCII characters only: Python would also change the
    case of non-ASCII letters and split at non-ASCII spaces. *)

From S2P Require Import Prelude ObjectId.

(** [str.isspace] on ASCII characters. *)
Definition is_py_space (c : Ascii.ascii) : bool :=
  let n := Ascii.nat_of_ascii c in
  ((9 <=? n) && (n <=? 13))%nat || ((28 <=? n) && (n <=? 32))%nat.

Fixpoint split_ws (cur : list Ascii.ascii) (l : list Ascii.ascii) : list (list Ascii.ascii) :=
  match l with
  | [] => match cur with [] => [] | _ => [rev cur] end
  | c :: l' =>
      if is_py_space c then
        match cur with [] => split_ws [] l' | _ => rev cur :: split_ws [] l' end
      else split_ws (c :: cur) l'
  end.

(** [s.split()]: the maximal runs of non-space characters. *)
Definition py_split (s : string) : list string :=
  map String.string_of_list_ascii (split_ws [] (String.list_ascii_of_string s)).

Definition lower_ascii (c : Ascii.ascii) : Ascii.ascii :=
  let n := Ascii.nat_of_ascii c in
  if ((65 <=? n) && (n <=? 90))%nat then Ascii.ascii_of_nat (n + 32) else c.

(** [s.lower()] on ASCII. *)
Definition py_lower (s : string) : string :=
  String.string_of_list_ascii (map lower_ascii (String.list_ascii_of_string s)).

Definition upper_ascii (c : Ascii.ascii) : Ascii.ascii :=
  let n := Ascii.nat_of_ascii c in
  if ((97 <=? n) && (n <=? 122))%nat then Ascii.ascii_of_nat (n - 32) else c.

(** [s.upper()] on ASCII. *)
Definition py_upper (s : string) : string :=
  String.string_of_list_ascii (map upper_ascii (String.list_ascii_of_string s)).

(** A continuation byte [10xxxxxx] of UTF-8. *)
Definition is_utf8_cont (c : Ascii.ascii) : bool :=
  let n := Ascii.nat_of_ascii c in ((128 <=? n) && (n <? 192))%nat.

(** The characters of a UTF-8 byte string, each the bytes from a byte
    that is not a continuation byte up to the next such byte. *)
Fixpoint utf8_chars (l : list Ascii.ascii) : list (list Ascii.ascii) :=
  match l with
  | [] => []
  | c :: l' =>
      match utf8_chars l' with
      | (d :: _) as g :: gs => if is_utf8_cont d then (c :: g) :: gs else [c] :: g :: gs
      | gs => [c] :: gs
      end
  end.

(** [s[:n]]: the first [n] characters. *)
Definition py_prefix (n : nat) (s : string) : string :=
  String.string_of_list_ascii (concat (take n (utf8_chars (String.list_ascii_of_string s)))).

Definition chr (n : nat) : Ascii.ascii := Ascii.ascii_of_nat n.

(** [repr(s)]: single quotes unless the text has one and no double
    quote; the quote in use, backslashes and control characters escaped. *)
Definition repr_char (q : Ascii.ascii) (c : Ascii.ascii) : list Ascii.ascii :=
  let n := Ascii.nat_of_ascii c in
  if Ascii.eqb c q || (n =? 92)%nat then [chr 92; c]
  else if (n =? 10)%nat then [chr 92; chr 110]
  else if (n =? 13)%nat then [chr 92; chr 114]
  else if (n =? 9)%nat then [chr 92; chr 116]
  else [c].

Definition py_repr (s : string) : string :=
  let l := String.list_ascii_of_string s in
  let sq := chr 39 in
  let dq := chr 34 in
  let q := if existsb (Ascii.eqb sq) l && negb (existsb (Ascii.eqb dq) l) then dq else sq in
  String.string_of_list_ascii (q :: flat_map (repr_char q) l ++ [q]).


(** [if s] on an optional string: [None] and [""] are false. *)
Definition str_truthy (o : option string) : bool :=
  match o with Some s => negb (String.eqb s "") | None => false end.

(** [c in s] for a one-character [c] *)
Definition py_in_char (c : Ascii.ascii) (s : string) : bool :=
  existsb (Ascii.eqb c) (String.list_ascii_of_string s).

Fixpoint split_sep (c : Ascii.ascii) (cur : list Ascii.ascii) (l : list Ascii.ascii)
  : list (list Ascii.ascii) :=
  match l with
  | [] => [rev cur]
  | x :: l' => if Ascii.eqb x c then rev cur :: split_sep c [] l' else split_sep c (x :: cur) l'
  end.

(** [s.split(c)] for a one-character separator: every occurrence cuts,
    empty pieces included, so there is always at least one piece. *)
Definition py_split_sep (c : Ascii.ascii) (s : string) : list string :=
  map String.string_of_list_ascii (split_sep c [] (String.list_ascii_of_string s)).

(** [l[-1]] on a list that is never empty here; [d] is never used. *)
Definition py_last (l : list string) : string := List.last l "".

(** [s.lstrip(chars)], [s.rstrip(chars)] and [s.strip(chars)] for a
    character test: the longest prefix, suffix or both of characters that
    pass the test are removed. *)
Fixpoint lstrip_by (p : Ascii.ascii -> bool) (l : list Ascii.ascii) : list Ascii.ascii :=
  match l with
  | [] => []
  | c :: l' => if p c then lstrip_by p l' else l
  end.

Definition rstrip_by (p : Ascii.ascii -> bool) (l : list Ascii.ascii) : list Ascii.ascii :=
  rev (lstrip_by p (rev l)).

Definition strip_by (p : Ascii.ascii -> bool) (l : list Ascii.ascii) : list Ascii.ascii :=
  rstrip_by p (lstrip_by p l).

(** [s.strip()] *)
Definition py_strip (s : string) : string :=
  String.string_of_list_ascii (strip_by is_py_space (String.list_ascii_of_string s)).

(** [s.strip(c)] for a one-character [c] *)
Definition py_strip_char (c : Ascii.ascii) (s : string) : string :=
  String.string_of_list_ascii (strip_by (Ascii.eqb c) (String.list_ascii_of_string s)).

(** The double quote and the newline, [chr(34)] and [chr(10)]. *)
Definition dq : string := String (chr 34) EmptyString.
Definition nl : string := String (chr 10) EmptyString.

(** [f"{x}"] of an [Optional[str]]: [None] is written [None]. *)
Definition str_of_opt (o : option string) : string :=
  match o with Some s => s | None => "None" end.

(** ** Lemmas *)

Lemma list_ascii_of_string_app s1 s2 :
  String.list_ascii_of_string (s1 +:+ s2) = String.list_ascii_of_string s1 ++ String.list_ascii_of_string s2.
Proof. induction s1 as [|c s1 IH]; simpl; [done|]. by rewrite IH. Qed.

Lemma split_sep_nosep c cur l :
  existsb (Ascii.eqb c) l = false -> split_sep c cur l = [rev cur ++ l].
Proof.
  revert cur. induction l as [|x l IH]; intros cur; simpl; [by rewrite app_nil_r|].
  intros [Hx Hl]%orb_false_iff. rewrite Ascii.eqb_sym, Hx, IH by done.
  simpl. by rewrite <- app_assoc.
Qed.

Lemma split_sep_app_sep c cur l1 l2 :
  existsb (Ascii.eqb c) l1 = false ->
  split_sep c cur (l1 ++ c :: l2) = (rev cur ++ l1) :: split_sep c [] l2.
Proof.
  revert cur. induction l1 as [|x l1 IH]; intros cur; simpl.
  - rewrite Ascii.eqb_refl. by rewrite app_nil_r.
  - intros [Hx Hl]%orb_false_iff. rewrite Ascii.eqb_sym, Hx, IH by done.
    simpl. by rewrite <- app_assoc.
Qed.

Lemma split_sep_nonempty c cur l : split_sep c cur l <> [].
Proof. revert cur. induction l as [|x l IH]; intros cur; simpl; [done|]. by destruct (Ascii.eqb x c). Qed.

Lemma last_cons_nonempty {A} (a : A) l d : l <> [] -> List.last (a :: l) d = List.last l d.
Proof. by destruct l. Qed.

(** The last piece of a split is what follows the last separator. *)
Lemma split_sep_last c cur l1 l2 :
  existsb (Ascii.eqb c) l2 = false -> List.last (split_sep c cur (l1 ++ c :: l2)) [] = l2.
Proof.
  intros H2. revert cur. induction l1 as [|x l1 IH]; intros cur; simpl.
  - rewrite Ascii.eqb_refl, split_sep_nosep by done. done.
  - destruct (Ascii.eqb x c); [|apply IH].
    rewrite last_cons_nonempty by apply split_sep_nonempty. apply IH.
Qed.

Lemma last_map {A B} (f : A -> B) l d : List.last (map f l) (f d) = f (List.last l d).
Proof. induction l as [|x [|y l] IH]; [done|done|]. exact IH. Qed.

Lemma lstrip_by_app_l p l1 l2 : forallb p l1 = true -> lstrip_by p (l1 ++ l2) = lstrip_by p l2.
Proof. induction l1 as [|c l1 IH]; simpl; [done|]. intros [-> H]%andb_true_iff. by apply IH. Qed.

Lemma lstrip_by_stop p c l : p c = false -> lstrip_by p (c :: l) = c :: l.
Proof. simpl. by intros ->. Qed.

Lemma lstrip_by_idem p l : lstrip_by p (lstrip_by p l) = lstrip_by p l.
Proof. induction l as [|c l IH]; simpl; [done|]. destruct (p c) eqn:E; [done|]. by rewrite lstrip_by_stop. Qed.

Lemma rstrip_by_app_r p l1 l2 : forallb p l2 = true -> rstrip_by p (l1 ++ l2) = rstrip_by p l1.
Proof.
  intros H. unfold rstrip_by. rewrite rev_app_distr, lstrip_by_app_l; [done|].
  apply forallb_forall. intros x Hx. apply (proj1 (forallb_forall _ _) H). by apply in_rev.
Qed.

(** A text that neither starts nor ends with a character of the test is
    left as it is. *)
Lemma strip_by_stripped p l :
  (forall c l', l = c :: l' -> p c = false) -> (forall c l', l = l' ++ [c] -> p c = false) ->
  strip_by p l = l.
Proof.
  intros Hh Ht. unfold strip_by, rstrip_by.
  destruct l as [|c l]; [done|]. rewrite lstrip_by_stop by eauto.
  destruct (rev (c :: l)) as [|c' r] eqn:E.
  { apply (f_equal length) in E. rewrite length_rev in E. discriminate. }
  assert (c :: l = rev r ++ [c']) as E' by (rewrite <- (rev_involutive (c :: l)), E; done).
  rewrite lstrip_by_stop by eauto. by rewrite <- E, rev_involutive.
Qed.

Lemma lower_ascii_idem c : lower_ascii (lower_ascii c) = lower_ascii c.
Proof.
  unfold lower_ascii. cbv zeta.
  destruct ((65 <=? Ascii.nat_of_ascii c) && (Ascii.nat_of_ascii c <=? 90))%nat eqn:E; [|by rewrite E].
  apply andb_true_iff in E as [E1 E2]. apply Nat.leb_le in E1, E2.
  rewrite Ascii.nat_ascii_embedding by (pose proof (Ascii.nat_ascii_bounded c); lia).
  replace ((65 <=? _) && (_ <=? 90))%nat with false; [done|].
  symmetry. apply andb_false_iff. right. apply Nat.leb_gt. lia.
Qed.

Lemma py_lower_idem s : py_lower (py_lower s) = py_lower s.
Proof.
  unfold py_lower. rewrite String.list_ascii_of_string_of_list_ascii, map_map.
  f_equal. apply map_ext, lower_ascii_idem.
Qed.

Lemma py_contains_app_r n a b : py_contains n b = true -> py_contains n (a ++ b) = true.
Proof. induction a as [|c a IH]; [done|]. intros Hb. simpl. case_bool_decide; [done|by apply IH]. Qed.

Lemma py_contains_app_l n a b : py_contains n a = true -> py_contains n (a ++ b) = true.
Proof.
  induction a as [|c a IH]; simpl.
  - destruct n; [|done]. by destruct b.
  - case_bool_decide as Hn; [intros _|by intros ?%IH; case_bool_decide].
    rewrite bool_decide_true; [done|]. change (c :: a ++ b) with ((c :: a) ++ b).
    assert (length n <= length (c :: a))%nat as Hl.
    { pose proof (f_equal length Hn) as E. rewrite length_take in E. lia. }
    rewrite take_app_le by done. exact Hn.
Qed.

Lemma str_contains_app_r n a b : str_contains n b = true -> str_contains n (a +:+ b) = true.
Proof. unfold str_contains. rewrite list_ascii_of_string_app. apply py_contains_app_r. Qed.

Lemma str_contains_app_l n a b : str_contains n a = true -> str_contains n (a +:+ b) = true.
Proof. unfold str_contains. rewrite list_ascii_of_string_app. apply py_contains_app_l. Qed.
