(* ===== verification/PyFloat.v ===== *)
(** * Python floats

    Doubles are Stdlib's SpecFloat [spec_float] with 53 bits of precision
    and [emax = 1024]; its operations round to nearest, ties to even, as
    CPython's do. An integer converts to a double exactly below [2^53],
    which bounds the integers for which [py_truediv] is Python's [int / int]
    (the correctly rounded quotient) and [py_round] is [round(x, n)]. *)

From S2P Require Import Prelude.
From Stdlib Require Import SpecFloat.

Definition prec : Z := 53.
Definition emax : Z := 1024.

(** [float(z)], exact for [|z| < 2^53]. *)
Definition float_of_int (z : Z) : spec_float := binary_normalize prec emax z 0 false.

(** [a / b] on Python ints. *)
Definition py_truediv (a b : Z) : spec_float := SFdiv prec emax (float_of_int a) (float_of_int b).

(** [x * k] for a float [x] and an int [k]. *)
Definition py_fmul_int (x : spec_float) (k : Z) : spec_float := SFmul prec emax x (float_of_int k).

(** [int(x)]: truncation toward zero; infinities and NaN raise. *)
Definition py_int (x : spec_float) : exn + Z :=
  match x with
  | S754_zero _ => inr 0
  | S754_finite s m e =>
      let v := if Z.leb 0 e then Z.pos m * 2 ^ e else Z.pos m / 2 ^ (- e) in
      inr (if s then - v else v)
  | S754_infinity _ => inl (PyException "OverflowError" "cannot convert float infinity to integer")
  | S754_nan => inl (PyException "ValueError" "cannot convert float NaN to integer")
  end.

(** [a / b] rounded to the nearest integer, ties to the even one ([b > 0]). *)
Definition round_half_even (a b : Z) : Z :=
  let q := a / b in
  let r := a mod b in
  if 2 * r <? b then q else if b <? 2 * r then q + 1 else if Z.even q then q else q + 1.

(** [round(x, nd)] for [nd >= 0]: CPython takes the correctly rounded
    decimal with [nd] places (ties to even, on the exact value of [x]) and
    reads it back, the correctly rounded [k / 10^nd]. *)
Definition py_round (x : spec_float) (nd : Z) : spec_float :=
  match x with
  | S754_finite s m e =>
      let a := Z.pos m * 10 ^ nd in
      let k := if 0 <=? e then a * 2 ^ e else round_half_even a (2 ^ (- e)) in
      if k =? 0 then S754_zero s
      else SFdiv prec emax (float_of_int (if s then - k else k)) (float_of_int (10 ^ nd))
  | _ => x
  end.

(** [i - x] for an int [i] and a float [x] *)
Definition py_int_fsub (i : Z) (x : spec_float) : spec_float := SFsub prec emax (float_of_int i) x.

(** [x / i] for a float [x] and an int [i] *)
Definition py_fdiv_int (x : spec_float) (i : Z) : spec_float := SFdiv prec emax x (float_of_int i).
