(* ===== verification/Email.v ===== *)
(** * E-mail (utils/email.py)

    The mails the auth handlers send, with the texts the code writes,
    and [send_email]'s exchange with the SMTP server: connect, STARTTLS,
    login, one [sendmail] of the message. The server is an oracle,
    [SmtpServer], that answers each command with [None] or an exception;
    [send_email] re-raises whatever it raises ([except Exception: raise]).
    The settings it reads are the defaults of settings.py. *)

From S2P Require Import Prelude ObjectId PyString Json.

(** ** Settings (settings.py, lines 42-51, their defaults) *)
Definition SMTP_HOST : string := "smtp.gmail.com".
Definition SMTP_PORT : Z := 587.
Definition SMTP_USER : string := "yaralex.co@gmail.com".
Definition SMTP_PASSWORD : string := "avsq dgru rgwp izwq".
Definition SMTP_FROM_EMAIL : string := "yaralex.co@gmail.com".
Definition FRONTEND_URL : string := "http://localhost:3000".

(** ** Messages and the server *)

(** [MIMEText(text, 'plain')] *)
Record MimeText := mkText { text_body : string; text_subtype : string }.

(** [MIMEMultipart('alternative')] with its three headers and the parts
    attached to it. *)
Record Message := mkMessage {
  msg_subtype : string; msg_subject : string; msg_from : string; msg_to : string; msg_parts : list MimeText }.

(** What the SMTP server answers: [smtplib.SMTP(host, port)],
    [server.starttls()], [server.login(user, password)] and
    [server.sendmail(from, to, message.as_string())]. *)
Record SmtpServer := mkSmtp {
  smtp_connect : string -> Z -> exn + unit;
  smtp_starttls : exn + unit;
  smtp_login : string -> string -> exn + unit;
  smtp_sendmail : string -> list string -> Message -> exn + unit }.

(** ** send_email (lines 17-54) *)

(** The message [send_email] builds: the text part only when
    [text_content] is truthy. *)
Definition email_message (to_email subject : string) (text_content : option string) : Message :=
  mkMessage "alternative" subject SMTP_FROM_EMAIL to_email
    (if str_truthy text_content then [mkText (default "" text_content) "plain"] else []).

Definition send_email (srv : SmtpServer) (to_email subject : string) (text_content : option string) : exn + unit :=
  let message := email_message to_email subject text_content in
  let? _ := smtp_connect srv SMTP_HOST SMTP_PORT in
  let? _ := smtp_starttls srv in
  let? _ := smtp_login srv SMTP_USER SMTP_PASSWORD in
  smtp_sendmail srv SMTP_FROM_EMAIL [to_email] message.

(** ** The mails *)

(** The f-strings' indentation: a newline and four spaces. *)
Definition nl4 : string := nl +:+ "    ".

(** [send_verification_email] (lines 56-76) *)
Definition verification_text (token : string) : string :=
  nl4 +:+ "Email Verification" +:+ nl +:+ nl4 +:+ "Your verification code is: " +:+ token +:+ nl +:+
  nl4 +:+ "This code will expire in 24 hours." +:+ nl +:+
  nl4 +:+ "If you did not create an account, please ignore this email." +:+ nl +:+
  nl4 +:+ "For support, contact: " +:+ SMTP_FROM_EMAIL +:+ nl4.

Definition send_verification_email (srv : SmtpServer) (email token : string) : exn + unit :=
  send_email srv email "Verify your email address" (Some (verification_text token)).

(** [send_password_reset_email] (lines 78-103) *)
Definition reset_url (token : string) : string := FRONTEND_URL +:+ "/reset-password?token=" +:+ token.

Definition password_reset_text (token : string) : string :=
  nl4 +:+ "You have requested to reset your password. Click the following link to reset it:" +:+
  nl4 +:+ reset_url token +:+ nl4 +:+ nl4 +:+
  "If you did not request a password reset, please ignore this email." +:+ nl4 +:+ nl4 +:+
  "For support, contact: " +:+ SMTP_FROM_EMAIL +:+ nl4.

Definition send_password_reset_email (srv : SmtpServer) (email token : string) : exn + unit :=
  send_email srv email "Reset your password" (Some (password_reset_text token)).

(** [send_welcome_email] (lines 105-122): [first_name] is the user's
    [Optional[str]] field, which the f-string writes [None] when unset. *)
Definition welcome_text (first_name : option string) : string :=
  nl4 +:+ "Welcome to our platform, " +:+ str_of_opt first_name +:+ "!" +:+ nl4 +:+ nl4 +:+
  "You can now log in to your account at: " +:+ FRONTEND_URL +:+ "/login" +:+ nl4 +:+ nl4 +:+
  "For support, contact: " +:+ SMTP_FROM_EMAIL +:+ nl4.

Definition send_welcome_email (srv : SmtpServer) (email : string) (first_name : option string) : exn + unit :=
  send_email srv email "Welcome to our platform!" (Some (welcome_text first_name)).

(** [env = Environment(loader=FileSystemLoader(template_dir))] (lines
    13-15): the files of app/templates/email. The repository has no such
    directory. *)
Definition template_files : list string := [].

(** [env.get_template(name)]: jinja2 raises [TemplateNotFound]. *)
Definition get_template (name : string) : exn + unit :=
  if bool_decide (name ∈ template_files) then inr tt else inl (PyException "TemplateNotFound" name).

(** [send_password_changed_email] (lines 124-148) *)
Definition password_changed_text (first_name : option string) : string :=
  nl4 +:+ "Hello " +:+ str_of_opt first_name +:+ "," +:+ nl4 +:+ nl4 +:+
  "Your password has been changed successfully." +:+ nl4 +:+ nl4 +:+
  "If you did not make this change, please contact us immediately at: " +:+ SMTP_FROM_EMAIL +:+ nl4.

Definition send_password_changed_email (srv : SmtpServer) (email : string) (first_name : option string)
  : exn + unit :=
  let? _ := get_template "password_changed.html" in
  send_email srv email "Your password has been changed" (Some (password_changed_text first_name)).

#[global] Arguments send_email : simpl never.
#[global] Arguments send_verification_email : simpl never.
#[global] Arguments send_welcome_email : simpl never.

(** ** The server's answers *)

(** A server that accepts the connection, STARTTLS and the login of
    [send_email], and the [sendmail] of message [m] to [tos]. *)
Definition smtp_delivers (srv : SmtpServer) (tos : list string) (m : Message) : Prop :=
  smtp_connect srv SMTP_HOST SMTP_PORT = inr tt /\ smtp_starttls srv = inr tt /\
  smtp_login srv SMTP_USER SMTP_PASSWORD = inr tt /\ smtp_sendmail srv SMTP_FROM_EMAIL tos m = inr tt.

(** A server that accepts everything. *)
Definition smtp_up (srv : SmtpServer) : Prop :=
  (forall h p, smtp_connect srv h p = inr tt) /\ smtp_starttls srv = inr tt /\
  (forall u pw, smtp_login srv u pw = inr tt) /\ (forall f tos m, smtp_sendmail srv f tos m = inr tt).

(** A server whose exceptions all satisfy [P]. *)
Definition smtp_raises (P : exn -> Prop) (srv : SmtpServer) : Prop :=
  (forall h p e, smtp_connect srv h p = inl e -> P e) /\ (forall e, smtp_starttls srv = inl e -> P e) /\
  (forall u pw e, smtp_login srv u pw = inl e -> P e) /\ (forall f tos m e, smtp_sendmail srv f tos m = inl e -> P e).

(** The server of the examples. *)
Definition smtp_ok : SmtpServer := mkSmtp (fun _ _ => inr tt) (inr tt) (fun _ _ => inr tt) (fun _ _ _ => inr tt).

Lemma bindE_inr {A B} (r : exn + A) (f : A -> exn + B) y :
  bindE r f = inr y <-> exists x, r = inr x /\ f x = inr y.
Proof. destruct r; simpl; [|split; [by eexists|by intros (? & [= ->] & ?)]]. split; [done|by intros (? & ? & ?)]. Qed.

Lemma bindE_inl {A B} (r : exn + A) (f : A -> exn + B) e :
  bindE r f = inl e -> r = inl e \/ exists x, r = inr x /\ f x = inl e.
Proof. destruct r; simpl; [intros [= ->]; by left|intros; right; by eexists]. Qed.

Lemma unit_inr (r : exn + unit) x : r = inr x <-> r = inr tt.
Proof. by destruct x. Qed.

Lemma smtp_up_delivers srv tos m : smtp_up srv -> smtp_delivers srv tos m.
Proof. intros (Hc & Hs & Hl & Hm). by split_and!. Qed.

Lemma smtp_ok_up : smtp_up smtp_ok.
Proof. by split_and!. Qed.

Lemma smtp_ok_raises P : smtp_raises P smtp_ok.
Proof. split_and!; by intros *. Qed.

(** ** send_email *)

(** [send_email] returns exactly when the server accepts its four
    commands, the last one delivering [email_message] to [to_email]
    alone. *)
Lemma send_email_inr srv to_email subject text :
  send_email srv to_email subject text = inr tt <->
  smtp_delivers srv [to_email] (email_message to_email subject text).
Proof.
  unfold send_email, smtp_delivers.
  destruct (smtp_connect _ _ _) as [|[]]; simpl; [intuition congruence|].
  destruct (smtp_starttls _) as [|[]]; simpl; [intuition congruence|].
  destruct (smtp_login _ _ _) as [|[]]; simpl; intuition congruence.
Qed.

(** Every exception of [send_email] is one the server raised. *)
Lemma send_email_raises P srv to_email subject text e :
  smtp_raises P srv -> send_email srv to_email subject text = inl e -> P e.
Proof.
  intros (Hc & Hs & Hl & Hm). unfold send_email. cbv zeta.
  destruct (smtp_connect _ _ _) as [e'|[]] eqn:E1; simpl; [intros [= <-]; eauto|].
  destruct (smtp_starttls _) as [e'|[]] eqn:E2; simpl; [intros [= <-]; eauto|].
  destruct (smtp_login _ _ _) as [e'|[]] eqn:E3; simpl; [intros [= <-]; eauto|]. eauto.
Qed.

Lemma send_email_up srv to_email subject text : smtp_up srv -> send_email srv to_email subject text = inr tt.
Proof. intros H. by apply send_email_inr, smtp_up_delivers. Qed.

(** The message of a mail with a non-empty text: one plain part. *)
Lemma email_message_text to_email subject t :
  t <> "" -> email_message to_email subject (Some t) =
             mkMessage "alternative" subject SMTP_FROM_EMAIL to_email [mkText t "plain"].
Proof. intros Ht. unfold email_message, str_truthy. by rewrite (proj2 (String.eqb_neq _ _) Ht). Qed.

(** ** The mails *)

Definition verification_message (email token : string) : Message :=
  mkMessage "alternative" "Verify your email address" SMTP_FROM_EMAIL email [mkText (verification_text token) "plain"].

Lemma verification_text_nonempty token : verification_text token <> "".
Proof. by unfold verification_text, nl4. Qed.

Lemma send_verification_email_inr srv email token :
  send_verification_email srv email token = inr tt <->
  smtp_delivers srv [email] (verification_message email token).
Proof.
  unfold send_verification_email. rewrite send_email_inr, email_message_text; [done|].
  apply verification_text_nonempty.
Qed.

Lemma send_verification_email_up srv email token : smtp_up srv -> send_verification_email srv email token = inr tt.
Proof. apply send_email_up. Qed.

Lemma send_welcome_email_up srv email fn : smtp_up srv -> send_welcome_email srv email fn = inr tt.
Proof. apply send_email_up. Qed.

(** Whatever the code, the verification mail says it lasts 24 hours. *)
Lemma verification_text_24h token :
  str_contains "This code will expire in 24 hours." (verification_text token) = true.
Proof.
  unfold verification_text. do 8 apply str_contains_app_r. apply str_contains_app_l. by vm_compute.
Qed.

#[export] Hint Resolve send_verification_email_up send_welcome_email_up smtp_up_delivers : pyauto.

(** A user without a first name is welcomed as [None]. *)
Lemma welcome_text_None :
  str_contains "Welcome to our platform, None!" (welcome_text None) = true.
Proof. by vm_compute. Qed.

(** [send_password_changed_email] never reaches the server: the template
    it loads first is not in the repository. *)
Lemma send_password_changed_email_template srv email fn :
  send_password_changed_email srv email fn = inl (PyException "TemplateNotFound" "password_changed.html").
Proof. reflexivity. Qed.
