(* ===== verification/Documents.v ===== *)
(** * The document store (models/channel.py, models/play.py, Beanie)

    Each Beanie [Document] class of the backend is a Module holding a
    Record [t] whose fields keep the Python names and types: [str] is
    [string], [int] is [Z], [Optional[X]] is [option X], [Dict[str, Any]]
    is [json], [PydanticObjectId] is [oid]. Parent references are the
    [str] fields of the source ([section_outline_id: str], ...), compared
    as strings exactly as the queries do.

    The database is one list of (ObjectId, document) pairs in insertion
    order (MongoDB's natural order) and a counter for fresh ObjectIds.
    The typeclass [Document] plays the role of Beanie's class-directed
    API: [D.find], [D.find_one], [doc.insert()], [doc.save()],
    [doc.delete()] act on the documents of class [D]. *)

From S2P Require Import Prelude ObjectId PySort Json.
From Stdlib Require Import SpecFloat.

(** Datetimes are POSIX seconds. *)
Definition datetime := Z.

Module Channel.
Record t := mk {
  user_id : oid; name : string; channel_id : string; description : string;
  section_count : Z; unit_count : Z; activity_count : Z; lesson_count : Z;
  quiz_count : Z; question_count : Z; total_lesson_quiz_count : Z;
  enrolled_students : Z;
  primary_language : option string; target_language : option string;
  avatar_file_id : option string; cover_image_file_id : option string;
  published : option bool; channel_link : option string;
  last_updated : datetime; outline_content : json }.
End Channel.

Module ChannelInfo.
Record t := mk {
  user_id : string; name : string; description : option string;
  primary_language : option string; target_language : option string;
  avatar_file_id : option string; cover_image_file_id : option string }.
End ChannelInfo.

Module PublishChannel.
Record t := mk { user_id : string; channel_id : string;
                 published : option bool; channel_link : option string }.
End PublishChannel.

Module SectionOutline.
Record t := mk { channel_id : string; name : string; order : Z }.
End SectionOutline.

Module Section.
Record t := mk { section_outline_id : string; name : string; description : string;
                 file_id : option string }.
End Section.

Module UnitOutline.
Record t := mk { section_outline_id : string; name : string; order : Z }.
End UnitOutline.

Module Unit.
Record t := mk { unit_outline_id : string; name : string; description : string;
                 file_id : string }.
End Unit.

Module ActivityOutline.
Record t := mk { unit_outline_id : string; name : string; order : Z;
                 lesson_quiz_count : option Z; percentage : option Z }.
End ActivityOutline.

Module Activity.
Record t := mk { activity_outline_id : string; description : string; file_id : string;
                 difficulty_level : Z; is_launched : option bool }.
End Activity.

Module LessonOutline.
Record t := mk { activity_outline_id : string; name : string; order : Z;
                 lesson_count : option Z }.
End LessonOutline.

Module Lesson.
Record t := mk { lesson_outline_id : string; lesson_type : string; text : option string;
                 file_ids : option (list string); question_lesson : option json;
                 order : Z; is_launched : option bool; is_free : option bool }.
End Lesson.

Module QuizOutline.
Record t := mk { activity_outline_id : string; name : string; order : Z;
                 is_launched : option bool; is_free : option bool; quiz_count : Z }.
End QuizOutline.

Module Question.
Record t := mk { quiz_outline_id : string; time_limit : option Z; points : option Z;
                 template : json; generated_question : option json;
                 file_id : option string; check_function : option string;
                 order : option Z; is_accepted : option bool }.
End Question.

(** [price: float] is an IEEE double (SpecFloat's [spec_float]);
    [billing_cycle] and [discount_type] are pydantic [Literal]s;
    [expires_at: datetime] is kept as its ISO text. *)
Inductive billing_cycle := Monthly | Quarterly | Annually | Lifetime.

Module Tier.
Record t := mk { channel_id : string; name : string; price : spec_float; capacity : Z;
                 billing_cycle : billing_cycle; features : list string }.
End Tier.

Inductive discount_type := Percentage | FixedAmount.

Module Coupon.
Record t := mk { channel_id : string; code : string; discount_type : discount_type;
                 discount_value : Z; max_uses : Z; expires_at : string; is_active : bool }.
End Coupon.

Module FreeAccess.
Record t := mk { channel_id : string; percentage : Z; precentage_outline : option json;
                 free_activities : option (list string) }.
End FreeAccess.

Module PlayerProgress.
Record t := mk { player_id : string; channel_id : string; full_access : bool;
                 needs_review : option (list string); hearts_earned : Z; content : option json;
                 progress_level : json; created_at : datetime; updated_at : datetime }.
End PlayerProgress.

(** models/user.py: [UserRole] and [AuthProvider] are [str] enums. *)
Inductive user_role := Admin | Creator | Player.
Inductive auth_provider := Local | Google.

Module User.
Record t := mk {
  email : string; first_name : option string; last_name : option string; bio : option string;
  avatar_url : option string; role : user_role; provider : auth_provider; is_email_verified : bool;
  hashed_password : option string; google_id : option string;
  access_token : option string; access_token_expires_at : option datetime;
  refresh_token : option string; refresh_token_expires_at : option datetime;
  verification_code : option string; verification_code_created_at : option datetime;
  verification_code_expires_at : option datetime;
  created_at : datetime; last_login : option datetime; locked_until : option datetime }.
End User.

(** [app/models/gallery.py]: the files and directories of a user's
    space (the studio and player space APIs store these classes). *)
Module GalleryFile.
Record t := mk { name : string; content_type : string; file_format : string; size : Z;
                 creation_time : datetime; owner : oid; thumbnail : option oid;
                 thumbnail_base64 : option string; gridfs_file_id : oid; directory_id : option oid }.
End GalleryFile.

Module GalleryDir.
Record t := mk { name : string; owner : oid; parent_id : option oid; created_at : datetime }.
End GalleryDir.

(** [app/models/error.py]: the log of unexpected exceptions that
    [handle_exception] writes. *)
Module ErrorLog.
Record t := mk { time : datetime; exception_type : string; message : string;
                 function_name : string; traceback : string }.
End ErrorLog.

(** A stored document, tagged with its collection. *)
Inductive doc :=
  | DChannel (d : Channel.t)
  | DChannelInfo (d : ChannelInfo.t)
  | DPublishChannel (d : PublishChannel.t)
  | DSectionOutline (d : SectionOutline.t)
  | DSection (d : Section.t)
  | DUnitOutline (d : UnitOutline.t)
  | DUnit (d : Unit.t)
  | DActivityOutline (d : ActivityOutline.t)
  | DActivity (d : Activity.t)
  | DLessonOutline (d : LessonOutline.t)
  | DLesson (d : Lesson.t)
  | DQuizOutline (d : QuizOutline.t)
  | DQuestion (d : Question.t)
  | DFreeAccess (d : FreeAccess.t)
  | DPlayerProgress (d : PlayerProgress.t)
  | DTier (d : Tier.t)
  | DCoupon (d : Coupon.t)
  | DUser (d : User.t)
  | DErrorLog (d : ErrorLog.t)
  | DGalleryFile (d : GalleryFile.t)
  | DGalleryDir (d : GalleryDir.t).

Record DB := mkDB { docs : list (oid * doc); next_id : oid }.

(** What Beanie's [Document] base class gives a model class: a way to
    store it and to recognise its documents. *)
Class Document (D : Type) := {
  to_doc : D -> doc;
  of_doc : doc -> option D;
  of_to_doc : forall d, of_doc (to_doc d) = Some d;
  to_of_doc : forall x d, of_doc x = Some d -> to_doc d = x
}.

Ltac solve_document := first [ intros; reflexivity
                             | intros [] ? H; simpl in H; congruence ].

#[export] Instance doc_Channel : Document Channel.t.
Proof.
  refine {| to_doc := DChannel; of_doc x := match x with DChannel d => Some d | _ => None end |}; solve_document.
Defined.
#[export] Instance doc_ChannelInfo : Document ChannelInfo.t.
Proof.
  refine {| to_doc := DChannelInfo; of_doc x := match x with DChannelInfo d => Some d | _ => None end |}; solve_document.
Defined.
#[export] Instance doc_PublishChannel : Document PublishChannel.t.
Proof.
  refine {| to_doc := DPublishChannel; of_doc x := match x with DPublishChannel d => Some d | _ => None end |}; solve_document.
Defined.
#[export] Instance doc_SectionOutline : Document SectionOutline.t.
Proof.
  refine {| to_doc := DSectionOutline; of_doc x := match x with DSectionOutline d => Some d | _ => None end |}; solve_document.
Defined.
#[export] Instance doc_Section : Document Section.t.
Proof.
  refine {| to_doc := DSection; of_doc x := match x with DSection d => Some d | _ => None end |}; solve_document.
Defined.
#[export] Instance doc_UnitOutline : Document UnitOutline.t.
Proof.
  refine {| to_doc := DUnitOutline; of_doc x := match x with DUnitOutline d => Some d | _ => None end |}; solve_document.
Defined.
#[export] Instance doc_Unit : Document Unit.t.
Proof.
  refine {| to_doc := DUnit; of_doc x := match x with DUnit d => Some d | _ => None end |}; solve_document.
Defined.
#[export] Instance doc_ActivityOutline : Document ActivityOutline.t.
Proof.
  refine {| to_doc := DActivityOutline; of_doc x := match x with DActivityOutline d => Some d | _ => None end |}; solve_document.
Defined.
#[export] Instance doc_Activity : Document Activity.t.
Proof.
  refine {| to_doc := DActivity; of_doc x := match x with DActivity d => Some d | _ => None end |}; solve_document.
Defined.
#[export] Instance doc_LessonOutline : Document LessonOutline.t.
Proof.
  refine {| to_doc := DLessonOutline; of_doc x := match x with DLessonOutline d => Some d | _ => None end |}; solve_document.
Defined.
#[export] Instance doc_Lesson : Document Lesson.t.
Proof.
  refine {| to_doc := DLesson; of_doc x := match x with DLesson d => Some d | _ => None end |}; solve_document.
Defined.
#[export] Instance doc_QuizOutline : Document QuizOutline.t.
Proof.
  refine {| to_doc := DQuizOutline; of_doc x := match x with DQuizOutline d => Some d | _ => None end |}; solve_document.
Defined.
#[export] Instance doc_Question : Document Question.t.
Proof.
  refine {| to_doc := DQuestion; of_doc x := match x with DQuestion d => Some d | _ => None end |}; solve_document.
Defined.
#[export] Instance doc_FreeAccess : Document FreeAccess.t.
Proof.
  refine {| to_doc := DFreeAccess; of_doc x := match x with DFreeAccess d => Some d | _ => None end |}; solve_document.
Defined.
#[export] Instance doc_PlayerProgress : Document PlayerProgress.t.
Proof.
  refine {| to_doc := DPlayerProgress; of_doc x := match x with DPlayerProgress d => Some d | _ => None end |}; solve_document.
Defined.
#[export] Instance doc_Tier : Document Tier.t.
Proof.
  refine {| to_doc := DTier; of_doc x := match x with DTier d => Some d | _ => None end |}; solve_document.
Defined.
#[export] Instance doc_Coupon : Document Coupon.t.
Proof.
  refine {| to_doc := DCoupon; of_doc x := match x with DCoupon d => Some d | _ => None end |}; solve_document.
Defined.
#[export] Instance doc_User : Document User.t.
Proof.
  refine {| to_doc := DUser; of_doc x := match x with DUser d => Some d | _ => None end |}; solve_document.
Defined.
#[export] Instance doc_ErrorLog : Document ErrorLog.t.
Proof.
  refine {| to_doc := DErrorLog; of_doc x := match x with DErrorLog d => Some d | _ => None end |}; solve_document.
Defined.
#[export] Instance doc_GalleryFile : Document GalleryFile.t.
Proof.
  refine {| to_doc := DGalleryFile; of_doc x := match x with DGalleryFile d => Some d | _ => None end |}; solve_document.
Defined.
#[export] Instance doc_GalleryDir : Document GalleryDir.t.
Proof.
  refine {| to_doc := DGalleryDir; of_doc x := match x with DGalleryDir d => Some d | _ => None end |}; solve_document.
Defined.

(** ** Queries and writes *)
Section Beanie.
Context {D : Type} `{Document D}.

(** The documents of class [D], in natural order. *)
Definition collection (db : DB) : list (oid * D) :=
  omap (fun p => (fun d => (p.1, d)) <$> of_doc p.2) db.(docs).

(** [D.find(query).to_list()] evaluated on a snapshot of the store. *)
Definition find_in (db : DB) (q : oid -> D -> bool) : list (oid * D) :=
  List.filter (fun p => q p.1 p.2) (collection db).

(** [D.find(query).sort(key).to_list()] *)
Definition find_sorted_in {K} `{KeyOrder K} (db : DB) (key : D -> K) (q : oid -> D -> bool)
  : list (oid * D) := sort_by (fun p => key p.2) (find_in db q).

(** [D.find_one(query)] *)
Definition find_one_in (db : DB) (q : oid -> D -> bool) : option (oid * D) := head (find_in db q).

Definition find (q : oid -> D -> bool) : PyM DB (list (oid * D)) := gets (fun db => find_in db q).
Definition find_one (q : oid -> D -> bool) : PyM DB (option (oid * D)) :=
  gets (fun db => find_one_in db q).

(** [doc.insert()]: the document gets a fresh ObjectId. *)
Definition insert (d : D) : PyM DB oid := fun db =>
  (inr db.(next_id), mkDB (db.(docs) ++ [(db.(next_id), to_doc d)]) (db.(next_id) + 1)%N).

Definition is_doc_of (i : oid) (p : oid * doc) : bool :=
  N.eqb p.1 i && bool_decide (is_Some (of_doc (D:=D) p.2)).

(** [doc.save()] / [doc.update({"$set": ...})] on a fetched document:
    replace the stored document of class [D] with this id; Beanie
    inserts it when it is absent. *)
Definition save (i : oid) (d : D) : PyM DB unit := modify (fun db =>
  if existsb (is_doc_of i) db.(docs)
  then mkDB (map (fun p => if is_doc_of i p then (i, to_doc d) else p) db.(docs)) db.(next_id)
  else mkDB (db.(docs) ++ [(i, to_doc d)]) db.(next_id)).

(** [doc.delete()] *)
Definition delete (i : oid) : PyM DB unit :=
  modify (fun db => mkDB (List.filter (fun p => negb (is_doc_of i p)) db.(docs)) db.(next_id)).
End Beanie.
Arguments delete D {_} i.

(** Pydantic's [ValidationError] raised by a model's constructor when a
    required field is not given (the first lines of pydantic's text). *)
Definition missing_field (cls field : string) : exn :=
  PyException "ValidationError" ("1 validation error for " +:+ cls +:+ " " +:+ field +:+ " Field required").

(** [None.model_dump()] on a document that is gone *)
Definition none_model_dump : exn :=
  PyException "AttributeError" "'NoneType' object has no attribute 'model_dump'".

(** [PydanticObjectId(s)]: bson raises [InvalidId] on a malformed string. *)
Definition to_oid {S} (s : string) : PyM S oid :=
  match parse_oid s with
  | Some i => mret i
  | None => raise (PyException "InvalidId" (s +:+ " is not a valid ObjectId"))
  end.

(** [PydanticObjectId(j)] on a value read from a JSON blob: bson accepts
    only a str (or an ObjectId). *)
Definition to_oid_json {S} (j : json) : PyM S oid :=
  match j with
  | JStr s => to_oid s
  | _ => raise (PyException "TypeError" "id must be an instance of (str, bytes, ObjectId)")
  end.

Lemma preserves_to_oid (P : DB -> Prop) s : preserves P (to_oid s).
Proof. unfold to_oid. by destruct (parse_oid s); intros db. Qed.

Lemma preserves_to_oid_json (P : DB -> Prop) j : preserves P (to_oid_json j).
Proof. destruct j; try (by intros db); apply preserves_to_oid. Qed.

#[export] Hint Resolve preserves_to_oid preserves_to_oid_json : preserve.

(** [for d in docs: await d.delete()] *)
Definition delete_all {D} `{Document D} (l : list (oid * D)) : PyM DB unit :=
  py_mapM (fun p => delete D p.1) l;; mret tt.

(** [D.find_one(query).delete()]: Mongo's [delete_one], the first match. *)
Definition delete_one_where {D} `{Document D} (q : oid -> D -> bool) : PyM DB unit :=
  found ← find_one q;
  match found with Some (i, _) => delete D i | None => mret tt end.

(** [D.find_many(query).delete()]: Mongo's [delete_many]. *)
Definition delete_many_where {D} `{Document D} (q : oid -> D -> bool) : PyM DB unit :=
  l ← find q; delete_all l.

(** Query helper: [{"<field>": value}] on a string field. *)
Definition field_is (s v : string) : bool := String.eqb s v.

(** ** Well-formed stores

    ObjectIds are unique and below the generator, which keeps them fresh;
    the generator stays within the 96 bits of an ObjectId. *)
Definition wf_db (db : DB) : Prop :=
  NoDup (map fst db.(docs)) /\ Forall (fun p => (p.1 < db.(next_id))%N) db.(docs) /\
  (db.(next_id) <= 16 ^ 24)%N.

(** The string ids of a list of documents. *)
Definition ids_of {X} (ps : list (oid * X)) : list string := map (fun p => oid_str p.1) ps.

Section Collections.
Context {D : Type} `{Document D}.

Lemma collection_ids_sublist (l : list (oid * doc)) :
  map fst (omap (fun p => (fun d => (p.1, d)) <$> of_doc (D:=D) p.2) l) `sublist_of` map fst l.
Proof.
  induction l as [|[i x] l IH]; simpl; [done|].
  destruct (of_doc (D:=D) x); simpl; [by apply sublist_skip|]. by apply sublist_cons.
Qed.

Lemma filter_ids_sublist {X} (p : oid * X -> bool) l :
  map fst (List.filter p l) `sublist_of` map fst l.
Proof.
  induction l as [|x l IH]; simpl; [done|].
  destruct (p x); simpl; [by apply sublist_skip | by apply sublist_cons].
Qed.

Lemma find_in_ids_sublist db q : map fst (find_in (D:=D) db q) `sublist_of` map fst db.(docs).
Proof. etrans; [apply filter_ids_sublist | apply collection_ids_sublist]. Qed.

(** The ids of the documents found by a query are distinct strings. *)
Lemma find_in_ids_NoDup db q : wf_db db -> NoDup (ids_of (find_in (D:=D) db q)).
Proof.
  intros (Hnd & Hlt & Hbound).
  assert (Hsub := find_in_ids_sublist db q).
  assert (Hnd' : NoDup (map fst (find_in db q))) by (eapply sublist_NoDup; eauto).
  unfold ids_of. rewrite <- (map_map fst oid_str).
  assert (Hfm : forall l : list oid, map oid_str l = oid_str <$> l).
  { induction l; simpl; [done|]. by f_equal. }
  rewrite Hfm. apply NoDup_fmap_2_strong; [|done].
  intros x y Hx Hy Hxy. apply oid_str_inj; [| |done].
  - apply (elem_of_sublist _ _ _ Hx) in Hsub. apply list_elem_of_In, in_map_iff in Hsub
      as ([i d] & <- & Hin). rewrite Forall_forall in Hlt.
    specialize (Hlt _ (proj2 (list_elem_of_In _ _) Hin)). simpl in *. lia.
  - apply (elem_of_sublist _ _ _ Hy) in Hsub. apply list_elem_of_In, in_map_iff in Hsub
      as ([i d] & <- & Hin). rewrite Forall_forall in Hlt.
    specialize (Hlt _ (proj2 (list_elem_of_In _ _) Hin)). simpl in *. lia.
Qed.
End Collections.

(** ** Frame: writes to one class leave the other classes alone

    Two model classes are disjoint when no stored document belongs to
    both; this holds of every pair of distinct classes above
    ([classes_disjoint]). A handler [keeps] class [D] when, on every
    path, the documents of class [D] are the same after it as before. *)
Definition disjoint_classes (D D' : Type) `{Document D} `{Document D'} : Prop :=
  forall x, of_doc (D:=D) x = None \/ of_doc (D:=D') x = None.

Definition keeps (D : Type) `{Document D} {A} (m : PyM DB A) : Prop :=
  forall c, preserves (fun db => collection (D:=D) db = c) m.

Ltac classes_disjoint := intros []; simpl; auto.

Lemma omap_map_pointwise {A B} (f : A -> option B) (g : A -> A) l :
  (forall x, f (g x) = f x) -> omap f (map g l) = omap f l.
Proof. intros Hfg. induction l as [|x l IH]; [done|]. csimpl. rewrite Hfg. destruct (f x); [|done]. by f_equal. Qed.

Lemma omap_filter_drop {A B} (f : A -> option B) (p : A -> bool) l :
  (forall x, p x = false -> f x = None) -> omap f (List.filter p l) = omap f l.
Proof.
  intros Hp. induction l as [|x l IH]; [done|]. simpl. destruct (p x) eqn:Hx.
  - csimpl. destruct (f x); [|done]. by f_equal.
  - rewrite IH. csimpl. by rewrite (Hp x Hx).
Qed.

Section Frame.
Context {D D' : Type} `{Document D} `{Document D'} (Hdisj : disjoint_classes D D').

Lemma of_doc_other (d : D') : of_doc (D:=D) (to_doc d) = None.
Proof. destruct (Hdisj (to_doc d)) as [?|Hn]; [done|]. by rewrite of_to_doc in Hn. Qed.

Lemma keeps_insert_other (d : D') : keeps D (insert d).
Proof.
  intros c db <-. unfold insert, collection. simpl. rewrite omap_app. simpl.
  rewrite of_doc_other. simpl. by rewrite app_nil_r.
Qed.

Lemma keeps_save_other i (d : D') : keeps D (save i d).
Proof.
  intros c db <-. unfold save, modify, collection. simpl. destruct (existsb _ _); simpl.
  - apply omap_map_pointwise. intros [j x]. unfold is_doc_of. simpl.
    destruct (N.eqb j i); simpl; [|done].
    destruct (of_doc (D:=D') x) eqn:Hx; simpl; [|done].
    rewrite of_doc_other. destruct (Hdisj x) as [->|Hn]; [done|congruence].
  - rewrite omap_app. simpl. rewrite of_doc_other. simpl. by rewrite app_nil_r.
Qed.

Lemma keeps_delete_other i : keeps D (delete D' i).
Proof.
  intros c db <-. unfold delete, modify, collection. simpl.
  apply omap_filter_drop. intros [j x]. unfold is_doc_of. simpl.
  destruct (N.eqb j i), (of_doc (D:=D') x) eqn:Hx; simpl; try done.
  intros _. destruct (Hdisj x) as [->|Hn]; [done|congruence].
Qed.
End Frame.

Lemma keeps_find {D D'} `{Document D} `{Document D'} q : keeps D (find (D:=D') q).
Proof. intros c. apply preserves_gets. Qed.

Lemma keeps_find_one {D D'} `{Document D} `{Document D'} q : keeps D (find_one (D:=D') q).
Proof. intros c. apply preserves_gets. Qed.

Lemma find_one_in_same {D} `{Document D} db db' q :
  collection (D:=D) db' = collection db -> find_one_in db' q = find_one_in db q.
Proof. intros E. unfold find_one_in, find_in. by rewrite E. Qed.

(** Inserting a document of another class does not change what a query finds. *)
Lemma find_one_in_insert_other {D D'} `{Document D} `{Document D'} (d : D') db q :
  disjoint_classes D D' -> find_one_in (D:=D) (snd (insert d db)) q = find_one_in db q.
Proof. intros Hd. apply find_one_in_same. by apply (keeps_insert_other Hd). Qed.

Section SaveLookup.
Context {D : Type} `{Document D}.

Lemma find_id_absent (l : list (oid * doc)) i :
  existsb (is_doc_of (D:=D) i) l = false ->
  List.filter (fun p : oid * D => N.eqb p.1 i) (omap (fun p => (fun d => (p.1, d)) <$> of_doc p.2) l) = [].
Proof.
  induction l as [|[j x] l IH]; [done|]. unfold is_doc_of. cbn [existsb fst snd].
  intros [Hj Hl]%orb_false_iff. csimpl. destruct (of_doc (D:=D) x) eqn:Hx; simpl; [|by apply IH].
  destruct (N.eqb j i); simpl; [|by apply IH].
  apply bool_decide_eq_false in Hj. contradict Hj. eauto.
Qed.

(** After [doc.save()], looking the document up by its id finds what was
    saved, whether the store had it before or not. *)
Lemma find_one_in_save i (d : D) db :
  find_one_in (snd (save i d db)) (fun j _ => N.eqb j i) = Some (i, d).
Proof.
  unfold save, modify, find_one_in, find_in, collection. simpl.
  destruct (existsb (is_doc_of i) (docs db)) eqn:E; simpl.
  - induction (docs db) as [|[j x] l IH]; [discriminate|].
    cbn [existsb map] in E |- *. unfold is_doc_of in *. simpl in *.
    destruct (N.eqb j i) eqn:Ej, (of_doc (D:=D) x) eqn:Hx; simpl in *.
    + csimpl. rewrite of_to_doc. simpl. by rewrite N.eqb_refl.
    + csimpl. rewrite Hx. by apply IH.
    + csimpl. rewrite Hx. simpl. rewrite Ej. by apply IH.
    + csimpl. rewrite Hx. by apply IH.
  - rewrite omap_app. csimpl. rewrite of_to_doc. simpl.
    rewrite List.filter_app, find_id_absent by done. simpl. by rewrite N.eqb_refl.
Qed.
End SaveLookup.

Section DeleteWhere.
Context {D D' : Type} `{Document D} `{Document D'} (Hdisj : disjoint_classes D D').

Lemma keeps_delete_one_where_other q : keeps D (delete_one_where (D:=D') q).
Proof. intros c. unfold delete_one_where. preserve. apply (keeps_delete_other Hdisj). Qed.

Lemma keeps_delete_many_where_other q : keeps D (delete_many_where (D:=D') q).
Proof. intros c. unfold delete_many_where, delete_all. preserve. apply (keeps_delete_other Hdisj). Qed.
End DeleteWhere.

(** What [find_one] returns satisfies the query. *)
Lemma find_one_in_sat {D} `{Document D} db q i d : find_one_in (D:=D) db q = Some (i, d) -> q i d = true.
Proof.
  unfold find_one_in, find_in. destruct (List.filter _ _) as [|[j x] l] eqn:E; [done|].
  intros [= -> ->]. assert (Hin : (i, d) ∈ List.filter (fun p => q p.1 p.2) (collection db)).
  { rewrite E. apply list_elem_of_here. }
  apply list_elem_of_In, filter_In in Hin. by destruct Hin.
Qed.

(** A query that some stored document satisfies finds one. *)
Lemma find_one_in_some {D} `{Document D} db q i d :
  (i, d) ∈ collection (D:=D) db -> q i d = true -> is_Some (find_one_in db q).
Proof.
  intros Hin Hq. unfold find_one_in, find_in.
  destruct (List.filter _ _) eqn:E; [|by eexists].
  assert (Hf : (i, d) ∈ List.filter (fun p => q p.1 p.2) (collection db)).
  { apply list_elem_of_In, filter_In. split; [by apply list_elem_of_In | done]. }
  rewrite E in Hf. by apply not_elem_of_nil in Hf.
Qed.

(** The document [insert] appends belongs to its class's collection. *)
Lemma elem_of_collection_insert {D} `{Document D} l n i (d : D) l' :
  (i, d) ∈ collection (D:=D) (mkDB (l ++ (i, to_doc d) :: l') n).
Proof.
  unfold collection. simpl. rewrite omap_app. apply elem_of_app. right. csimpl.
  rewrite of_to_doc. apply list_elem_of_here.
Qed.

Lemma elem_of_collection {D} `{Document D} db i (d : D) :
  (i, to_doc d) ∈ db.(docs) -> (i, d) ∈ collection (D:=D) db.
Proof.
  intros Hin. unfold collection. apply list_elem_of_omap. exists (i, to_doc d).
  split; [done|]. simpl. by rewrite of_to_doc.
Qed.

Lemma collection_elem {D} `{Document D} db i (d : D) :
  (i, d) ∈ collection (D:=D) db -> (i, to_doc d) ∈ db.(docs).
Proof.
  unfold collection. intros ([j x] & Hin & Hx)%list_elem_of_omap.
  simpl in Hx. destruct (of_doc x) as [y|] eqn:Ey; simplify_eq/=. by rewrite (to_of_doc _ _ Ey).
Qed.

Lemma find_in_elem {D} `{Document D} db q i (d : D) :
  (i, d) ∈ find_in db q -> (i, d) ∈ collection db /\ q i d = true.
Proof. unfold find_in. rewrite list_elem_of_In, filter_In, <- list_elem_of_In. done. Qed.

Lemma find_in_intro {D} `{Document D} db q i (d : D) :
  (i, d) ∈ collection db -> q i d = true -> (i, d) ∈ find_in db q.
Proof. unfold find_in. rewrite !list_elem_of_In, filter_In. done. Qed.

Section WellFormed.
Context (db : DB) (Hwf : wf_db db).

Lemma wf_same_id i x y : (i, x) ∈ db.(docs) -> (i, y) ∈ db.(docs) -> x = y.
Proof.
  destruct Hwf as [Hnd _]. clear Hwf. revert Hnd. generalize (docs db) as l.
  induction l as [|[j z] l IH]; intros Hnd Hx Hy; [by apply not_elem_of_nil in Hx|].
  simpl in Hnd. apply NoDup_cons in Hnd as [Hj Hnd]. apply elem_of_cons in Hx, Hy.
  destruct Hx as [Hx|Hx], Hy as [Hy|Hy]; simplify_eq; auto;
    exfalso; apply Hj, list_elem_of_fmap; eexists (_, _); by split.
Qed.

(** Two documents of disjoint classes never share an id. *)
Lemma wf_distinct_classes {D D'} `{Document D} `{Document D'} i (d : D) (d' : D') :
  disjoint_classes D D' -> (i, d) ∈ collection db -> (i, d') ∈ collection db -> False.
Proof.
  intros Hdisj Hd Hd'. apply collection_elem in Hd, Hd'.
  pose proof (wf_same_id _ _ _ Hd Hd') as E.
  destruct (Hdisj (to_doc d)) as [Hn|Hn]; [by rewrite of_to_doc in Hn|].
  rewrite E, of_to_doc in Hn. discriminate.
Qed.

Lemma wf_id_bound {D} `{Document D} i (d : D) : (i, d) ∈ collection db -> (i < 16 ^ 24)%N.
Proof.
  intros Hd%collection_elem. destruct Hwf as (_ & Hlt & Hb).
  rewrite Forall_forall in Hlt. specialize (Hlt _ Hd). simpl in Hlt. lia.
Qed.
End WellFormed.

(** ** Invariants on every document of a class

    [all_docs P] says that each stored document of class [D] satisfies
    [P] with its id. Saving or inserting a document that satisfies [P]
    keeps it; writes to other classes do not touch it. *)
Section AllDocs.
Context {D : Type} `{Document D} (P : oid -> D -> Prop).

Definition all_docs (db : DB) : Prop := forall i d, (i, d) ∈ collection (D:=D) db -> P i d.

Lemma elem_of_collection_save i (d : D) db j v :
  (j, v) ∈ collection (snd (save i d db)) -> (j = i /\ v = d) \/ (j <> i /\ (j, v) ∈ collection db).
Proof.
  unfold save, modify, collection. simpl. destruct (existsb _ _) eqn:Ex; simpl.
  - intros (q & Hin & Hx)%list_elem_of_omap. apply list_elem_of_fmap in Hin as (p & -> & Hin).
    destruct (is_doc_of i p) eqn:E.
    + simpl in Hx. rewrite of_to_doc in Hx. simplify_eq/=. by left.
    + right. destruct p as [k x]. simpl in Hx.
      destruct (of_doc x) as [y|] eqn:Hox; simplify_eq/=.
      unfold is_doc_of in E. simpl in E. rewrite Hox in E. simpl in E. rewrite andb_true_r in E.
      split; [by apply N.eqb_neq|]. apply list_elem_of_omap. exists (j, x). simpl. by rewrite Hox.
  - intros (q & Hin & Hx)%list_elem_of_omap. apply elem_of_app in Hin as [Hin|Hin].
    + right. destruct q as [k x]. simpl in Hx. destruct (of_doc x) eqn:Hox; simplify_eq/=. split.
      * intros ->. assert (Ht : existsb (is_doc_of i) (docs db) = true); [|congruence].
        apply existsb_exists. exists (i, x). split; [by apply list_elem_of_In|].
        unfold is_doc_of. simpl. rewrite N.eqb_refl, Hox. done.
      * apply list_elem_of_omap. exists (j, x). simpl. by rewrite Hox.
    + apply list_elem_of_singleton in Hin. subst q. simpl in Hx. rewrite of_to_doc in Hx. simplify_eq/=. by left.
Qed.

Lemma elem_of_collection_insert_inv (d : D) db j v :
  (j, v) ∈ collection (snd (insert d db)) -> (j = next_id db /\ v = d) \/ (j, v) ∈ collection db.
Proof.
  unfold insert, collection. simpl. intros (q & Hin & Hx)%list_elem_of_omap.
  apply elem_of_app in Hin as [Hin|Hin].
  - right. apply list_elem_of_omap. by exists q.
  - apply list_elem_of_singleton in Hin. subst q. simpl in Hx. rewrite of_to_doc in Hx. simplify_eq/=. by left.
Qed.

Lemma all_docs_save i d : P i d -> preserves all_docs (save i d).
Proof. intros Hd db Hdb j v [[-> ->]|[_ Hin]]%elem_of_collection_save; auto. Qed.

Lemma all_docs_insert d : (forall i, P i d) -> preserves all_docs (insert d).
Proof. intros Hd db Hdb j v [[-> ->]|Hin]%elem_of_collection_insert_inv; auto. Qed.

Lemma all_docs_keeps {A} (m : PyM DB A) : keeps D m -> preserves all_docs m.
Proof. intros Hk db Hdb j v Hin. apply Hdb. by rewrite <- (Hk (collection db) db eq_refl). Qed.

Lemma find_one_in_elem db q i (d : D) : find_one_in db q = Some (i, d) -> (i, d) ∈ collection db.
Proof.
  unfold find_one_in. destruct (find_in db q) as [|p l] eqn:E; [done|]. intros [= ->].
  apply (find_in_elem db q). rewrite E. apply list_elem_of_here.
Qed.

(** A handler that reads a document and then writes: the document it
    read satisfies [P]. *)
Lemma all_docs_find_one {A} q (k : option (oid * D) -> PyM DB A) :
  (forall r, (forall i d, r = Some (i, d) -> P i d) -> preserves all_docs (k r)) ->
  preserves all_docs (find_one q ≫= k).
Proof.
  intros Hk db Hdb. unfold find_one, gets. rewrite bind_run. simpl.
  apply Hk; [|done]. intros i d Hf. apply Hdb. by eapply find_one_in_elem.
Qed.

Lemma find_one_in_none db (q : oid -> D -> bool) :
  (forall i d, (i, d) ∈ collection db -> q i d = false) -> find_one_in db q = None.
Proof.
  intros Hq. unfold find_one_in. destruct (find_in db q) as [|[i d] l] eqn:E; [done|].
  assert (Hin : (i, d) ∈ find_in db q) by (rewrite E; apply list_elem_of_here).
  apply find_in_elem in Hin as [Hin Hqi]. by rewrite (Hq i d Hin) in Hqi.
Qed.

Lemma find_one_in_none_inv db (q : oid -> D -> bool) i d :
  find_one_in db q = None -> (i, d) ∈ collection db -> q i d = false.
Proof.
  intros Hn Hin. destruct (q i d) eqn:Hq; [|done]. exfalso.
  destruct (find_one_in_some db q i d Hin Hq) as [x Hx]. congruence.
Qed.

(** A document that is the only match of a query once inserted is what
    the query then finds. *)
Lemma find_one_in_insert_new (d : D) db (q : oid -> D -> bool) :
  find_one_in db q = None -> q (next_id db) d = true -> find_one_in (snd (insert d db)) q = Some (next_id db, d).
Proof.
  unfold find_one_in, find_in, insert, collection. simpl. rewrite omap_app. simpl. rewrite of_to_doc. simpl.
  rewrite List.filter_app. simpl. intros Hn ->. by destruct (List.filter _ _).
Qed.

(** Saving the document a query found, under a value the query still
    accepts, leaves it the first match. *)
Lemma find_one_in_save_found db (q : oid -> D -> bool) i (d d' : D) :
  find_one_in db q = Some (i, d) -> q i d' = true -> find_one_in (snd (save i d' db)) q = Some (i, d').
Proof.
  intros Hf Hq'. pose proof (find_one_in_elem db q i d Hf) as Hin%collection_elem.
  assert (Hex : existsb (is_doc_of i) (docs db) = true).
  { apply existsb_exists. exists (i, to_doc d). split; [by apply list_elem_of_In|].
    unfold is_doc_of. simpl. rewrite N.eqb_refl, of_to_doc. done. }
  revert Hf. unfold find_one_in, find_in, save, modify, collection. simpl. rewrite Hex. simpl.
  clear Hin Hex. induction (docs db) as [|[j x] l IH]; [done|]. csimpl. unfold is_doc_of. simpl.
  destruct (of_doc x) as [y|] eqn:Hx; simpl.
  - destruct (N.eqb j i) eqn:Hj; simpl.
    + rewrite of_to_doc. simpl. apply N.eqb_eq in Hj. subst j. by rewrite Hq'.
    + rewrite Hx. simpl. destruct (q j y) eqn:Hqy; simpl; [|done].
      intros [= -> ->]. by rewrite N.eqb_refl in Hj.
  - rewrite andb_false_r. simpl. rewrite Hx. exact IH.
Qed.

#[global] Instance all_docs_dec `{!forall i d, Decision (P i d)} db : Decision (all_docs db).
Proof.
  destruct (decide (Forall (fun p => P p.1 p.2) (collection db))) as [Hf|Hf]; [left|right];
    unfold all_docs; rewrite Forall_forall in Hf.
  - intros i d Hin. exact (Hf (i, d) Hin).
  - intros Hall. apply Hf. intros [i d]. apply Hall.
Defined.
End AllDocs.

(** ** Writes: what stays in a collection, and well-formedness *)
Section Writes.
Context {D : Type} `{Document D}.

Lemma elem_of_collection_delete i db j (v : D) :
  (j, v) ∈ collection (snd (delete D i db)) <-> (j, v) ∈ collection db /\ j <> i.
Proof.
  unfold delete, modify, collection. simpl. rewrite !list_elem_of_omap.
  assert (Hf : forall p, p ∈ List.filter (fun p => negb (is_doc_of (D:=D) i p)) (docs db) <->
                         p ∈ docs db /\ is_doc_of (D:=D) i p = false).
  { intros p. rewrite list_elem_of_In, filter_In, <- list_elem_of_In, negb_true_iff. done. }
  setoid_rewrite Hf. split.
  - intros ([k x] & [Hin Hk] & Hx). simpl in *. unfold is_doc_of in Hk. simpl in Hk.
    destruct (of_doc x) eqn:Ex; simplify_eq/=. split; [exists (j, x); split; [done|]; simpl; by rewrite Ex|].
    intros ->. by rewrite N.eqb_refl in Hk.
  - intros [([k x] & Hin & Hx) Hj]. exists (k, x). simpl in *.
    destruct (of_doc x) eqn:Ex; simplify_eq/=. unfold is_doc_of. simpl. rewrite Ex.
    by rewrite (proj2 (N.eqb_neq j i) Hj).
Qed.

Lemma next_id_delete i db : next_id (snd (delete D i db)) = next_id db.
Proof. done. Qed.

Lemma next_id_save i (d : D) db : next_id (snd (save i d db)) = next_id db.
Proof. unfold save, modify. simpl. by destruct (existsb _ _). Qed.

Lemma list_filter_sublist {A} (f : A -> bool) (l : list A) : List.filter f l `sublist_of` l.
Proof. induction l as [|x l IH]; simpl; [done|]. destruct (f x); by constructor. Qed.

Lemma wf_db_delete i db : wf_db db -> wf_db (snd (delete D i db)).
Proof.
  intros (Hnd & Hlt & Hb). unfold delete, modify. split_and!; simpl; [|rewrite Forall_forall in Hlt |- *; intros p Hp; apply Hlt; by eapply elem_of_sublist; [|apply list_filter_sublist]|done].
  eapply sublist_NoDup; [exact Hnd|]. apply fmap_sublist, list_filter_sublist.
Qed.

(** In a well-formed store an id names at most one document of a class. *)
Lemma wf_collection_same_id db i (x y : D) :
  wf_db db -> (i, x) ∈ collection db -> (i, y) ∈ collection db -> x = y.
Proof.
  intros Hwf Hx%collection_elem Hy%collection_elem.
  pose proof (wf_same_id db Hwf _ _ _ Hx Hy) as E.
  apply (f_equal (of_doc (D:=D))) in E. rewrite !of_to_doc in E. congruence.
Qed.

Lemma elem_of_collection_insert_old {D'} `{Document D'} (d : D') db j (v : D) :
  (j, v) ∈ collection db -> (j, v) ∈ collection (snd (insert d db)).
Proof. unfold insert, collection. simpl. rewrite omap_app. intros Hin. apply elem_of_app. by left. Qed.

Lemma elem_of_collection_insert_self (d : D) db : (next_id db, d) ∈ collection (snd (insert d db)).
Proof. apply (elem_of_collection_insert (docs db) _ _ d []). Qed.

Lemma is_doc_of_id {D'} `{Document D'} i p : is_doc_of (D:=D') i p = true -> p.1 = i.
Proof. unfold is_doc_of. by intros [?%N.eqb_eq _]%andb_true_iff. Qed.

Lemma elem_of_collection_save_other {D'} `{Document D'} i (d : D') db j (v : D) :
  (j, v) ∈ collection db -> j <> i -> (j, v) ∈ collection (snd (save i d db)).
Proof.
  intros Hin%collection_elem Hj. apply elem_of_collection. unfold save, modify.
  destruct (existsb _ _); simpl; [|apply elem_of_app; by left].
  apply list_elem_of_fmap. exists (j, to_doc v). split; [|done].
  destruct (is_doc_of i _) eqn:E; [|done]. apply is_doc_of_id in E. simpl in E. congruence.
Qed.

Lemma elem_of_collection_save_self i (d : D) db : (i, d) ∈ collection (snd (save i d db)).
Proof.
  apply elem_of_collection. unfold save, modify. destruct (existsb _ _) eqn:Ex; simpl.
  - apply existsb_exists in Ex as (p & Hp & Ei). apply list_elem_of_fmap. exists p.
    rewrite Ei. split; [done|]. by apply list_elem_of_In.
  - apply elem_of_app. right. apply list_elem_of_here.
Qed.

Lemma wf_db_insert {D'} `{Document D'} (d : D') db :
  wf_db db -> (next_id db < 16 ^ 24)%N -> wf_db (snd (insert d db)).
Proof.
  intros (Hnd & Hlt & Hb) Hn. unfold insert. split_and!; simpl.
  - rewrite fmap_app. apply NoDup_app. split_and!; [done| |apply NoDup_singleton].
    intros x Hx ->%list_elem_of_singleton. apply list_elem_of_fmap in Hx as (p & Hp & Hin).
    rewrite Forall_forall in Hlt. specialize (Hlt p Hin). destruct p as [k x]. simpl in *. subst k. lia.
  - apply Forall_app. split; [|apply Forall_singleton; simpl; lia].
    eapply Forall_impl; [exact Hlt|]. simpl. lia.
  - lia.
Qed.

(** Saving under the id of a stored document of the class replaces it in place. *)
Lemma wf_db_save i (d d0 : D) db : wf_db db -> (i, d0) ∈ collection db -> wf_db (snd (save i d db)).
Proof.
  intros (Hnd & Hlt & Hb) Hin%collection_elem. unfold save, modify.
  assert (Ex : existsb (is_doc_of i) (docs db) = true).
  { apply existsb_exists. exists (i, to_doc d0). split; [by apply list_elem_of_In|].
    unfold is_doc_of. simpl. by rewrite N.eqb_refl, of_to_doc. }
  rewrite Ex. assert (Hfst : map fst (map (fun p => if is_doc_of i p then (i, to_doc d) else p) (docs db))
                             = map fst (docs db)).
  { rewrite map_map. apply map_ext. intros p. destruct (is_doc_of i p) eqn:E; [|done].
    by apply is_doc_of_id in E. }
  split_and!; simpl; [|..|done].
  - change (NoDup (map fst (map (fun p => if is_doc_of i p then (i, to_doc d) else p) (docs db)))).
    by rewrite Hfst.
  - apply Forall_forall. intros p (q & -> & Hq)%list_elem_of_fmap.
    rewrite Forall_forall in Hlt. specialize (Hlt q Hq).
    destruct (is_doc_of i q) eqn:E; [|done]. apply is_doc_of_id in E. destruct q as [k x]. simpl in *. by subst k.
Qed.
End Writes.
