(* ===== verification/Aggregate.v ===== *)
(** * Outline aggregation (api/studio/channel/middlewares.py)

    [get_channel_content_outline_stats(channel_id, uid)] checks that the
    channel belongs to [uid], walks the five-level outline (sections,
    units, activities, then lessons and quizzes with their questions),
    counts every level, builds the nested [outline_content] dict and saves
    both onto the Channel document. Every mutating endpoint of the studio
    calls it.

    All reads of the walk happen before the only write ([channel.save()]),
    so the walk is modelled as pure functions of one snapshot [db] of the
    store; each Python [for] loop is a [fold_left] whose step function is
    the loop body, threading the [stats] dict and the list being built. *)

From S2P Require Import Prelude ObjectId PySort Json Documents.

(** The [stats] dict of the routine (lines 35-43). *)
Record Stats := mkStats {
  section_count : Z; unit_count : Z; activity_count : Z; lesson_count : Z;
  quiz_count : Z; question_count : Z; total_lesson_quiz_count : Z }.

Definition stats0 : Stats := mkStats 0 0 0 0 0 0 0.

(** [stats["section_count"] += 1] and its siblings. *)
Definition incr_section (s : Stats) : Stats :=
  mkStats (section_count s + 1) (unit_count s) (activity_count s) (lesson_count s)
          (quiz_count s) (question_count s) (total_lesson_quiz_count s).
Definition incr_unit (s : Stats) : Stats :=
  mkStats (section_count s) (unit_count s + 1) (activity_count s) (lesson_count s)
          (quiz_count s) (question_count s) (total_lesson_quiz_count s).
Definition incr_activity (s : Stats) : Stats :=
  mkStats (section_count s) (unit_count s) (activity_count s + 1) (lesson_count s)
          (quiz_count s) (question_count s) (total_lesson_quiz_count s).
(** lines 79-80 *)
Definition incr_lesson (s : Stats) : Stats :=
  mkStats (section_count s) (unit_count s) (activity_count s) (lesson_count s + 1)
          (quiz_count s) (question_count s) (total_lesson_quiz_count s + 1).
(** lines 111-112 and 117 *)
Definition incr_quiz (nq : Z) (s : Stats) : Stats :=
  mkStats (section_count s) (unit_count s) (activity_count s) (lesson_count s)
          (quiz_count s + 1) (question_count s + nq) (total_lesson_quiz_count s + 1).

(** ** The dicts of [outline_content] *)

Definition jopt_str : option string -> json := jopt JStr.
Definition jopt_bool : option bool -> json := jopt JBool.
Definition jopt_int : option Z -> json := jopt JInt.

(** lines 90-99 *)
Definition lesson_json (p : oid * Lesson.t) : json :=
  let '(i, l) := p in
  JDict [("id", JStr (oid_str i)); ("lesson_type", JStr (Lesson.lesson_type l));
         ("text", jopt_str (Lesson.text l));
         ("file_ids", jopt (fun fs => JList (map JStr fs)) (Lesson.file_ids l));
         ("question_lesson", jopt id (Lesson.question_lesson l));
         ("order", JInt (Lesson.order l));
         ("is_launched", jopt_bool (Lesson.is_launched l)); ("is_free", jopt_bool (Lesson.is_free l))].

(** lines 83-102 *)
Definition lesson_item (p : oid * LessonOutline.t) (lessons : list (oid * Lesson.t)) : json :=
  let '(i, lo) := p in
  JDict [("id", JStr (oid_str i)); ("name", JStr (LessonOutline.name lo));
         ("order", JInt (LessonOutline.order lo)); ("count", jopt_int (LessonOutline.lesson_count lo));
         ("type", JStr "lesson"); ("content", JList (map lesson_json lessons))].

(** lines 128-138 *)
Definition question_json (p : oid * Question.t) : json :=
  let '(i, q) := p in
  JDict [("id", JStr (oid_str i)); ("time_limit", jopt_int (Question.time_limit q));
         ("points", jopt_int (Question.points q)); ("template", Question.template q);
         ("generated_question", jopt id (Question.generated_question q));
         ("file_id", jopt_str (Question.file_id q));
         ("check_function", jopt_str (Question.check_function q));
         ("order", jopt_int (Question.order q)); ("is_accepted", jopt_bool (Question.is_accepted q))].

(** lines 119-141 *)
Definition quiz_item (p : oid * QuizOutline.t) (questions : list (oid * Question.t)) : json :=
  let '(i, qo) := p in
  JDict [("id", JStr (oid_str i)); ("name", JStr (QuizOutline.name qo));
         ("order", JInt (QuizOutline.order qo)); ("count", JInt (QuizOutline.quiz_count qo));
         ("type", JStr "quiz");
         ("is_launched", jopt_bool (QuizOutline.is_launched qo));
         ("is_free", jopt_bool (QuizOutline.is_free qo));
         ("content", JList (map question_json questions))].

(** lines 146-157 *)
Definition activity_json (p : oid * ActivityOutline.t) (content : list json)
    (activity_content : option (oid * Activity.t)) : json :=
  let '(i, a) := p in
  JDict [("id", JStr (oid_str i)); ("name", JStr (ActivityOutline.name a));
         ("order", JInt (ActivityOutline.order a));
         ("count", jopt_int (ActivityOutline.lesson_quiz_count a));
         ("content", JList content);
         ("description", jopt (fun c => JStr (Activity.description c.2)) activity_content);
         ("file_id", jopt (fun c => JStr (Activity.file_id c.2)) activity_content);
         ("difficulty_level", jopt (fun c => JInt (Activity.difficulty_level c.2)) activity_content);
         ("is_launched", match activity_content with
                         | Some c => jopt_bool (Activity.is_launched c.2)
                         | None => JBool false end)].

(** lines 159-167 *)
Definition unit_json (p : oid * UnitOutline.t) (unit_activities : list json)
    (unit_content : option (oid * Unit.t)) : json :=
  let '(i, u) := p in
  JDict [("id", JStr (oid_str i)); ("name", JStr (UnitOutline.name u));
         ("order", JInt (UnitOutline.order u)); ("activities", JList unit_activities);
         ("description", jopt (fun c => JStr (Unit.description c.2)) unit_content);
         ("file_id", jopt (fun c => JStr (Unit.file_id c.2)) unit_content)].

(** lines 169-177 *)
Definition section_json (p : oid * SectionOutline.t) (section_units : list json)
    (section_content : option (oid * Section.t)) : json :=
  let '(i, s) := p in
  JDict [("id", JStr (oid_str i)); ("name", JStr (SectionOutline.name s));
         ("order", JInt (SectionOutline.order s)); ("units", JList section_units);
         ("description", jopt (fun c => JStr (Section.description c.2)) section_content);
         ("file_id", jopt (fun c => jopt_str (Section.file_id c.2)) section_content)].

(** The sort key of line 144, [x["order"]]; every item built above has an
    integer ["order"], so the default is never used. *)
Definition json_order (j : json) : Z :=
  match py_item j "order" with inr (JInt z) => z | _ => 0 end.

(** ** The walk (lines 30-177) over a snapshot [db] *)
Section Walk.
Variable db : DB.

(** line 82 *)
Definition lessons_of (lo : oid) : list (oid * Lesson.t) :=
  find_sorted_in db Lesson.order (fun _ l => field_is (Lesson.lesson_outline_id l) (oid_str lo)).

(** lines 114-116 *)
Definition questions_of (qo : oid) : list (oid * Question.t) :=
  find_sorted_in db Question.order (fun _ q => field_is (Question.quiz_outline_id q) (oid_str qo)).

(** lines 72-74 and 106-108 *)
Definition lesson_outlines_of (a : oid) : list (oid * LessonOutline.t) :=
  find_sorted_in db LessonOutline.order
    (fun _ lo => field_is (LessonOutline.activity_outline_id lo) (oid_str a)).
Definition quiz_outlines_of (a : oid) : list (oid * QuizOutline.t) :=
  find_sorted_in db QuizOutline.order
    (fun _ qo => field_is (QuizOutline.activity_outline_id qo) (oid_str a)).

(** lines 61-63 and 51-53 and 30-32 *)
Definition activities_of (u : oid) : list (oid * ActivityOutline.t) :=
  find_sorted_in db ActivityOutline.order
    (fun _ a => field_is (ActivityOutline.unit_outline_id a) (oid_str u)).
Definition units_of (s : oid) : list (oid * UnitOutline.t) :=
  find_sorted_in db UnitOutline.order
    (fun _ u => field_is (UnitOutline.section_outline_id u) (oid_str s)).
Definition sections_of (channel_id : string) : list (oid * SectionOutline.t) :=
  find_sorted_in db SectionOutline.order
    (fun _ s => field_is (SectionOutline.channel_id s) channel_id).

(** Body of [for lesson_outline in lesson_outlines] (lines 78-103). *)
Definition lesson_step (acc : Stats * list json) (lo : oid * LessonOutline.t) : Stats * list json :=
  let '(st, content) := acc in
  (incr_lesson st, content ++ [lesson_item lo (lessons_of lo.1)]).

(** Body of [for quiz_outline in quiz_outlines] (lines 110-141). *)
Definition quiz_step (acc : Stats * list json) (qo : oid * QuizOutline.t) : Stats * list json :=
  let '(st, content) := acc in
  let questions := questions_of qo.1 in
  (incr_quiz (lenZ questions) st, content ++ [quiz_item qo questions]).

(** Body of [for activity in activities] (lines 66-157). *)
Definition activity_step (acc : Stats * list json) (a : oid * ActivityOutline.t) : Stats * list json :=
  let '(st, unit_activities) := acc in
  let activity_content :=
    find_one_in db (fun _ c => field_is (Activity.activity_outline_id c) (oid_str a.1)) in
  let '(st, content) := fold_left lesson_step (lesson_outlines_of a.1) (incr_activity st, []) in
  let '(st, content) := fold_left quiz_step (quiz_outlines_of a.1) (st, content) in
  let content := sort_by json_order content in
  (st, unit_activities ++ [activity_json a content activity_content]).

(** Body of [for unit in units] (lines 56-167). *)
Definition unit_step (acc : Stats * list json) (u : oid * UnitOutline.t) : Stats * list json :=
  let '(st, section_units) := acc in
  let unit_content := find_one_in db (fun _ c => field_is (Unit.unit_outline_id c) (oid_str u.1)) in
  let '(st, unit_activities) := fold_left activity_step (activities_of u.1) (incr_unit st, []) in
  (st, section_units ++ [unit_json u unit_activities unit_content]).

(** Body of [for section in sections] (lines 46-177). *)
Definition section_step (acc : Stats * list json) (s : oid * SectionOutline.t) : Stats * list json :=
  let '(st, outline_content) := acc in
  let section_content :=
    find_one_in db (fun _ c => field_is (Section.section_outline_id c) (oid_str s.1)) in
  let '(st, section_units) := fold_left unit_step (units_of s.1) (incr_section st, []) in
  (st, outline_content ++ [section_json s section_units section_content]).

(** Lines 30-177: the counters and the [outline_content] list. *)
Definition walk (channel_id : string) : Stats * list json :=
  fold_left section_step (sections_of channel_id) (stats0, []).
End Walk.

(** ** The routine *)

(** Lines 179-198: the Channel document after the assignments. *)
Definition updated_channel (channel : Channel.t) (st : Stats) (outline_content : list json)
    (publish_channel : option (oid * PublishChannel.t)) (info : ChannelInfo.t) : Channel.t :=
  Channel.mk (Channel.user_id channel) (Channel.name channel) (Channel.channel_id channel)
    (Channel.description channel)
    (section_count st) (unit_count st) (activity_count st) (lesson_count st)
    (quiz_count st) (question_count st) (total_lesson_quiz_count st)
    (Channel.enrolled_students channel)
    (ChannelInfo.primary_language info) (ChannelInfo.target_language info)
    (ChannelInfo.avatar_file_id info) (ChannelInfo.cover_image_file_id info)
    (match publish_channel with Some p => PublishChannel.published p.2 | None => Some false end)
    (match publish_channel with Some p => PublishChannel.channel_link p.2 | None => None end)
    (Channel.last_updated channel) (JDict [("sections", JList outline_content)]).

(** [channel_info.primary_language] on [None] *)
Definition none_attribute_error : exn :=
  PyException "AttributeError" "'NoneType' object has no attribute 'primary_language'".

(** [get_channel_content_outline_stats(channel_id, uid)] (lines 10-203):
    returns the saved Channel document and its id. *)
Definition get_channel_content_outline_stats (channel_id uid : string) : PyM DB (oid * Channel.t) :=
  except_500 (
    u ← to_oid uid;
    found ← find_one (fun _ c => field_is (Channel.channel_id c) channel_id && N.eqb (Channel.user_id c) u);
    match found with
    | None => not_found "Channel not found"
    | Some (cid, channel) =>
        db ← gets id;
        let '(st, outline_content) := walk db channel_id in
        publish_channel ← find_one (fun _ p => field_is (PublishChannel.channel_id p) channel_id);
        info_id ← to_oid channel_id;
        channel_info ← find_one (D:=ChannelInfo.t) (fun i _ => N.eqb i info_id);
        match channel_info with
        | None => raise none_attribute_error
        | Some (_, info) =>
            let channel' := updated_channel channel st outline_content publish_channel info in
            save cid channel';;
            mret (cid, channel')
        end
    end).

(** ** The loops as sums

    Each loop body adds to [stats] an amount that depends only on the
    item (and the snapshot), and appends one dict to the list it
    builds. *)
Definition stats_plus (a b : Stats) : Stats :=
  mkStats (section_count a + section_count b) (unit_count a + unit_count b)
          (activity_count a + activity_count b) (lesson_count a + lesson_count b)
          (quiz_count a + quiz_count b) (question_count a + question_count b)
          (total_lesson_quiz_count a + total_lesson_quiz_count b).

Definition stats_sum {A} (f : A -> Stats) (l : list A) : Stats :=
  fold_right (fun x acc => stats_plus (f x) acc) stats0 l.

Ltac stats_eq := repeat match goal with s : Stats |- _ => destruct s end;
                 unfold stats_plus, stats0; simpl; f_equal; lia.

Lemma stats_plus_assoc a b c : stats_plus a (stats_plus b c) = stats_plus (stats_plus a b) c.
Proof. stats_eq. Qed.

Lemma stats_plus_0_r a : stats_plus a stats0 = a.
Proof. stats_eq. Qed.

Lemma stats_plus_0_l a : stats_plus stats0 a = a.
Proof. stats_eq. Qed.

Lemma fold_stats {A} (step : Stats * list json -> A -> Stats * list json)
    (delta : A -> Stats) (item : A -> json) :
  (forall st c x, step (st, c) x = (stats_plus st (delta x), c ++ [item x])) ->
  forall l st c, fold_left step l (st, c) = (stats_plus st (stats_sum delta l), c ++ map item l).
Proof.
  intros Hstep l. induction l as [|x l IH]; intros st c; simpl.
  - by rewrite stats_plus_0_r, app_nil_r.
  - rewrite Hstep, IH, <- stats_plus_assoc, <- app_assoc. done.
Qed.

(** A counter of [stats_sum] is the sum of the counters. *)
Lemma stats_sum_proj {A} (pr : Stats -> Z) (f : A -> Stats) l :
  (forall a b, pr (stats_plus a b) = pr a + pr b) -> pr stats0 = 0 ->
  pr (stats_sum f l) = sumZ (fun x => pr (f x)) l.
Proof.
  intros Hadd H0. induction l as [|x l IH]; simpl; [done|]. by rewrite Hadd, IH.
Qed.

Section WalkSums.
Variable db : DB.

Definition lesson_delta : Stats := mkStats 0 0 0 1 0 0 1.
Definition quiz_delta (qo : oid * QuizOutline.t) : Stats :=
  mkStats 0 0 0 0 1 (lenZ (questions_of db qo.1)) 1.

(** The [content] list of an activity (lines 77-144). *)
Definition activity_content (a : oid) : list json :=
  sort_by json_order
    (map (fun lo => lesson_item lo (lessons_of db lo.1)) (lesson_outlines_of db a) ++
     map (fun qo => quiz_item qo (questions_of db qo.1)) (quiz_outlines_of db a)).

Definition activity_delta (a : oid * ActivityOutline.t) : Stats :=
  stats_plus (mkStats 0 0 1 0 0 0 0)
    (stats_plus (stats_sum (fun _ => lesson_delta) (lesson_outlines_of db a.1))
                (stats_sum quiz_delta (quiz_outlines_of db a.1))).
Definition activity_item (a : oid * ActivityOutline.t) : json :=
  activity_json a (activity_content a.1)
    (find_one_in db (fun _ c => field_is (Activity.activity_outline_id c) (oid_str a.1))).

Definition unit_delta (u : oid * UnitOutline.t) : Stats :=
  stats_plus (mkStats 0 1 0 0 0 0 0) (stats_sum activity_delta (activities_of db u.1)).
Definition unit_item (u : oid * UnitOutline.t) : json :=
  unit_json u (map activity_item (activities_of db u.1))
    (find_one_in db (fun _ c => field_is (Unit.unit_outline_id c) (oid_str u.1))).

Definition section_delta (s : oid * SectionOutline.t) : Stats :=
  stats_plus (mkStats 1 0 0 0 0 0 0) (stats_sum unit_delta (units_of db s.1)).
Definition section_item (s : oid * SectionOutline.t) : json :=
  section_json s (map unit_item (units_of db s.1))
    (find_one_in db (fun _ c => field_is (Section.section_outline_id c) (oid_str s.1))).

Lemma lesson_step_eq st c lo :
  lesson_step db (st, c) lo = (stats_plus st lesson_delta, c ++ [lesson_item lo (lessons_of db lo.1)]).
Proof. unfold lesson_step. f_equal. unfold incr_lesson. stats_eq. Qed.

Lemma quiz_step_eq st c qo :
  quiz_step db (st, c) qo = (stats_plus st (quiz_delta qo), c ++ [quiz_item qo (questions_of db qo.1)]).
Proof. unfold quiz_step. f_equal. unfold incr_quiz, quiz_delta. stats_eq. Qed.

Lemma activity_step_eq st c a :
  activity_step db (st, c) a = (stats_plus st (activity_delta a), c ++ [activity_item a]).
Proof.
  unfold activity_step. rewrite (fold_stats _ _ _ lesson_step_eq).
  rewrite (fold_stats _ _ _ quiz_step_eq). simpl. f_equal.
  unfold activity_delta, incr_activity. stats_eq.
Qed.

Lemma unit_step_eq st c u :
  unit_step db (st, c) u = (stats_plus st (unit_delta u), c ++ [unit_item u]).
Proof.
  unfold unit_step. rewrite (fold_stats _ _ _ activity_step_eq). simpl. f_equal.
  unfold unit_delta, incr_unit. stats_eq.
Qed.

Lemma section_step_eq st c s :
  section_step db (st, c) s = (stats_plus st (section_delta s), c ++ [section_item s]).
Proof.
  unfold section_step. rewrite (fold_stats _ _ _ unit_step_eq). simpl. f_equal.
  unfold section_delta, incr_section. stats_eq.
Qed.

(** The walk computes one sum and one map over the sorted sections. *)
Lemma walk_eq cid :
  walk db cid = (stats_sum section_delta (sections_of db cid), map section_item (sections_of db cid)).
Proof. unfold walk. rewrite (fold_stats _ _ _ section_step_eq). by rewrite stats_plus_0_l. Qed.
End WalkSums.

(** ** What the counters count *)

(** Stats whose total is the lesson count plus the quiz count. *)
Definition lens_stats (s u a l q qn : Z) : Stats := mkStats s u a l q qn (l + q).

Lemma stats_sum_lens {X} (fs fu fa fl fq fqn : X -> Z) xs :
  stats_sum (fun x => lens_stats (fs x) (fu x) (fa x) (fl x) (fq x) (fqn x)) xs =
  lens_stats (sumZ fs xs) (sumZ fu xs) (sumZ fa xs) (sumZ fl xs) (sumZ fq xs) (sumZ fqn xs).
Proof.
  induction xs as [|x xs IH]; simpl; [reflexivity|]. rewrite IH.
  unfold lens_stats, stats_plus; simpl; f_equal; lia.
Qed.

Lemma stats_sum_ext {X} (f g : X -> Stats) xs :
  (forall x, f x = g x) -> stats_sum f xs = stats_sum g xs.
Proof. intros H. induction xs; simpl; [done|]. by rewrite H, IHxs. Qed.

Lemma sumZ_lenZ {X Y} (g : X -> list Y) xs : sumZ (fun x => lenZ (g x)) xs = lenZ (flat_map g xs).
Proof. induction xs; simpl; [done|]. by rewrite lenZ_app, IHxs. Qed.

Lemma sumZ_one {X} (xs : list X) : sumZ (fun _ => 1) xs = lenZ xs.
Proof. apply sumZ_const1. Qed.

Section WalkCounts.
Variable db : DB.

Definition questions_under (a : oid * ActivityOutline.t) : list (oid * Question.t) :=
  flat_map (fun q => questions_of db q.1) (quiz_outlines_of db a.1).

Lemma activity_delta_eq a :
  activity_delta db a = lens_stats 0 0 1 (lenZ (lesson_outlines_of db a.1))
                          (lenZ (quiz_outlines_of db a.1)) (lenZ (questions_under a)).
Proof.
  unfold activity_delta, quiz_delta, lesson_delta, questions_under.
  rewrite (stats_sum_ext (X:=oid * LessonOutline.t) _ (fun _ => lens_stats 0 0 0 1 0 0)) by reflexivity.
  rewrite (stats_sum_ext (X:=oid * QuizOutline.t) _ (fun q => lens_stats 0 0 0 0 1 (lenZ (questions_of db q.1)))) by reflexivity.
  rewrite !stats_sum_lens, sumZ_lenZ, !sumZ_one.
  rewrite ?sumZ_0. unfold lens_stats, stats_plus; simpl; f_equal; lia.
Qed.

Definition unit_lessons (u : oid * UnitOutline.t) := flat_map (fun a => lesson_outlines_of db a.1) (activities_of db u.1).
Definition unit_quizzes (u : oid * UnitOutline.t) := flat_map (fun a => quiz_outlines_of db a.1) (activities_of db u.1).
Definition unit_questions (u : oid * UnitOutline.t) := flat_map questions_under (activities_of db u.1).

Lemma unit_delta_eq u :
  unit_delta db u = lens_stats 0 1 (lenZ (activities_of db u.1)) (lenZ (unit_lessons u))
                               (lenZ (unit_quizzes u)) (lenZ (unit_questions u)).
Proof.
  unfold unit_delta, unit_lessons, unit_quizzes, unit_questions.
  rewrite (stats_sum_ext _ _ _ activity_delta_eq), stats_sum_lens, !sumZ_lenZ, !sumZ_one, ?sumZ_0.
  unfold lens_stats, stats_plus; simpl; f_equal; lia.
Qed.

Definition section_activities (s : oid * SectionOutline.t) := flat_map (fun u => activities_of db u.1) (units_of db s.1).
Definition section_lessons (s : oid * SectionOutline.t) := flat_map unit_lessons (units_of db s.1).
Definition section_quizzes (s : oid * SectionOutline.t) := flat_map unit_quizzes (units_of db s.1).
Definition section_questions (s : oid * SectionOutline.t) := flat_map unit_questions (units_of db s.1).

Lemma section_delta_eq s :
  section_delta db s = lens_stats 1 (lenZ (units_of db s.1)) (lenZ (section_activities s))
    (lenZ (section_lessons s)) (lenZ (section_quizzes s)) (lenZ (section_questions s)).
Proof.
  unfold section_delta, section_activities, section_lessons, section_quizzes, section_questions.
  rewrite (stats_sum_ext _ _ _ unit_delta_eq), stats_sum_lens, !sumZ_lenZ, !sumZ_one, ?sumZ_0.
  unfold lens_stats, stats_plus; simpl; f_equal; lia.
Qed.

(** The lists of outline documents the walk visits, level by level. *)
Definition walk_units cid := flat_map (fun s => units_of db s.1) (sections_of db cid).
Definition walk_activities cid := flat_map section_activities (sections_of db cid).
Definition walk_lessons cid := flat_map section_lessons (sections_of db cid).
Definition walk_quizzes cid := flat_map section_quizzes (sections_of db cid).
Definition walk_questions cid := flat_map section_questions (sections_of db cid).

(** Each counter of the walk is the number of documents it visits at
    that level, and the total is lessons plus quizzes. *)
Lemma walk_stats cid :
  (walk db cid).1 = lens_stats (lenZ (sections_of db cid)) (lenZ (walk_units cid))
                      (lenZ (walk_activities cid)) (lenZ (walk_lessons cid))
                      (lenZ (walk_quizzes cid)) (lenZ (walk_questions cid)).
Proof.
  rewrite walk_eq. simpl.
  rewrite (stats_sum_ext _ _ _ section_delta_eq), stats_sum_lens, !sumZ_lenZ, !sumZ_one.
  reflexivity.
Qed.
End WalkCounts.

(** ** The live documents of a channel

    The specification of the counters: the outline documents that
    currently hang below the channel, level by level, whatever their
    [order] fields. *)
Section Live.
Variable db : DB.

Definition live_sections (cid : string) : list (oid * SectionOutline.t) :=
  find_in db (fun _ s => field_is (SectionOutline.channel_id s) cid).
Definition live_units (cid : string) : list (oid * UnitOutline.t) :=
  find_in db (fun _ u => bool_decide (UnitOutline.section_outline_id u ∈ ids_of (live_sections cid))).
Definition live_activities (cid : string) : list (oid * ActivityOutline.t) :=
  find_in db (fun _ a => bool_decide (ActivityOutline.unit_outline_id a ∈ ids_of (live_units cid))).
Definition live_lessons (cid : string) : list (oid * LessonOutline.t) :=
  find_in db (fun _ l => bool_decide (LessonOutline.activity_outline_id l ∈ ids_of (live_activities cid))).
Definition live_quizzes (cid : string) : list (oid * QuizOutline.t) :=
  find_in db (fun _ q => bool_decide (QuizOutline.activity_outline_id q ∈ ids_of (live_activities cid))).
Definition live_questions (cid : string) : list (oid * Question.t) :=
  find_in db (fun _ q => bool_decide (Question.quiz_outline_id q ∈ ids_of (live_quizzes cid))).

(** Querying the children of each parent, sorted, finds the children
    of all parents, when the parents have distinct ids. *)
Lemma children_perm {C X K} `{Document C} `{KeyOrder K} (key : C -> K) (parent : C -> string)
    (ps ps' : list (oid * X)) :
  NoDup (ids_of ps') -> ps ≡ₚ ps' ->
  flat_map (fun p => find_sorted_in db key (fun _ c => field_is (parent c) (oid_str p.1))) ps ≡ₚ
  find_in db (fun _ c => bool_decide (parent c ∈ ids_of ps')).
Proof.
  intros Hnd Hperm. unfold find_sorted_in.
  rewrite (flat_map_perm_ext _ (fun p => find_in db (fun _ c => field_is (parent c) (oid_str p.1))))
    by (intros; apply sort_by_perm).
  rewrite Hperm. unfold ids_of in *. rewrite <- (flat_map_map_perm (fun p => oid_str p.1)
    (fun k => find_in db (fun _ c => field_is (parent c) k))).
  unfold find_in, field_is. by apply (flat_map_filter_keys (fun x => parent x.2)).
Qed.

Lemma sections_of_live cid : sections_of db cid ≡ₚ live_sections cid.
Proof. apply sort_by_perm. Qed.

Context (Hwf : wf_db db).

Lemma walk_units_live cid : walk_units db cid ≡ₚ live_units cid.
Proof.
  apply children_perm; [by apply find_in_ids_NoDup | apply sort_by_perm].
Qed.

Lemma walk_activities_live cid : walk_activities db cid ≡ₚ live_activities cid.
Proof.
  unfold walk_activities, section_activities. rewrite <- flat_map_flat_map.
  apply children_perm; [by apply find_in_ids_NoDup | apply walk_units_live].
Qed.

Lemma walk_lessons_live cid : walk_lessons db cid ≡ₚ live_lessons cid.
Proof.
  unfold walk_lessons, section_lessons, unit_lessons.
  rewrite (flat_map_ext _ (fun s => flat_map (fun a => lesson_outlines_of db a.1)
             (flat_map (fun u => activities_of db u.1) (units_of db s.1))))
    by (intros; by rewrite flat_map_flat_map).
  rewrite <- flat_map_flat_map.
  apply children_perm; [by apply find_in_ids_NoDup | apply walk_activities_live].
Qed.

Lemma walk_quizzes_live cid : walk_quizzes db cid ≡ₚ live_quizzes cid.
Proof.
  unfold walk_quizzes, section_quizzes, unit_quizzes.
  rewrite (flat_map_ext _ (fun s => flat_map (fun a => quiz_outlines_of db a.1)
             (flat_map (fun u => activities_of db u.1) (units_of db s.1))))
    by (intros; by rewrite flat_map_flat_map).
  rewrite <- flat_map_flat_map.
  apply children_perm; [by apply find_in_ids_NoDup | apply walk_activities_live].
Qed.

Lemma walk_questions_live cid : walk_questions db cid ≡ₚ live_questions cid.
Proof.
  unfold walk_questions, section_questions, unit_questions, questions_under.
  rewrite (flat_map_ext _ (fun s => flat_map (fun q => questions_of db q.1)
             (flat_map (fun a => quiz_outlines_of db a.1)
               (flat_map (fun u => activities_of db u.1) (units_of db s.1)))))
    by (intros; by rewrite !flat_map_flat_map).
  rewrite <- flat_map_flat_map.
  apply children_perm; [by apply find_in_ids_NoDup|].
  rewrite <- walk_quizzes_live. unfold walk_quizzes, section_quizzes, unit_quizzes.
  apply Permutation_refl', flat_map_ext. intros. by rewrite flat_map_flat_map.
Qed.
End Live.

(** ** Runs of the routine *)

(** What a successful run saved: the owner's Channel document with the
    walk's counters and outline. *)
Lemma aggregation_success db cid uid r db' :
  get_channel_content_outline_stats cid uid db = (inr r, db') ->
  exists u channel pc info,
    parse_oid uid = Some u /\
    find_one_in db (fun _ c => field_is (Channel.channel_id c) cid && N.eqb (Channel.user_id c) u)
      = Some (r.1, channel) /\
    r.2 = updated_channel channel (walk db cid).1 (walk db cid).2 pc info /\
    db' = final (save r.1 r.2) db.
Proof.
  unfold get_channel_content_outline_stats. intros H. apply except_500_inr in H.
  unfold to_oid in H. destruct (parse_oid uid) as [u|] eqn:Hu; [|discriminate].
  pyrun. destruct (find_one_in db _) as [[cid' channel]|] eqn:Hf; [|discriminate].
  pyrun. destruct (walk db cid) as [st oc] eqn:Hw. pyrun.
  destruct (parse_oid cid) as [ii|]; [|discriminate]. pyrun.
  destruct (find_one_in (D:=ChannelInfo.t) db _) as [[? info]|]; [|discriminate].
  unfold save in H. pyrun. injection H as <- <-. simpl. exists u, channel, (find_one_in db (fun _ p => field_is (PublishChannel.channel_id p) cid)), info.
  rewrite ?Hw. repeat split; auto.
Qed.

(** ** Properties *)

(** The counters the spec asks for: each equals the number of live
    outline documents of its level. *)
Definition channel_stats_live (db : DB) (cid : string) (ch : Channel.t) : Prop :=
  Channel.section_count ch = lenZ (live_sections db cid) /\
  Channel.unit_count ch = lenZ (live_units db cid) /\
  Channel.activity_count ch = lenZ (live_activities db cid) /\
  Channel.lesson_count ch = lenZ (live_lessons db cid) /\
  Channel.quiz_count ch = lenZ (live_quizzes db cid) /\
  Channel.question_count ch = lenZ (live_questions db cid) /\
  Channel.total_lesson_quiz_count ch = lenZ (live_lessons db cid) + lenZ (live_quizzes db cid).

(** (C1) Whenever [get_channel_content_outline_stats] succeeds on a
    well-formed store, the Channel document it saves and returns carries,
    at every level, the number of outline documents that currently hang
    below the channel: sections, units, activities, lesson outlines, quiz
    outlines, questions, and lessons plus quizzes as the total. *)
Theorem aggregation_counts_live db cid uid r db' :
  wf_db db ->
  get_channel_content_outline_stats cid uid db = (inr r, db') ->
  channel_stats_live db cid r.2.
Proof.
  intros Hwf H. destruct (aggregation_success _ _ _ _ _ H) as (u & ch & pc & info & _ & _ & -> & _).
  unfold channel_stats_live, updated_channel. simpl. rewrite walk_stats. simpl.
  rewrite (lenZ_perm _ _ (sections_of_live db cid)).
  rewrite (lenZ_perm _ _ (walk_units_live db Hwf cid)), (lenZ_perm _ _ (walk_activities_live db Hwf cid)),
    (lenZ_perm _ _ (walk_lessons_live db Hwf cid)), (lenZ_perm _ _ (walk_quizzes_live db Hwf cid)),
    (lenZ_perm _ _ (walk_questions_live db Hwf cid)).
  repeat split.
Qed.

(** The scenario of the spec (section 8): a channel, a section "Intro",
    a unit, an activity and a lesson outline with one lesson, all with
    [order = 1]. The ChannelInfo has id 1, the Channel document id 2, the
    owner is user 7. *)
Definition demo_info : ChannelInfo.t := ChannelInfo.mk "000000000000000000000007" "Python"
  None (Some "en") None None None.
Definition demo_channel : Channel.t := Channel.mk 7%N "Python" (oid_str 1%N) "Learn Python"
  0 0 0 0 0 0 0 0 None None None None (Some false) None 0 (JDict []).
Definition demo_db : DB := mkDB
  [(1%N, DChannelInfo demo_info); (2%N, DChannel demo_channel);
   (3%N, DSectionOutline (SectionOutline.mk (oid_str 1%N) "Intro" 1));
   (4%N, DUnitOutline (UnitOutline.mk (oid_str 3%N) "Unit" 1));
   (5%N, DActivityOutline (ActivityOutline.mk (oid_str 4%N) "Activity" 1 (Some 0) (Some 0)));
   (6%N, DLessonOutline (LessonOutline.mk (oid_str 5%N) "Lesson" 1 (Some 0)));
   (7%N, DLesson (Lesson.mk (oid_str 6%N) "text" (Some "hello") None None 1 (Some false) (Some false)))]
  8%N.
Definition demo_cid : string := oid_str 1%N.
Definition demo_uid : string := oid_str 7%N.

Definition demo_result : oid * Channel.t :=
  match outcome (get_channel_content_outline_stats demo_cid demo_uid) demo_db with
  | inr r => r | inl _ => (0%N, demo_channel) end.
Definition demo_final : DB := final (get_channel_content_outline_stats demo_cid demo_uid) demo_db.

Lemma demo_db_wf : wf_db demo_db.
Proof. split; [|split]; apply (bool_decide_unpack _); vm_compute; reflexivity. Qed.

Lemma aggregation_counts_live_witness :
  channel_stats_live demo_db demo_cid demo_result.2 /\ Channel.section_count demo_result.2 = 1 /\
  Channel.total_lesson_quiz_count demo_result.2 = 1.
Proof.
  split; [|split; vm_compute; reflexivity].
  apply (aggregation_counts_live demo_db demo_cid demo_uid demo_result demo_final demo_db_wf).
  vm_compute. reflexivity.
Defined.

Lemma exn_str_channel_not_found :
  exn_str (HTTPException 404 "Channel not found") = "404: Channel not found".
Proof. vm_compute. reflexivity. Qed.

(** The run of the routine when the caller owns no Channel document
    with this [channel_id]: it raises before any write. *)
Lemma stats_no_channel db cid uid u :
  parse_oid uid = Some u ->
  find_one_in db (fun _ c => field_is (Channel.channel_id c) cid && N.eqb (Channel.user_id c) u) = None ->
  get_channel_content_outline_stats cid uid db =
    (inl (HTTPException 500 (exn_str (HTTPException 404 "Channel not found"))), db).
Proof.
  intros Hu Hf. unfold get_channel_content_outline_stats, except_500, to_oid.
  rewrite Hu. pyrun. by rewrite Hf.
Qed.

(** The routine succeeds when the caller owns a Channel with this
    [channel_id] and a ChannelInfo has that id. *)
Lemma stats_ok db cid uid u ci :
  parse_oid uid = Some u ->
  is_Some (find_one_in db (fun _ c => field_is (Channel.channel_id c) cid && N.eqb (Channel.user_id c) u)) ->
  parse_oid cid = Some ci ->
  is_Some (find_one_in (D:=ChannelInfo.t) db (fun i _ => N.eqb i ci)) ->
  exists r db', get_channel_content_outline_stats cid uid db = (inr r, db').
Proof.
  intros Hu [[chi ch] Hch] Hc [[ii info] Hi].
  unfold get_channel_content_outline_stats, except_500, to_oid. rewrite Hu. pyrun. rewrite Hch. pyrun.
  destruct (walk db cid). pyrun. rewrite Hc. pyrun. rewrite Hi. pyrun. eauto.
Qed.

(** The routine writes nothing but the Channel document it found. *)
Lemma stats_keeps {D} `{Document D} cid uid :
  disjoint_classes D Channel.t -> keeps D (get_channel_content_outline_stats cid uid).
Proof.
  intros Hd c. unfold get_channel_content_outline_stats, to_oid. preserve.
  apply (keeps_save_other Hd).
Qed.

(** (C3) When no Channel document with this [channel_id] belongs to the
    caller, the routine answers HTTP 500 whose detail is the text of the
    404 it raised ("404: Channel not found"), not the 404 the spec
    promises, and it writes nothing. *)
Theorem aggregation_not_owner db cid uid u :
  parse_oid uid = Some u ->
  find_one_in db (fun _ c => field_is (Channel.channel_id c) cid && N.eqb (Channel.user_id c) u) = None ->
  get_channel_content_outline_stats cid uid db =
    (inl (HTTPException 500 "404: Channel not found"), db).
Proof.
  intros Hu Hf. unfold get_channel_content_outline_stats, except_500, to_oid.
  rewrite Hu. pyrun. rewrite Hf. pyrun. rewrite <- exn_str_channel_not_found. reflexivity.
Qed.

Lemma aggregation_not_owner_witness :
  get_channel_content_outline_stats demo_cid (oid_str 8%N) demo_db =
    (inl (HTTPException 500 "404: Channel not found"), demo_db).
Proof. apply (aggregation_not_owner demo_db demo_cid (oid_str 8%N) 8%N); vm_compute; reflexivity. Defined.

Lemma json_order_lesson_item lo ls : json_order (lesson_item lo ls) = LessonOutline.order lo.2.
Proof. by destruct lo. Qed.

Lemma json_order_quiz_item qo qs : json_order (quiz_item qo qs) = QuizOutline.order qo.2.
Proof. by destruct qo. Qed.

(** The [content] list of an activity is sorted by [order]; among the
    items with the same [order], the lesson outlines come first and then
    the quiz outlines, each group in the order of its query. *)
Lemma activity_content_order db (a : oid) :
  Sorted (fun x y => json_order x <= json_order y) (activity_content db a) /\
  forall k, List.filter (fun j => Z.eqb (json_order j) k) (activity_content db a) =
    map (fun lo => lesson_item lo (lessons_of db lo.1))
        (List.filter (fun lo => Z.eqb (LessonOutline.order lo.2) k) (lesson_outlines_of db a)) ++
    map (fun qo => quiz_item qo (questions_of db qo.1))
        (List.filter (fun qo => Z.eqb (QuizOutline.order qo.2) k) (quiz_outlines_of db a)).
Proof.
  split; [apply sorted_key_le_Z, sort_by_sorted|]. intros k. unfold activity_content.
  rewrite (filter_ext _ (fun j => key_eqb (json_order j) k)) by (intros; by rewrite key_eqb_Z).
  rewrite sort_by_stable, List.filter_app, !filter_map_comm.
  rewrite (filter_ext (fun x => key_eqb (json_order (lesson_item x _)) k)
             (fun lo => Z.eqb (LessonOutline.order lo.2) k))
    by (intros; by rewrite json_order_lesson_item, key_eqb_Z).
  rewrite (filter_ext (fun x => key_eqb (json_order (quiz_item x _)) k)
             (fun qo => Z.eqb (QuizOutline.order qo.2) k))
    by (intros; by rewrite json_order_quiz_item, key_eqb_Z).
  done.
Qed.

(** (C6) Each activity of [outline_content]: the body of
    [for activity in activities] appends one dict to [unit_activities],
    whose [content] lists the activity's lesson and quiz outlines sorted
    by [order] with [content.sort(key=lambda x: x["order"])]; Python's
    sort is stable, so among items of equal [order] the lesson outlines
    come first and then the quiz outlines, each group in the order of its
    query. *)
Theorem activity_step_content_order db st c (a : oid * ActivityOutline.t) :
  exists content,
    snd (activity_step db (st, c) a) =
      c ++ [activity_json a content (find_one_in db (fun _ d => field_is (Activity.activity_outline_id d) (oid_str a.1)))] /\
    Sorted (fun x y => json_order x <= json_order y) content /\
    forall k, List.filter (fun j => Z.eqb (json_order j) k) content =
      map (fun lo => lesson_item lo (lessons_of db lo.1))
          (List.filter (fun lo => Z.eqb (LessonOutline.order lo.2) k) (lesson_outlines_of db a.1)) ++
      map (fun qo => quiz_item qo (questions_of db qo.1))
          (List.filter (fun qo => Z.eqb (QuizOutline.order qo.2) k) (quiz_outlines_of db a.1)).
Proof.
  exists (activity_content db a.1). rewrite activity_step_eq. split; [reflexivity|apply activity_content_order].
Qed.
