(* ===== verification/Content.v ===== *)
(** * Content endpoints (api/studio/channel/content.py)

    One definition per route handler: create, update and delete of the
    outline nodes (section, unit, activity, lesson, quiz) and of their
    authored content (section, unit, activity, lessons, questions). Every
    handler checks that a ChannelInfo with the path's id exists, does its
    writes, re-runs [get_channel_content_outline_stats] and maps every
    exception to HTTP 500 with the exception's text.

    The writes of a handler are not undone when a later step raises: the
    store a handler leaves is the one it reached. *)

From S2P Require Import Prelude ObjectId PySort Json Documents Aggregate.

(** [payload[0]] *)
Definition first_item {S A} (l : list A) : PyM S A :=
  match l with
  | x :: _ => mret x
  | [] => raise (PyException "IndexError" "list index out of range")
  end.

(** Python truthiness of an optional query string: [None] and [""] are false. *)
Definition truthy (o : option string) : option string :=
  match o with
  | Some s => if String.eqb s "" then None else Some s
  | None => None
  end.

(** The guard at the top of every handler (e.g. lines 42-47):
    [ChannelInfo.find_one({"_id": PydanticObjectId(channel_id)})]. *)
Definition verify_channel (channel_id : string) : PyM DB unit :=
  ci ← to_oid channel_id;
  found ← find_one (D:=ChannelInfo.t) (fun i _ => N.eqb i ci);
  match found with
  | None => not_found "Channel not found"
  | Some _ => mret tt
  end.

(** [Model.find_one({"_id": PydanticObjectId(x)})] or a 404 with [what]. *)
Definition get_or_404 {D} `{Document D} (x : string) (what : string) : PyM DB (oid * D) :=
  i ← to_oid x;
  found ← find_one (D:=D) (fun j _ => N.eqb j i);
  match found with
  | None => not_found what
  | Some p => mret p
  end.

(** The re-aggregation every handler ends with. *)
Definition refresh (channel_id uid : string) : PyM DB unit :=
  get_channel_content_outline_stats channel_id uid;; mret tt.

(** ** Section outline (lines 29-138) *)

Definition create_section_outline (channel_id : string) (order : Z) (payload : SectionOutline.t)
    (uid : string) : PyM DB (oid * SectionOutline.t) :=
  except_500 (
    verify_channel channel_id;;
    let section_outline := SectionOutline.mk channel_id (SectionOutline.name payload) order in
    i ← insert section_outline;
    refresh channel_id uid;;
    mret (i, section_outline)).

Definition update_section_outline (channel_id section_outline_id : string) (payload : SectionOutline.t)
    (uid : string) : PyM DB (oid * SectionOutline.t) :=
  except_500 (
    verify_channel channel_id;;
    si ← to_oid section_outline_id;
    found ← find_one (fun i s => N.eqb i si && field_is (SectionOutline.channel_id s) channel_id);
    match found with
    | None => not_found "Section outline not found"
    | Some (i, so) =>
        let so' := SectionOutline.mk (SectionOutline.channel_id so) (SectionOutline.name payload)
                                     (SectionOutline.order payload) in
        save i so';;
        refresh channel_id uid;;
        mret (i, so')
    end).

Definition delete_section_outline (channel_id section_outline_id : string) (uid : string)
    : PyM DB string :=
  except_500 (
    verify_channel channel_id;;
    si ← to_oid section_outline_id;
    found ← find_one (fun i s => N.eqb i si && field_is (SectionOutline.channel_id s) channel_id);
    match found with
    | None => not_found "Section outline not found"
    | Some (i, _) =>
        content ← find_one (D:=Section.t) (fun _ c => field_is (Section.section_outline_id c) section_outline_id);
        match content with Some (ci, _) => delete Section.t ci | None => mret tt end;;
        delete SectionOutline.t i;;
        refresh channel_id uid;;
        mret "Section outline deleted successfully"
    end).

(** ** Section content (lines 143-193) *)

Definition create_section (channel_id : string) (section_id : option string) (payload : Section.t)
    (uid : string) : PyM DB (oid * Section.t) :=
  except_500 (
    verify_channel channel_id;;
    match truthy section_id with
    | Some sid =>
        '(i, section) ← get_or_404 (D:=Section.t) sid "Section not found";
        let section' := Section.mk (Section.section_outline_id section) (Section.name payload)
                          (Section.description payload) (Section.file_id payload) in
        save i section';;
        refresh channel_id uid;;
        mret (i, section')
    | None =>
        let section := Section.mk (Section.section_outline_id payload) (Section.name payload)
                         (Section.description payload) (Section.file_id payload) in
        i ← insert section;
        refresh channel_id uid;;
        mret (i, section)
    end).

(** ** Unit outline (lines 199-309)

    Unlike sections, the unit outline is looked up by id alone, whatever
    channel it belongs to. *)

Definition create_unit_outline (channel_id : string) (order : Z) (payload : UnitOutline.t)
    (uid : string) : PyM DB (oid * UnitOutline.t) :=
  except_500 (
    verify_channel channel_id;;
    let unit_outline := UnitOutline.mk (UnitOutline.section_outline_id payload)
                          (UnitOutline.name payload) order in
    i ← insert unit_outline;
    refresh channel_id uid;;
    mret (i, unit_outline)).

Definition update_unit_outline (channel_id unit_outline_id : string) (payload : UnitOutline.t)
    (uid : string) : PyM DB (oid * UnitOutline.t) :=
  except_500 (
    verify_channel channel_id;;
    '(i, uo) ← get_or_404 (D:=UnitOutline.t) unit_outline_id "Unit outline not found";
    let uo' := UnitOutline.mk (UnitOutline.section_outline_id uo) (UnitOutline.name payload)
                              (UnitOutline.order payload) in
    save i uo';;
    refresh channel_id uid;;
    mret (i, uo')).

Definition delete_unit_outline (channel_id unit_outline_id : string) (uid : string) : PyM DB string :=
  except_500 (
    verify_channel channel_id;;
    '(i, _) ← get_or_404 (D:=UnitOutline.t) unit_outline_id "Unit outline not found";
    content ← find_one (D:=Unit.t) (fun _ c => field_is (Unit.unit_outline_id c) unit_outline_id);
    match content with Some (ci, _) => delete Unit.t ci | None => mret tt end;;
    delete UnitOutline.t i;;
    refresh channel_id uid;;
    mret "Unit outline deleted successfully").

(** ** Unit content (lines 314-373) *)

Definition create_unit (channel_id : string) (unit_id : option string) (payload : Unit.t)
    (uid : string) : PyM DB (oid * Unit.t) :=
  except_500 (
    verify_channel channel_id;;
    match truthy unit_id with
    | Some x =>
        '(i, u) ← get_or_404 (D:=Unit.t) x "Unit not found";
        let u' := Unit.mk (Unit.unit_outline_id u) (Unit.name payload) (Unit.description payload)
                          (Unit.file_id payload) in
        save i u';;
        refresh channel_id uid;;
        mret (i, u')
    | None =>
        existing ← find_one (D:=Unit.t) (fun _ u =>
          field_is (Unit.unit_outline_id u) (Unit.unit_outline_id payload) &&
          field_is (Unit.name u) (Unit.name payload));
        match existing with
        | Some _ => raise (HTTPException 400 "A unit with this name already exists in this section")
        | None =>
            let new_unit := Unit.mk (Unit.unit_outline_id payload) (Unit.name payload)
                              (Unit.description payload) (Unit.file_id payload) in
            i ← insert new_unit;
            refresh channel_id uid;;
            mret (i, new_unit)
        end
    end).

(** ** Activity outline (lines 380-492) *)

Definition create_activity_outline (channel_id : string) (order : Z) (payload : ActivityOutline.t)
    (uid : string) : PyM DB (oid * ActivityOutline.t) :=
  except_500 (
    verify_channel channel_id;;
    let ao := ActivityOutline.mk (ActivityOutline.unit_outline_id payload)
                (ActivityOutline.name payload) order (Some 0) (Some 0) in
    i ← insert ao;
    refresh channel_id uid;;
    mret (i, ao)).

Definition update_activity_outline (channel_id activity_outline_id : string)
    (payload : ActivityOutline.t) (uid : string) : PyM DB (oid * ActivityOutline.t) :=
  except_500 (
    verify_channel channel_id;;
    '(i, ao) ← get_or_404 (D:=ActivityOutline.t) activity_outline_id "Activity outline not found";
    let ao' := ActivityOutline.mk (ActivityOutline.unit_outline_id ao) (ActivityOutline.name payload)
                 (ActivityOutline.order payload) (ActivityOutline.lesson_quiz_count ao)
                 (ActivityOutline.percentage ao) in
    save i ao';;
    refresh channel_id uid;;
    mret (i, ao')).

Definition delete_activity_outline (channel_id activity_outline_id : string) (uid : string)
    : PyM DB string :=
  except_500 (
    verify_channel channel_id;;
    '(i, _) ← get_or_404 (D:=ActivityOutline.t) activity_outline_id "Activity outline not found";
    content ← find_one (D:=Activity.t) (fun _ c => field_is (Activity.activity_outline_id c) activity_outline_id);
    match content with Some (ci, _) => delete Activity.t ci | None => mret tt end;;
    delete ActivityOutline.t i;;
    refresh channel_id uid;;
    mret "Activity outline deleted successfully").

(** ** Activity content (lines 497-550) *)

Definition create_activity (channel_id : string) (activity_id : option string) (payload : Activity.t)
    (uid : string) : PyM DB (oid * Activity.t) :=
  except_500 (
    verify_channel channel_id;;
    match truthy activity_id with
    | Some x =>
        '(i, a) ← get_or_404 (D:=Activity.t) x "Activity not found";
        let a' := Activity.mk (Activity.activity_outline_id a) (Activity.description payload)
                    (Activity.file_id payload) (Activity.difficulty_level payload)
                    (Activity.is_launched payload) in
        save i a';;
        refresh channel_id uid;;
        mret (i, a')
    | None =>
        let a := Activity.mk (Activity.activity_outline_id payload) (Activity.description payload)
                   (Activity.file_id payload) (Activity.difficulty_level payload)
                   (Activity.is_launched payload) in
        i ← insert a;
        refresh channel_id uid;;
        mret (i, a)
    end).

(** ** Lesson outline (lines 556-663) *)

Definition create_lesson_outline (channel_id : string) (order : Z) (payload : LessonOutline.t)
    (uid : string) : PyM DB (oid * LessonOutline.t) :=
  except_500 (
    verify_channel channel_id;;
    let lo := LessonOutline.mk (LessonOutline.activity_outline_id payload)
                (LessonOutline.name payload) order (Some 0) in
    i ← insert lo;
    refresh channel_id uid;;
    mret (i, lo)).

Definition update_lesson_outline (channel_id lesson_outline_id : string) (payload : LessonOutline.t)
    (uid : string) : PyM DB (oid * LessonOutline.t) :=
  except_500 (
    verify_channel channel_id;;
    '(i, lo) ← get_or_404 (D:=LessonOutline.t) lesson_outline_id "Lesson outline not found";
    let lo' := LessonOutline.mk (LessonOutline.activity_outline_id lo) (LessonOutline.name payload)
                 (LessonOutline.order payload) (LessonOutline.lesson_count lo) in
    save i lo';;
    refresh channel_id uid;;
    mret (i, lo')).

Definition delete_lesson_outline (channel_id lesson_outline_id : string) (uid : string)
    : PyM DB string :=
  except_500 (
    verify_channel channel_id;;
    '(i, _) ← get_or_404 (D:=LessonOutline.t) lesson_outline_id "Lesson outline not found";
    lesson_contents ← find (D:=Lesson.t) (fun _ l => field_is (Lesson.lesson_outline_id l) lesson_outline_id);
    delete_all lesson_contents;;
    delete LessonOutline.t i;;
    refresh channel_id uid;;
    mret "Lesson outline deleted successfully").

(** ** Lesson content (lines 668-778)

    With [lesson_id] the first payload item overwrites the lesson; without
    it every payload item is inserted and the outline's [lesson_count] is
    set to [len(payload)], whatever it was before. *)

Definition lesson_of (l : Lesson.t) : Lesson.t :=
  Lesson.mk (Lesson.lesson_outline_id l) (Lesson.lesson_type l) (Lesson.text l) (Lesson.file_ids l)
            (Lesson.question_lesson l) (Lesson.order l) (Lesson.is_launched l) (Lesson.is_free l).

Definition create_lesson (channel_id : string) (lesson_id : option string) (payload : list Lesson.t)
    (uid : string) : PyM DB (list (oid * Lesson.t)) :=
  except_500 (
    verify_channel channel_id;;
    match truthy lesson_id with
    | Some x =>
        '(i, lesson) ← get_or_404 (D:=Lesson.t) x "Lesson not found";
        p ← first_item payload;
        let lesson' := Lesson.mk (Lesson.lesson_outline_id lesson) (Lesson.lesson_type p) (Lesson.text p)
                         (Lesson.file_ids p) (Lesson.question_lesson p) (Lesson.order p)
                         (Lesson.is_launched p) (Lesson.is_free p) in
        save i lesson';;
        refresh channel_id uid;;
        mret [(i, lesson')]
    | None =>
        p ← first_item payload;
        '(oi, lesson_outline) ← get_or_404 (D:=LessonOutline.t) (Lesson.lesson_outline_id p)
                                  "Lesson outline not found";
        created ← py_mapM (fun d => let l := lesson_of d in i ← insert l; mret (i, l)) payload;
        save oi (LessonOutline.mk (LessonOutline.activity_outline_id lesson_outline)
                   (LessonOutline.name lesson_outline) (LessonOutline.order lesson_outline)
                   (Some (lenZ payload)));;
        refresh channel_id uid;;
        mret created
    end).

Definition delete_lesson (channel_id lesson_id : string) (uid : string) : PyM DB string :=
  except_500 (
    verify_channel channel_id;;
    '(i, _) ← get_or_404 (D:=Lesson.t) lesson_id "Lesson not found";
    delete Lesson.t i;;
    refresh channel_id uid;;
    mret "Lesson deleted successfully").

(** ** Quiz outline (lines 783-896) *)

Definition create_quiz_outline (channel_id : string) (order : Z) (payload : QuizOutline.t)
    (uid : string) : PyM DB (oid * QuizOutline.t) :=
  except_500 (
    verify_channel channel_id;;
    let qo := QuizOutline.mk (QuizOutline.activity_outline_id payload) (QuizOutline.name payload) order
                (QuizOutline.is_launched payload) (QuizOutline.is_free payload)
                (QuizOutline.quiz_count payload) in
    i ← insert qo;
    refresh channel_id uid;;
    mret (i, qo)).

Definition update_quiz_outline (channel_id quiz_outline_id : string) (payload : QuizOutline.t)
    (uid : string) : PyM DB (oid * QuizOutline.t) :=
  except_500 (
    verify_channel channel_id;;
    '(i, qo) ← get_or_404 (D:=QuizOutline.t) quiz_outline_id "Quiz outline not found";
    let qo' := QuizOutline.mk (QuizOutline.activity_outline_id qo) (QuizOutline.name payload)
                 (QuizOutline.order payload) (QuizOutline.is_launched payload)
                 (QuizOutline.is_free payload) (QuizOutline.quiz_count payload) in
    save i qo';;
    refresh channel_id uid;;
    mret (i, qo')).

(** The outline is deleted before its questions, the reverse of the lesson case. *)
Definition delete_quiz_outline (channel_id quiz_outline_id : string) (uid : string)
    : PyM DB string :=
  except_500 (
    verify_channel channel_id;;
    '(i, _) ← get_or_404 (D:=QuizOutline.t) quiz_outline_id "Quiz outline not found";
    delete QuizOutline.t i;;
    quiz_contents ← find (D:=Question.t) (fun _ q => field_is (Question.quiz_outline_id q) quiz_outline_id);
    delete_all quiz_contents;;
    refresh channel_id uid;;
    mret "Quiz outline deleted successfully").

(** ** Questions (lines 903-1013) *)

Definition question_of (q : Question.t) : Question.t :=
  Question.mk (Question.quiz_outline_id q) (Question.time_limit q) (Question.points q)
              (Question.template q) (Question.generated_question q) (Question.file_id q)
              (Question.check_function q) (Question.order q) (Question.is_accepted q).

Definition create_question (channel_id : string) (quiz_id : option string) (payload : list Question.t)
    (uid : string) : PyM DB (list (oid * Question.t)) :=
  except_500 (
    verify_channel channel_id;;
    match truthy quiz_id with
    | Some x =>
        '(i, quiz) ← get_or_404 (D:=Question.t) x "Quiz not found";
        p ← first_item payload;
        let quiz' := Question.mk (Question.quiz_outline_id quiz) (Question.time_limit p)
                       (Question.points p) (Question.template p) (Question.generated_question p)
                       (Question.file_id p) (Question.check_function p) (Question.order p)
                       (Question.is_accepted p) in
        save i quiz';;
        refresh channel_id uid;;
        mret [(i, quiz')]
    | None =>
        p ← first_item payload;
        '(oi, quiz_outline) ← get_or_404 (D:=QuizOutline.t) (Question.quiz_outline_id p)
                                "Quiz outline not found";
        created ← py_mapM (fun d => let q := question_of d in i ← insert q; mret (i, q)) payload;
        save oi (QuizOutline.mk (QuizOutline.activity_outline_id quiz_outline)
                   (QuizOutline.name quiz_outline) (QuizOutline.order quiz_outline)
                   (QuizOutline.is_launched quiz_outline) (QuizOutline.is_free quiz_outline)
                   (lenZ payload));;
        refresh channel_id uid;;
        mret created
    end).

Definition delete_question (channel_id question_id : string) (uid : string) : PyM DB string :=
  except_500 (
    verify_channel channel_id;;
    '(i, _) ← get_or_404 (D:=Question.t) question_id "Question not found";
    delete Question.t i;;
    refresh channel_id uid;;
    mret "Question deleted successfully").

(** * Properties of the content handlers *)

Lemma exn_str_500_channel_not_found :
  exn_str (HTTPException 500 (exn_str (HTTPException 404 "Channel not found"))) =
    "500: 404: Channel not found".
Proof. vm_compute. reflexivity. Qed.

(** (C2) The content handlers check only that a ChannelInfo with the
    path's id exists, not that the caller owns the channel. A caller who
    owns no Channel document with this id still gets the new section
    outline inserted; the ownership check of the re-aggregation then
    fails, and the caller receives HTTP 500 "500: 404: Channel not found"
    while the insert stays in the store. *)
Theorem create_section_outline_not_owner db cid order payload uid ci info u :
  parse_oid cid = Some ci ->
  find_one_in (D:=ChannelInfo.t) db (fun i _ => N.eqb i ci) = Some info ->
  parse_oid uid = Some u ->
  find_one_in db (fun _ c => field_is (Channel.channel_id c) cid && N.eqb (Channel.user_id c) u) = None ->
  create_section_outline cid order payload uid db =
    (inl (HTTPException 500 "500: 404: Channel not found"),
     mkDB (db.(docs) ++ [(db.(next_id), DSectionOutline (SectionOutline.mk cid (SectionOutline.name payload) order))])
          (db.(next_id) + 1)%N).
Proof.
  intros Hc Hi Hu Hch. unfold create_section_outline, verify_channel, refresh, to_oid, except_500.
  rewrite Hc. pyrun. rewrite Hi. pyrun.
  rewrite (stats_no_channel _ cid uid u Hu); [by rewrite exn_str_500_channel_not_found|].
  change (mkDB _ _) with (snd (insert (SectionOutline.mk cid (SectionOutline.name payload) order) db)).
  rewrite find_one_in_insert_other; [done | classes_disjoint].
Qed.

Lemma create_section_outline_not_owner_witness :
  create_section_outline demo_cid 2 (SectionOutline.mk "" "Hijack" 0) (oid_str 8%N) demo_db =
    (inl (HTTPException 500 "500: 404: Channel not found"),
     mkDB (demo_db.(docs) ++ [(demo_db.(next_id),
                               DSectionOutline (SectionOutline.mk demo_cid "Hijack" 2))])
          (demo_db.(next_id) + 1)%N).
Proof.
  apply (create_section_outline_not_owner demo_db demo_cid 2 (SectionOutline.mk "" "Hijack" 0) (oid_str 8%N) 1%N (1%N, demo_info) 8%N);
    vm_compute; reflexivity.
Defined.

(** A handler keeps a class when each of its writes is to another class
    and its re-aggregation does not write that class. *)
Ltac keep :=
  intros ?c; unfold verify_channel, get_or_404, refresh, delete_all, to_oid; preserve;
  first [ apply stats_keeps | apply keeps_insert_other | apply keeps_save_other
        | apply keeps_delete_other ]; classes_disjoint.

(** (C4) Deleting a section outline deletes the outline and its first
    Section document only: on every path, successful or not, the unit
    outlines, units, activity outlines, activities, lesson outlines,
    lessons, quiz outlines and questions of the store are exactly those
    that were there before, including the ones below the deleted section,
    which the spec says the delete cascades to. *)
Theorem delete_section_outline_orphans cid sid uid :
  let m := delete_section_outline cid sid uid in
  keeps UnitOutline.t m /\ keeps Unit.t m /\ keeps ActivityOutline.t m /\ keeps Activity.t m /\
  keeps LessonOutline.t m /\ keeps Lesson.t m /\ keeps QuizOutline.t m /\ keeps Question.t m.
Proof. unfold delete_section_outline. repeat split; keep. Qed.

(** (C5) Creating lessons without [lesson_id] sets the outline's
    [lesson_count] to the number of lessons in this request, whatever
    count and lessons the outline had: the count is overwritten, not
    increased. This holds of the store the handler leaves, also when the
    final re-aggregation fails. *)
Theorem create_lesson_count_overwrite db cid ci info p ps uid oi lo :
  parse_oid cid = Some ci ->
  find_one_in (D:=ChannelInfo.t) db (fun i _ => N.eqb i ci) = Some info ->
  parse_oid (Lesson.lesson_outline_id p) = Some oi ->
  find_one_in (D:=LessonOutline.t) db (fun j _ => N.eqb j oi) = Some (oi, lo) ->
  find_one_in (D:=LessonOutline.t) (final (create_lesson cid None (p :: ps) uid) db)
              (fun j _ => N.eqb j oi) =
    Some (oi, LessonOutline.mk (LessonOutline.activity_outline_id lo) (LessonOutline.name lo)
                               (LessonOutline.order lo) (Some (lenZ (p :: ps)))).
Proof.
  intros Hc Hi Hoi Hlo. unfold create_lesson, verify_channel, get_or_404, to_oid, except_500.
  rewrite Hc. pyrun. rewrite Hi. pyrun. rewrite Hoi. pyrun. rewrite Hlo. pyrun.
  match goal with |- context [py_mapM ?f (p :: ps) db] =>
    destruct (py_mapM_total f (p :: ps) db) as (ys & db1 & E);
    [intros x s; rewrite bind_run; by eexists _, _|] end.
  rewrite E. cbn -[save get_channel_content_outline_stats find_one_in]. unfold refresh. rewrite bind_run.
  match goal with |- context [save oi ?lo' db1] =>
    pose proof (find_one_in_save oi lo' db1) as Hs; destruct (save oi lo' db1) as [r2 s2] end.
  simpl in Hs. destruct r2 as [e|[]]; rewrite ?bind_run; simpl; [done|].
  assert (Hk := stats_keeps (D:=LessonOutline.t) cid uid ltac:(classes_disjoint) _ s2 eq_refl).
  destruct (get_channel_content_outline_stats cid uid s2) as [[e|r] s3]; simpl in *;
    by rewrite (find_one_in_same _ _ _ Hk).
Qed.

Definition demo_lesson : Lesson.t :=
  Lesson.mk (oid_str 6%N) "text" (Some "second") None None 2 (Some false) (Some false).

(** On the demo store, whose lesson outline already has one lesson, adding
    a second lesson leaves [lesson_count = 1] beside two lessons. *)
Lemma create_lesson_count_overwrite_witness :
  find_one_in (D:=LessonOutline.t) (final (create_lesson demo_cid None [demo_lesson] demo_uid) demo_db)
              (fun j _ => N.eqb j 6%N) =
    Some (6%N, LessonOutline.mk (oid_str 5%N) "Lesson" 1 (Some (lenZ [demo_lesson]))) /\
  length (find_in (D:=Lesson.t) (final (create_lesson demo_cid None [demo_lesson] demo_uid) demo_db)
                  (fun _ l => field_is (Lesson.lesson_outline_id l) (oid_str 6%N))) = 2%nat.
Proof.
  split; [|vm_compute; reflexivity].
  apply (create_lesson_count_overwrite demo_db demo_cid 1%N (1%N, demo_info) demo_lesson [] demo_uid 6%N
           (LessonOutline.mk (oid_str 5%N) "Lesson" 1 (Some 0))); vm_compute; reflexivity.
Defined.
