(* ===== verification/Settings.v ===== *)
(** * Channel settings (api/studio/channel/setting.py)

    Channel creation, publishing, channel info, deletion, subscription
    tiers and coupons. Unlike the content handlers, most of these
    handlers have no [try]/[except]: an exception leaves the handler as
    it was raised ([HTTPException] with its own status, anything else as
    FastAPI's HTTP 500). The free-access handlers are in [FreeAccess.v],
    the duplication in [Duplicate.v]. *)

From S2P Require Import Prelude ObjectId PySort Json Documents Aggregate.

(** ** Request bodies

    Pydantic remembers which fields the client sent ([model_fields_set]);
    [model_dump(exclude_unset=True)] dumps only those. *)
Record ChannelInfoRequest := mkInfoRequest {
  req_name : string; req_description : option string; req_primary_language : option string;
  req_target_language : option string; req_avatar_file_id : option string;
  req_cover_image_file_id : option string; req_fields_set : list string }.

Record PublishChannelRequest := mkPublishRequest {
  req_published : option bool; req_channel_link : option string; pub_fields_set : list string }.

Definition is_set (fields : list string) (f : string) : bool := bool_decide (f ∈ fields).

(** [ChannelInfo(user_id=uid, **payload.model_dump())] *)
Definition channel_info_of (uid : string) (p : ChannelInfoRequest) : ChannelInfo.t :=
  ChannelInfo.mk uid (req_name p) (req_description p) (req_primary_language p)
    (req_target_language p) (req_avatar_file_id p) (req_cover_image_file_id p).

(** Pydantic's [ValidationError] for [None] given to a [str] field. *)
Definition not_a_string (cls field : string) : exn :=
  PyException "ValidationError" ("1 validation error for " +:+ cls +:+ " " +:+ field +:+
                                 " Input should be a valid string").

Definition require_str {S} (cls field : string) (o : option string) : PyM S string :=
  match o with Some s => mret s | None => raise (not_a_string cls field) end.

(** ** create_channel (lines 27-72) *)
Definition create_channel (now : datetime) (payload : ChannelInfoRequest) (uid : string) : PyM DB (oid * ChannelInfo.t) :=
  let channel_info := channel_info_of uid payload in
  i ← insert channel_info;
  u ← to_oid uid;
  description ← require_str "Channel" "description" (req_description payload);
  let channel := Channel.mk u (req_name payload) (oid_str i) description 0 0 0 0 0 0 0 0
                   (req_primary_language payload) (req_target_language payload)
                   (req_avatar_file_id payload) (req_cover_image_file_id payload)
                   (Some false) None now (JDict []) in
  insert channel;;
  insert (PublishChannel.mk uid (oid_str i) (Some false) None);;
  get_channel_content_outline_stats (oid_str i) uid;;
  mret (i, channel_info).

(** ** publish_channel (lines 362-401) *)

(** [publish_channel.update({"$set": payload.model_dump(exclude_unset=True)})] *)
Definition set_publish (p : PublishChannel.t) (r : PublishChannelRequest) : PublishChannel.t :=
  PublishChannel.mk (PublishChannel.user_id p) (PublishChannel.channel_id p)
    (if is_set (pub_fields_set r) "published" then req_published r else PublishChannel.published p)
    (if is_set (pub_fields_set r) "channel_link" then req_channel_link r
     else PublishChannel.channel_link p).

Definition publish_query (channel_id : string) (_ : oid) (p : PublishChannel.t) : bool :=
  field_is (PublishChannel.channel_id p) channel_id.

Definition publish_channel (channel_id : string) (payload : PublishChannelRequest) (uid : string)
    : PyM DB (oid * PublishChannel.t) :=
  ci ← to_oid channel_id;
  channel_info ← find_one (D:=ChannelInfo.t) (fun i _ => N.eqb i ci);
  match channel_info with
  | None => not_found "Channel not found"
  | Some _ =>
      found ← find_one (publish_query channel_id);
      r ← match found with
          | None =>
              let p := PublishChannel.mk uid channel_id (req_published payload)
                                         (req_channel_link payload) in
              i ← insert p; mret (Some (i, p))
          | Some (i, p) =>
              save i (set_publish p payload);;
              find_one (publish_query channel_id)
          end;
      get_channel_content_outline_stats channel_id uid;;
      match r with Some r => mret r | None => raise none_model_dump end
  end.

(** ** get_publish_channel (lines 403-434): a GET that inserts a default record *)
Definition get_publish_channel (channel_id : string) (uid : string) : PyM DB (oid * PublishChannel.t) :=
  ci ← to_oid channel_id;
  channel_info ← find_one (D:=ChannelInfo.t) (fun i _ => N.eqb i ci);
  match channel_info with
  | None => not_found "Channel not found"
  | Some _ =>
      found ← find_one (publish_query channel_id);
      match found with
      | Some r => mret r
      | None => let p := PublishChannel.mk uid channel_id (Some false) None in
                i ← insert p; mret (i, p)
      end
  end.

(** ** update_channel_info (lines 436-455) *)

(** [channel.update({"$set": payload.dict(exclude_unset=True)})] *)
Definition set_info (c : ChannelInfo.t) (r : ChannelInfoRequest) : ChannelInfo.t :=
  let set f := is_set (req_fields_set r) f in
  ChannelInfo.mk (ChannelInfo.user_id c)
    (if set "name" then req_name r else ChannelInfo.name c)
    (if set "description" then req_description r else ChannelInfo.description c)
    (if set "primary_language" then req_primary_language r else ChannelInfo.primary_language c)
    (if set "target_language" then req_target_language r else ChannelInfo.target_language c)
    (if set "avatar_file_id" then req_avatar_file_id r else ChannelInfo.avatar_file_id c)
    (if set "cover_image_file_id" then req_cover_image_file_id r
     else ChannelInfo.cover_image_file_id c).

(** Only the ChannelInfo changes; the Channel document keeps its old name
    and description until the next re-aggregation, which does not copy
    them either. *)
Definition update_channel_info (channel_id : string) (payload : ChannelInfoRequest) (uid : string)
    : PyM DB (option (oid * ChannelInfo.t)) :=
  ci ← to_oid channel_id;
  found ← find_one (D:=ChannelInfo.t) (fun i c => N.eqb i ci && field_is (ChannelInfo.user_id c) uid);
  match found with
  | None => not_found "Channel not found"
  | Some (i, c) =>
      save i (set_info c payload);;
      find_one (D:=ChannelInfo.t) (fun j _ => N.eqb j ci)
  end.

(** ** delete_channel (lines 458-523)

    The cascade walks the [outline_content] snapshot of the Channel
    document, not the live outline collections. One definition per loop
    body, innermost first. *)

(** [for x in j.get(k, [])] *)
Definition py_for_get {B} (j : json) (k : string) (body : json -> PyM DB B) : PyM DB unit :=
  l ← lift_exn (py_get j k (JList []));
  xs ← lift_exn (py_iter l);
  py_mapM body xs;; mret tt.

(** Lines 502-512: the type of a lesson or quiz item is guessed from its id. *)
Definition delete_content_item (content : json) : PyM DB unit :=
  content_id ← lift_exn (py_get content "id" JNull);
  if json_truthy content_id then
    py_if (lift_exn (py_in "lesson" content_id))
      (i ← to_oid_json content_id;
       delete_one_where (D:=LessonOutline.t) (fun j _ => N.eqb j i);;
       delete_one_where (D:=Lesson.t) (fun _ l => json_is_str (Lesson.lesson_outline_id l) content_id))
      (py_if (lift_exn (py_in "quiz" content_id))
        (i ← to_oid_json content_id;
         delete_one_where (D:=QuizOutline.t) (fun j _ => N.eqb j i);;
         delete_many_where (D:=Question.t) (fun _ q => json_is_str (Question.quiz_outline_id q) content_id))
        (mret tt))
  else mret tt.

Definition delete_activity_item (activity : json) : PyM DB unit :=
  activity_id ← lift_exn (py_get activity "id" JNull);
  (if json_truthy activity_id then
     i ← to_oid_json activity_id;
     delete_one_where (D:=ActivityOutline.t) (fun j _ => N.eqb j i);;
     delete_one_where (D:=Activity.t) (fun _ a => json_is_str (Activity.activity_outline_id a) activity_id)
   else mret tt : PyM DB unit);;
  py_for_get activity "content" delete_content_item.

(** [unit] is the loop variable of line 490. *)
Definition delete_unit_item (unit_ : json) : PyM DB unit :=
  unit_id ← lift_exn (py_get unit_ "id" JNull);
  (if json_truthy unit_id then
     i ← to_oid_json unit_id;
     delete_one_where (D:=UnitOutline.t) (fun j _ => N.eqb j i);;
     delete_one_where (D:=Unit.t) (fun _ u => json_is_str (Unit.unit_outline_id u) unit_id)
   else mret tt : PyM DB unit);;
  py_for_get unit_ "activities" delete_activity_item.

Definition delete_section_item (section : json) : PyM DB unit :=
  section_id ← lift_exn (py_get section "id" JNull);
  (if json_truthy section_id then
     i ← to_oid_json section_id;
     delete_one_where (D:=SectionOutline.t) (fun j _ => N.eqb j i);;
     delete_one_where (D:=Section.t) (fun _ s => json_is_str (Section.section_outline_id s) section_id)
   else mret tt : PyM DB unit);;
  py_for_get section "units" delete_unit_item.

(** Lines 483-523: the cascade and the deletes of the channel's own
    documents, once both lookups succeeded. *)
Definition delete_channel_docs (channel_id : string) (ii chi : oid) (c : Channel.t) : PyM DB string :=
  py_for_get (Channel.outline_content c) "sections" delete_section_item;;
  publish ← find_one (publish_query channel_id);
  match publish with Some (pi, _) => delete PublishChannel.t pi | None => mret tt end;;
  delete ChannelInfo.t ii;;
  delete Channel.t chi;;
  mret "Channel and all related content deleted successfully".
Arguments delete_channel_docs : simpl never.

Definition delete_channel (channel_id uid : string) : PyM DB string :=
  ci ← to_oid channel_id;
  channel_info ← find_one (D:=ChannelInfo.t)
                   (fun i c => N.eqb i ci && field_is (ChannelInfo.user_id c) uid);
  match channel_info with
  | None => not_found "Channel not found"
  | Some (ii, _) =>
      channel ← find_one (D:=Channel.t) (fun _ c => field_is (Channel.channel_id c) channel_id);
      match channel with
      | None => not_found "Channel not found"
      | Some (chi, c) => delete_channel_docs channel_id ii chi c
      end
  end.

(** ** What the delete cascade reaches *)

(** The list [for x in j.get(k, [])] iterates over, when it is one. *)
Definition list_field (j : json) (k : string) : list json :=
  match py_get j k (JList []) with inr (JList l) => l | _ => [] end.

(** The lesson and quiz items of an [outline_content] blob, in the order
    the cascade visits them. *)
Definition outline_content_items (oc : json) : list json :=
  flat_map (fun s => flat_map (fun u => flat_map (fun a => list_field a "content")
                                                 (list_field u "activities"))
                              (list_field s "units"))
           (list_field oc "sections").

Definition is_inr_true (r : exn + bool) : bool := match r with inr true => true | _ => false end.

(** Neither [\"lesson\" in id] nor [\"quiz\" in id] holds of the item's id. *)
Definition id_names_no_type (c : json) : bool :=
  match py_get c "id" JNull with
  | inr v => negb (is_inr_true (py_in "lesson" v)) && negb (is_inr_true (py_in "quiz" v))
  | inl _ => true
  end.

(** The classes the cascade is meant to reach at its last level. *)
Definition lesson_quiz_doc (x : doc) : bool :=
  match x with DLessonOutline _ | DLesson _ | DQuizOutline _ | DQuestion _ => true | _ => false end.

Lemma py_for_get_preserves {B} (P : DB -> Prop) j k (body : json -> PyM DB B) :
  (forall x, x ∈ list_field j k -> preserves P (body x)) -> preserves P (py_for_get j k body).
Proof.
  intros Hb. unfold py_for_get, list_field in *. apply preserves_lift_bind. intros l Hl.
  rewrite Hl in Hb. apply preserves_lift_bind. intros xs Hxs.
  destruct l; simpl in Hxs; simplify_eq.
  apply preserves_bind; [by apply preserves_py_mapM_in | intros; apply preserves_ret].
Qed.

Section CascadeKeeps.
Context {D : Type} `{Document D} (HD : forall x y, of_doc (D:=D) x = Some y -> lesson_quiz_doc x = true).

Lemma lq_disjoint {D'} `{Document D'} :
  (forall d : D', lesson_quiz_doc (to_doc d) = false) -> disjoint_classes D D'.
Proof.
  intros Hd x. destruct (of_doc (D:=D) x) as [y|] eqn:E; [right|by left].
  destruct (of_doc (D:=D') x) as [y'|] eqn:E'; [|done]. exfalso.
  apply to_of_doc in E'. subst x. specialize (HD _ _ E). by rewrite Hd in HD.
Qed.

Ltac lq_other :=
  first [ apply keeps_delete_one_where_other | apply keeps_delete_many_where_other
        | apply keeps_delete_other ]; apply lq_disjoint; by intros [].

Lemma content_item_keeps c : id_names_no_type c = true -> keeps D (delete_content_item c).
Proof.
  intros Hc cc. unfold delete_content_item, id_names_no_type, py_if in *.
  apply preserves_lift_bind. intros v Hv. rewrite Hv in Hc.
  destruct (json_truthy v); [|apply preserves_ret].
  apply preserves_lift_bind. intros b Hb. rewrite Hb in Hc. destruct b; [done|].
  apply preserves_lift_bind. intros b' Hb'. rewrite Hb' in Hc. destruct b'; [|apply preserves_ret].
  by rewrite andb_false_r in Hc.
Qed.

Lemma activity_item_keeps a :
  (forall c, c ∈ list_field a "content" -> id_names_no_type c = true) -> keeps D (delete_activity_item a).
Proof.
  intros Ha cc. unfold delete_activity_item. preserve; try lq_other.
  apply py_for_get_preserves. intros c Hc. by apply content_item_keeps, Ha.
Qed.

Lemma unit_item_keeps u :
  (forall c, c ∈ flat_map (fun a => list_field a "content") (list_field u "activities") ->
             id_names_no_type c = true) -> keeps D (delete_unit_item u).
Proof.
  intros Hu cc. unfold delete_unit_item. preserve; try lq_other.
  apply py_for_get_preserves. intros a Ha. apply activity_item_keeps. intros c Hc.
  apply Hu, elem_of_flat_map. by exists a.
Qed.

Lemma section_item_keeps s :
  (forall c, c ∈ flat_map (fun u => flat_map (fun a => list_field a "content") (list_field u "activities"))
                         (list_field s "units") -> id_names_no_type c = true) ->
  keeps D (delete_section_item s).
Proof.
  intros Hs cc. unfold delete_section_item. preserve; try lq_other.
  apply py_for_get_preserves. intros u Hu. apply unit_item_keeps. intros c Hc.
  apply Hs, elem_of_flat_map. by exists u.
Qed.

Lemma delete_channel_docs_keeps cid ii chi ch :
  (forall c, c ∈ outline_content_items (Channel.outline_content ch) -> id_names_no_type c = true) ->
  keeps D (delete_channel_docs cid ii chi ch).
Proof.
  intros Hch cc. unfold delete_channel_docs. preserve; try lq_other.
  apply py_for_get_preserves. intros s Hs. apply section_item_keeps. intros c Hc.
  apply Hch, elem_of_flat_map. by exists s.
Qed.

(** The cascade of [delete_channel] leaves class [D] alone whenever the
    Channel it finds has no lesson or quiz item whose id names its type. *)
Lemma delete_channel_keeps db cid uid :
  (forall chi ch, find_one_in db (fun _ c => field_is (Channel.channel_id c) cid) = Some (chi, ch) ->
     forall c, c ∈ outline_content_items (Channel.outline_content ch) -> id_names_no_type c = true) ->
  collection (D:=D) (final (delete_channel cid uid) db) = collection db.
Proof.
  intros Hch. unfold delete_channel, to_oid, final. destruct (parse_oid cid); pyrun; [|done].
  destruct (find_one_in (D:=ChannelInfo.t) _ _) as [[ii ?]|]; pyrun; [|done].
  destruct (find_one_in (D:=Channel.t) _ _) as [[chi ch]|] eqn:E; pyrun; [|done].
  by apply (delete_channel_docs_keeps cid ii chi ch (Hch _ _ eq_refl)).
Qed.
End CascadeKeeps.

(** ** The blob the aggregation writes *)

Lemma list_field_sections l : list_field (JDict [("sections", JList l)]) "sections" = l.
Proof. reflexivity. Qed.

Lemma list_field_section db0 s : list_field (section_item db0 s) "units" = map (unit_item db0) (units_of db0 s.1).
Proof. by destruct s. Qed.

Lemma list_field_unit db0 u :
  list_field (unit_item db0 u) "activities" = map (activity_item db0) (activities_of db0 u.1).
Proof. by destruct u. Qed.

Lemma list_field_activity db0 a : list_field (activity_item db0 a) "content" = activity_content db0 a.1.
Proof. by destruct a. Qed.

Lemma oid_item_no_type i kvs : id_names_no_type (JDict (("id", JStr (oid_str i)) :: kvs)) = true.
Proof.
  unfold id_names_no_type. cbn -[oid_str str_contains].
  by destruct (oid_str_no_type_word i) as [-> ->].
Qed.

(** Every lesson or quiz item of an activity's [content] has a hex id. *)
Lemma activity_content_no_type db0 a c : c ∈ activity_content db0 a -> id_names_no_type c = true.
Proof.
  unfold activity_content. rewrite sort_by_perm, elem_of_app, !list_elem_of_fmap.
  intros [([i lo] & -> & _) | ([i qo] & -> & _)]; apply oid_item_no_type.
Qed.

(** Every lesson or quiz item of the [outline_content] written by
    [get_channel_content_outline_stats] is an item of some activity's
    [content]. *)
Lemma aggregated_items_in db0 cid0 c :
  c ∈ outline_content_items (JDict [("sections", JList (walk db0 cid0).2)]) ->
  exists a, c ∈ activity_content db0 a.
Proof.
  rewrite walk_eq. unfold outline_content_items. cbn [snd list_field py_get assoc default].
  rewrite !elem_of_flat_map. intros (s & Hs & Hc). apply list_elem_of_fmap in Hs as (p & -> & _).
  rewrite list_field_section, elem_of_flat_map in Hc. destruct Hc as (u & Hu & Hc).
  apply list_elem_of_fmap in Hu as (q & -> & _). rewrite list_field_unit, elem_of_flat_map in Hc.
  destruct Hc as (a & Ha & Hc). apply list_elem_of_fmap in Ha as (r & -> & _).
  rewrite list_field_activity in Hc. by exists r.1.
Qed.

(** In that blob no lesson or quiz id contains ["lesson"] or ["quiz"]. *)
Lemma aggregated_items_no_type db0 cid0 c :
  c ∈ outline_content_items (JDict [("sections", JList (walk db0 cid0).2)]) -> id_names_no_type c = true.
Proof. intros (a & Ha)%aggregated_items_in. by apply (activity_content_no_type db0 a). Qed.

(** (C8) [delete_channel] decides whether an item of the outline is a
    lesson or a quiz by testing ["lesson" in id] and ["quiz" in id] on its
    id, a 24-digit hex string, so neither test ever holds: on every path,
    successful or not, the lesson outlines, lessons, quiz outlines and
    questions of the store are untouched whenever the channel's outline
    blob is the one the aggregation wrote. *)
Theorem delete_channel_spares_lessons_quizzes db cid uid :
  (forall chi ch, find_one_in db (fun _ c => field_is (Channel.channel_id c) cid) = Some (chi, ch) ->
     exists db0 cid0, Channel.outline_content ch = JDict [("sections", JList (walk db0 cid0).2)]) ->
  let db' := final (delete_channel cid uid) db in
  collection (D:=LessonOutline.t) db' = collection db /\ collection (D:=Lesson.t) db' = collection db /\
  collection (D:=QuizOutline.t) db' = collection db /\ collection (D:=Question.t) db' = collection db.
Proof.
  intros Hagg.
  assert (Hc : forall chi ch, find_one_in db (fun _ c => field_is (Channel.channel_id c) cid) = Some (chi, ch) ->
                 forall c, c ∈ outline_content_items (Channel.outline_content ch) -> id_names_no_type c = true).
  { intros chi ch E c. destruct (Hagg _ _ E) as (db0 & cid0 & ->). apply aggregated_items_no_type. }
  repeat split; apply delete_channel_keeps; try done; by intros [].
Qed.

Lemma delete_channel_spares_lessons_quizzes_witness :
  outcome (delete_channel demo_cid demo_uid) demo_final = inr "Channel and all related content deleted successfully" /\
  collection (D:=Lesson.t) (final (delete_channel demo_cid demo_uid) demo_final) = collection demo_final /\
  collection (D:=Lesson.t) demo_final <> [].
Proof.
  split; [vm_compute; reflexivity|]. split; [|vm_compute; discriminate].
  apply (delete_channel_spares_lessons_quizzes demo_final demo_cid demo_uid).
  intros chi ch E. exists demo_db, demo_cid. vm_compute in E. injection E as <- <-.
  vm_compute. reflexivity.
Defined.

(** A valid request creates a channel: when the description is a
    string and the caller's id is an ObjectId, [create_channel] inserts
    the ChannelInfo, the Channel and the PublishChannel, its
    re-aggregation finds them, and it returns the inserted ChannelInfo
    with its fresh id. *)
Theorem create_channel_ok now db payload uid u d :
  req_description payload = Some d -> parse_oid uid = Some u -> (next_id db < 16 ^ 24)%N ->
  exists db', create_channel now payload uid db = (inr (next_id db, channel_info_of uid payload), db').
Proof.
  intros Hd Hu Hn. unfold create_channel, to_oid. pyrun. rewrite Hu. pyrun. rewrite Hd. pyrun.
  match goal with |- context [get_channel_content_outline_stats _ uid ?s] =>
    destruct (stats_ok s (oid_str (next_id db)) uid u (next_id db) Hu) as (r & db' & E) end.
  - eapply find_one_in_some; [apply elem_of_collection; simpl; rewrite !elem_of_app, !elem_of_cons; naive_solver|].
    unfold field_is. by rewrite String.eqb_refl, N.eqb_refl.
  - by apply oid_str_roundtrip.
  - eapply find_one_in_some; [apply elem_of_collection; simpl; rewrite !elem_of_app, !elem_of_cons; naive_solver|]. apply N.eqb_refl.
  - rewrite E. pyrun. eauto.
Qed.

(** [ChannelInfoRequest.description] is [Optional[str]] but
    [Channel.description] is [str]: with [description: null] the request
    fails after the ChannelInfo was inserted, which stays in the store
    without a Channel. *)
Lemma create_channel_null_description now db payload uid u :
  req_description payload = None -> parse_oid uid = Some u ->
  create_channel now payload uid db =
    (inl (not_a_string "Channel" "description"), snd (insert (channel_info_of uid payload) db)).
Proof. intros Hd Hu. unfold create_channel, to_oid. pyrun. rewrite Hu. pyrun. by rewrite Hd. Qed.

Definition demo_request : ChannelInfoRequest :=
  mkInfoRequest "Rust" (Some "Systems") (Some "en") None None None ["name"; "description"; "primary_language"].

Lemma create_channel_ok_witness :
  exists db', create_channel 1000 demo_request (oid_str 7%N) demo_db =
              (inr (8%N, channel_info_of (oid_str 7%N) demo_request), db').
Proof. apply (create_channel_ok 1000 demo_db demo_request (oid_str 7%N) 7%N "Systems"); vm_compute; reflexivity. Defined.
