(* ===== verification/Pricing.v ===== *)
(** * Subscription tiers and coupons (api/studio/channel/setting.py, lines 546-647 and 794-867)

    Tiers: create and list check that the caller owns the ChannelInfo;
    update and delete have that check commented out (lines 605-607 and
    633-635) and act for any caller. Coupons take no caller at all, and
    their handlers turn every exception into HTTP 500. *)

From S2P Require Import Prelude ObjectId PySort Json Documents.
From Stdlib Require Import SpecFloat.

(** A request body with the fields the client sent. *)
Record TierRequest := mkTierRequest { tier_body : Tier.t; tier_fields_set : list string }.
Record CouponRequest := mkCouponRequest { coupon_body : Coupon.t; coupon_fields_set : list string }.

Definition set_field {A} (fields : list string) (f : string) (new old : A) : A :=
  if bool_decide (f ∈ fields) then new else old.

(** [tier.update({"$set": payload.model_dump(exclude_unset=True)})] *)
Definition set_tier (t : Tier.t) (r : TierRequest) : Tier.t :=
  let p := tier_body r in let fs := tier_fields_set r in
  Tier.mk (set_field fs "channel_id" (Tier.channel_id p) (Tier.channel_id t)) (set_field fs "name" (Tier.name p) (Tier.name t))
          (set_field fs "price" (Tier.price p) (Tier.price t)) (set_field fs "capacity" (Tier.capacity p) (Tier.capacity t))
          (set_field fs "billing_cycle" (Tier.billing_cycle p) (Tier.billing_cycle t))
          (set_field fs "features" (Tier.features p) (Tier.features t)).

Definition set_coupon (c : Coupon.t) (r : CouponRequest) : Coupon.t :=
  let p := coupon_body r in let fs := coupon_fields_set r in
  Coupon.mk (set_field fs "channel_id" (Coupon.channel_id p) (Coupon.channel_id c)) (set_field fs "code" (Coupon.code p) (Coupon.code c))
            (set_field fs "discount_type" (Coupon.discount_type p) (Coupon.discount_type c))
            (set_field fs "discount_value" (Coupon.discount_value p) (Coupon.discount_value c))
            (set_field fs "max_uses" (Coupon.max_uses p) (Coupon.max_uses c))
            (set_field fs "expires_at" (Coupon.expires_at p) (Coupon.expires_at c))
            (set_field fs "is_active" (Coupon.is_active p) (Coupon.is_active c)).

(** [ChannelInfo.find_one({"_id": PydanticObjectId(channel_id), "user_id": user_id})] or 404. *)
Definition owned_channel (channel_id uid : string) : PyM DB unit :=
  ci ← to_oid channel_id;
  found ← find_one (D:=ChannelInfo.t) (fun i c => N.eqb i ci && field_is (ChannelInfo.user_id c) uid);
  match found with None => not_found "Channel not found" | Some _ => mret tt end.

(** [Model.find_one({"_id": PydanticObjectId(x), "channel_id": channel_id})] *)
Definition find_in_channel {D} `{Document D} (channel_of : D -> string) (x channel_id : string)
    : PyM DB (option (oid * D)) :=
  i ← to_oid x;
  find_one (D:=D) (fun j d => N.eqb j i && field_is (channel_of d) channel_id).

(** [Model.get(PydanticObjectId(x))] and the [model_dump()] of the result. *)
Definition get_dumped {D} `{Document D} (x : string) : PyM DB (oid * D) :=
  i ← to_oid x;
  found ← find_one (D:=D) (fun j _ => N.eqb j i);
  match found with Some r => mret r | None => raise none_model_dump end.

(** ** Tiers *)

Definition create_tier (channel_id : string) (payload : TierRequest) (uid : string) : PyM DB (oid * Tier.t) :=
  owned_channel channel_id uid;;
  let p := tier_body payload in
  let tier := Tier.mk channel_id (Tier.name p) (Tier.price p) (Tier.capacity p)
                      (Tier.billing_cycle p) (Tier.features p) in
  i ← insert tier;
  mret (i, tier).

Definition get_all_tiers (channel_id : string) (uid : string) : PyM DB (list (oid * Tier.t)) :=
  owned_channel channel_id uid;;
  find (D:=Tier.t) (fun _ t => field_is (Tier.channel_id t) channel_id).

Definition update_tier (channel_id tier_id : string) (payload : TierRequest) (uid : string)
    : PyM DB (oid * Tier.t) :=
  found ← find_in_channel Tier.channel_id tier_id channel_id;
  match found with
  | None => not_found "Tier not found"
  | Some (i, t) => save i (set_tier t payload);; get_dumped tier_id
  end.

Definition delete_tier (channel_id tier_id : string) (uid : string) : PyM DB string :=
  found ← find_in_channel Tier.channel_id tier_id channel_id;
  match found with
  | None => not_found "Tier not found"
  | Some (i, _) => delete Tier.t i;; mret "Tier deleted successfully"
  end.

(** ** Coupons *)

(** [Coupon( **payload.model_dump())]: the coupon's channel is the one of
    the body, not the one of the path that was checked. *)
Definition create_coupon (channel_id : string) (payload : CouponRequest) : PyM DB (oid * Coupon.t) :=
  except_500 (
    ci ← to_oid channel_id;
    found ← find_one (D:=ChannelInfo.t) (fun i _ => N.eqb i ci);
    match found with
    | None => not_found "Channel not found"
    | Some _ => let c := coupon_body payload in i ← insert c; mret (i, c)
    end).

Definition get_coupons (channel_id : string) : PyM DB (list (oid * Coupon.t)) :=
  except_500 (find (D:=Coupon.t) (fun _ c => field_is (Coupon.channel_id c) channel_id)).

Definition update_coupon (channel_id coupon_id : string) (payload : CouponRequest) : PyM DB (oid * Coupon.t) :=
  except_500 (
    found ← find_in_channel Coupon.channel_id coupon_id channel_id;
    match found with
    | None => not_found "Coupon not found"
    | Some (i, c) => save i (set_coupon c payload);; get_dumped coupon_id
    end).

Definition delete_coupon (channel_id coupon_id : string) : PyM DB string :=
  except_500 (
    found ← find_in_channel Coupon.channel_id coupon_id channel_id;
    match found with
    | None => not_found "Coupon not found"
    | Some (i, _) => delete Coupon.t i;; mret "Coupon deleted successfully"
    end).

#[local] Arguments save : simpl never.

(** (C9) Tier writes are authorised unevenly: a caller who does not own
    the channel is refused by [create_tier] with HTTP 404 and nothing
    written, yet the same caller's [update_tier] on a tier of that
    channel succeeds and stores the update. *)
Theorem tier_update_without_owner db cid tid ci ti i t payload uid :
  parse_oid cid = Some ci -> parse_oid tid = Some ti ->
  find_one_in (D:=ChannelInfo.t) db (fun j c => N.eqb j ci && field_is (ChannelInfo.user_id c) uid) = None ->
  find_one_in (D:=Tier.t) db (fun j d => N.eqb j ti && field_is (Tier.channel_id d) cid) = Some (i, t) ->
  create_tier cid payload uid db = (inl (HTTPException 404 "Channel not found"), db) /\
  update_tier cid tid payload uid db =
    (inr (i, set_tier t payload), snd (save i (set_tier t payload) db)).
Proof.
  intros Hc Ht Hno Hfound. split.
  - unfold create_tier, owned_channel, to_oid. rewrite Hc. pyrun. by rewrite Hno.
  - pose proof (find_one_in_sat _ _ _ _ Hfound) as Hq. apply andb_true_iff in Hq as [Hi _].
    apply N.eqb_eq in Hi as ->.
    unfold update_tier, find_in_channel, get_dumped, to_oid. rewrite Ht. pyrun. rewrite Hfound. pyrun.
    pose proof (find_one_in_save ti (set_tier t payload) db) as Hs.
    destruct (save ti (set_tier t payload) db) as [r db'] eqn:Es.
    unfold save, modify in Es. simplify_eq. simpl in *. pyrun. by rewrite Hs.
Qed.

Definition demo_tier : Tier.t := Tier.mk (oid_str 1%N) "Gold" (S754_finite false 999 (-2)) 10 Monthly [].
Definition demo_pricing_db : DB := mkDB
  [(1%N, DChannelInfo (ChannelInfo.mk (oid_str 7%N) "Python" None (Some "en") None None None));
   (2%N, DTier demo_tier)] 3%N.
Definition demo_tier_request : TierRequest :=
  mkTierRequest (Tier.mk "" "Free" (S754_zero false) 0 Lifetime []) ["name"; "price"].

Lemma tier_update_without_owner_witness :
  create_tier (oid_str 1%N) demo_tier_request (oid_str 8%N) demo_pricing_db =
    (inl (HTTPException 404 "Channel not found"), demo_pricing_db) /\
  update_tier (oid_str 1%N) (oid_str 2%N) demo_tier_request (oid_str 8%N) demo_pricing_db =
    (inr (2%N, set_tier demo_tier demo_tier_request),
     snd (save 2%N (set_tier demo_tier demo_tier_request) demo_pricing_db)).
Proof.
  apply (tier_update_without_owner demo_pricing_db (oid_str 1%N) (oid_str 2%N) 1%N 2%N 2%N demo_tier);
    vm_compute; reflexivity.
Defined.
