(* ===== verification/FreeAccess.v ===== *)
(** * Free access (api/studio/channel/setting.py, lines 649-792)

    [get_activity_percentage] walks the channel's [outline_content] blob,
    sums the ["count"] of each activity's items into a running total and
    stores, for each activity, [int((current_count / total) * 100)]
    computed in IEEE double precision (PyFloat): Python's [int / int] is
    the correctly rounded quotient, [* 100] a rounded double product and
    [int()] truncation toward zero. *)

From S2P Require Import Prelude ObjectId PySort Json PyFloat Documents Aggregate.
From Stdlib Require Import SpecFloat.

(** Line 687: [int((current_count / total_content) * 100) if total_content > 0 else 0] *)
Definition activity_percentage (current total : Z) : exn + Z :=
  if Z.ltb 0 total then py_int (py_fmul_int (py_truediv current total) 100) else inr 0.

(** ** The walk *)

(** [acc += v] on a Python int; [bool] is an [int]. *)
Definition py_iadd (acc : Z) (v : json) : exn + Z :=
  match v with
  | JInt z => inr (acc + z)
  | JBool b => inr (acc + Z.b2z b)
  | _ => inl (type_error "unsupported operand type(s) for +=")
  end.

(** Lines 678-682, one item: [activity_count += item.get("count", 1)] for
    a dict, [activity_count += 1] otherwise. *)
Definition add_item_count (acc : Z) (item : json) : exn + Z :=
  if is_dict item then
    match py_get item "count" (JInt 1) with inr v => py_iadd acc v | inl e => inl e end
  else inr (acc + 1).

Fixpoint sum_item_counts (acc : Z) (items : list json) : exn + Z :=
  match items with
  | [] => inr acc
  | x :: l => match add_item_count acc x with inr a => sum_item_counts a l | inl e => inl e end
  end.

(** [str(x)] of a JSON value; only the str case is reached below, after
    [PydanticObjectId(x)] succeeded. *)
Definition py_str (j : json) : string :=
  match j with JStr s => s | JInt z => pretty z | JNull => "None" | _ => "" end.

(** The loop's local variables [current_count] and [activity_percentages]. *)
Record PctAcc := mkPctAcc { current_count : Z; activity_percentages : list (string * json) }.

(** Lines 674-705, the body for one activity. *)
Definition percentage_step (total_content : Z) (acc : PctAcc) (activity : json) : PyM DB PctAcc :=
  content ← lift_exn (py_get activity "content" (JList []));
  items ← lift_exn (py_iter content);
  activity_count ← lift_exn (sum_item_counts 0 items);
  let current := current_count acc + activity_count in
  percentage ← lift_exn (activity_percentage current total_content);
  aid ← lift_exn (py_item activity "id");
  i ← to_oid_json aid;
  activity_outline ← find_one (D:=ActivityOutline.t) (fun j _ => N.eqb j i);
  (match activity_outline with
   | Some (j, a) =>
       (* [$set] of ["count"], a key of no model field, and of ["percentage"] *)
       save j (ActivityOutline.mk (ActivityOutline.unit_outline_id a) (ActivityOutline.name a)
                 (ActivityOutline.order a) (ActivityOutline.lesson_quiz_count a) (Some percentage))
   | None => mret tt
   end : PyM DB unit);;
  name ← lift_exn (py_item activity "name");
  order ← lift_exn (py_item activity "order");
  let entry := JDict [("name", name); ("order", order); ("percentage", JInt percentage);
                      ("count", JInt activity_count)] in
  mret (mkPctAcc current (dict_set (activity_percentages acc) (py_str aid) entry)).

Definition get_activity_percentage (channel_id uid : string) : PyM DB (oid * FreeAccess.t) :=
  except_500 (
    channel ← find_one (D:=Channel.t) (fun _ c => field_is (Channel.channel_id c) channel_id);
    match channel with
    | None => not_found "Channel not found"
    | Some (_, c) =>
        outline_content ← lift_exn (py_get (Channel.outline_content c) "sections" (JList []));
        sections ← lift_exn (py_iter outline_content);
        let total := Channel.total_lesson_quiz_count c in
        acc ← py_foldM (fun acc section =>
                 py_fold_get section "units" (fun acc unit_ =>
                   py_fold_get unit_ "activities" (percentage_step total) acc) acc)
               (mkPctAcc 0 []) sections;
        let outline := Some (JDict (activity_percentages acc)) in
        free_access ← find_one (D:=FreeAccess.t) (fun _ f => field_is (FreeAccess.channel_id f) channel_id);
        match free_access with
        | None =>
            let fa := FreeAccess.mk channel_id 0 outline (Some []) in
            i ← insert fa; mret (i, fa)
        | Some (i, fa) =>
            let fa' := FreeAccess.mk (FreeAccess.channel_id fa) (FreeAccess.percentage fa) outline
                                     (FreeAccess.free_activities fa) in
            save i fa';; mret (i, fa')
        end
    end).

(** ** update_free_access and get_free_access (lines 728-792) *)

(** [FreeAccess(channel_id=..., percentage=..., free_activities=...)]
    leaves out [precentage_outline], a required field
    ([Optional[Dict] = Field(...)]): the constructor raises. *)
Definition update_free_access (channel_id : string) (payload : FreeAccess.t) (uid : string)
    : PyM DB (oid * FreeAccess.t) :=
  except_500 (
    u ← to_oid uid;
    channel ← find_one (D:=Channel.t) (fun _ c => field_is (Channel.channel_id c) channel_id &&
                                                  N.eqb (Channel.user_id c) u);
    match channel with
    | None => not_found "Channel not found"
    | Some _ =>
        free_access ← find_one (D:=FreeAccess.t) (fun _ f => field_is (FreeAccess.channel_id f) channel_id);
        match free_access with
        | None => raise (missing_field "FreeAccess" "precentage_outline")
        | Some (i, fa) =>
            let fa' := FreeAccess.mk (FreeAccess.channel_id fa) (FreeAccess.percentage payload)
                         (FreeAccess.precentage_outline fa) (FreeAccess.free_activities payload) in
            save i fa';; mret (i, fa')
        end
    end).

(** A GET without authentication that creates the default settings. *)
Definition get_free_access (channel_id : string) : PyM DB (oid * FreeAccess.t) :=
  except_500 (
    free_access ← find_one (D:=FreeAccess.t) (fun _ f => field_is (FreeAccess.channel_id f) channel_id);
    match free_access with
    | Some r => mret r
    | None => let fa := FreeAccess.mk channel_id 0 (Some (JDict [])) (Some []) in
              i ← insert fa; mret (i, fa)
    end).

(** ** Checking the percentage on a range of totals *)

(** The spec's value [floor(current / total * 100)] or one less. *)
Definition pct_floor_or_below (c t : Z) : bool :=
  match activity_percentage c t with
  | inr p => Z.eqb p (100 * c / t) || Z.eqb p (100 * c / t - 1)
  | inl _ => false
  end.

Definition pct_table (n : Z) : bool :=
  forallb (fun t => forallb (fun c => pct_floor_or_below c t) (seqZ 0 (t + 1))) (seqZ 1 n).

Lemma pct_table_100 : pct_table 100 = true.
Proof. vm_compute. reflexivity. Qed.

Lemma pct_table_sound n t c :
  pct_table n = true -> 0 < t <= n -> 0 <= c <= t -> pct_floor_or_below c t = true.
Proof.
  unfold pct_table. rewrite forallb_forall. intros Hn Ht Hc.
  specialize (Hn t). rewrite forallb_forall in Hn. apply Hn.
  - apply list_elem_of_In, elem_of_seqZ. lia.
  - apply list_elem_of_In, elem_of_seqZ. lia.
Qed.

(** (C10) For every total of at most 100 items and every running count
    [0 <= c <= t], the stored percentage is the spec's
    [floor(c / t * 100)] or one less: the double rounding of
    [(c / t) * 100] can fall just below an integer, which [int()]
    truncates. *)
Theorem activity_percentage_floor_or_below t c :
  0 < t <= 100 -> 0 <= c <= t ->
  activity_percentage c t = inr (100 * c / t) \/ activity_percentage c t = inr (100 * c / t - 1).
Proof.
  intros Ht Hc. pose proof (pct_table_sound 100 t c pct_table_100 Ht Hc) as H.
  unfold pct_floor_or_below in H. destruct (activity_percentage c t) as [e|p]; [done|].
  apply orb_true_iff in H as [H|H]; apply Z.eqb_eq in H; subst; auto.
Qed.

(** At 29 items of 100 the percentage is 28, not the spec's 29. *)
Lemma activity_percentage_floor_or_below_witness :
  (activity_percentage 29 100 = inr 29 \/ activity_percentage 29 100 = inr 28) /\
  activity_percentage 29 100 = inr 28.
Proof. split; [apply (activity_percentage_floor_or_below 100 29); lia | vm_compute; reflexivity]. Defined.

(** (C11) Saving free-access settings for a channel that has none yet
    always fails: the new [FreeAccess] lacks its required
    [precentage_outline], and the caller gets HTTP 500 with nothing
    written. *)
Theorem update_free_access_first_time db cid payload uid :
  find_one_in (D:=FreeAccess.t) db (fun _ f => field_is (FreeAccess.channel_id f) cid) = None ->
  exists d, update_free_access cid payload uid db = (inl (HTTPException 500 d), db).
Proof.
  intros Hnone. unfold update_free_access, to_oid, except_500.
  destruct (parse_oid uid); pyrun; [|eauto].
  destruct (find_one_in (D:=Channel.t) _ _); pyrun; [|eauto]. rewrite Hnone. pyrun. eauto.
Qed.

Definition demo_fa_channel : Channel.t := Channel.mk 7%N "Python" (oid_str 1%N) "Learn Python"
  0 0 0 0 0 0 0 0 None None None None (Some false) None 0 (JDict [("sections", JList [])]).
Definition demo_fa_db : DB := mkDB [(2%N, DChannel demo_fa_channel)] 3%N.
Definition demo_fa_payload : FreeAccess.t := FreeAccess.mk (oid_str 1%N) 30 None (Some []).

Lemma update_free_access_first_time_witness :
  exists d, update_free_access (oid_str 1%N) demo_fa_payload (oid_str 7%N) demo_fa_db =
            (inl (HTTPException 500 d), demo_fa_db).
Proof. apply (update_free_access_first_time demo_fa_db). vm_compute. reflexivity. Defined.

(** The demo store of [Aggregate.v] whose lesson outline records three
    lessons (as [create_lesson] sets it after a request with three). *)
Definition demo_pages_db : DB := mkDB
  [(1%N, DChannelInfo demo_info); (2%N, DChannel demo_channel);
   (3%N, DSectionOutline (SectionOutline.mk (oid_str 1%N) "Intro" 1));
   (4%N, DUnitOutline (UnitOutline.mk (oid_str 3%N) "Unit" 1));
   (5%N, DActivityOutline (ActivityOutline.mk (oid_str 4%N) "Activity" 1 (Some 0) (Some 0)));
   (6%N, DLessonOutline (LessonOutline.mk (oid_str 5%N) "Lesson" 1 (Some 3)));
   (7%N, DLesson (Lesson.mk (oid_str 6%N) "text" (Some "hello") None None 1 (Some false) (Some false)))]
  8%N.

Definition percentage_entry (pct count : Z) : json :=
  JDict [("name", JStr "Activity"); ("order", JInt 1); ("percentage", JInt pct); ("count", JInt count)].

(** After the aggregation, the percentage of the channel's only activity. *)
Definition demo_percentages (db : DB) : exn + (oid * FreeAccess.t) :=
  outcome (get_activity_percentage demo_cid demo_uid)
          (final (get_channel_content_outline_stats demo_cid demo_uid) db).

(** The percentage of an activity counts the ["count"] of its items
    (a lesson outline's [lesson_count]), not the items: on a channel whose
    only lesson outline is its only item ([total_lesson_quiz_count = 1]),
    the activity gets 0% when the outline's count is 0 and 300% when it
    is 3, where the spec's cumulative item count gives 100%. *)
Theorem percentage_counts_item_counts :
  demo_percentages demo_db =
    inr (8%N, FreeAccess.mk demo_cid 0 (Some (JDict [(oid_str 5%N, percentage_entry 0 0)])) (Some [])) /\
  demo_percentages demo_pages_db =
    inr (8%N, FreeAccess.mk demo_cid 0 (Some (JDict [(oid_str 5%N, percentage_entry 300 3)])) (Some [])).
Proof. split; vm_compute; reflexivity. Qed.
