(* ===== verification/Duplicate.v ===== *)
(** * Channel duplication (api/studio/channel/setting.py, lines 74-360)

    [duplicate_channel] copies the ChannelInfo, Channel and PublishChannel
    of a channel the caller owns, then walks the source's
    [outline_content] blob and, for each node whose outline still exists,
    inserts a copy under the new parent and rebuilds a blob for the copy;
    it ends with the FreeAccess settings, the tiers and the coupons. One
    definition per loop body, innermost first; the loops thread the list
    the body appends to. No step is wrapped in [try]: the first exception
    ends the request with everything inserted so far left in place.

    Several constructor calls read an attribute the models do not have
    ([source_section_content.url] and the like, lines 164, 187, 212, 281):
    pydantic raises [AttributeError] there. [QuizOutline(...)] is called
    without its required [quiz_count] (line 261). The [count=] keyword
    given to [ActivityOutline] and [LessonOutline] names no field and is
    dropped, so their counters take their defaults. *)

From S2P Require Import Prelude ObjectId PySort Json Documents Aggregate Settings.

(** [obj.attr] on a pydantic model without that field *)
Definition no_attribute (cls attr : string) : exn :=
  PyException "AttributeError" ("'" +:+ cls +:+ "' object has no attribute '" +:+ attr +:+ "'").

(** [j[k]] on a JSON value, in a handler *)
Definition item (j : json) (k : string) : PyM DB json := lift_exn (py_item j k).

(** [Model.find_one({"_id": PydanticObjectId(j)})] *)
Definition find_by_json_id {D} `{Document D} (j : json) : PyM DB (option (oid * D)) :=
  i ← to_oid_json j;
  find_one (D:=D) (fun k _ => N.eqb k i).

(** Lines 220-294: one lesson or quiz item of an activity. *)
Definition dup_content (new_activity_id : string) (acc : list json) (content : json) : PyM DB (list json) :=
  ty ← lift_exn (py_get content "type" JNull);
  match ty with
  | JStr "lesson" =>
      cid ← item content "id";
      src ← find_by_json_id (D:=LessonOutline.t) cid;
      match src with
      | None => mret acc
      | Some (_, lo) =>
          let nlo := LessonOutline.mk new_activity_id (LessonOutline.name lo) (LessonOutline.order lo) (Some 0) in
          nli ← insert nlo;
          let new_lesson_outline_id := oid_str nli in
          src_lesson ← find_one (D:=Lesson.t) (fun _ l => json_is_str (Lesson.lesson_outline_id l) cid);
          (match src_lesson with
           | Some (_, l) =>
               insert (Lesson.mk new_lesson_outline_id (Lesson.lesson_type l) (Lesson.text l)
                         (Lesson.file_ids l) (Lesson.question_lesson l) (Lesson.order l)
                         (Lesson.is_launched l) (Lesson.is_free l));; mret tt
           | None => mret tt
           end : PyM DB unit);;
          name ← item content "name"; order ← item content "order"; count ← item content "count";
          mret (acc ++ [JDict [("id", JStr new_lesson_outline_id); ("name", name); ("order", order);
                               ("count", count); ("type", JStr "lesson")]])
      end
  | JStr "quiz" =>
      cid ← item content "id";
      src ← find_by_json_id (D:=QuizOutline.t) cid;
      match src with
      | None => mret acc
      | Some _ => raise (missing_field "QuizOutline" "quiz_count")
      end
  | _ => mret acc
  end.

(** Lines 193-301: one activity of a unit. *)
Definition dup_activity (new_unit_id : string) (acc : list json) (activity : json) : PyM DB (list json) :=
  aid ← item activity "id";
  src ← find_by_json_id (D:=ActivityOutline.t) aid;
  match src with
  | None => mret acc
  | Some (_, ao) =>
      let nao := ActivityOutline.mk new_unit_id (ActivityOutline.name ao) (ActivityOutline.order ao)
                   (Some 0) (ActivityOutline.percentage ao) in
      nai ← insert nao;
      let new_activity_id := oid_str nai in
      src_content ← find_one (D:=Activity.t) (fun _ a => json_is_str (Activity.activity_outline_id a) aid);
      match src_content with
      | Some _ => raise (no_attribute "Activity" "url")
      | None =>
          new_content ← py_fold_get activity "content" (dup_content new_activity_id) [];
          name ← item activity "name"; order ← item activity "order";
          mret (acc ++ [JDict [("id", JStr new_activity_id); ("name", name); ("order", order);
                               ("content", JList new_content)]])
      end
  end.

(** Lines 170-308: one unit of a section. *)
Definition dup_unit (new_section_id : string) (acc : list json) (unit_ : json) : PyM DB (list json) :=
  uid_ ← item unit_ "id";
  src ← find_by_json_id (D:=UnitOutline.t) uid_;
  match src with
  | None => mret acc
  | Some (_, uo) =>
      let nuo := UnitOutline.mk new_section_id (UnitOutline.name uo) (UnitOutline.order uo) in
      nui ← insert nuo;
      let new_unit_id := oid_str nui in
      src_content ← find_one (D:=Unit.t) (fun _ u => json_is_str (Unit.unit_outline_id u) uid_);
      match src_content with
      | Some _ => raise (no_attribute "Unit" "url")
      | None =>
          new_activities ← py_fold_get unit_ "activities" (dup_activity new_unit_id) [];
          name ← item unit_ "name"; order ← item unit_ "order";
          mret (acc ++ [JDict [("id", JStr new_unit_id); ("name", name); ("order", order);
                               ("activities", JList new_activities)]])
      end
  end.

(** Lines 146-315: one section of the blob. *)
Definition dup_section (new_channel_id : string) (acc : list json) (section : json) : PyM DB (list json) :=
  sid ← item section "id";
  src ← find_by_json_id (D:=SectionOutline.t) sid;
  match src with
  | None => mret acc
  | Some (_, so) =>
      let nso := SectionOutline.mk new_channel_id (SectionOutline.name so) (SectionOutline.order so) in
      nsi ← insert nso;
      let new_section_id := oid_str nsi in
      src_content ← find_one (D:=Section.t) (fun _ c => json_is_str (Section.section_outline_id c) sid);
      match src_content with
      | Some _ => raise (no_attribute "Section" "url")
      | None =>
          new_units ← py_fold_get section "units" (dup_unit new_section_id) [];
          name ← item section "name"; order ← item section "order";
          mret (acc ++ [JDict [("id", JStr new_section_id); ("name", name); ("order", order);
                               ("units", JList new_units)]])
      end
  end.

(** Lines 321-358: the FreeAccess settings, the tiers and the coupons. *)
Definition dup_settings (channel_id new_channel_id : string) : PyM DB unit :=
  source_fa ← find_one (D:=FreeAccess.t) (fun _ f => field_is (FreeAccess.channel_id f) channel_id);
  (match source_fa with
   | Some (_, fa) =>
       insert (FreeAccess.mk new_channel_id (FreeAccess.percentage fa)
                 (FreeAccess.precentage_outline fa) (FreeAccess.free_activities fa));; mret tt
   | None => mret tt
   end : PyM DB unit);;
  tiers ← find (D:=Tier.t) (fun _ t => field_is (Tier.channel_id t) channel_id);
  py_mapM (fun p => let t := p.2 in
             insert (Tier.mk new_channel_id (Tier.name t) (Tier.price t) (Tier.capacity t)
                       (Tier.billing_cycle t) (Tier.features t))) tiers;;
  coupons ← find (D:=Coupon.t) (fun _ c => field_is (Coupon.channel_id c) channel_id);
  py_mapM (fun p => let c := p.2 in
             insert (Coupon.mk new_channel_id ("COPY_" +:+ Coupon.code c) (Coupon.discount_type c)
                       (Coupon.discount_value c) (Coupon.max_uses c) (Coupon.expires_at c)
                       (Coupon.is_active c))) coupons;;
  mret tt.

(** Lines 74-360. *)
Definition duplicate_channel (now : datetime) (channel_id user_id : string) : PyM DB (oid * ChannelInfo.t) :=
  ci ← to_oid channel_id;
  source_info ← find_one (D:=ChannelInfo.t) (fun i _ => N.eqb i ci);
  match source_info with
  | None => not_found "Source channel not found"
  | Some (_, info) =>
      u ← to_oid user_id;
      source ← find_one (D:=Channel.t) (fun _ c => field_is (Channel.channel_id c) channel_id &&
                                                   N.eqb (Channel.user_id c) u);
      match source with
      | None => not_found "Source channel not found or access denied"
      | Some (_, sc) =>
          let new_info := ChannelInfo.mk user_id ("Copy of " +:+ ChannelInfo.name info)
                            (ChannelInfo.description info) (ChannelInfo.primary_language info)
                            (ChannelInfo.target_language info) (ChannelInfo.avatar_file_id info)
                            (ChannelInfo.cover_image_file_id info) in
          ni ← insert new_info;
          let new_channel_id := oid_str ni in
          u' ← to_oid user_id;
          description ← require_str "Channel" "description" (ChannelInfo.description new_info);
          let new_channel outline :=
            Channel.mk u' (ChannelInfo.name new_info) new_channel_id description
              (Channel.section_count sc) (Channel.unit_count sc) (Channel.activity_count sc)
              (Channel.lesson_count sc) (Channel.quiz_count sc) (Channel.question_count sc)
              (Channel.total_lesson_quiz_count sc) 0
              (ChannelInfo.primary_language info) (ChannelInfo.target_language info)
              (ChannelInfo.avatar_file_id info) (ChannelInfo.cover_image_file_id info)
              (Some false) None now (JDict [("sections", JList outline)]) in
          nc ← insert (new_channel []);
          insert (PublishChannel.mk user_id new_channel_id (Some false) None);;
          new_outline ← py_fold_get (Channel.outline_content sc) "sections" (dup_section new_channel_id) [];
          save nc (new_channel new_outline);;
          dup_settings channel_id new_channel_id;;
          mret (ni, new_info)
      end
  end.

(** (C13) Copying a section of the outline blob whose outline document
    exists and which has a Section content document always fails: the
    outline copy is inserted, then [source_section_content.url] raises
    [AttributeError], so [duplicate_channel] cannot copy any channel with
    authored section content and leaves a partial copy behind. *)
Theorem dup_section_with_content_raises db ncid acc section s i j so content :
  py_item section "id" = inr (JStr s) -> parse_oid s = Some i ->
  find_one_in (D:=SectionOutline.t) db (fun k _ => N.eqb k i) = Some (j, so) ->
  find_one_in (D:=Section.t) db (fun _ c => field_is (Section.section_outline_id c) s) = Some content ->
  dup_section ncid acc section db =
    (inl (no_attribute "Section" "url"),
     snd (insert (SectionOutline.mk ncid (SectionOutline.name so) (SectionOutline.order so)) db)).
Proof.
  intros Hid Hs Hso Hc. unfold dup_section, item, find_by_json_id, to_oid_json, to_oid, lift_exn.
  rewrite Hid. pyrun. rewrite Hs. pyrun. rewrite Hso. pyrun.
  change (mkDB _ _) with (snd (insert (SectionOutline.mk ncid (SectionOutline.name so) (SectionOutline.order so)) db)).
  rewrite find_one_in_insert_other by classes_disjoint. unfold field_is in Hc. by rewrite Hc.
Qed.

Definition demo_section : Section.t := Section.mk (oid_str 3%N) "Intro" "About Python" None.
(** The demo store of [Aggregate.v] with a channel description and a
    Section document for its section outline. *)
Definition demo_sec_db : DB := mkDB
  ((1%N, DChannelInfo (ChannelInfo.mk (oid_str 7%N) "Python" (Some "") (Some "en") None None None))
     :: tail demo_db.(docs) ++ [(8%N, DSection demo_section)]) 9%N.
(** The store after the aggregation has written the outline blob. *)
Definition demo_sec_final : DB := final (get_channel_content_outline_stats demo_cid demo_uid) demo_sec_db.

Lemma dup_section_with_content_raises_witness :
  dup_section (oid_str 9%N) [] (JDict [("id", JStr (oid_str 3%N))]) demo_sec_final =
    (inl (no_attribute "Section" "url"),
     snd (insert (SectionOutline.mk (oid_str 9%N) "Intro" 1) demo_sec_final)) /\
  outcome (duplicate_channel 1000 demo_cid demo_uid) demo_sec_final = inl (no_attribute "Section" "url") /\
  map (fun p => ChannelInfo.name p.2)
      (collection (D:=ChannelInfo.t) (final (duplicate_channel 1000 demo_cid demo_uid) demo_sec_final)) =
    ["Python"; "Copy of Python"].
Proof.
  split; [|split; vm_compute; reflexivity].
  apply (dup_section_with_content_raises demo_sec_final (oid_str 9%N) [] _ (oid_str 3%N) 3%N 3%N
           (SectionOutline.mk (oid_str 1%N) "Intro" 1) (8%N, demo_section)); vm_compute; reflexivity.
Defined.
