(* ===== verification/Play.v ===== *)
(** * The player API (api/play/play.py)

    Listing a creator's published channels, the subscription page,
    the channels a player subscribed to, subscribing, and reading and
    writing a player's progress. The handlers answer with the
    [Response_Model] envelope instead of raising for "not found"; the
    current time is an input of the handlers that stamp documents. *)

From S2P Require Import Prelude ObjectId PySort Json Documents Aggregate Settings.
From Stdlib Require Import SpecFloat.

(** [Response_Model(success, data, message={"en": ...}, error)] *)
Record Response_Model (A : Type) := mkResponse {
  success : bool; data : option A; message_en : string; error_code : string }.
Arguments mkResponse {A}.
Arguments success {A}. Arguments data {A}. Arguments message_en {A}. Arguments error_code {A}.

Definition ok {A} (x : A) (msg : string) : Response_Model A := mkResponse true (Some x) msg "OK".
Definition failure {A} (msg code : string) : Response_Model A := mkResponse false None msg code.

(** [except Exception as e: return Response_Model(success=False, ..., error=str(e))] *)
Definition except_envelope {A} (msg : string) (m : PyM DB (Response_Model A)) : PyM DB (Response_Model A) :=
  fun db => match m db with
            | (inl e, db') => (inr (failure msg (exn_str e)), db')
            | r => r
            end.

(** [{"user_id": PydanticObjectId(creator_id), "published": True}] *)
Definition published_by (u : oid) (_ : oid) (c : Channel.t) : bool :=
  N.eqb (Channel.user_id c) u && bool_decide (Channel.published c = Some true).

(** ** get_creator_channels (lines 17-41) *)
Definition get_creator_channels (creator_id player_id : string)
    : PyM DB (Response_Model (list (oid * Channel.t))) :=
  except_envelope "Failed to fetch channels." (
    u ← to_oid creator_id;
    channels ← find (published_by u);
    mret (ok channels "Channels fetched successfully.")).

(** ** get_channel_subscription_info (lines 44-87) *)

Record SubscriptionEntry := mkEntry {
  entry_channel_id : string; entry_name : string; entry_description : string; entry_creator_id : string;
  entry_channel_info : option (oid * ChannelInfo.t); entry_tiers : list (oid * Tier.t);
  entry_coupons : list (oid * Coupon.t) }.

(** Line 64 keys the lookups by [str(channel.id)], the id of the Channel
    document. [ChannelInfo.find_one({"channel_id": ...})] asks for a field
    no ChannelInfo has, which Mongo matches against nothing. *)
Definition subscription_entry (creator_id : string) (p : oid * Channel.t) : PyM DB SubscriptionEntry :=
  let channel_id := oid_str p.1 in
  channel_info ← find_one (D:=ChannelInfo.t) (fun _ _ => false);
  tiers ← find (D:=Tier.t) (fun _ t => field_is (Tier.channel_id t) channel_id);
  coupons ← find (D:=Coupon.t) (fun _ c => field_is (Coupon.channel_id c) channel_id);
  mret (mkEntry channel_id (Channel.name p.2) (Channel.description p.2) creator_id
                channel_info tiers coupons).

Definition get_channel_subscription_info (creator_id player_id : string)
    : PyM DB (Response_Model (list SubscriptionEntry)) :=
  u ← to_oid creator_id;
  channels ← find (published_by u);
  match channels with
  | [] => mret (ok [] "No published channels found for this creator.")
  | _ => result ← py_mapM (subscription_entry creator_id) channels;
         mret (ok result "Channels and subscription info fetched successfully.")
  end.

(** ** get_user_subscribed_channels (lines 90-167) *)

Record SubscribedChannel := mkSubscribed {
  sub_channel : Channel.t; sub_full_access : bool; sub_hearts_earned : Z; sub_subscribed_at : option datetime }.

Definition subscribed_entry (subs : list (oid * PlayerProgress.t)) (p : oid * Channel.t) : SubscribedChannel :=
  let subscription := List.find (fun s => String.eqb (PlayerProgress.channel_id s.2) (Channel.channel_id p.2)) subs in
  match subscription with
  | Some (_, s) => mkSubscribed p.2 (PlayerProgress.full_access s) (PlayerProgress.hearts_earned s)
                                (Some (PlayerProgress.created_at s))
  | None => mkSubscribed p.2 false 0 None
  end.

Definition get_user_subscribed_channels (player_id : string) : PyM DB (Response_Model (list SubscribedChannel)) :=
  except_envelope "Failed to fetch subscribed channels." (
    subs ← find (D:=PlayerProgress.t) (fun _ s => field_is (PlayerProgress.player_id s) player_id);
    match subs with
    | [] => mret (ok [] "No subscriptions found for this user.")
    | _ =>
        let ids := map (fun s => PlayerProgress.channel_id s.2) subs in
        channels ← find (D:=Channel.t) (fun _ c => bool_decide (Channel.channel_id c ∈ ids) &&
                                                   bool_decide (Channel.published c = Some true));
        let result := map (subscribed_entry subs) channels in
        mret (ok result ("Found " +:+ pretty (lenZ result) +:+ " subscribed channels."))
    end).

(** ** subscribe_to_channel (lines 170-282) *)

(** Lines 229-235 *)
Definition progress_content (content : json) : exn + json :=
  let? id := py_item content "id" in
  let? name := py_get content "name" (JStr "") in
  let? ty := py_get content "type" (JStr "lesson") in
  inr (JDict [("id", id); ("name", name); ("completed", JBool false); ("type", ty)]).

(** Lines 227-241 *)
Definition progress_activity (activity : json) : exn + json :=
  let? contents := iter_get activity "content" in
  let? progress_content_ := mapE progress_content contents in
  let? id := py_item activity "id" in
  let? name := py_get activity "name" (JStr "") in
  inr (JDict [("id", id); ("name", name); ("completed", JBool false); ("content", JList progress_content_)]).

(** Lines 225-247 *)
Definition progress_unit (unit_ : json) : exn + json :=
  let? activities := iter_get unit_ "activities" in
  let? progress_activities := mapE progress_activity activities in
  let? id := py_item unit_ "id" in
  let? name := py_get unit_ "name" (JStr "") in
  inr (JDict [("id", id); ("name", name); ("completed", JBool false); ("activities", JList progress_activities)]).

(** Lines 223-253 *)
Definition progress_section (section : json) : exn + json :=
  let? units := iter_get section "units" in
  let? progress_units := mapE progress_unit units in
  let? id := py_item section "id" in
  let? name := py_get section "name" (JStr "") in
  inr (JDict [("id", id); ("name", name); ("completed", JBool false); ("units", JList progress_units)]).

(** Lines 219-253 and 263: [{"sections": progress_sections}] *)
Definition progress_level_of (outline_content : json) : exn + json :=
  let? sections := iter_get outline_content "sections" in
  let? progress_sections := mapE progress_section sections in
  inr (JDict [("sections", JList progress_sections)]).

Definition progress_query (player_id channel_id : string) (_ : oid) (p : PlayerProgress.t) : bool :=
  field_is (PlayerProgress.player_id p) player_id && field_is (PlayerProgress.channel_id p) channel_id.

Definition is_player (u : User.t) : bool := match User.role u with Player => true | _ => false end.

Definition subscribe_to_channel (channel_id : string) (full_access : bool) (player_id : string)
    (now : datetime) : PyM DB (Response_Model (oid * PlayerProgress.t)) :=
  p ← to_oid player_id;
  user ← find_one (D:=User.t) (fun i u => N.eqb i p && is_player u);
  match user with
  | None => mret (failure "Player not found" "NOT_FOUND")
  | Some (ui, _) =>
      channel ← find_one (D:=Channel.t) (fun _ c => field_is (Channel.channel_id c) channel_id);
      match channel with
      | None => mret (failure "Channel not found!" "NOT_FOUND")
      | Some (_, c) =>
          existing ← find_one (progress_query player_id channel_id);
          subscription ←
            match existing with
            | Some (i, s) =>
                let s' := PlayerProgress.mk (PlayerProgress.player_id s) (PlayerProgress.channel_id s)
                            full_access (PlayerProgress.needs_review s) (PlayerProgress.hearts_earned s)
                            (PlayerProgress.content s) (PlayerProgress.progress_level s)
                            (PlayerProgress.created_at s) now in
                save i s';; mret (i, s')
            | None =>
                progress_level ← lift_exn (progress_level_of (Channel.outline_content c));
                let s := PlayerProgress.mk (oid_str ui) channel_id full_access (Some []) 0
                           (Some (Channel.outline_content c)) progress_level now now in
                i ← insert s; mret (i, s)
            end;
          mret (ok subscription "User subscribed to channel successfully.")
      end
  end.

(** ** get_user_content_progress and update_user_progress (lines 285-338) *)

Definition get_user_content_progress (channel_id player_id : string)
    : PyM DB (Response_Model (oid * PlayerProgress.t)) :=
  found ← find_one (progress_query player_id channel_id);
  match found with
  | None => mret (failure "User progress not found" "NOT_FOUND")
  | Some r => mret (ok r "User progress fetched successfully.")
  end.

(** [ProgressUpdateRequest]: the [content_id] it carries is not used. *)
Record ProgressUpdateRequest := mkProgressUpdate {
  upd_content_id : string; upd_progress_level : json; upd_hearts_earned : Z }.

Definition update_user_progress (channel_id : string) (payload : ProgressUpdateRequest) (player_id : string)
    (now : datetime) : PyM DB (Response_Model (oid * PlayerProgress.t)) :=
  found ← find_one (progress_query player_id channel_id);
  match found with
  | None => mret (failure "User progress not found" "NOT_FOUND")
  | Some (i, s) =>
      let s' := PlayerProgress.mk (PlayerProgress.player_id s) (PlayerProgress.channel_id s)
                  (PlayerProgress.full_access s) (PlayerProgress.needs_review s) (upd_hearts_earned payload)
                  (PlayerProgress.content s) (upd_progress_level payload) (PlayerProgress.created_at s) now in
      save i s';;
      mret (ok (i, s') "User progress updated successfully.")
  end.

(** ** The progress tree of an aggregated outline *)

(** The progress item of a lesson or quiz item, when it has an id. *)
Definition progress_content_total (c : json) : json :=
  match progress_content c with inr j => j | inl _ => JNull end.

Definition progress_activity_of (db : DB) (a : oid * ActivityOutline.t) : json :=
  JDict [("id", JStr (oid_str a.1)); ("name", JStr (ActivityOutline.name a.2)); ("completed", JBool false);
         ("content", JList (map progress_content_total (activity_content db a.1)))].

Definition progress_unit_of (db : DB) (u : oid * UnitOutline.t) : json :=
  JDict [("id", JStr (oid_str u.1)); ("name", JStr (UnitOutline.name u.2)); ("completed", JBool false);
         ("activities", JList (map (progress_activity_of db) (activities_of db u.1)))].

Definition progress_section_of (db : DB) (s : oid * SectionOutline.t) : json :=
  JDict [("id", JStr (oid_str s.1)); ("name", JStr (SectionOutline.name s.2)); ("completed", JBool false);
         ("units", JList (map (progress_unit_of db) (units_of db s.1)))].

Lemma progress_content_ok db a c :
  c ∈ activity_content db a -> progress_content c = inr (progress_content_total c) /\
  py_get (progress_content_total c) "id" JNull = py_get c "id" JNull /\
  py_get (progress_content_total c) "completed" JNull = inr (JBool false).
Proof.
  unfold activity_content. rewrite sort_by_perm, elem_of_app, !list_elem_of_fmap.
  intros [([i lo] & -> & _) | ([i qo] & -> & _)]; repeat split.
Qed.

Lemma progress_activity_ok db a : progress_activity (activity_item db a) = inr (progress_activity_of db a).
Proof.
  destruct a as [i a]. unfold progress_activity, progress_activity_of.
  cbn -[activity_content mapE oid_str].
  rewrite (mapE_map _ progress_content_total); [done|]. intros c Hc.
  by apply (progress_content_ok db i).
Qed.

Lemma progress_unit_ok db u : progress_unit (unit_item db u) = inr (progress_unit_of db u).
Proof.
  destruct u as [i u]. unfold progress_unit, progress_unit_of.
  cbn -[activities_of activity_item mapE oid_str].
  rewrite (mapE_map_comp _ _ (progress_activity_of db)); [done|]. intros a _. apply progress_activity_ok.
Qed.

Lemma progress_section_ok db s : progress_section (section_item db s) = inr (progress_section_of db s).
Proof.
  destruct s as [i s]. unfold progress_section, progress_section_of.
  cbn -[units_of unit_item mapE oid_str].
  rewrite (mapE_map_comp _ _ (progress_unit_of db)); [done|]. intros u _. apply progress_unit_ok.
Qed.

Lemma list_field_progress_section db s :
  list_field (progress_section_of db s) "units" = map (progress_unit_of db) (units_of db s.1).
Proof. reflexivity. Qed.

Lemma list_field_progress_unit db u :
  list_field (progress_unit_of db u) "activities" = map (progress_activity_of db) (activities_of db u.1).
Proof. reflexivity. Qed.

Lemma list_field_progress_activity db a :
  list_field (progress_activity_of db a) "content" = map progress_content_total (activity_content db a.1).
Proof. reflexivity. Qed.

Lemma iter_get_sections l : iter_get (JDict [("sections", JList l)]) "sections" = inr l.
Proof. reflexivity. Qed.

(** The lesson and quiz items of the progress tree are those of the outline, mapped. *)
Lemma progress_items db secs :
  outline_content_items (JDict [("sections", JList (map (progress_section_of db) secs))]) =
  map progress_content_total (outline_content_items (JDict [("sections", JList (map (section_item db) secs))])).
Proof.
  unfold outline_content_items. rewrite !list_field_sections.
  rewrite !flat_map_map_perm, map_flat_map. apply flat_map_ext. intros s.
  rewrite list_field_progress_section, list_field_section, !flat_map_map_perm, map_flat_map.
  apply flat_map_ext. intros u.
  rewrite list_field_progress_unit, list_field_unit, !flat_map_map_perm, map_flat_map.
  apply flat_map_ext. intros a. by rewrite list_field_progress_activity, list_field_activity.
Qed.

(** (C15) Subscribing builds the player's progress tree from the
    channel's outline blob without error whenever the blob is the one the
    aggregation wrote; its lesson and quiz items carry the outline's
    item ids in the outline's order, and every one starts with
    [completed = False]. *)
Theorem subscribe_progress_mirrors_outline db cid :
  let blob := JDict [("sections", JList (walk db cid).2)] in
  exists pl, progress_level_of blob = inr pl /\
    map (fun c => py_get c "id" JNull) (outline_content_items pl) =
      map (fun c => py_get c "id" JNull) (outline_content_items blob) /\
    Forall (fun c => py_get c "completed" JNull = inr (JBool false)) (outline_content_items pl).
Proof.
  intros blob. exists (JDict [("sections", JList (map (progress_section_of db) (sections_of db cid)))]).
  assert (Hitems := progress_items db (sections_of db cid)).
  assert (Hok : forall c, c ∈ outline_content_items blob -> progress_content c = inr (progress_content_total c) /\
              py_get (progress_content_total c) "id" JNull = py_get c "id" JNull /\
              py_get (progress_content_total c) "completed" JNull = inr (JBool false)).
  { intros c (a & Ha)%aggregated_items_in. by apply (progress_content_ok db a). }
  unfold blob in *. rewrite walk_eq in *. simpl in Hok |- *. split; [|split].
  - unfold progress_level_of. rewrite iter_get_sections. cbn [bindE].
    rewrite (mapE_map_comp _ _ (progress_section_of db)); [done|]. intros s _. apply progress_section_ok.
  - rewrite Hitems, map_map. apply map_ext_in. intros c Hc. apply Hok. by apply list_elem_of_In.
  - rewrite Hitems, Forall_map, Forall_forall. intros c Hc. by apply Hok.
Qed.

(** ** The subscription page *)

(** The entry [subscription_entry] computes, read off the store. *)
Definition entry_of (db : DB) (creator_id : string) (p : oid * Channel.t) : SubscriptionEntry :=
  let channel_id := oid_str p.1 in
  mkEntry channel_id (Channel.name p.2) (Channel.description p.2) creator_id
    (find_one_in (D:=ChannelInfo.t) db (fun _ _ => false))
    (find_in (D:=Tier.t) db (fun _ t => field_is (Tier.channel_id t) channel_id))
    (find_in (D:=Coupon.t) db (fun _ c => field_is (Coupon.channel_id c) channel_id)).

Lemma subscription_entry_run db creator_id p :
  subscription_entry creator_id p db = (inr (entry_of db creator_id p), db).
Proof. reflexivity. Qed.

Lemma find_one_in_false {D} `{Document D} db : find_one_in (D:=D) db (fun _ _ => false) = None.
Proof. unfold find_one_in, find_in. by induction (collection db). Qed.

(** Tiers (or coupons) keyed by ChannelInfo ids are never found under the
    id of a Channel document of a well-formed store. *)
Lemma find_keyed_by_info_nil {D} `{Document D} (key : D -> string) db (p : oid * Channel.t) :
  wf_db db -> p ∈ collection db ->
  (forall i d, (i, d) ∈ collection (D:=D) db ->
     exists j ci, (j, ci) ∈ collection (D:=ChannelInfo.t) db /\ key d = oid_str j) ->
  find_in (D:=D) db (fun _ d => field_is (key d) (oid_str p.1)) = [].
Proof.
  intros Hwf Hp Hkey. destruct (find_in _ _) as [|[i d] l] eqn:E; [done|]. exfalso.
  assert (Hin : (i, d) ∈ find_in (D:=D) db (fun _ d => field_is (key d) (oid_str p.1))).
  { rewrite E. apply list_elem_of_here. }
  apply find_in_elem in Hin as [Hd Hq]. destruct (Hkey _ _ Hd) as (j & ci & Hci & Hk).
  unfold field_is in Hq. rewrite Hk in Hq. apply String.eqb_eq, oid_str_inj in Hq;
    [| exact (wf_id_bound db Hwf j ci Hci) | exact (wf_id_bound db Hwf p.1 p.2 ltac:(by destruct p))].
  subst j. destruct p as [pi ch]. simpl in *.
  eapply (wf_distinct_classes db Hwf pi ch ci); [classes_disjoint | done | done].
Qed.

(** (C16) On a well-formed store whose tiers and coupons belong to
    channels through their ChannelInfo id (as [create_tier],
    [create_coupon] and the duplication key them), every entry of the
    subscription page has no channel info, no tier and no coupon: the
    lookups use the id of the Channel document and a field ChannelInfo
    does not have. *)
Theorem subscription_info_misses db creator_id player_id r db' :
  wf_db db ->
  (forall i t, (i, t) ∈ collection (D:=Tier.t) db ->
     exists j ci, (j, ci) ∈ collection (D:=ChannelInfo.t) db /\ Tier.channel_id t = oid_str j) ->
  (forall i c, (i, c) ∈ collection (D:=Coupon.t) db ->
     exists j ci, (j, ci) ∈ collection (D:=ChannelInfo.t) db /\ Coupon.channel_id c = oid_str j) ->
  get_channel_subscription_info creator_id player_id db = (inr r, db') ->
  forall e, e ∈ default [] (data r) ->
    entry_channel_info e = None /\ entry_tiers e = [] /\ entry_coupons e = [].
Proof.
  intros Hwf Ht Hc Hrun e He. unfold get_channel_subscription_info, to_oid in Hrun.
  destruct (parse_oid creator_id) as [u|]; pyrun; [|discriminate].
  destruct (find_in db (published_by u)) as [|p l] eqn:E; pyrun; simplify_eq/=;
    [by apply not_elem_of_nil in He|].
  rewrite (py_mapM_pure _ (entry_of db creator_id)) in Hrun by apply subscription_entry_run.
  rewrite ret_run in Hrun. injection Hrun as <- <-. cbn [data ok default] in He.
  apply list_elem_of_In in He. change (In e (map (entry_of db creator_id) (p :: l))) in He.
  apply in_map_iff in He as (q & <- & Hq).
  assert (Hqc : q ∈ collection db).
  { destruct q. apply (find_in_elem db (published_by u)). rewrite E. by apply list_elem_of_In. }
  split; [apply find_one_in_false|]. split; by apply find_keyed_by_info_nil.
Qed.

Definition play_channel : Channel.t := Channel.mk 7%N "Python" (oid_str 1%N) "Learn Python"
  0 0 0 0 0 0 0 0 None None None None (Some true) None 0 (JDict [("sections", JList [])]).
Definition play_tier : Tier.t := Tier.mk (oid_str 1%N) "Gold" (S754_zero false) 10 Monthly [].
Definition play_db : DB := mkDB
  [(1%N, DChannelInfo (ChannelInfo.mk (oid_str 7%N) "Python" (Some "") (Some "en") None None None));
   (2%N, DChannel play_channel); (3%N, DTier play_tier)] 4%N.
Definition play_page : Response_Model (list SubscriptionEntry) :=
  match outcome (get_channel_subscription_info (oid_str 7%N) (oid_str 9%N)) play_db with
  | inr r => r | inl _ => failure "" "" end.

Lemma play_db_wf : wf_db play_db.
Proof. split; [|split]; apply (bool_decide_unpack _); vm_compute; reflexivity. Qed.

(** The channel's tier exists, yet the page shows its entry without it. *)
Lemma subscription_info_misses_witness :
  find_in (D:=Tier.t) play_db (fun _ _ => true) = [(3%N, play_tier)] /\
  map entry_tiers (default [] (data play_page)) = [[]] /\
  forall e, e ∈ default [] (data play_page) ->
    entry_channel_info e = None /\ entry_tiers e = [] /\ entry_coupons e = [].
Proof.
  split; [reflexivity|]. split; [vm_compute; reflexivity|].
  apply (subscription_info_misses play_db (oid_str 7%N) (oid_str 9%N) play_page play_db play_db_wf).
  - intros i t Hin. vm_compute in Hin. apply list_elem_of_singleton in Hin. simplify_eq.
    exists 1%N, (ChannelInfo.mk (oid_str 7%N) "Python" (Some "") (Some "en") None None None).
    split; [vm_compute; apply list_elem_of_singleton; reflexivity | reflexivity].
  - intros i c Hin. vm_compute in Hin. by apply not_elem_of_nil in Hin.
  - vm_compute. reflexivity.
Defined.
