(* ===== verification/Channels.v ===== *)
(** * The channel list and channel page (api/studio/channel/channel.py)

    [GET /all_my_channels/] lists the caller's Channel documents as dicts
    of their fields (without [outline_content]); [GET /{channel_id}/]
    re-runs the outline aggregation of middlewares.py and returns the
    channel with its [outline_content] blob. Both wrap every exception
    into HTTP 500. The two prompt endpoints of the same file are in
    [Prompts.v].

    FastAPI sends the returned dicts through [jsonable_encoder], which
    renders [last_updated: datetime] as its ISO text: the rendering is the
    Section variable [isoformat]. The schemas of the responses are types
    of [JsonType.v]; the outline schema is the shape the aggregation
    writes, level by level. *)

From S2P Require Import Prelude ObjectId PySort Json JsonType Documents Aggregate.

(** ** Schemas *)

Definition lesson_ty : jty :=
  TObj [("id", TStr); ("lesson_type", TStr); ("text", TOpt TStr); ("file_ids", TOpt (TList TStr));
        ("question_lesson", TAny); ("order", TInt); ("is_launched", TOpt TBool); ("is_free", TOpt TBool)].

Definition lesson_item_ty : jty :=
  TObj [("id", TStr); ("name", TStr); ("order", TInt); ("count", TOpt TInt);
        ("type", TLit "lesson"); ("content", TList lesson_ty)].

Definition question_ty : jty :=
  TObj [("id", TStr); ("time_limit", TOpt TInt); ("points", TOpt TInt); ("template", TAny);
        ("generated_question", TAny); ("file_id", TOpt TStr); ("check_function", TOpt TStr);
        ("order", TOpt TInt); ("is_accepted", TOpt TBool)].

Definition quiz_item_ty : jty :=
  TObj [("id", TStr); ("name", TStr); ("order", TInt); ("count", TInt); ("type", TLit "quiz");
        ("is_launched", TOpt TBool); ("is_free", TOpt TBool); ("content", TList question_ty)].

(** An activity's [content] mixes lessons and quizzes, told apart by
    their ["type"] tag. *)
Definition content_ty : jty := TUnion lesson_item_ty quiz_item_ty.

Definition activity_ty : jty :=
  TObj [("id", TStr); ("name", TStr); ("order", TInt); ("count", TOpt TInt);
        ("content", TList content_ty); ("description", TOpt TStr); ("file_id", TOpt TStr);
        ("difficulty_level", TOpt TInt); ("is_launched", TOpt TBool)].

Definition unit_ty : jty :=
  TObj [("id", TStr); ("name", TStr); ("order", TInt); ("activities", TList activity_ty);
        ("description", TOpt TStr); ("file_id", TOpt TStr)].

Definition section_ty : jty :=
  TObj [("id", TStr); ("name", TStr); ("order", TInt); ("units", TList unit_ty);
        ("description", TOpt TStr); ("file_id", TOpt TStr)].

Definition outline_ty : jty := TObj [("sections", TList section_ty)].

(** The fields of channel.py's dicts, lines 37-54 and 76-93. *)
Definition channel_fields_ty : list (string * jty) :=
  [("name", TStr); ("channel_id", TStr); ("description", TStr);
   ("section_count", TInt); ("unit_count", TInt); ("activity_count", TInt);
   ("lesson_count", TInt); ("quiz_count", TInt); ("question_count", TInt);
   ("enrolled_students", TInt); ("last_updated", TStr); ("published", TOpt TBool);
   ("channel_link", TOpt TStr); ("primary_language", TOpt TStr); ("target_language", TOpt TStr);
   ("avatar_file_id", TOpt TStr); ("cover_image_file_id", TOpt TStr)].

Definition basic_info_ty : jty := TObj channel_fields_ty.

Definition channel_response_ty : jty :=
  TObj (("id", TStr) :: channel_fields_ty ++ [("outline_content", outline_ty)]).

Module ChannelApi.
Section Api.
Context (isoformat : datetime -> string).

(** The fields common to both dicts (lines 37-54 and 76-92). *)
Definition channel_fields (c : Channel.t) : list (string * json) :=
  [("name", JStr (Channel.name c)); ("channel_id", JStr (Channel.channel_id c));
   ("description", JStr (Channel.description c));
   ("section_count", JInt (Channel.section_count c)); ("unit_count", JInt (Channel.unit_count c));
   ("activity_count", JInt (Channel.activity_count c)); ("lesson_count", JInt (Channel.lesson_count c));
   ("quiz_count", JInt (Channel.quiz_count c)); ("question_count", JInt (Channel.question_count c));
   ("enrolled_students", JInt (Channel.enrolled_students c));
   ("last_updated", JStr (isoformat (Channel.last_updated c)));
   ("published", jopt_bool (Channel.published c)); ("channel_link", jopt_str (Channel.channel_link c));
   ("primary_language", jopt_str (Channel.primary_language c));
   ("target_language", jopt_str (Channel.target_language c));
   ("avatar_file_id", jopt_str (Channel.avatar_file_id c));
   ("cover_image_file_id", jopt_str (Channel.cover_image_file_id c))].

(** [get_all_channels_basic_info] (lines 21-60): [Channel.find({"user_id":
    PydanticObjectId(uid)})], one dict per channel in store order. *)
Definition get_all_channels_basic_info (uid : string) : PyM DB (list json) :=
  except_500 (
    u ← to_oid uid;
    channels ← find (D:=Channel.t) (fun _ c => N.eqb (Channel.user_id c) u);
    mret (map (fun p => JDict (channel_fields p.2)) channels)).

(** [get_channel_by_id] (lines 62-97). A Beanie document is always
    truthy, so [channel.outline_content if channel else None] is the
    blob. *)
Definition channel_response (p : oid * Channel.t) : json :=
  JDict (("id", JStr (oid_str p.1)) :: channel_fields p.2 ++
         [("outline_content", Channel.outline_content p.2)]).

Definition get_channel_by_id (channel_id uid : string) : PyM DB json :=
  except_500 (
    p ← get_channel_content_outline_stats channel_id uid;
    mret (channel_response p)).
End Api.
End ChannelApi.

(** ** The aggregated outline has the outline schema *)

Section OutlineTyping.
Variable db : DB.

Lemma lesson_json_typed p : has_type (lesson_json p) lesson_ty.
Proof. destruct p as [i l]. unfold lesson_json, lesson_ty. typed. Qed.

Lemma question_json_typed p : has_type (question_json p) question_ty.
Proof. destruct p as [i q]. unfold question_json, question_ty. typed. Qed.

#[local] Hint Resolve lesson_json_typed question_json_typed : jtype.

Lemma lesson_item_typed lo ls : has_type (lesson_item lo ls) content_ty.
Proof. apply ht_union_l. destruct lo as [i lo]. unfold lesson_item, lesson_item_ty. typed. Qed.

Lemma quiz_item_typed qo qs : has_type (quiz_item qo qs) content_ty.
Proof. apply ht_union_r. destruct qo as [i qo]. unfold quiz_item, quiz_item_ty. typed. Qed.

#[local] Hint Resolve lesson_item_typed quiz_item_typed : jtype.

Lemma activity_content_typed a : has_type (JList (activity_content db a)) (TList content_ty).
Proof.
  unfold activity_content. eapply ht_list_perm; [symmetry; apply sort_by_perm|].
  apply ht_list_app; typed.
Qed.

#[local] Hint Resolve activity_content_typed : jtype.

Lemma activity_item_typed a : has_type (activity_item db a) activity_ty.
Proof.
  destruct a as [i a]. unfold activity_item, activity_json, activity_ty.
  destruct (find_one_in _ _); typed.
Qed.

#[local] Hint Resolve activity_item_typed : jtype.

Lemma unit_item_typed u : has_type (unit_item db u) unit_ty.
Proof. destruct u as [i u]. unfold unit_item, unit_json, unit_ty. typed. Qed.

#[local] Hint Resolve unit_item_typed : jtype.

Lemma section_item_typed s : has_type (section_item db s) section_ty.
Proof.
  destruct s as [i s]. unfold section_item, section_json, section_ty.
  destruct (find_one_in _ _) as [[? [? ? ? []]]|]; simpl; typed.
Qed.

#[local] Hint Resolve section_item_typed : jtype.

Lemma walk_typed cid : has_type (JDict [("sections", JList (walk db cid).2)]) outline_ty.
Proof. rewrite walk_eq. unfold outline_ty. typed. Qed.
End OutlineTyping.

(** What the aggregation returns carries the outline it built from the
    store it read. *)
Lemma stats_result_outline cid uid db i ch db' :
  get_channel_content_outline_stats cid uid db = (inr (i, ch), db') ->
  exists db0, Channel.outline_content ch = JDict [("sections", JList (walk db0 cid).2)].
Proof.
  unfold get_channel_content_outline_stats, except_500, to_oid.
  destruct (parse_oid uid); pyrun; [|done].
  destruct (find_one_in _ _) as [[chi c]|]; pyrun; [|done].
  destruct (walk db cid) as [st oc] eqn:W. pyrun.
  destruct (parse_oid cid); pyrun; [|done].
  destruct (find_one_in _ _) as [[ii info]|]; pyrun; [|done].
  intros [= <- <- _]. exists db. by rewrite W.
Qed.

Section ResponseTyping.
Context (isoformat : datetime -> string).

Lemma channel_fields_typed c : has_type (JDict (ChannelApi.channel_fields isoformat c)) basic_info_ty.
Proof. unfold ChannelApi.channel_fields, basic_info_ty, channel_fields_ty. typed. Qed.

Lemma channel_response_typed p :
  has_type (Channel.outline_content p.2) outline_ty ->
  has_type (ChannelApi.channel_response isoformat p) channel_response_ty.
Proof.
  intros Ho. unfold ChannelApi.channel_response, ChannelApi.channel_fields, channel_response_ty,
    channel_fields_ty. cbn [app]. typed.
Qed.
End ResponseTyping.

Section Runs.
Context (isoformat : datetime -> string).

(** The channel list is one dict per Channel document of the caller, in
    store order; the store is not written. *)
Lemma get_all_channels_basic_info_run db uid u :
  parse_oid uid = Some u ->
  ChannelApi.get_all_channels_basic_info isoformat uid db =
    (inr (map (fun p => JDict (ChannelApi.channel_fields isoformat p.2))
              (find_in db (fun _ c => N.eqb (Channel.user_id c) u))), db).
Proof. intros Hu. unfold ChannelApi.get_all_channels_basic_info, except_500, to_oid. rewrite Hu. by pyrun. Qed.

(** A caller who owns no Channel with this id gets the aggregation's 500
    wrapped once more: detail ["500: 404: Channel not found"]. *)
Lemma get_channel_by_id_not_owner db cid uid u :
  parse_oid uid = Some u ->
  find_one_in db (fun _ c => field_is (Channel.channel_id c) cid && N.eqb (Channel.user_id c) u) = None ->
  ChannelApi.get_channel_by_id isoformat cid uid db =
    (inl (HTTPException 500 (exn_str (HTTPException 500 (exn_str (HTTPException 404 "Channel not found"))))), db).
Proof.
  intros Hu Hf. unfold ChannelApi.get_channel_by_id, except_500 at 1.
  unfold mbind, pym_bind. by rewrite (stats_no_channel db cid uid u Hu Hf).
Qed.
End Runs.

(** The answers of channel.py's two read endpoints have their
    schemas: the channel list is a list of dicts with the seventeen
    channel fields in the order the code writes them, and the channel
    page is a dict of the id, the same seventeen fields and an
    [outline_content] blob in which every section, unit, activity,
    lesson, quiz and question has the fields the aggregation writes, with
    their types, and every activity's content items carry the ["type"]
    tag "lesson" or "quiz" that tells their shape. *)
Lemma channel_api_typed isoformat db uid channel_id :
  (forall r db', ChannelApi.get_all_channels_basic_info isoformat uid db = (inr r, db') ->
     has_type (JList r) (TList basic_info_ty)) /\
  (forall r db', ChannelApi.get_channel_by_id isoformat channel_id uid db = (inr r, db') ->
     has_type r channel_response_ty).
Proof.
  split; intros r db'.
  - destruct (parse_oid uid) as [u|] eqn:Hu.
    + rewrite (get_all_channels_basic_info_run _ _ _ _ Hu). intros [= <- _].
      apply ht_list_map. intros. apply channel_fields_typed.
    + unfold ChannelApi.get_all_channels_basic_info, except_500, to_oid. rewrite Hu. by pyrun.
  - unfold ChannelApi.get_channel_by_id, except_500 at 1, mbind, pym_bind.
    destruct (get_channel_content_outline_stats _ _ _) as [[e|[i ch]] db1] eqn:E; [done|].
    intros [= <- _]. apply channel_response_typed.
    destruct (stats_result_outline _ _ _ _ _ _ E) as [db0 Ho]. simpl. rewrite Ho. apply walk_typed.
Qed.

