(* ===== verification/Responses.v ===== *)
(** * Response models (models/channel.py)

    The studio endpoints answer an [XResponse] built from [doc.model_dump()], with
    [response_model=XResponse]: pydantic v2 validates the object from its
    attributes and FastAPI sends its fields in declaration order, the
    fields of [XFields] first and the [id] of [XResponse] last, turned
    into its hex text by [validate_id]. [ResponseModel] is that
    rendering for a document type, with the schema its pydantic
    annotations give and the check pydantic makes of the document's JSON
    fields ([Dict[str, str]], [Dict[str, Any]]); [ResponseLaws] says the
    rendering of a checked document has the schema. Every Response class
    an endpoint uses is an instance, except [TierResponse], whose
    [price: float] has no value in the JSON model of [Json.v].

    The file also holds the examples the models document in OpenAPI,
    checked against the schemas the code writes. *)

From S2P Require Import Prelude ObjectId PySort Json JsonType Documents Aggregate Content FreeAccess Channels.

(** [validate_id]: [str(value)] on both branches; the value is the
    document's [PydanticObjectId]. *)
Definition validate_id (i : oid) : string := oid_str i.

Class ResponseModel (D : Type) := {
  resp_fields : D -> list (string * json);
  resp_schema : list (string * jty);
  doc_valid : D -> bool
}.

Class ResponseLaws (D : Type) `{ResponseModel D} :=
  resp_fields_typed : forall d, doc_valid d = true -> has_type (JDict (resp_fields d)) (TObj resp_schema).

(** The [XResponse] of a document as FastAPI sends it. *)
Definition response {D} `{ResponseModel D} (p : oid * D) : json :=
  JDict (resp_fields p.2 ++ [("id", JStr (validate_id p.1))]).

Definition response_ty (D : Type) `{ResponseModel D} : jty := TObj (resp_schema ++ [("id", TStr)]).

(** A handler that returns one document, or a list of them, composed with
    its response model. *)
Definition respond {D} `{ResponseModel D} (m : PyM DB (oid * D)) : PyM DB json :=
  p ← m; mret (response p).

Definition respond_list {D} `{ResponseModel D} (m : PyM DB (list (oid * D))) : PyM DB json :=
  ps ← m; mret (JList (map response ps)).

(** ** The Response classes *)

(** [SectionOutlineResponse] (lines 184-216) *)
#[export] Instance section_outline_response : ResponseModel SectionOutline.t := {|
  resp_fields s := [("channel_id", JStr (SectionOutline.channel_id s)); ("name", JStr (SectionOutline.name s));
                    ("order", JInt (SectionOutline.order s))];
  resp_schema := [("channel_id", TStr); ("name", TStr); ("order", TInt)];
  doc_valid _ := true |}.

(** [SectionResponse] (lines 218-252) *)
#[export] Instance section_response : ResponseModel Section.t := {|
  resp_fields s := [("section_outline_id", JStr (Section.section_outline_id s)); ("name", JStr (Section.name s));
                    ("description", JStr (Section.description s)); ("file_id", jopt_str (Section.file_id s))];
  resp_schema := [("section_outline_id", TStr); ("name", TStr); ("description", TStr); ("file_id", TOpt TStr)];
  doc_valid _ := true |}.

(** [UnitOutlineResponse] (lines 254-287) *)
#[export] Instance unit_outline_response : ResponseModel UnitOutline.t := {|
  resp_fields u := [("section_outline_id", JStr (UnitOutline.section_outline_id u)); ("name", JStr (UnitOutline.name u));
                    ("order", JInt (UnitOutline.order u))];
  resp_schema := [("section_outline_id", TStr); ("name", TStr); ("order", TInt)];
  doc_valid _ := true |}.

(** [UnitResponse] (lines 289-322) *)
#[export] Instance unit_response : ResponseModel Unit.t := {|
  resp_fields u := [("unit_outline_id", JStr (Unit.unit_outline_id u)); ("name", JStr (Unit.name u));
                    ("description", JStr (Unit.description u)); ("file_id", JStr (Unit.file_id u))];
  resp_schema := [("unit_outline_id", TStr); ("name", TStr); ("description", TStr); ("file_id", TStr)];
  doc_valid _ := true |}.

(** [ActivityOutlineResponse] (lines 324-361) *)
#[export] Instance activity_outline_response : ResponseModel ActivityOutline.t := {|
  resp_fields a := [("unit_outline_id", JStr (ActivityOutline.unit_outline_id a)); ("name", JStr (ActivityOutline.name a));
                    ("order", JInt (ActivityOutline.order a));
                    ("lesson_quiz_count", jopt_int (ActivityOutline.lesson_quiz_count a));
                    ("percentage", jopt_int (ActivityOutline.percentage a))];
  resp_schema := [("unit_outline_id", TStr); ("name", TStr); ("order", TInt); ("lesson_quiz_count", TOpt TInt);
                  ("percentage", TOpt TInt)];
  doc_valid _ := true |}.

(** [ActivityResponse] (lines 363-400) *)
#[export] Instance activity_response : ResponseModel Activity.t := {|
  resp_fields a := [("activity_outline_id", JStr (Activity.activity_outline_id a));
                    ("description", JStr (Activity.description a)); ("file_id", JStr (Activity.file_id a));
                    ("difficulty_level", JInt (Activity.difficulty_level a));
                    ("is_launched", jopt_bool (Activity.is_launched a))];
  resp_schema := [("activity_outline_id", TStr); ("description", TStr); ("file_id", TStr);
                  ("difficulty_level", TInt); ("is_launched", TOpt TBool)];
  doc_valid _ := true |}.

(** [LessonOutlineResponse] (lines 402-439) *)
#[export] Instance lesson_outline_response : ResponseModel LessonOutline.t := {|
  resp_fields l := [("activity_outline_id", JStr (LessonOutline.activity_outline_id l));
                    ("name", JStr (LessonOutline.name l)); ("order", JInt (LessonOutline.order l));
                    ("lesson_count", jopt_int (LessonOutline.lesson_count l))];
  resp_schema := [("activity_outline_id", TStr); ("name", TStr); ("order", TInt); ("lesson_count", TOpt TInt)];
  doc_valid _ := true |}.

(** [question_lesson: Optional[Dict[str, str]]] *)
Definition question_lesson_ty : jty := TOpt (TMap TStr).

(** [LessonResponse] (lines 441-482) *)
#[export] Instance lesson_response : ResponseModel Lesson.t := {|
  resp_fields l := [("lesson_outline_id", JStr (Lesson.lesson_outline_id l));
                    ("lesson_type", JStr (Lesson.lesson_type l)); ("text", jopt_str (Lesson.text l));
                    ("file_ids", jopt (fun fs => JList (map JStr fs)) (Lesson.file_ids l));
                    ("question_lesson", jopt id (Lesson.question_lesson l));
                    ("order", JInt (Lesson.order l)); ("is_launched", jopt_bool (Lesson.is_launched l));
                    ("is_free", jopt_bool (Lesson.is_free l))];
  resp_schema := [("lesson_outline_id", TStr); ("lesson_type", TStr); ("text", TOpt TStr);
                  ("file_ids", TOpt (TList TStr)); ("question_lesson", question_lesson_ty); ("order", TInt);
                  ("is_launched", TOpt TBool); ("is_free", TOpt TBool)];
  doc_valid l := type_check question_lesson_ty (jopt id (Lesson.question_lesson l)) |}.

(** [QuizOutlineResponse] (lines 484-524) *)
#[export] Instance quiz_outline_response : ResponseModel QuizOutline.t := {|
  resp_fields q := [("activity_outline_id", JStr (QuizOutline.activity_outline_id q));
                    ("name", JStr (QuizOutline.name q)); ("order", JInt (QuizOutline.order q));
                    ("is_launched", jopt_bool (QuizOutline.is_launched q));
                    ("is_free", jopt_bool (QuizOutline.is_free q)); ("quiz_count", JInt (QuizOutline.quiz_count q))];
  resp_schema := [("activity_outline_id", TStr); ("name", TStr); ("order", TInt); ("is_launched", TOpt TBool);
                  ("is_free", TOpt TBool); ("quiz_count", TInt)];
  doc_valid _ := true |}.

(** [template: Dict[str, Any]] and [generated_question: Optional[Dict[str, Any]]] *)
Definition template_ty : jty := TMap TAny.
Definition generated_question_ty : jty := TOpt (TMap TAny).

(** [QuestionResponse] (lines 526-579) *)
#[export] Instance question_response : ResponseModel Question.t := {|
  resp_fields q := [("quiz_outline_id", JStr (Question.quiz_outline_id q));
                    ("time_limit", jopt_int (Question.time_limit q)); ("points", jopt_int (Question.points q));
                    ("template", Question.template q);
                    ("generated_question", jopt id (Question.generated_question q));
                    ("file_id", jopt_str (Question.file_id q));
                    ("check_function", jopt_str (Question.check_function q));
                    ("order", jopt_int (Question.order q)); ("is_accepted", jopt_bool (Question.is_accepted q))];
  resp_schema := [("quiz_outline_id", TStr); ("time_limit", TOpt TInt); ("points", TOpt TInt);
                  ("template", template_ty); ("generated_question", generated_question_ty);
                  ("file_id", TOpt TStr); ("check_function", TOpt TStr); ("order", TOpt TInt);
                  ("is_accepted", TOpt TBool)];
  doc_valid q := type_check template_ty (Question.template q) &&
                 type_check generated_question_ty (jopt id (Question.generated_question q)) |}.

(** [ChannelInfoResponse] (lines 581-614) *)
#[export] Instance channel_info_response : ResponseModel ChannelInfo.t := {|
  resp_fields c := [("user_id", JStr (ChannelInfo.user_id c)); ("name", JStr (ChannelInfo.name c));
                    ("description", jopt_str (ChannelInfo.description c));
                    ("primary_language", jopt_str (ChannelInfo.primary_language c));
                    ("target_language", jopt_str (ChannelInfo.target_language c));
                    ("avatar_file_id", jopt_str (ChannelInfo.avatar_file_id c));
                    ("cover_image_file_id", jopt_str (ChannelInfo.cover_image_file_id c))];
  resp_schema := [("user_id", TStr); ("name", TStr); ("description", TOpt TStr); ("primary_language", TOpt TStr);
                  ("target_language", TOpt TStr); ("avatar_file_id", TOpt TStr);
                  ("cover_image_file_id", TOpt TStr)];
  doc_valid _ := true |}.

(** [PublishChannelResponse] (lines 616-646) *)
#[export] Instance publish_channel_response : ResponseModel PublishChannel.t := {|
  resp_fields p := [("user_id", JStr (PublishChannel.user_id p)); ("channel_id", JStr (PublishChannel.channel_id p));
                    ("published", jopt_bool (PublishChannel.published p));
                    ("channel_link", jopt_str (PublishChannel.channel_link p))];
  resp_schema := [("user_id", TStr); ("channel_id", TStr); ("published", TOpt TBool); ("channel_link", TOpt TStr)];
  doc_valid _ := true |}.

(** [precentage_outline: Optional[Dict[str, Any]]] *)
Definition precentage_outline_ty : jty := TOpt (TMap TAny).

(** [FreeAccessResponse] (lines 679-718) *)
#[export] Instance free_access_response : ResponseModel FreeAccess.t := {|
  resp_fields f := [("channel_id", JStr (FreeAccess.channel_id f)); ("percentage", JInt (FreeAccess.percentage f));
                    ("precentage_outline", jopt id (FreeAccess.precentage_outline f));
                    ("free_activities", jopt (fun l => JList (map JStr l)) (FreeAccess.free_activities f))];
  resp_schema := [("channel_id", TStr); ("percentage", TInt); ("precentage_outline", precentage_outline_ty);
                  ("free_activities", TOpt (TList TStr))];
  doc_valid f := type_check precentage_outline_ty (jopt id (FreeAccess.precentage_outline f)) |}.

(** [discount_type: Literal["Percentage", "fixed Amount"]] *)
Definition discount_type_json (d : discount_type) : json :=
  match d with Percentage => JStr "Percentage" | FixedAmount => JStr "fixed Amount" end.

(** [CouponResponse] (lines 720-749); [expires_at] is its ISO text. *)
#[export] Instance coupon_response : ResponseModel Coupon.t := {|
  resp_fields c := [("channel_id", JStr (Coupon.channel_id c)); ("code", JStr (Coupon.code c));
                    ("discount_type", discount_type_json (Coupon.discount_type c));
                    ("discount_value", JInt (Coupon.discount_value c)); ("max_uses", JInt (Coupon.max_uses c));
                    ("expires_at", JStr (Coupon.expires_at c)); ("is_active", JBool (Coupon.is_active c))];
  resp_schema := [("channel_id", TStr); ("code", TStr); ("discount_type", TUnion (TLit "Percentage") (TLit "fixed Amount"));
                  ("discount_value", TInt); ("max_uses", TInt); ("expires_at", TStr); ("is_active", TBool)];
  doc_valid _ := true |}.

(** ** Every rendering has its schema *)

(** [typed], with the JSON fields discharged by pydantic's check. *)
Ltac resp_typed :=
  repeat first
    [ apply type_check_sound; assumption
    | apply ht_union_l; apply ht_lit
    | apply ht_union_r; apply ht_lit
    | apply ht_obj_cons
    | apply ht_obj_nil
    | apply ht_jopt; intros ? ?
    | apply ht_list_map; intros ? ?
    | solve [eauto with jtype] ].

Ltac resp_law := intros d Hd; destruct d; simpl in *;
  repeat match goal with H : _ && _ = true |- _ => apply andb_true_iff in H as [? ?] end;
  repeat match goal with |- context [discount_type_json ?x] => destruct x; simpl end;
  resp_typed.

#[export] Instance section_outline_laws : ResponseLaws SectionOutline.t. Proof. resp_law. Qed.
#[export] Instance section_laws : ResponseLaws Section.t. Proof. resp_law. Qed.
#[export] Instance unit_outline_laws : ResponseLaws UnitOutline.t. Proof. resp_law. Qed.
#[export] Instance unit_laws : ResponseLaws Unit.t. Proof. resp_law. Qed.
#[export] Instance activity_outline_laws : ResponseLaws ActivityOutline.t. Proof. resp_law. Qed.
#[export] Instance activity_laws : ResponseLaws Activity.t. Proof. resp_law. Qed.
#[export] Instance lesson_outline_laws : ResponseLaws LessonOutline.t. Proof. resp_law. Qed.
#[export] Instance lesson_laws : ResponseLaws Lesson.t. Proof. resp_law. Qed.
#[export] Instance quiz_outline_laws : ResponseLaws QuizOutline.t. Proof. resp_law. Qed.
#[export] Instance question_laws : ResponseLaws Question.t. Proof. resp_law. Qed.
#[export] Instance channel_info_laws : ResponseLaws ChannelInfo.t. Proof. resp_law. Qed.
#[export] Instance publish_channel_laws : ResponseLaws PublishChannel.t. Proof. resp_law. Qed.
#[export] Instance free_access_laws : ResponseLaws FreeAccess.t. Proof. resp_law. Qed.
#[export] Instance coupon_laws : ResponseLaws Coupon.t. Proof. resp_law. Qed.

Section Respond.
Context {D : Type} `{ResponseLaws D}.

Lemma response_typed p : doc_valid p.2 = true -> has_type (response p) (response_ty D).
Proof.
  intros Hv. unfold response, response_ty. apply ht_obj_app; [by apply resp_fields_typed|].
  apply ht_obj_cons; [apply ht_str|apply ht_obj_nil].
Qed.

(** A handler whose documents pass pydantic's check answers with the
    Response schema. *)
Lemma respond_typed (m : PyM DB (oid * D)) :
  returns (fun p => doc_valid p.2 = true) m -> returns (fun j => has_type j (response_ty D)) (respond m).
Proof. intros Hm. eapply returns_bind; [exact Hm|]. intros p Hp. by apply returns_ret, response_typed. Qed.

Lemma respond_list_typed (m : PyM DB (list (oid * D))) :
  returns (fun ps => Forall (fun p => doc_valid p.2 = true) ps) m ->
  returns (fun j => has_type j (TList (response_ty D))) (respond_list m).
Proof.
  intros Hm. eapply returns_bind; [exact Hm|]. intros ps Hps. apply returns_ret, ht_list_map.
  intros p Hp. apply response_typed. by eapply Forall_forall in Hps.
Qed.
End Respond.

(** ** The percentage outline [get_activity_percentage] writes *)

(** A bind whose intermediate value the postcondition does not need. *)
Ltac bind_any := eapply returns_bind; [apply returns_any|intros ? _].

(** One entry per activity id (setting.py lines 700-705). *)
Definition pct_entry_ty : jty :=
  TObj [("name", TAny); ("order", TAny); ("percentage", TInt); ("count", TInt)].

Lemma dict_set_typed kvs k v t :
  has_type (JDict kvs) (TMap t) -> has_type v t -> has_type (JDict (dict_set kvs k v)) (TMap t).
Proof.
  rewrite !ht_map_iff. intros Hkvs Hv k' v' Hin. unfold dict_set in Hin.
  destruct (existsb _ kvs).
  - apply list_elem_of_In, in_map_iff in Hin as ([k0 v0] & Heq & Hin). simpl in Heq.
    destruct (String.eqb k0 k); simplify_eq; [done|]. apply (Hkvs k'). by apply list_elem_of_In.
  - apply elem_of_app in Hin as [Hin|Hin%list_elem_of_singleton]; [by apply (Hkvs k')|by simplify_eq].
Qed.

Definition pct_acc_typed (acc : PctAcc) : Prop :=
  has_type (JDict (activity_percentages acc)) (TMap pct_entry_ty).

Lemma percentage_step_typed total acc activity :
  pct_acc_typed acc -> returns pct_acc_typed (percentage_step total acc activity).
Proof.
  intros Hacc. unfold percentage_step. cbv zeta.
  repeat bind_any.
  apply returns_ret. apply dict_set_typed; [done|]. typed.
Qed.

Lemma get_activity_percentage_outline_typed channel_id uid :
  returns (fun p => exists o, FreeAccess.precentage_outline p.2 = Some (JDict o) /\
                              has_type (JDict o) (TMap pct_entry_ty))
          (get_activity_percentage channel_id uid).
Proof.
  unfold get_activity_percentage. apply returns_except_500.
  eapply returns_bind; [apply returns_any|]. intros [[? c]|] _; [|apply returns_raise].
  do 2 bind_any.
  eapply returns_bind with (Q := pct_acc_typed).
  { apply returns_py_foldM; [by repeat constructor|]. intros acc section Hacc.
    unfold py_fold_get. do 2 bind_any.
    apply returns_py_foldM; [done|]. intros acc' unit_ Hacc'.
    unfold py_fold_get. do 2 bind_any.
    apply returns_py_foldM; [done|]. intros. by apply percentage_step_typed. }
  intros acc Hacc. cbv zeta. eapply returns_bind; [apply returns_any|]. intros [[i fa]|] _.
  - bind_any. apply returns_ret. by eexists.
  - bind_any. apply returns_ret. by eexists.
Qed.

(** ** The documented examples *)

(** The OpenAPI example of [ChannelFields.outline_content] (lines 31-115),
    with Python's ['null'], ['true'] and ['false'] as the strings they
    are. *)
Definition outline_content_example : json :=
  JDict [("sections", JList [
    JDict [("id", JStr "681f14bf72b568b13257f8e9"); ("name", JStr "Introduction"); ("order", JInt 1);
      ("units", JList [
        JDict [("id", JStr "681f14bf72b568b13257f8eb"); ("name", JStr "Getting Started"); ("order", JInt 1);
          ("activities", JList [
            JDict [("id", JStr "681f14bf72b568b13257f8ed"); ("name", JStr "First Steps"); ("order", JInt 1);
              ("count", JInt 1);
              ("content", JList [
                JDict [("id", JStr "681f14bf72b568b13257f8ef"); ("name", JStr "Hello World"); ("order", JInt 1);
                  ("count", JInt 1); ("type", JStr "lesson");
                  ("content", JDict [("id", JStr "681f14bf72b568b13257f8f0"); ("lesson_type", JStr "text");
                     ("text", JStr "print('Hello, World!')");
                     ("urls", JList [JStr "https://example.com/lesson1"]);
                     ("question_lesson", JStr "null"); ("order", JInt 1);
                     ("is_launched", JStr "true"); ("is_free", JStr "true")])];
                JDict [("id", JStr "681f14bf72b568b13257f8f1"); ("name", JStr "Quiz 1"); ("order", JInt 2);
                  ("count", JInt 1); ("type", JStr "quiz"); ("is_launched", JStr "true"); ("is_free", JStr "false");
                  ("content", JList [
                    JDict [("id", JStr "681f14bf72b568b13257f8f2"); ("time_limit", JInt 30); ("points", JInt 10);
                      ("template", JDict [("type", JStr "multiple_choice");
                         ("question", JStr "What does print('Hello, World!') do?");
                         ("options", JList [JStr "Prints text"; JStr "Saves file"])]);
                      ("generated_question", JStr "null");
                      ("url", JList [JStr "https://example.com/q1.jpg"]);
                      ("check_function", JStr "def check_answer(ans): return ans == 'Prints text'");
                      ("order", JInt 1); ("is_accepted", JStr "true")]])]]);
              ("description", JStr "First steps in Python."); ("url", JStr "https://example.com/activity1.jpg");
              ("difficulty_level", JInt 1); ("is_launched", JStr "true")]]);
          ("description", JStr "Getting started with Python."); ("url", JStr "https://example.com/unit1.jpg")]]);
      ("description", JStr "Intro section."); ("url", JStr "https://example.com/section1.jpg")]])].

(** The OpenAPI example of [LessonFields.question_lesson] (lines 446-449). *)
Definition question_lesson_example : json :=
  JDict [("question", JStr "What is the capital of France?");
         ("options", JList [JStr "Paris"; JStr "London"; JStr "Berlin"; JStr "Madrid"])].

(** The OpenAPI example of [FreeAccessFields.precentage_outline]
    (lines 682-695). *)
Definition precentage_outline_example : json :=
  JDict [("activity_id_1", JDict [("name", JStr "Introduction to Python"); ("order", JInt 1);
                                  ("percentage", JInt 10); ("count", JInt 10)]);
         ("activity_id_2", JDict [("name", JStr "Basic Data Types"); ("order", JInt 2);
                                  ("percentage", JInt 20); ("count", JInt 20)])].

(** This one has the shape [get_activity_percentage] writes. *)
Lemma precentage_outline_example_typed : has_type precentage_outline_example (TMap pct_entry_ty).
Proof. apply type_check_sound. vm_compute. reflexivity. Qed.

(** The documented outline is not what the aggregation writes: its
    lesson's [content] is one dict instead of a list, its flags are the
    strings ['true'] and ['false'], its keys are [urls] and [url] instead
    of [file_ids] and [file_id], and [description] comes last. *)
Lemma outline_content_example_untyped : ~ has_type outline_content_example outline_ty.
Proof. intros H%type_check_complete. vm_compute in H. discriminate. Qed.

(** The documented [question_lesson] is refused by its own annotation:
    [options] is a list, not a [str]. *)
Lemma question_lesson_example_refused : ~ has_type (jopt id (Some question_lesson_example)) question_lesson_ty.
Proof. intros H%type_check_complete. vm_compute in H. discriminate. Qed.

(** ** Composed with the handlers *)

Lemma first_item_in {S A} (l : list A) : returns (S:=S) (fun x => x ∈ l) (first_item l).
Proof. destruct l; [apply returns_raise|apply returns_ret, list_elem_of_here]. Qed.

(** The free-access endpoints' answer after the percentage computation
    has the [FreeAccessResponse] schema, its outline the entries above. *)
Lemma get_activity_percentage_response channel_id uid :
  returns (fun j => has_type j (response_ty FreeAccess.t)) (respond (get_activity_percentage channel_id uid)).
Proof.
  apply respond_typed. eapply returns_impl; [|apply get_activity_percentage_outline_typed].
  intros [i f] (o & Ho & Ht). simpl in *. rewrite Ho. simpl.
  inversion Ht; subst. apply forallb_forall. intros. done.
Qed.

(** The two handlers that create a list of documents from the request
    ([create_lesson], [create_question]) share their shape: update of
    the one named, or creation of all. *)
Ltac from_payload Hp :=
  match goal with Hin : ?p ∈ _ |- _ => exact (proj1 (Forall_forall _ _) Hp p Hin) end.

Ltac create_list_typed Hp :=
  apply respond_list_typed; apply returns_except_500; bind_any;
  match goal with |- returns _ (match truthy ?o with _ => _ end) => destruct (truthy o) end;
  [ eapply returns_bind; [apply returns_any|intros [? ?] _];
    eapply returns_bind; [apply first_item_in|intros ? ?]; cbv zeta beta in *;
    do 2 bind_any; apply returns_ret, Forall_singleton; from_payload Hp
  | bind_any; eapply returns_bind; [apply returns_any|intros [? ?] _];
    eapply returns_bind;
    [ apply returns_py_mapM with (Q := fun p => doc_valid p.2 = true); intros ? ?;
      bind_any; apply returns_ret; from_payload Hp
    | intros ? ?; do 2 bind_any; by apply returns_ret ] ].

(** [POST /{channel_id}/lessons/]: when the request's lessons pass their
    model's check, so does every lesson the handler answers with, on both
    branches (update of [lesson_id], or creation of all). *)
Lemma create_lesson_typed channel_id lesson_id payload uid :
  Forall (fun l => doc_valid l = true) payload ->
  returns (fun j => has_type j (TList (response_ty Lesson.t)))
          (respond_list (create_lesson channel_id lesson_id payload uid)).
Proof. intros Hp. unfold create_lesson. create_list_typed Hp. Qed.

(** [POST /{channel_id}/questions/], likewise. *)
Lemma create_question_typed channel_id quiz_id payload uid :
  Forall (fun q => doc_valid q = true) payload ->
  returns (fun j => has_type j (TList (response_ty Question.t)))
          (respond_list (create_question channel_id quiz_id payload uid)).
Proof. intros Hp. unfold create_question. create_list_typed Hp. Qed.
