(* ===== verification/Prompts.v ===== *)
(** * Prompt preparation (api/studio/channel/prompt_preparation.py)

    The two AI endpoints of channel.py, [POST /generate-questions/] and
    [POST /generate_prompt/], import prompt_preparation.py lazily and call
    [generate_questions_with_template] or [generate_text_prompt]. Both
    build a system and a user message, then ask OpenAI's chat model in a
    [while attempt < max_retries] loop that prints a line per attempt,
    sleeps a second before each retry, and returns the first answer that
    passes its check.

    The model is an oracle: [chat msgs k] is the [k]-th call's outcome
    for the messages [msgs] (an exception of the client, or the message
    content, which may be [None]). [json.loads] and the content of
    template.json are inputs too, since the file is not in the
    repository. The state [PromptIO] counts the calls made, the seconds
    slept and the lines printed. [clean_json_text] is modelled whole: its
    two regular expressions are written out on the characters. *)

From S2P Require Import Prelude Json PyString.

Record PromptIO := mkIO { calls : nat; slept : Z; printed : list string }.

Record ChatEnv := mkChatEnv {
  (** [os.getenv("OPENAI_API_KEY")] when the module is imported *)
  openai_api_key : option string;
  (** [client.chat.completions.create(model="gpt-4o", messages=msgs, ...)]
      as the [k]-th call of the process; [choices[0].message.content] *)
  chat : list (string * string) -> nat -> exn + option string;
  (** [json.loads(s)]; [None] is [JSONDecodeError] *)
  json_loads : string -> option json;
  (** [json.load(open("app/api/studio/channel/template.json"))] *)
  template_file : exn + json
}.


(** ["\n".join(lines)] *)
Definition py_lines (l : list string) : string :=
  match l with
  | [] => ""
  | x :: l' => fold_left (fun acc y => acc +:+ nl +:+ y) l' x
  end.

(** [", ".join(l)] *)
Definition join_comma (l : list string) : string :=
  match l with
  | [] => ""
  | x :: l' => fold_left (fun acc y => acc +:+ ", " +:+ y) l' x
  end.

(** [str(v)] of a value [json.load] returns: Python's [repr] of dicts,
    lists, strings, ints, booleans and [None]. *)
Fixpoint json_repr (j : json) : string :=
  match j with
  | JNull => "None"
  | JBool true => "True"
  | JBool false => "False"
  | JInt z => pretty z
  | JStr s => py_repr s
  | JList l => "[" +:+ join_comma (map json_repr l) +:+ "]"
  | JDict kvs => "{" +:+ join_comma (map (fun kv => py_repr kv.1 +:+ ": " +:+ json_repr kv.2) kvs) +:+ "}"
  end.

(** ** clean_json_text (lines 25-32) *)

Definition backtick : Ascii.ascii := chr 96.

Definition is_fence (a b c : Ascii.ascii) : bool :=
  Ascii.eqb a backtick && Ascii.eqb b backtick && Ascii.eqb c backtick.

(** [(?:json)?] under [re.IGNORECASE] *)
Definition drop_json_word (l : list Ascii.ascii) : list Ascii.ascii :=
  match l with
  | j :: s :: o :: n :: r =>
      if String.eqb (String.string_of_list_ascii (map lower_ascii [j; s; o; n])) "json" then r else l
  | _ => l
  end.

(** [re.sub(r"^```(?:json)?\s*", "", t, flags=re.IGNORECASE)]: the
    pattern is anchored at the start, the optional word is tried first,
    [\s*] takes all the spaces that follow. *)
Definition strip_open_fence (l : list Ascii.ascii) : list Ascii.ascii :=
  match l with
  | a :: b :: c :: r => if is_fence a b c then lstrip_by is_py_space (drop_json_word r) else l
  | _ => l
  end.

(** [re.sub(r"\s*```$", "", t)] on a text without trailing spaces: the
    leftmost match starts at the first of the spaces before a final
    fence. *)
Definition strip_close_fence (l : list Ascii.ascii) : list Ascii.ascii :=
  match rev l with
  | c :: b :: a :: r => if is_fence a b c then rev (lstrip_by is_py_space r) else l
  | _ => l
  end.

Definition clean_json_text (raw_text : string) : string :=
  let cleaned := strip_open_fence (strip_by is_py_space (String.list_ascii_of_string raw_text)) in
  String.string_of_list_ascii (strip_close_fence (strip_by is_py_space cleaned)).

(** ** A fenced answer is cleaned to its content *)

Definition fence_open : list Ascii.ascii := [backtick; backtick; backtick; chr 106; chr 115; chr 111; chr 110; chr 10].
Definition fence_close : list Ascii.ascii := [chr 10; backtick; backtick; backtick].

Lemma lstrip_by_cons_true p c l : p c = true -> lstrip_by p (c :: l) = lstrip_by p l.
Proof. simpl. by intros ->. Qed.

Lemma ends_with_last {A} (l l' : list A) (c d : A) : l ++ [d] = l' ++ [c] -> c = d.
Proof. intros H. apply app_inj_tail in H. by destruct H. Qed.

Lemma clean_fenced_list L :
  (forall c L', L = c :: L' -> is_py_space c = false) ->
  (forall c L', L = L' ++ [c] -> is_py_space c = false) ->
  strip_close_fence (strip_by is_py_space (strip_open_fence (strip_by is_py_space (fence_open ++ L ++ fence_close)))) = L.
Proof.
  intros Hh Ht.
  rewrite (strip_by_stripped _ (fence_open ++ L ++ fence_close)); cycle 1.
  { intros c L' [= <- _]. done. }
  { intros c L'. replace (fence_open ++ L ++ fence_close)
      with ((fence_open ++ L ++ [chr 10; backtick; backtick]) ++ [backtick]) by (by rewrite <- !app_assoc).
    intros E%ends_with_last. by subst. }
  cbn [fence_open app strip_open_fence drop_json_word].
  replace (is_fence backtick backtick backtick) with true by reflexivity.
  replace (String.eqb (String.string_of_list_ascii (map lower_ascii [chr 106; chr 115; chr 111; chr 110]))
             "json") with true by reflexivity.
  rewrite lstrip_by_cons_true by reflexivity.
  destruct L as [|c L'] eqn:EL.
  - reflexivity.
  - cbn [app]. rewrite (lstrip_by_stop _ c) by eauto.
    change (c :: L' ++ fence_close) with ((c :: L') ++ fence_close). rewrite <- EL.
    rewrite strip_by_stripped; cycle 1.
    { subst. intros c' L'' [= <- _]. eauto. }
    { intros c' L''. replace (L ++ fence_close) with ((L ++ [chr 10; backtick; backtick]) ++ [backtick])
        by (by rewrite <- !app_assoc). intros E%ends_with_last. by subst. }
    unfold strip_close_fence, fence_close. rewrite rev_app_distr. simpl.
    destruct (rev L) as [|d R] eqn:ER.
    { apply (f_equal length) in ER. rewrite length_rev in ER. by subst. }
    rewrite lstrip_by_stop.
    + by rewrite <- ER, rev_involutive.
    + apply (Ht d (rev R)). by rewrite <- EL, <- (rev_involutive L), ER.
Qed.

(** The answer shape the prompt asks for, a JSON text in a [json] fence,
    is cleaned back to the JSON text, when that text has no spaces at
    its ends. *)
Lemma clean_json_text_fenced s :
  (forall c l, String.list_ascii_of_string s = c :: l -> is_py_space c = false) ->
  (forall c l, String.list_ascii_of_string s = l ++ [c] -> is_py_space c = false) ->
  clean_json_text ("```json" +:+ nl +:+ s +:+ nl +:+ "```") = s.
Proof.
  intros Hh Ht. unfold clean_json_text.
  replace (String.list_ascii_of_string ("```json" +:+ nl +:+ s +:+ nl +:+ "```"))
    with (fence_open ++ String.list_ascii_of_string s ++ fence_close)
    by (rewrite !list_ascii_of_string_app; reflexivity).
  rewrite clean_fenced_list by done. apply String.string_of_list_ascii_of_string.
Qed.

Section Prompts.
Context (env : ChatEnv).

(** ** Effects *)

(** [print(s)] *)
Definition print (s : string) : PyM PromptIO unit :=
  modify (fun io => mkIO (calls io) (slept io) (printed io ++ [s])).

(** [time.sleep(1)] *)
Definition sleep1 : PyM PromptIO unit :=
  modify (fun io => mkIO (calls io) (slept io + 1) (printed io)).

(** [from app.api.studio.channel.prompt_preparation import ...]: the
    module raises at import when the key is unset or empty. *)
Definition import_prompt_preparation : PyM PromptIO unit :=
  match openai_api_key env with
  | Some k => if String.eqb k "" then raise (value_error "OPENAI_API_KEY environment variable is not set")
              else mret tt
  | None => raise (value_error "OPENAI_API_KEY environment variable is not set")
  end.

(** [client.chat.completions.create(...).choices[0].message.content.strip()] *)
Definition create (msgs : list (string * string)) : PyM PromptIO string := fun io =>
  let io' := mkIO (S (calls io)) (slept io) (printed io) in
  match chat env msgs (calls io) with
  | inl e => (inl e, io')
  | inr (Some c) => (inr (py_strip c), io')
  | inr None => (inl (PyException "AttributeError" "'NoneType' object has no attribute 'strip'"), io')
  end.

(** ** generate_questions_with_template (lines 34-92) *)

Definition questions_system_msg : string :=
  "You are a question generator for an educational app. " +:+
  "ALWAYS output valid JSON matching the EXACT template. " +:+
  "Do NOT add any explanations or text outside the JSON.".

Definition questions_user_msg (concept_prompt difficulty : string) (num_questions : Z) (template : json) : string :=
  py_lines ["";
    "    Concept: " +:+ concept_prompt;
    "    Difficulty: " +:+ difficulty;
    "    Number of questions: " +:+ pretty num_questions;
    "    Follow this JSON template exactly: " +:+ json_repr template;
    "    Return a JSON array of " +:+ pretty num_questions +:+ " questions.";
    "    "].

Definition question_messages (concept_prompt difficulty : string) (num_questions : Z) (template : json)
    : list (string * string) :=
  [("system", questions_system_msg); ("user", questions_user_msg concept_prompt difficulty num_questions template)].

(** [for item in templates]: a dict iterates its keys, a string its
    characters. *)
Definition py_iter_all (j : json) : exn + list json :=
  match j with
  | JList l => inr l
  | JDict kvs => inr (map (fun kv => JStr kv.1) kvs)
  | JStr s => inr (map (fun c => JStr (String c EmptyString)) (String.list_ascii_of_string s))
  | _ => inl (type_error "object is not iterable")
  end.

(** [item["id"] == template_id]: [True == 1] and [False == 0] in Python. *)
Definition eq_int (j : json) (z : Z) : bool :=
  match j with
  | JInt z' => Z.eqb z' z
  | JBool b => Z.eqb (if b then 1 else 0) z
  | _ => false
  end.

(** [next((item for item in templates if item["id"] == template_id), None)]:
    the generator stops at the first match. *)
Fixpoint find_template (template_id : Z) (items : list json) : exn + option json :=
  match items with
  | [] => inr None
  | item :: items' =>
      let? v := match item with
                | JStr _ => inl (type_error "string indices must be integers, not 'str'")
                | _ => py_item item "id"
                end in
      if eq_int v template_id then inr (Some item) else find_template template_id items'
  end.

(** The loop body's retry: [print(...); time.sleep(1); continue]. *)
Definition retry (msg : string) : PyM PromptIO unit := print msg;; sleep1.

(** Lines 60-90, [n] iterations left, [attempt] done. *)
Fixpoint questions_loop (n : nat) (attempt : Z) (msgs : list (string * string)) (num_questions : Z)
    : PyM PromptIO (option (list json)) :=
  match n with
  | O => mret None
  | S n' =>
      let attempt := attempt + 1 in
      print ("Attempt #" +:+ pretty attempt +:+ "...");;
      raw_text ← create msgs;
      match json_loads env (clean_json_text raw_text) with
      | None => retry "Invalid JSON returned. Retrying...";; questions_loop n' attempt msgs num_questions
      | Some (JList result) =>
          if Z.eqb (lenZ result) num_questions then mret (Some result)
          else retry "Output does not match required number of questions. Retrying...";;
               questions_loop n' attempt msgs num_questions
      | Some _ =>
          retry "Output does not match required number of questions. Retrying...";;
          questions_loop n' attempt msgs num_questions
      end
  end.

Definition template_path : string := "app/api/studio/channel/template.json".

Definition generate_questions_with_template (concept_prompt : string) (template_id num_questions : Z)
    (difficulty : string) (max_retries : Z) : PyM PromptIO (list json) :=
  templates ← lift_exn (template_file env);
  items ← lift_exn (py_iter_all templates);
  template ← lift_exn (find_template template_id items);
  match template with
  | None => raise (value_error ("Template with id " +:+ pretty template_id +:+ " not found."))
  | Some template =>
      r ← questions_loop (Z.to_nat max_retries) 0
            (question_messages concept_prompt difficulty num_questions template) num_questions;
      match r with
      | Some result => mret result
      | None => raise (value_error ("Failed to generate valid output after " +:+ pretty max_retries +:+
                                    " attempts."))
      end
  end.

(** ** generate_text_prompt (lines 94-214) *)

Definition context_guidelines : list (string * list (string * string)) :=
  [("lesson", [("tone", "instructional and engaging"); ("style", "clear explanations with examples");
               ("purpose", "teach specific concepts step by step");
               ("audience", "students learning the material");
               ("formatting", "structured with clear learning points")]);
   ("activity", [("tone", "interactive and motivating"); ("style", "action-oriented and practical");
                 ("purpose", "guide students through hands-on tasks");
                 ("audience", "students actively participating");
                 ("formatting", "step-by-step instructions with clear outcomes")]);
   ("unit", [("tone", "comprehensive and organized"); ("style", "overview with broader context");
             ("purpose", "introduce major learning blocks and objectives");
             ("audience", "students and educators planning study");
             ("formatting", "structured overview with key themes")]);
   ("section", [("tone", "introductory and contextual"); ("style", "broad overview connecting topics");
                ("purpose", "provide context and learning roadmap");
                ("audience", "students beginning a new topic area");
                ("formatting", "clear introduction with learning expectations")])].

Definition guideline (g : list (string * string)) (k : string) : string :=
  default "" (snd <$> List.find (fun kv => String.eqb kv.1 k) g).

Definition revise_system_msg : string :=
  "You are an expert educational content editor and grammar specialist. " +:+
  "Your task is to revise text to be grammatically correct, contextually appropriate, " +:+
  "and optimized for educational use. " +:+
  "Return ONLY the revised text without any explanations or additional formatting.".

Definition revise_user_msg (text context_type : string) (g : list (string * string)) : string :=
  py_lines ["";
    "    Please revise the following text for use in a " +:+ context_type +:+ " text box:";
    "    ";
    "    Original Text: " +:+ dq +:+ text +:+ dq;
    "    ";
    "    Context Guidelines:";
    "    - Tone: " +:+ guideline g "tone";
    "    - Style: " +:+ guideline g "style";
    "    - Purpose: " +:+ guideline g "purpose";
    "    - Audience: " +:+ guideline g "audience";
    "    - Formatting: " +:+ guideline g "formatting";
    "    ";
    "    Requirements:";
    "    1. Correct all grammatical errors";
    "    2. Improve clarity and readability";
    "    3. Adjust tone and style to match the " +:+ context_type +:+ " context";
    "    4. Ensure the text is appropriate for educational use";
    "    5. Maintain the original meaning and intent";
    "    6. Make it engaging and suitable for the intended audience";
    "    ";
    "    Return only the revised text:";
    "    "].

Definition revise_messages (text context_type : string) (g : list (string * string)) : list (string * string) :=
  [("system", revise_system_msg); ("user", revise_user_msg text context_type g)].

(** [revised_text.strip(dq).strip(sq)] with [dq] the double and [sq]
    the single quote (line 202) *)
Definition strip_quotes (s : string) : string := py_strip_char (chr 39) (py_strip_char (chr 34) s).

(** The body of the [try] of lines 182-204: [None] is [continue]. *)
Definition revise_attempt (msgs : list (string * string)) : PyM PromptIO (option string) :=
  revised_text ← create msgs;
  if (String.length revised_text <? 10)%nat then
    retry "Revised text too short. Retrying...";; mret None
  else mret (Some (strip_quotes revised_text)).

(** Lines 177-214: an exception is retried while attempts remain and
    re-raised on the last one. *)
Fixpoint revise_loop (n : nat) (attempt max_retries : Z) (context_type : string)
    (msgs : list (string * string)) : PyM PromptIO (option string) :=
  match n with
  | O => mret None
  | S n' =>
      let attempt := attempt + 1 in
      print ("Revising " +:+ context_type +:+ " text - Attempt #" +:+ pretty attempt +:+ "...");;
      r ← py_try (revise_attempt msgs)
            (fun e => print ("Error on attempt " +:+ pretty attempt +:+ ": " +:+ exn_str e);;
                      if Z.ltb attempt max_retries then sleep1;; mret None else raise e);
      match r with
      | Some revised => mret (Some revised)
      | None => revise_loop n' attempt max_retries context_type msgs
      end
  end.

Definition generate_text_prompt (text context_type : string) (max_retries : Z) : PyM PromptIO string :=
  match List.find (fun kv => String.eqb kv.1 context_type) context_guidelines with
  | None => raise (value_error ("Invalid context_type: " +:+ context_type +:+
                                ". Must be one of: ['lesson', 'activity', 'unit', 'section']"))
  | Some (_, g) =>
      r ← revise_loop (Z.to_nat max_retries) 0 max_retries context_type (revise_messages text context_type g);
      match r with
      | Some revised => mret revised
      | None => raise (value_error ("Failed to revise " +:+ context_type +:+ " text after " +:+
                                    pretty max_retries +:+ " attempts."))
      end
  end.

(** ** The endpoints of channel.py (lines 102-185) *)

Definition generate_questions (initial_prompt : string) (template_id : Z) (difficulty : string)
    (num_questions : Z) : PyM PromptIO json :=
  except_500 (
    import_prompt_preparation;;
    generated_questions ← generate_questions_with_template initial_prompt template_id num_questions difficulty 3;
    mret (JDict [("success", JBool true); ("template_id", JInt template_id);
                 ("difficulty", JStr difficulty); ("initial_prompt", JStr initial_prompt);
                 ("num_questions", JInt (lenZ generated_questions));
                 ("questions", JList generated_questions)])).

Definition valid_modules : list string := ["lesson"; "activity"; "unit"; "section"].

Definition revise_text (text module_type : string) : PyM PromptIO json :=
  except_500 (
    import_prompt_preparation;;
    (if existsb (String.eqb module_type) valid_modules then mret tt
     else raise (HTTPException 400 "Invalid module_type. Must be one of: ['lesson', 'activity', 'unit', 'section']"));;
    revised_text ← generate_text_prompt text module_type 3;
    mret (JDict [("success", JBool true); ("original_text", JStr text); ("module_type", JStr module_type);
                 ("revised_text", JStr revised_text)])).
End Prompts.

(** ** The retry loop of generate_questions_with_template *)

Section QuestionRuns.
Context (env : ChatEnv).

(** What one answer of the model means to the loop: an exception that
    escapes, [None] for a retry, or the list the loop returns. *)
Definition answer (num_questions : Z) (c : exn + option string) : exn + option (list json) :=
  match c with
  | inl e => inl e
  | inr None => inl (PyException "AttributeError" "'NoneType' object has no attribute 'strip'")
  | inr (Some raw) =>
      match json_loads env (clean_json_text (py_strip raw)) with
      | Some (JList l) => if Z.eqb (lenZ l) num_questions then inr (Some l) else inr None
      | _ => inr None
      end
  end.

(** One iteration: the call is made; a retry sleeps one second. *)
Lemma questions_loop_step n a msgs num io :
  let io1 := mkIO (S (calls io)) (slept io) (printed io ++ ["Attempt #" +:+ pretty (a + 1) +:+ "..."]) in
  match answer num (chat env msgs (calls io)) with
  | inl e => questions_loop env (S n) a msgs num io = (inl e, io1)
  | inr (Some l) => questions_loop env (S n) a msgs num io = (inr (Some l), io1)
  | inr None => exists msg, questions_loop env (S n) a msgs num io =
                  questions_loop env n (a + 1) msgs num (mkIO (S (calls io)) (slept io + 1) (printed io1 ++ [msg]))
  end.
Proof.
  cbn zeta. unfold answer. cbn [questions_loop].
  unfold mbind, pym_bind, print, modify, create. cbn [calls slept printed].
  destruct (chat env msgs (calls io)) as [e|[raw|]]; [done| |done].
  destruct (json_loads env (clean_json_text (py_strip raw))) as [j|]; [|eexists; reflexivity].
  destruct j as [| | | |l|]; try (eexists; reflexivity).
  destruct (lenZ l =? num); [done|eexists; reflexivity].
Qed.

(** Every run of the loop makes at most [n] calls. *)
Lemma questions_loop_calls n a msgs num io :
  (calls (snd (questions_loop env n a msgs num io)) <= calls io + n)%nat.
Proof.
  revert a io. induction n as [|n IH]; intros a io; [simpl; lia|].
  pose proof (questions_loop_step n a msgs num io) as Hs. cbn zeta in Hs.
  destruct (answer num _) as [e|[l|]]; [rewrite Hs; simpl; lia|rewrite Hs; simpl; lia|].
  destruct Hs as [msg ->]. etransitivity; [apply IH|]. simpl. lia.
Qed.

(** When the first [k] answers are retries and the next one is a list
    of the requested length, the loop returns it after [k + 1] calls and
    [k] seconds of sleep. *)
Lemma questions_loop_first_valid k n a msgs num io l :
  (k < n)%nat ->
  (forall j, (j < k)%nat -> answer num (chat env msgs (calls io + j)) = inr None) ->
  answer num (chat env msgs (calls io + k)) = inr (Some l) ->
  exists io', questions_loop env n a msgs num io = (inr (Some l), io') /\
              calls io' = (calls io + S k)%nat /\ slept io' = slept io + Z.of_nat k.
Proof.
  revert n a io. induction k as [|k IH]; intros [|n] a io Hn Hretry Hok; try lia.
  - pose proof (questions_loop_step n a msgs num io) as Hs. cbn zeta in Hs.
    rewrite Nat.add_0_r in Hok. rewrite Hok in Hs. rewrite Hs. eexists; split; [done|simpl; lia].
  - pose proof (questions_loop_step n a msgs num io) as Hs. cbn zeta in Hs.
    pose proof (Hretry 0%nat ltac:(lia)) as H0. rewrite Nat.add_0_r in H0.
    rewrite H0 in Hs. destruct Hs as [msg ->].
    match goal with |- context [questions_loop env n (a + 1) msgs num ?io2] =>
      destruct (IH n (a + 1) io2) as (io' & E & Hc & Hsl) end; simpl; try lia.
    + intros j Hj. rewrite <- Nat.add_succ_r. apply Hretry. lia.
    + by rewrite <- Nat.add_succ_r.
    + exists io'. split; [done|]. simpl in Hc, Hsl. lia.
Qed.
End QuestionRuns.

Section QuestionRuns2.
Context (env : ChatEnv).

(** When every answer is a retry, the loop runs out after [n] calls and
    [n] seconds of sleep. *)
Lemma questions_loop_all_retry n a msgs num io :
  (forall j, (j < n)%nat -> answer env num (chat env msgs (calls io + j)) = inr None) ->
  exists io', questions_loop env n a msgs num io = (inr None, io') /\
              calls io' = (calls io + n)%nat /\ slept io' = slept io + Z.of_nat n.
Proof.
  revert a io. induction n as [|n IH]; intros a io Hretry.
  - exists io. simpl. split; [done|split; lia].
  - pose proof (questions_loop_step env n a msgs num io) as Hs. cbn zeta in Hs.
    pose proof (Hretry 0%nat ltac:(lia)) as H0. rewrite Nat.add_0_r in H0.
    rewrite H0 in Hs. destruct Hs as [msg ->].
    match goal with |- context [questions_loop env n (a + 1) msgs num ?io2] =>
      destruct (IH (a + 1) io2) as (io' & E & Hc & Hsl) end; simpl.
    + intros j Hj. rewrite <- Nat.add_succ_r. apply Hretry. lia.
    + exists io'. split; [exact E|]. simpl in Hc, Hsl. lia.
Qed.

(** The template lookup of lines 47-51. *)
Definition lookup_template (template_id : Z) : exn + option json :=
  let? t := template_file env in
  let? items := py_iter_all t in
  find_template template_id items.

Lemma generate_questions_run concept template_id num difficulty max_retries template io :
  lookup_template template_id = inr (Some template) ->
  generate_questions_with_template env concept template_id num difficulty max_retries io =
    (r ← questions_loop env (Z.to_nat max_retries) 0 (question_messages concept difficulty num template) num;
     match r with
     | Some result => mret result
     | None => raise (value_error ("Failed to generate valid output after " +:+ pretty max_retries +:+
                                   " attempts."))
     end) io.
Proof.
  unfold lookup_template, generate_questions_with_template, bindE, mbind, pym_bind, lift_exn.
  destruct (template_file env) as [e|t]; [done|]. destruct (py_iter_all t) as [e|items]; [done|].
  intros E. by rewrite E.
Qed.

(** Without a template the function raises before any call. *)
Lemma generate_questions_no_template concept template_id num difficulty max_retries io :
  (forall template, lookup_template template_id <> inr (Some template)) ->
  snd (generate_questions_with_template env concept template_id num difficulty max_retries io) = io.
Proof.
  unfold lookup_template, generate_questions_with_template, bindE, mbind, pym_bind, lift_exn.
  destruct (template_file env) as [e|t]; [done|]. destruct (py_iter_all t) as [e|items]; [done|].
  destruct (find_template template_id items) as [e|[template|]]; [done| |done].
  intros H. by destruct (H template).
Qed.

(** Whatever the model answers, [generate_questions_with_template] calls
    it at most [max_retries] times. *)
Lemma generate_questions_calls_bounded concept template_id num difficulty max_retries io :
  (calls (snd (generate_questions_with_template env concept template_id num difficulty max_retries io))
     <= calls io + Z.to_nat max_retries)%nat.
Proof.
  destruct (lookup_template template_id) as [e|[template|]] eqn:E;
    [rewrite generate_questions_no_template by congruence; lia| |
     rewrite generate_questions_no_template by congruence; lia].
  rewrite (generate_questions_run _ _ _ _ _ template _ E). unfold mbind, pym_bind.
  pose proof (questions_loop_calls env (Z.to_nat max_retries) 0
                (question_messages concept difficulty num template) num io) as H.
  destruct (questions_loop _ _ _ _ _ io) as [[e|[r|]] io']; simpl in *; lia.
Qed.

(** When every one of the [max_retries] answers is a retry, the function
    raises [ValueError] after exactly [max_retries] calls. *)
Lemma generate_questions_exhausted concept template_id num difficulty max_retries template io :
  lookup_template template_id = inr (Some template) ->
  (forall j, (j < Z.to_nat max_retries)%nat ->
     answer env num (chat env (question_messages concept difficulty num template) (calls io + j)) = inr None) ->
  exists io', generate_questions_with_template env concept template_id num difficulty max_retries io =
    (inl (value_error ("Failed to generate valid output after " +:+ pretty max_retries +:+ " attempts.")), io') /\
    calls io' = (calls io + Z.to_nat max_retries)%nat.
Proof.
  intros E Hretry. rewrite (generate_questions_run _ _ _ _ _ template _ E). unfold mbind, pym_bind.
  destruct (questions_loop_all_retry _ 0 _ _ io Hretry) as (io' & -> & Hc & _). by exists io'.
Qed.
End QuestionRuns2.

(** (C39) The retry loop of [generate_questions_with_template] ends on
    the first good answer: when the template is found and, within the
    [max_retries] attempts, the model's first [k] answers are retries
    (text that [clean_json_text] and [json.loads] do not turn into a
    list of [num_questions] items) and the next one is such a list,
    the function returns that list after exactly [k + 1] calls of the
    model and [k] seconds of sleep. *)
Theorem questions_first_valid_answer env concept template_id num difficulty max_retries template io k l :
  lookup_template env template_id = inr (Some template) ->
  (k < Z.to_nat max_retries)%nat ->
  (forall j, (j < k)%nat ->
     answer env num (chat env (question_messages concept difficulty num template) (calls io + j)) = inr None) ->
  answer env num (chat env (question_messages concept difficulty num template) (calls io + k)) = inr (Some l) ->
  exists io', generate_questions_with_template env concept template_id num difficulty max_retries io = (inr l, io') /\
              calls io' = (calls io + S k)%nat /\ slept io' = slept io + Z.of_nat k.
Proof.
  intros E Hk Hretry Hok. rewrite (generate_questions_run _ _ _ _ _ _ template _ E). unfold mbind, pym_bind.
  destruct (questions_loop_first_valid env k _ 0 _ _ io l Hk Hretry Hok) as (io' & -> & Hc & Hs).
  by exists io'.
Qed.

Definition demo_template : json := JDict [("id", JInt 3); ("type", JStr "multiple_choice")].

(** The first answer is prose, the second a fenced JSON list. *)
Definition demo_answers (k : nat) : exn + option string :=
  match k with
  | O => inr (Some "Sure! Here are your questions.")
  | _ => inr (Some ("```json" +:+ nl +:+ "[{}]" +:+ nl +:+ "```"))
  end.

Definition demo_loads (s : string) : option json :=
  if String.eqb s "[{}]" then Some (JList [JDict []]) else None.

Definition demo_chat_env : ChatEnv :=
  mkChatEnv (Some "sk-test") (fun _ k => demo_answers k) demo_loads (inr (JList [demo_template])).

Lemma questions_first_valid_answer_witness :
  exists io', generate_questions_with_template demo_chat_env "weather" 3 1 "easy" 3 (mkIO 0 0 []) =
                (inr [JDict []], io') /\ calls io' = 2%nat /\ slept io' = 1.
Proof.
  apply (questions_first_valid_answer demo_chat_env "weather" 3 1 "easy" 3 demo_template (mkIO 0 0 []) 1 [JDict []]).
  - vm_compute. reflexivity.
  - vm_compute. lia.
  - intros j Hj. destruct j; [vm_compute; reflexivity|lia].
  - vm_compute. reflexivity.
Defined.

(** ** generate_text_prompt and the endpoints *)

Lemma strip_by_all p l : forallb p l = true -> strip_by p l = [].
Proof. intros H. unfold strip_by, rstrip_by. rewrite <- (app_nil_r l), lstrip_by_app_l by done. done. Qed.

Section TextRuns.
Context (env : ChatEnv).

(** The length test comes before the quotes are stripped: an answer of
    ten or more double quotes is returned as the empty revision. *)
Lemma generate_text_quotes_only text ctx c g max_retries io raw :
  List.find (fun kv => String.eqb kv.1 ctx) context_guidelines = Some (c, g) ->
  0 < max_retries ->
  chat env (revise_messages text ctx g) (calls io) = inr (Some raw) ->
  (10 <= String.length (py_strip raw))%nat ->
  forallb (Ascii.eqb (chr 34)) (String.list_ascii_of_string (py_strip raw)) = true ->
  fst (generate_text_prompt env text ctx max_retries io) = inr "".
Proof.
  intros Hf Hm Hc Hl Hq. unfold generate_text_prompt. rewrite Hf.
  destruct (Z.to_nat max_retries) as [|n] eqn:En; [lia|].
  cbn [revise_loop]. unfold revise_attempt, create, print, modify, py_try. unfold mbind, pym_bind.
  cbn beta iota delta [calls slept printed]. rewrite Hc.
  assert ((String.length (py_strip raw) <? 10)%nat = false) as ->. { apply Nat.ltb_ge. done. }
  unfold mret, pym_ret. cbn. unfold strip_quotes, py_strip_char.
  by rewrite (strip_by_all _ _ Hq).
Qed.

(** [POST /generate_prompt/] with a module type outside the four answers
    HTTP 500 whose detail is the text of the 400 it raised, before any
    call of the model. *)
Lemma revise_text_invalid_module text module_type key io :
  openai_api_key env = Some key -> key <> "" ->
  existsb (String.eqb module_type) valid_modules = false ->
  revise_text env text module_type io =
    (inl (HTTPException 500 (exn_str (HTTPException 400
       "Invalid module_type. Must be one of: ['lesson', 'activity', 'unit', 'section']"))), io).
Proof.
  intros Hk Hne Hm. unfold revise_text, except_500, import_prompt_preparation.
  rewrite Hk. apply String.eqb_neq in Hne. rewrite Hne. unfold mbind, pym_bind. by rewrite Hm.
Qed.

(** [POST /generate-questions/] when template.json cannot be opened (it is
    not in the repository): HTTP 500 with the error's text, no call. *)
Lemma generate_questions_no_file initial_prompt template_id difficulty num key e io :
  openai_api_key env = Some key -> key <> "" -> template_file env = inl e ->
  generate_questions env initial_prompt template_id difficulty num io =
    (inl (HTTPException 500 (exn_str e)), io).
Proof.
  intros Hk Hne Hf. unfold generate_questions, except_500, import_prompt_preparation.
  rewrite Hk. apply String.eqb_neq in Hne. rewrite Hne.
  unfold generate_questions_with_template, mbind, pym_bind, lift_exn. simpl. by rewrite Hf.
Qed.
End TextRuns.
