(* ===== verification/Auth.v ===== *)
(** * Authentication (api/public/auth.py, utils/security.py, utils/user.py, messages/__init__.py)

    The account life cycle lives on the [User] document: sign-up stores a
    six-digit code, e-mail verification and password reset check it,
    sign-in, Google login, verification and password reset store a fresh
    JWT access/refresh pair, refresh replaces the access token, logout
    clears all four token fields. Every other endpoint learns its caller
    from [get_user_id], which checks the JWT's signature, type and expiry
    and that the user exists, and never looks at the stored tokens.

    bcrypt and JWT signing are libraries: the [Crypto] class states the
    one law the handlers rely on from each. Everything a handler draws
    from its environment (the clock, the random code, the outcome of the
    e-mail it sends, the traceback text that is logged) is an [Env].
    The file ends with the theorems on the error paths of [get_user_id]
    and [verify_token] and on what [PATCH /me] stores; the invariants and
    the runs of the handlers are in [AuthProps.v]. *)

From S2P Require Import Prelude ObjectId Json PyString Email Documents.

(** ** What the handlers take from passlib and python-jose *)

(** The claims [create_access_token] / [create_refresh_token] sign:
    [{"sub": user_id, "exp": ..., "iat": ..., "type": ...}]. *)
Record Claims := mkClaims { sub : string; exp : Z; iat : Z; typ : string }.

Class Crypto := {
  (** [pwd_context.hash] and [pwd_context.verify] *)
  pwd_hash : string -> string;
  pwd_verify : string -> string -> bool;
  pwd_verify_hash : forall p, pwd_verify p (pwd_hash p) = true;
  (** [jwt.encode(claims, JWT_SECRET_KEY)], and the signature check of
      [jwt.decode]: [None] where jose raises [JWTError]. *)
  jwt_encode : Claims -> string;
  jwt_decode : string -> option Claims;
  jwt_decode_encode : forall c, jwt_decode (jwt_encode c) = Some c
}.

(** What a handler draws from outside the store. Datetimes are
    microseconds since the epoch, UTC. *)
Record Env := mkEnv {
  now : datetime;          (** [datetime.utcnow()] *)
  fresh_code : string;     (** [generate_verification_code()] *)
  smtp : SmtpServer;       (** the SMTP server of [send_email] (utils/email.py) *)
  tb_function : string;    (** [traceback.extract_tb(e.__traceback__)[-1].name] *)
  tb_text : string         (** [traceback.format_exception(...)] *)
}.

(** ** Settings (settings.py, lines 34-35, their defaults) *)
Definition ACCESS_TOKEN_EXPIRE_HOURS : Z := 10.
Definition REFRESH_TOKEN_EXPIRE_DAYS : Z := 30.

Definition usec : Z := 1000000.
Definition hours (h : Z) : Z := h * 3600 * usec.
Definition days (d : Z) : Z := hours (24 * d).

(** [int(t.timestamp())]: truncation toward zero. *)
Definition int_timestamp (t : datetime) : Z := Z.quot t usec.

(** [str(FailResponse(success=False, message={"en": en, "fr": fr},
    error=err, data=None))]: pydantic's field listing. *)
Definition fail_response_str (en fr err : string) : string :=
  "success=False data=None message={'en': " +:+ py_repr en +:+ ", 'fr': " +:+ py_repr fr +:+
  "} error=" +:+ py_repr err.

(** ** Exceptions *)
Definition unauthorized (d : string) : exn := HTTPException 401 d.

(** The text of Python's [ValueError] for [a, b = parts]. *)
Definition unpack_error (n : nat) : exn :=
  if (n <? 2)%nat then value_error ("not enough values to unpack (expected 2, got " +:+ pretty (Z.of_nat n) +:+ ")")
  else value_error "too many values to unpack (expected 2)".

(** [verify_token]'s handler of [jwt.ExpiredSignatureError] reads
    [payload], which [jwt.decode] never assigned. *)
Definition unbound_payload : exn :=
  PyException "UnboundLocalError" "cannot access local variable 'payload' where it is not associated with a value".

(** ** Tokens (utils/security.py) *)
Section Tokens.
Context `{Crypto}.

(** [create_access_token({"sub": user_id})] *)
Definition create_access_token (user_id : string) (t : datetime) : string * datetime :=
  let expire := t + hours ACCESS_TOKEN_EXPIRE_HOURS in
  (jwt_encode (mkClaims user_id (int_timestamp expire) (int_timestamp t) "access"), expire).

(** [create_refresh_token({"sub": user_id})] *)
Definition create_refresh_token (user_id : string) (t : datetime) : string * datetime :=
  let expire := t + days REFRESH_TOKEN_EXPIRE_DAYS in
  (jwt_encode (mkClaims user_id (int_timestamp expire) (int_timestamp t) "refresh"), expire).

(** [create_tokens(user_id)] *)
Definition create_tokens (user_id : string) (t : datetime) : string * datetime * string * datetime :=
  let '(a, ae) := create_access_token user_id t in
  let '(r, re) := create_refresh_token user_id t in
  (a, ae, r, re).

(** [verify_token(token, token_type)]: jose's decode rejects a bad
    signature, and an [exp] more than the 10 s leeway in the past (against
    the clock truncated to seconds); then the type, then the expiry
    against the exact clock. *)
Definition verify_token (token token_type : string) (t : datetime) : exn + Claims :=
  match jwt_decode token with
  | None => inl (value_error "Invalid token")
  | Some c =>
      if exp c <? t `div` usec - 10 then inl unbound_payload
      else if negb (String.eqb (typ c) token_type)
      then inl (value_error ("Invalid token type. Expected " +:+ token_type))
      else if negb (exp c =? 0) && (exp c * usec <? t) then inl (value_error "Token has expired")
      else inr c
  end.

(** [User.get(PydanticObjectId(user_id))] *)
Definition get_user (user_id : string) : PyM DB (option (oid * User.t)) :=
  i ← to_oid user_id;
  find_one (D:=User.t) (fun j _ => N.eqb j i).

(** The two handlers of [get_user_id]'s [try]: [except ValueError as e]
    answers 401 with [str(e)]; [except Exception] answers 401 with a fixed
    text, and also catches the [HTTPException]s raised inside the [try]. *)
Definition get_user_id_except (e : exn) : exn :=
  match e with
  | PyException "ValueError" m => unauthorized m
  | _ => unauthorized "Invalid authorization token"
  end.

(** [get_user_id(authorization)], the dependency of every authenticated
    endpoint. *)
Definition get_user_id (authorization : option string) (t : datetime) : PyM DB string :=
  match authorization with
  | None | Some EmptyString => raise (unauthorized "No authorization token provided")
  | Some h =>
      py_try
        (match py_split h with
         | [scheme; token] =>
             py_assert (String.eqb (py_lower scheme) "bearer") (unauthorized "Invalid authentication scheme");;
             c ← lift_exn (verify_token token "access" t);
             py_assert (negb (String.eqb (sub c) "")) (unauthorized "Invalid token payload");;
             found ← get_user (sub c);
             match found with
             | None => raise (HTTPException 404 "User not found")
             | Some _ => mret (sub c)
             end
         | parts => raise (unpack_error (length parts))
         end)
        (fun e => raise (get_user_id_except e))
  end.
End Tokens.

#[export] Instance user_role_eq_dec : EqDecision user_role.
Proof. solve_decision. Defined.
#[export] Instance auth_provider_eq_dec : EqDecision auth_provider.
Proof. solve_decision. Defined.

(** ** Request and response models (models/user.py, models/__init__.py) *)

Module UserProfile.
Record t := mk { id : option string; email : string; first_name : option string; last_name : option string;
                 bio : option string; avatar_url : option string; role : user_role;
                 provider : auth_provider; is_email_verified : bool }.
End UserProfile.

(** [UserProfile.from_user(user)] *)
Definition from_user (i : oid) (u : User.t) : UserProfile.t :=
  UserProfile.mk (Some (id_str i)) (User.email u) (User.first_name u) (User.last_name u) (User.bio u)
                 (User.avatar_url u) (User.role u) (User.provider u) (User.is_email_verified u).

Module Token.
Record t := mk { access_token : string; access_token_expires_at : datetime;
                 refresh_token : string; refresh_token_expires_at : datetime }.
End Token.

Module AuthData.
Record t := mk { token : Token.t; user : UserProfile.t }.
End AuthData.

(** The [message] of an [AuthResponse]: an English text, or the
    translated [User_Message.LOGGED_IN]. *)
Inductive auth_message := Msg (en : string) | LoggedIn.

Module AuthResponse.
Record t := mk { message : auth_message; data : option AuthData.t }.
End AuthResponse.

(** [FailResponse(message={lang: text for lang in LANGUAGES}, error=code)];
    [LANGUAGES] is [["en"]]. *)
Record FailResponse := mkFail { fail_message : string; fail_error : string }.

(** What an auth endpoint answers: the status code and the body. *)
Definition reply := (Z * (FailResponse + AuthResponse.t))%type.

Record SignUpRequest := mkSignUp { su_email : string; su_password : string; su_first_name : option string;
                                  su_last_name : option string; su_role : user_role }.
Record VerifyEmailRequest := mkVerifyEmail { ve_email : string; ve_verification_code : string; ve_role : user_role }.
Record ResendVerificationRequest := mkResend { rv_email : string; rv_role : user_role }.
Record SignInRequest := mkSignIn { si_username_or_email : string; si_password : string; si_role : user_role;
                                  si_remember_me : bool }.
Record Username_Or_Email := mkUoE { ue_username_or_email : string; ue_role : user_role }.
Record Password := mkPassword { pw_username_or_email : string; pw_verification_code : string;
                                pw_password : string; pw_role : user_role }.

(** The claims of a Google ID token that [verify_oauth2_token] checked. *)
Record GoogleInfo := mkGoogleInfo { g_exp : Z; g_email : string; g_sub : string; g_given_name : option string;
                                    g_family_name : option string; g_picture : option string;
                                    g_email_verified : option bool }.

(** The body of [PATCH /me]: a [UserProfile] and the fields the client
    set. *)
Record ProfileUpdate := mkProfileUpdate { upd_body : UserProfile.t; upd_fields_set : list string }.

(** Pydantic's [ValidationError] for fields of the wrong type. *)
Definition validation_error (cls : string) (errs : list (string * string)) : exn :=
  PyException "ValidationError"
    (pretty (lenZ errs) +:+ (if (length errs =? 1)%nat then " validation error for " else " validation errors for ") +:+
     cls +:+ foldr (fun '(f, m) acc => " " +:+ f +:+ " " +:+ m +:+ acc) "" errs).

Definition need_str (f : string) (o : option string) : list (string * string) :=
  match o with Some _ => [] | None => [(f, "Input should be a valid string")] end.
Definition need_datetime (f : string) (o : option datetime) : list (string * string) :=
  match o with Some _ => [] | None => [(f, "Input should be a valid datetime")] end.

(** [Token(access_token=a, access_token_expires_at=ae, refresh_token=r,
    refresh_token_expires_at=re)] from values that may be [None]. *)
Definition token_of (a : option string) (ae : option datetime) (r : option string) (re : option datetime)
    : exn + Token.t :=
  match a, ae, r, re with
  | Some a, Some ae, Some r, Some re => inr (Token.mk a ae r re)
  | _, _, _, _ => inl (validation_error "Token" (need_str "access_token" a ++ need_datetime "access_token_expires_at" ae ++
                                                  need_str "refresh_token" r ++ need_datetime "refresh_token_expires_at" re))
  end.

(** ** Writes to a [User] *)

(** [user.access_token = a; ...; user.refresh_token_expires_at = re] *)
Definition set_tokens (u : User.t) (a : option string) (ae : option datetime) (r : option string) (re : option datetime)
    : User.t :=
  User.mk (User.email u) (User.first_name u) (User.last_name u) (User.bio u) (User.avatar_url u) (User.role u)
          (User.provider u) (User.is_email_verified u) (User.hashed_password u) (User.google_id u)
          a ae r re (User.verification_code u) (User.verification_code_created_at u)
          (User.verification_code_expires_at u) (User.created_at u) (User.last_login u) (User.locked_until u).

(** [user.verification_code = c; user.verification_code_created_at = ca;
    user.verification_code_expires_at = ex] *)
Definition set_code (u : User.t) (c : option string) (ca ex : option datetime) : User.t :=
  User.mk (User.email u) (User.first_name u) (User.last_name u) (User.bio u) (User.avatar_url u) (User.role u)
          (User.provider u) (User.is_email_verified u) (User.hashed_password u) (User.google_id u)
          (User.access_token u) (User.access_token_expires_at u) (User.refresh_token u)
          (User.refresh_token_expires_at u) c ca ex (User.created_at u) (User.last_login u) (User.locked_until u).

Definition set_verified (u : User.t) (v : bool) : User.t :=
  User.mk (User.email u) (User.first_name u) (User.last_name u) (User.bio u) (User.avatar_url u) (User.role u)
          (User.provider u) v (User.hashed_password u) (User.google_id u)
          (User.access_token u) (User.access_token_expires_at u) (User.refresh_token u)
          (User.refresh_token_expires_at u) (User.verification_code u) (User.verification_code_created_at u)
          (User.verification_code_expires_at u) (User.created_at u) (User.last_login u) (User.locked_until u).

Definition set_password (u : User.t) (h : string) : User.t :=
  User.mk (User.email u) (User.first_name u) (User.last_name u) (User.bio u) (User.avatar_url u) (User.role u)
          (User.provider u) (User.is_email_verified u) (Some h) (User.google_id u)
          (User.access_token u) (User.access_token_expires_at u) (User.refresh_token u)
          (User.refresh_token_expires_at u) (User.verification_code u) (User.verification_code_created_at u)
          (User.verification_code_expires_at u) (User.created_at u) (User.last_login u) (User.locked_until u).

Definition set_last_login (u : User.t) (t : datetime) : User.t :=
  User.mk (User.email u) (User.first_name u) (User.last_name u) (User.bio u) (User.avatar_url u) (User.role u)
          (User.provider u) (User.is_email_verified u) (User.hashed_password u) (User.google_id u)
          (User.access_token u) (User.access_token_expires_at u) (User.refresh_token u)
          (User.refresh_token_expires_at u) (User.verification_code u) (User.verification_code_created_at u)
          (User.verification_code_expires_at u) (User.created_at u) (Some t) (User.locked_until u).

(** ** The unique indexes of [User.Settings.indexes] (models/user.py,
    lines 107-118): (email, role), and [google_id] among Google users. A
    write that would break one raises pymongo's [DuplicateKeyError]. *)
Definition user_clash (u v : User.t) : bool :=
  (String.eqb (User.email v) (User.email u) && bool_decide (User.role v = User.role u)) ||
  (bool_decide (User.provider u = Google) && bool_decide (User.provider v = Google) &&
   bool_decide (User.google_id v = User.google_id u)).

Definition duplicate_key : exn := PyException "DuplicateKeyError" "E11000 duplicate key error collection: users".

(** [user.save()] on a user with id [i] *)
Definition save_user (i : oid) (u : User.t) : PyM DB unit :=
  others ← gets (fun db => List.filter (fun p => negb (N.eqb p.1 i)) (collection (D:=User.t) db));
  if existsb (fun p => user_clash u p.2) others then raise duplicate_key else save i u.

(** [user.insert()], and [user.save()] on a new user *)
Definition insert_user (u : User.t) : PyM DB oid :=
  all ← gets (collection (D:=User.t));
  if existsb (fun p => user_clash u p.2) all then raise duplicate_key else insert u.

(** ** The handlers (api/public/auth.py) *)
Section Handlers.
Context `{Crypto}.

(** [verify_password(plain, user.hashed_password)]: passlib answers
    [False] for a missing hash. *)
Definition verify_password (p : string) (h : option string) : bool :=
  match h with Some h => pwd_verify p h | None => false end.

(** [handle_exception(response, e)] (messages/__init__.py): an
    [HTTPException] keeps its status and detail; anything else is logged
    to the [Error] collection and answered with 500. *)
Definition handle_exception (env : Env) (e : exn) : PyM DB (Z * FailResponse) :=
  match e with
  | HTTPException c d => mret (c, mkFail d "HTTPException")
  | PyException k m =>
      insert (ErrorLog.mk (now env) k m (tb_function env) (tb_text env));;
      mret (500, mkFail m "Exception")
  end.

(** [try: <body>] [except Exception as e: return await handle_exception(response, e)] *)
Definition auth_endpoint (env : Env) (m : PyM DB AuthResponse.t) : PyM DB reply :=
  py_try (r ← m; mret (200, inr r))
         (fun e => cf ← handle_exception env e; mret (cf.1, inl cf.2)).

(** [await send_verification_email(user.email, code)] (lines 102, 290, 940) *)
Definition mail_code (env : Env) (email code : string) : PyM DB unit :=
  lift_exn (send_verification_email (smtp env) email code).

(** [await send_welcome_email(user.email, user.first_name)] (line 222) *)
Definition mail_welcome (env : Env) (u : User.t) : PyM DB unit :=
  lift_exn (send_welcome_email (smtp env) (User.email u) (User.first_name u)).

(** [User.find_one({"email": email, "role": role})] *)
Definition find_user (email : string) (r : user_role) : PyM DB (option (oid * User.t)) :=
  find_one (D:=User.t) (fun _ u => String.eqb (User.email u) email && bool_decide (User.role u = r)).

(** The token block of sign-in, verification, Google login and password
    update: [create_tokens(str(user.id))], the four token fields and
    [last_login], then [user.save()]. *)
Definition login (env : Env) (i : oid) (u : User.t) : PyM DB (User.t * Token.t) :=
  let '(a, ae, r, re) := create_tokens (id_str i) (now env) in
  let u' := set_last_login (set_tokens u (Some a) (Some ae) (Some r) (Some re)) (now env) in
  save_user i u';;
  mret (u', Token.mk a ae r re).

(** The empty token of the sign-up and resend answers. *)
Definition empty_token (env : Env) : Token.t := Token.mk "" (now env) "" (now env).

(** The [User(...)] that sign-up creates: unverified, with a code valid
    for 24 hours. *)
Definition sign_up_user (env : Env) (payload : SignUpRequest) : User.t :=
  User.mk (su_email payload) (su_first_name payload) (su_last_name payload) None None
          (su_role payload) Local false (Some (pwd_hash (su_password payload))) None
          None None None None (Some (fresh_code env)) (Some (now env))
          (Some (now env + hours 24)) (now env) None None.

(** [POST /sign-up/] *)
Definition sign_up (env : Env) (payload : SignUpRequest) : PyM DB reply :=
  auth_endpoint env (
    found ← find_user (su_email payload) (su_role payload);
    match found with
    | Some _ => raise (HTTPException 409 "User already exists")
    | None =>
        let user := sign_up_user env payload in
        i ← insert_user user;
        mail_code env (User.email user) (fresh_code env);;
        mret (AuthResponse.mk (Msg "Account created. Please check your email for verification code.")
                              (Some (AuthData.mk (empty_token env) (from_user i user))))
    end).

(** [POST /verify-email/] *)
Definition verify_email (env : Env) (payload : VerifyEmailRequest) : PyM DB reply :=
  auth_endpoint env (
    found ← find_user (ve_email payload) (ve_role payload);
    match found with
    | None => raise (HTTPException 404 "User not found")
    | Some (i, u) =>
        if User.is_email_verified u then raise (HTTPException 409 "Email is already verified") else
        match User.verification_code u, User.verification_code_expires_at u with
        | Some c, Some ex =>
            if String.eqb c "" then
              raise (HTTPException 400 "No verification code found. Please request a new one.")
            else if ex <? now env then
              raise (HTTPException 400 "Verification code has expired. Please request a new one.")
            else if negb (String.eqb c (ve_verification_code payload)) then
              raise (HTTPException 401 "Invalid verification code")
            else
              let u1 := set_code (set_verified u true) None (User.verification_code_created_at u) None in
              ut ← login env i u1;
              mail_welcome env ut.1;;
              mret (AuthResponse.mk (Msg "Email verified successfully. You are now signed in.")
                                    (Some (AuthData.mk ut.2 (from_user i ut.1))))
        | _, _ => raise (HTTPException 400 "No verification code found. Please request a new one.")
        end
    end).

(** [POST /resend-verification/] *)
Definition resend_verification (env : Env) (payload : ResendVerificationRequest) : PyM DB reply :=
  auth_endpoint env (
    found ← find_user (rv_email payload) (rv_role payload);
    match found with
    | None => raise (HTTPException 404 "User not found. You need to sign up first")
    | Some (i, u) =>
        let u' := set_code u (Some (fresh_code env)) (Some (now env)) (Some (now env + hours 24)) in
        save_user i u';;
        mail_code env (User.email u') (fresh_code env);;
        mret (AuthResponse.mk (Msg "Account created. Please check your email for verification code.")
                              (Some (AuthData.mk (empty_token env) (from_user i u'))))
    end).

(** [POST /sign-in/] *)
Definition sign_in (env : Env) (payload : SignInRequest) : PyM DB reply :=
  auth_endpoint env (
    found ← find_user (si_username_or_email payload) (si_role payload);
    match found with
    | None => raise (HTTPException 404 "User not found. You need to sign up first")
    | Some (i, u) =>
        if negb (verify_password (si_password payload) (User.hashed_password u)) then
          raise (HTTPException 401 (fail_response_str "Invalid credentials" "Identifiants invalides" "Invalid credentials"))
        else if negb (User.is_email_verified u) then
          raise (HTTPException 403 (fail_response_str "Please verify your email first"
                                      "Veuillez d'abord vérifier votre email" "Email not verified"))
        else
          ut ← login env i u;
          mret (AuthResponse.mk LoggedIn (Some (AuthData.mk ut.2 (from_user i ut.1))))
    end).

(** [POST /google-token]: [info] is what [id_token.verify_oauth2_token]
    returned or raised. An existing account is looked up by e-mail or
    Google subject, in any role. *)
Definition verify_google_login (env : Env) (info : exn + GoogleInfo) (r : user_role) : PyM DB reply :=
  let invalid m := HTTPException 401 (fail_response_str "Invalid Google token" "Jeton Google invalide" m) in
  auth_endpoint env (
    g ← match info with
        | inl (PyException "ValueError" m) => raise (invalid m)
        | inl e => raise e
        | inr g => if g_exp g * usec <? now env then raise (invalid "Token has expired") else mret g
        end;
    found ← find_one (D:=User.t) (fun _ u => String.eqb (User.email u) (g_email g) ||
                                             bool_decide (User.google_id u = Some (g_sub g)));
    iu ← match found with
         | Some iu => mret iu
         | None =>
             let user := User.mk (g_email g) (g_given_name g) (g_family_name g) None (g_picture g) r Google
                                 (default false (g_email_verified g)) None (Some (g_sub g))
                                 None None None None None None None (now env) None None in
             i ← insert_user user; mret (i, user)
         end;
    ut ← login env iu.1 iu.2;
    mret (AuthResponse.mk LoggedIn (Some (AuthData.mk ut.2 (from_user iu.1 ut.1))))).

(** [POST /refresh-token/] *)
Definition refresh_token (env : Env) (t : string) : PyM DB reply :=
  auth_endpoint env (
    found ← find_one (D:=User.t) (fun _ u => bool_decide (User.refresh_token u = Some t));
    match found with
    | None => raise (unauthorized "Invalid refresh token")
    | Some (i, u) =>
        match verify_token t "refresh" (now env) with
        | inl (PyException "ValueError" _) => raise (unauthorized "Invalid refresh token")
        | inl e => raise e
        | inr _ =>
            let '(a, ae) := create_access_token (id_str i) (now env) in
            let u' := set_tokens u (Some a) (Some ae) (User.refresh_token u) (User.refresh_token_expires_at u) in
            save_user i u';;
            tok ← lift_exn (token_of (Some a) (Some ae) (User.refresh_token u') (User.refresh_token_expires_at u'));
            mret (AuthResponse.mk (Msg "Access token refreshed successfully") (Some (AuthData.mk tok (from_user i u'))))
        end
    end).

(** [user.access_token = None; ...; user.refresh_token_expires_at = None] *)
Definition logout_cleared (u : User.t) : User.t := set_tokens u None None None None.

(** [POST /logout/], for the caller [get_user_id] named. *)
Definition logout (env : Env) (user_id : string) : PyM DB reply :=
  auth_endpoint env (
    found ← get_user user_id;
    match found with
    | None => raise (HTTPException 404 "User not found")
    | Some (i, u) =>
        save_user i (logout_cleared u);;
        mret (AuthResponse.mk (Msg "Logged out successfully") None)
    end).

(** [POST /send-password-reset_code/]: the mail goes out before the
    code is stored. *)
Definition send_password_reset_code (env : Env) (payload : Username_Or_Email) : PyM DB reply :=
  auth_endpoint env (
    found ← find_user (ue_username_or_email payload) (ue_role payload);
    match found with
    | None => raise (HTTPException 404 "User not found")
    | Some (i, u) =>
        mail_code env (User.email u) (fresh_code env);;
        save_user i (set_code u (Some (fresh_code env)) (Some (now env)) (Some (now env + hours 1)));;
        mret (AuthResponse.mk (Msg "Password reset verification code sent to your email") None)
    end).

(** [POST /update-password/] *)
Definition update_password (env : Env) (payload : Password) : PyM DB reply :=
  auth_endpoint env (
    found ← find_user (pw_username_or_email payload) (pw_role payload);
    match found with
    | None => raise (HTTPException 404 "User not found")
    | Some (i, u) =>
        match User.verification_code u, User.verification_code_expires_at u with
        | Some c, Some ex =>
            if String.eqb c "" then raise (HTTPException 400 "No reset code found. Please request a new one.")
            else if ex <? now env then raise (HTTPException 400 "Reset code has expired. Please request a new one.")
            else if negb (String.eqb c (pw_verification_code payload)) then
              raise (HTTPException 400 "Invalid reset code")
            else
              let u1 := set_code (set_password u (pwd_hash (pw_password payload))) None None None in
              save_user i u1;;
              ut ← login env i u1;
              mret (AuthResponse.mk (Msg "Password updated successfully. Please sign in with your new password.")
                                    (Some (AuthData.mk ut.2 (from_user i ut.1))))
        | _, _ => raise (HTTPException 400 "No reset code found. Please request a new one.")
        end
    end).

(** [GET /me/] *)
Definition get_current_user (env : Env) (user_id : string) : PyM DB reply :=
  auth_endpoint env (
    found ← get_user user_id;
    match found with
    | None => raise (HTTPException 404 "User not found")
    | Some (i, u) =>
        tok ← lift_exn (token_of (User.access_token u) (User.access_token_expires_at u) (Some "") (Some (now env)));
        mret (AuthResponse.mk (Msg "User profile retrieved") (Some (AuthData.mk tok (from_user i u))))
    end).

(** [for field, value in user_update.dict(exclude_unset=True).items():
    setattr(user, field, value)] for the fields the user document keeps;
    the [id] field is [save_profile]'s. *)
Definition apply_profile (u : User.t) (p : ProfileUpdate) : User.t :=
  let b := upd_body p in let fs := upd_fields_set p in
  let set {A} f (new old : A) := if bool_decide (f ∈ fs) then new else old in
  User.mk (set "email" (UserProfile.email b) (User.email u)) (set "first_name" (UserProfile.first_name b) (User.first_name u))
          (set "last_name" (UserProfile.last_name b) (User.last_name u)) (set "bio" (UserProfile.bio b) (User.bio u))
          (set "avatar_url" (UserProfile.avatar_url b) (User.avatar_url u)) (set "role" (UserProfile.role b) (User.role u))
          (set "provider" (UserProfile.provider b) (User.provider u))
          (set "is_email_verified" (UserProfile.is_email_verified b) (User.is_email_verified u))
          (User.hashed_password u) (User.google_id u) (User.access_token u) (User.access_token_expires_at u)
          (User.refresh_token u) (User.refresh_token_expires_at u) (User.verification_code u)
          (User.verification_code_created_at u) (User.verification_code_expires_at u) (User.created_at u)
          (User.last_login u) (User.locked_until u).

(** [setattr(user, "id", value)] when the body sets [id], then
    [await user.save()]: Beanie upserts by [{"_id": user.id}], or by a
    fresh ObjectId when [user.id] is [None]. The user is written under
    that id, the unique indexes checked against every other document,
    and the document it was read from stays. The answer is the id saved
    under. *)
Definition save_profile (i : oid) (u : User.t) (p : ProfileUpdate) : PyM DB oid :=
  if bool_decide ("id" ∈ upd_fields_set p) then
    match UserProfile.id (upd_body p) with
    | Some s => save_user (str_key s) u;; mret (str_key s)
    | None => insert_user u
    end
  else save_user i u;; mret i.

(** [PATCH /me/] *)
Definition update_current_user (env : Env) (user_update : ProfileUpdate) (user_id : string) : PyM DB reply :=
  auth_endpoint env (
    found ← get_user user_id;
    match found with
    | None => raise (HTTPException 404 "User not found")
    | Some (i, u) =>
        let u' := apply_profile u user_update in
        k ← save_profile i u' user_update;
        tok ← lift_exn (token_of (User.access_token u') (User.access_token_expires_at u') (Some "") (Some (now env)));
        mret (AuthResponse.mk (Msg "Profile updated successfully") (Some (AuthData.mk tok (from_user k u'))))
    end).

End Handlers.

(** ** Writes that pass the unique indexes *)

Lemma insert_user_fresh u db :
  (forall j v, (j, v) ∈ collection (D:=User.t) db -> user_clash u v = false) -> insert_user u db = insert u db.
Proof.
  intros Hc. unfold insert_user, gets. rewrite bind_run. simpl.
  replace (existsb _ _) with false; [reflexivity|]. symmetry. apply not_true_iff_false.
  intros ([j v] & Hjv & Hv)%existsb_exists. apply list_elem_of_In in Hjv. simpl in Hv. by rewrite (Hc j v Hjv) in Hv.
Qed.

Lemma save_user_fresh i u db :
  (forall j v, (j, v) ∈ collection (D:=User.t) db -> j <> i -> user_clash u v = false) -> save_user i u db = save i u db.
Proof.
  intros Hc. unfold save_user, gets. rewrite bind_run. simpl.
  replace (existsb _ _) with false; [reflexivity|]. symmetry. apply not_true_iff_false.
  intros ([j v] & Hjv & Hv)%existsb_exists. apply filter_In in Hjv as [Hjv Hj]. apply list_elem_of_In in Hjv.
  simpl in Hj, Hv. apply negb_true_iff, N.eqb_neq in Hj. by rewrite (Hc j v Hjv Hj) in Hv.
Qed.

Lemma save_run i (u : User.t) db : save i u db = (inr tt, snd (save i u db)).
Proof. reflexivity. Qed.

Lemma insert_run {D} `{Document D} (d : D) db : insert d db = (inr (next_id db), snd (insert d db)).
Proof. reflexivity. Qed.

(** ** Error paths of the dependency and of token verification, and the
    profile update *)

Section Claims.
Context `{Crypto}.

(** (C18) [get_user_id] answers every failure with 401 and never writes:
    its [except Exception] also catches the 404 "User not found" raised
    inside its [try], so a valid token of a deleted user gets 401
    "Invalid authorization token". *)
Theorem get_user_id_only_401 a t db :
  match outcome (get_user_id a t) db with inl e => exists d, e = HTTPException 401 d | inr _ => True end /\
  final (get_user_id a t) db = db.
Proof.
  unfold outcome, final, get_user_id. destruct a as [s|]; [|split; [eexists|]; reflexivity].
  destruct s as [|c h]; [split; [eexists|]; reflexivity|].
  rewrite py_try_reraise_fst, py_try_reraise_snd. split.
  - destruct (fst _) as [e|]; [|done]. unfold get_user_id_except.
    repeat case_match; eexists; reflexivity.
  - match goal with |- snd (?m db) = db => enough (Hm : preserves (fun x => x = db) m) by exact (Hm db eq_refl) end.
    destruct (py_split _) as [|? [|? [|? ?]]]; unfold get_user; preserve.
Qed.

(** (C19) A stored refresh token whose [exp] lies more than the 10 s
    leeway in the past is answered with 500, not 401: [verify_token]'s
    handler of [ExpiredSignatureError] reads the unassigned [payload], the
    [UnboundLocalError] escapes [refresh_token]'s [except ValueError], and
    [handle_exception] logs it to the [Error] collection. *)
Theorem refresh_expired_500 env rt c db :
  is_Some (find_one_in (D:=User.t) db (fun _ u => bool_decide (User.refresh_token u = Some rt))) ->
  jwt_decode rt = Some c -> exp c < now env `div` usec - 10 ->
  refresh_token env rt db =
    (inr (500, inl (mkFail (exn_str unbound_payload) "Exception")),
     snd (insert (ErrorLog.mk (now env) "UnboundLocalError" (exn_str unbound_payload) (tb_function env) (tb_text env)) db)).
Proof.
  intros [[i u] Hf] Hc Hexp. unfold refresh_token, auth_endpoint, find_one. pyunfold. rewrite Hf.
  unfold verify_token. rewrite Hc. apply Z.ltb_lt in Hexp. rewrite Hexp. reflexivity.
Qed.

(** (C20) The life of an access token: made at time [t >= 0], it
    verifies (giving back its claims) up to its [exp] second included,
    then fails with "Token has expired" while within the 10 s leeway of
    jose, and past that raises [UnboundLocalError]. *)
Theorem access_token_lifetime uid t t' :
  0 <= t ->
  let e := int_timestamp (t + hours ACCESS_TOKEN_EXPIRE_HOURS) in
  verify_token (create_access_token uid t).1 "access" t' =
    if t' <=? e * usec then inr (mkClaims uid e (int_timestamp t) "access")
    else if t' `div` usec - 10 <=? e then inl (value_error "Token has expired")
    else inl unbound_payload.
Proof.
  intros Ht e. unfold verify_token, create_access_token. simpl. rewrite jwt_decode_encode. simpl.
  assert (He : 36000 <= e).
  { unfold e, int_timestamp, hours, ACCESS_TOKEN_EXPIRE_HOURS, usec.
    apply Z.quot_le_lower_bound; lia. }
  fold e. replace (e =? 0) with false by lia. simpl.
  assert (Hd : t' `div` usec <= e -> t' <= e * usec + (usec - 1)).
  { intros. pose proof (Z.mod_pos_bound t' usec ltac:(unfold usec; lia)).
    pose proof (Z.div_mod t' usec ltac:(unfold usec; lia)). nia. }
  destruct (t' <=? e * usec) eqn:E1.
  - apply Z.leb_le in E1.
    assert (t' `div` usec <= e) by (apply Z.div_le_upper_bound; unfold usec in *; lia).
    replace (e <? t' `div` usec - 10) with false by lia. simpl.
    replace (e * usec <? t') with false by lia. reflexivity.
  - apply Z.leb_gt in E1. destruct (t' `div` usec - 10 <=? e) eqn:E2.
    + apply Z.leb_le in E2. replace (e <? t' `div` usec - 10) with false by lia. simpl.
      replace (e * usec <? t') with true by lia. reflexivity.
    + apply Z.leb_gt in E2. replace (e <? t' `div` usec - 10) with true by lia. reflexivity.
Qed.
(** (C25) [PATCH /me] writes whatever role, e-mail and verification flag
    the caller sends: when the body does not set [id], the stored user
    takes the requested values before any check but the unique index,
    whatever the handler then answers. *)
Theorem update_me_escalates env p uid i u db :
  parse_oid uid = Some i -> find_one_in (D:=User.t) db (fun j _ => N.eqb j i) = Some (i, u) ->
  (forall j v, (j, v) ∈ collection (D:=User.t) db -> j <> i -> user_clash (apply_profile u p) v = false) ->
  "id" ∉ upd_fields_set p ->
  "role" ∈ upd_fields_set p -> "is_email_verified" ∈ upd_fields_set p -> "email" ∈ upd_fields_set p ->
  exists u', find_one_in (D:=User.t) (final (update_current_user env p uid) db) (fun j _ => N.eqb j i) = Some (i, u') /\
    User.role u' = UserProfile.role (upd_body p) /\
    User.is_email_verified u' = UserProfile.is_email_verified (upd_body p) /\
    User.email u' = UserProfile.email (upd_body p).
Proof.
  intros Hp Hf Hc Hid Hr Hv He. exists (apply_profile u p).
  unfold final, update_current_user, auth_endpoint, get_user, to_oid, find_one. rewrite Hp. pyunfold. rewrite Hf. simpl.
  unfold save_profile. rewrite bool_decide_eq_false_2 by done.
  rewrite bind_run, save_user_fresh by done. rewrite save_run. cbn beta iota zeta. rewrite ret_run.
  assert (Hs : find_one_in (D:=User.t) (snd (save i (apply_profile u p) db)) (fun j _ => N.eqb j i) =
               Some (i, apply_profile u p)) by apply find_one_in_save.
  split; [|unfold apply_profile; simpl; split_and!; by rewrite bool_decide_eq_true_2].
  destruct (token_of _ _ _ _) as [e|tok]; cbn beta iota zeta; [|done].
  destruct e; cbn -[save insert]; [done|].
  rewrite bind_run, insert_run. cbn -[save insert]. rewrite find_one_in_insert_other; [done|classes_disjoint].
Qed.
End Claims.
