(* ===== verification/AuthProps.v ===== *)
(** * Properties of authentication

    The invariants of the user collection that the handlers of [Auth]
    keep, what a [PATCH /me] body with an [id] writes, what logout
    revokes, what the token checks accept and when, and the error paths
    of the auth endpoints. [RefCrypto] is an implementation of the
    [Crypto] interface used to run the handlers on concrete inputs. *)

From S2P Require Import Prelude ObjectId Json PyString Documents Email Auth.

(** The store's writes stay folded under [simpl]: proofs rewrite with
    their lemmas instead. *)
#[local] Arguments save : simpl never.
#[local] Arguments save_user : simpl never.
#[local] Arguments insert : simpl never.
#[local] Arguments insert_user : simpl never.
#[local] Arguments login : simpl never.

(** ** Invariants of the user collection *)
Section Invariants.
Context `{Crypto}.

(** A stored token is a JWT whose subject is the id of the user that
    holds it. *)
Definition bound_to (i : oid) (t : option string) : Prop :=
  match t with
  | None => True
  | Some s => match jwt_decode s with Some c => sub c = id_str i | None => False end
  end.

Definition tokens_bound : DB -> Prop :=
  all_docs (D:=User.t) (fun i u => bound_to i (User.access_token u) /\ bound_to i (User.refresh_token u)).

(** The unique indexes hold: two users never clash. *)
Definition users_unique (db : DB) : Prop :=
  forall i j u v, (i, u) ∈ collection (D:=User.t) db -> (j, v) ∈ collection (D:=User.t) db -> i <> j ->
                  user_clash u v = false.

#[global] Instance bound_to_dec i t : Decision (bound_to i t).
Proof. unfold bound_to. destruct t as [s|]; [destruct (jwt_decode s)|]; apply _. Defined.

Lemma bound_to_encode i c : sub c = id_str i -> bound_to i (Some (jwt_encode c)).
Proof. intros Hc. simpl. by rewrite jwt_decode_encode. Qed.

Lemma save_user_preserves (P : oid -> User.t -> Prop) i u :
  P i u -> preserves (all_docs P) (save_user i u).
Proof. intros Hu. unfold save_user. preserve. by apply all_docs_save. Qed.

Lemma insert_user_preserves (P : oid -> User.t -> Prop) u :
  (forall i, P i u) -> preserves (all_docs P) (insert_user u).
Proof. intros Hu. unfold insert_user. preserve. by apply all_docs_insert. Qed.

Lemma handle_exception_preserves (P : oid -> User.t -> Prop) env e :
  preserves (all_docs P) (handle_exception env e).
Proof.
  destruct e; simpl; preserve. apply all_docs_keeps, keeps_insert_other. classes_disjoint.
Qed.

Lemma auth_endpoint_preserves (P : oid -> User.t -> Prop) env m :
  preserves (all_docs P) m -> preserves (all_docs P) (auth_endpoint env m).
Proof. intros Hm. unfold auth_endpoint. preserve. apply handle_exception_preserves. Qed.

Lemma all_docs_find_user {A} (P : oid -> User.t -> Prop) e r (k : option (oid * User.t) -> PyM DB A) :
  (forall f, (forall i d, f = Some (i, d) -> P i d) -> preserves (all_docs P) (k f)) ->
  preserves (all_docs P) (find_user e r ≫= k).
Proof. apply all_docs_find_one. Qed.

Lemma all_docs_get_user {A} (P : oid -> User.t -> Prop) s (k : option (oid * User.t) -> PyM DB A) :
  (forall f, (forall i d, f = Some (i, d) -> P i d) -> preserves (all_docs P) (k f)) ->
  preserves (all_docs P) (get_user s ≫= k).
Proof.
  intros Hk db Hdb. unfold get_user, to_oid. destruct (parse_oid s); [|done].
  rewrite !bind_run, ret_run. by apply all_docs_find_one.
Qed.

Lemma login_preserves env i u : preserves tokens_bound (login env i u).
Proof.
  unfold login, create_tokens, create_access_token, create_refresh_token. simpl. preserve.
  apply save_user_preserves. simpl. split; by apply bound_to_encode.
Qed.
End Invariants.

#[export] Hint Resolve save_user_preserves insert_user_preserves handle_exception_preserves login_preserves : preserve.

(** Walk a handler of this file for an invariant [all_docs P]: a lookup
    of a user hands its document's [P] to the rest of the handler. *)
Ltac auth_preserve :=
  repeat match goal with
  | |- preserves (all_docs _) (auth_endpoint _ _) => apply auth_endpoint_preserves
  | |- preserves (all_docs _) (find_user _ _ ≫= _) => apply all_docs_find_user; intros [[?i ?u]|] ?Hr
  | |- preserves (all_docs _) (get_user _ ≫= _) => apply all_docs_get_user; intros [[?i ?u]|] ?Hr
  | |- preserves (all_docs _) (find_one _ ≫= _) => apply all_docs_find_one; intros [[?i ?u]|] ?Hr
  | |- preserves _ (mbind _ _) => apply preserves_bind; [|intro]
  | |- preserves _ (let '(_, _) := ?x in _) => destruct x eqn:?
  | |- preserves _ (match ?x with _ => _ end) => destruct x eqn:?
  | |- preserves _ (py_try _ _) => apply preserves_py_try; [|intro]
  | |- preserves _ _ => progress (eauto with preserve)
  end.

(** ** Lemmas on the authentication dependency *)
Section GetUserId.
Context `{Crypto}.

(** Close a branch whose run raises, against the hypothesis that it
    returned. *)
Local Ltac dead := let Hr := fresh in intros Hr;
  repeat progress (unfold raise, lift_exn in Hr; rewrite ?bind_run, ?ret_run in Hr; simpl in Hr); discriminate.

(** [get_user_id] accepts a header exactly when the bearer token
    verifies and names a user the store holds; it never writes. *)
Lemma get_user_id_inr h t db uid :
  fst (get_user_id (Some h) t db) = inr uid ->
  exists i u, parse_oid uid = Some i /\ find_one_in (D:=User.t) db (fun j _ => N.eqb j i) = Some (i, u) /\
    forall db', is_Some (find_one_in (D:=User.t) db' (fun j _ => N.eqb j i)) ->
                get_user_id (Some h) t db' = (inr uid, db').
Proof.
  destruct h as [|c h']; [dead|].
  unfold get_user_id. set (hd := String c h'). intros Hr%py_try_reraise_inr.
  enough (exists i u, parse_oid uid = Some i /\ find_one_in (D:=User.t) db (fun j _ => N.eqb j i) = Some (i, u) /\
    forall db', is_Some (find_one_in (D:=User.t) db' (fun j _ => N.eqb j i)) ->
                (match py_split hd with
                 | [scheme; token] =>
                     py_assert (String.eqb (py_lower scheme) "bearer") (unauthorized "Invalid authentication scheme");;
                     c ← lift_exn (verify_token token "access" t);
                     py_assert (negb (String.eqb (sub c) "")) (unauthorized "Invalid token payload");;
                     found ← get_user (sub c);
                     match found with
                     | None => raise (HTTPException 404 "User not found")
                     | Some _ => mret (sub c)
                     end
                 | parts => raise (unpack_error (length parts))
                 end) db' = (inr uid, db')) as (i & u & Hp & Hf & Hk).
  { exists i, u. split_and!; [done..|]. intros db' Hdb'. apply py_try_reraise_run. by apply Hk. }
  revert Hr. destruct (py_split hd) as [|s1 [|s2 [|s3 l]]]; try dead.
  unfold py_assert, lift_exn, get_user, to_oid.
  destruct (String.eqb (py_lower s1) "bearer"); [|dead].
  destruct (verify_token s2 "access" t) as [e|cl]; [dead|].
  intros Hr. unfold mbind, pym_bind, mret, pym_ret, find_one, gets, raise in *. simpl in *.
  destruct (negb (String.eqb (sub cl) "")); simpl in *; [|discriminate].
  destruct (parse_oid (sub cl)) as [i|] eqn:Hp; simpl in *; [|discriminate].
  destruct (find_one_in db _) as [[j u]|] eqn:Hf; simpl in *; [|discriminate]. simplify_eq.
  exists i, u. pose proof (find_one_in_sat _ _ _ _ Hf) as Hj%N.eqb_eq. subst j.
  split_and!; [done..|]. intros db' [x ->]. reflexivity.
Qed.
End GetUserId.

(** ** Writes that keep the unique indexes *)
Section SaveUser.
Context `{Crypto}.

Definition user_keys (u : User.t) := (User.email u, User.role u, User.provider u, User.google_id u).

Lemma user_clash_keys u u' v : user_keys u = user_keys u' -> user_clash u v = user_clash u' v.
Proof. unfold user_keys, user_clash. intros [= -> -> -> ->]. reflexivity. Qed.

(** Saving a stored user again under new field values that keep its
    index keys never raises [DuplicateKeyError]. *)
Lemma save_user_same_keys db i u u' :
  users_unique db -> (i, u) ∈ collection (D:=User.t) db -> user_keys u' = user_keys u ->
  save_user i u' db = save i u' db.
Proof.
  intros Hu Hin Hk. unfold save_user, gets. rewrite bind_run. simpl.
  replace (existsb _ _) with false; [reflexivity|]. symmetry. apply not_true_iff_false.
  intros ([j v] & Hjv & Hc)%existsb_exists. apply filter_In in Hjv as [Hjv Hj]. apply list_elem_of_In in Hjv.
  simpl in *. apply negb_true_iff, N.eqb_neq in Hj.
  rewrite (user_clash_keys u' u v Hk) in Hc. by rewrite (Hu i j u v Hin Hjv (not_eq_sym Hj)) in Hc.
Qed.

Lemma keys_set_tokens u a ae r re : user_keys (set_tokens u a ae r re) = user_keys u.
Proof. reflexivity. Qed.
Lemma keys_set_code u c ca ex : user_keys (set_code u c ca ex) = user_keys u.
Proof. reflexivity. Qed.
Lemma keys_set_verified u v : user_keys (set_verified u v) = user_keys u.
Proof. reflexivity. Qed.
Lemma keys_set_password u h : user_keys (set_password u h) = user_keys u.
Proof. reflexivity. Qed.
Lemma keys_set_last_login u t : user_keys (set_last_login u t) = user_keys u.
Proof. reflexivity. Qed.
End SaveUser.

Create Rewrite HintDb user_keys.
#[export] Hint Rewrite keys_set_tokens keys_set_code keys_set_verified keys_set_password keys_set_last_login : user_keys.

(** ** Every handler keeps the tokens bound to their holders

    The new tokens a handler stores are signed for the user it stores
    them on; every other write copies a stored user's tokens or clears
    them. *)
Ltac tokens_bound_handler :=
  unfold tokens_bound; auth_preserve;
  first [ apply save_user_preserves | apply insert_user_preserves; intros ? ]; simpl;
  split; try exact I;
  try match goal with
      | Hr : forall i d, _ = Some (i, d) -> _ |- _ =>
          first [ apply (proj1 (Hr _ _ eq_refl)) | apply (proj2 (Hr _ _ eq_refl)) ]
      end.

Section Preservation.
Context `{Crypto}.
Lemma sign_up_tokens env p : preserves tokens_bound (sign_up env p).
Proof. unfold sign_up. tokens_bound_handler. Qed.
Lemma verify_email_tokens env p : preserves tokens_bound (verify_email env p).
Proof. unfold verify_email. tokens_bound_handler. Qed.
Lemma resend_verification_tokens env p : preserves tokens_bound (resend_verification env p).
Proof. unfold resend_verification. tokens_bound_handler. Qed.
Lemma sign_in_tokens env p : preserves tokens_bound (sign_in env p).
Proof. unfold sign_in. tokens_bound_handler. Qed.
Lemma google_tokens env info r : preserves tokens_bound (verify_google_login env info r).
Proof. unfold verify_google_login. tokens_bound_handler. Qed.
Lemma refresh_token_tokens env t : preserves tokens_bound (refresh_token env t).
Proof.
  unfold refresh_token. tokens_bound_handler.
  unfold create_access_token in *. simplify_eq. by rewrite jwt_decode_encode.
Qed.
Lemma logout_tokens env uid : preserves tokens_bound (logout env uid).
Proof. unfold logout. tokens_bound_handler. Qed.
Lemma reset_code_tokens env p : preserves tokens_bound (send_password_reset_code env p).
Proof. unfold send_password_reset_code. tokens_bound_handler. Qed.
Lemma update_password_tokens env p : preserves tokens_bound (update_password env p).
Proof. unfold update_password. tokens_bound_handler. Qed.
Lemma get_me_tokens env uid : preserves tokens_bound (get_current_user env uid).
Proof. unfold get_current_user. tokens_bound_handler. Qed.
End Preservation.


(** ** Runs of single handlers *)

Section Runs.
Context `{Crypto}.

(** The query of [find_user]. *)
Definition by_email_role (e : string) (r : user_role) (_ : oid) (u : User.t) : bool :=
  String.eqb (User.email u) e && bool_decide (User.role u = r).

Lemma user_clash_local u v :
  User.provider u = Local -> by_email_role (User.email u) (User.role u) 0%N v = false -> user_clash u v = false.
Proof. unfold user_clash, by_email_role. intros -> ->. reflexivity. Qed.


(** Sign-up of an (e-mail, role) pair the store does not have. *)
Lemma sign_up_run env p db :
  find_one_in (D:=User.t) db (by_email_role (su_email p) (su_role p)) = None -> smtp_up (smtp env) ->
  sign_up env p db =
    (inr (200, inr (AuthResponse.mk (Msg "Account created. Please check your email for verification code.")
                      (Some (AuthData.mk (empty_token env) (from_user (next_id db) (sign_up_user env p)))))),
     snd (insert (sign_up_user env p) db)).
Proof.
  intros Hn Hs. unfold sign_up, auth_endpoint, find_user, find_one, mail_code. pyunfold.
  unfold by_email_role in Hn. rewrite Hn. simpl.
  rewrite insert_user_fresh; [|intros j v Hjv; apply user_clash_local; [done|]; exact (find_one_in_none_inv _ _ j v Hn Hjv)].
  unfold insert at 1. simpl. rewrite send_verification_email_up by done. reflexivity.
Qed.

(** Logout of a stored user: the four token fields are cleared. *)
Lemma logout_run env uid i u db :
  parse_oid uid = Some i -> find_one_in (D:=User.t) db (fun j _ => N.eqb j i) = Some (i, u) -> users_unique db ->
  logout env uid db = (inr (200, inr (AuthResponse.mk (Msg "Logged out successfully") None)),
                       snd (save i (logout_cleared u) db)).
Proof.
  intros Hp Hf Hu. unfold logout, auth_endpoint, get_user, to_oid, find_one. rewrite Hp. pyunfold.
  rewrite Hf. simpl.
  rewrite (save_user_same_keys db i u (logout_cleared u) Hu (find_one_in_elem _ _ _ _ Hf) eq_refl).
  reflexivity.
Qed.

(** A refresh token no stored user holds is refused with 401. *)
Lemma refresh_token_unknown env rt db :
  (forall i u, (i, u) ∈ collection (D:=User.t) db -> User.refresh_token u <> Some rt) ->
  refresh_token env rt db = (inr (401, inl (mkFail "Invalid refresh token" "HTTPException")), db).
Proof.
  intros Hn.
  assert (Hnone : find_one_in (D:=User.t) db (fun _ u => bool_decide (User.refresh_token u = Some rt)) = None).
  { apply find_one_in_none. intros i u Hin. apply bool_decide_eq_false. exact (Hn i u Hin). }
  unfold refresh_token, auth_endpoint, find_one. pyunfold. by rewrite Hnone.
Qed.

(** After user [i] is saved without a refresh token, no stored user
    holds a refresh token signed for [i]. *)
Lemma cleared_refresh_unheld db i u' rt c :
  wf_db db -> tokens_bound db -> jwt_decode rt = Some c -> parse_oid (sub c) = Some i -> User.refresh_token u' = None ->
  forall j v, (j, v) ∈ collection (D:=User.t) (snd (save i u' db)) -> User.refresh_token v <> Some rt.
Proof.
  intros Hwf Hb Hc Hp Hu' j v [[-> ->]|[Hj Hin]]%elem_of_collection_save; [by rewrite Hu'|]. intros Hr.
  destruct (Hb j v Hin) as [_ Hbound]. rewrite Hr in Hbound. simpl in Hbound. rewrite Hc in Hbound.
  rewrite Hbound, (id_str_oid j (wf_id_bound db Hwf j v Hin)), (oid_str_roundtrip j (wf_id_bound db Hwf j v Hin)) in Hp. congruence.
Qed.

(** The user [login] stores. *)
Definition logged_in (env : Env) (i : oid) (u : User.t) : User.t :=
  let '(a, ae, r, re) := create_tokens (id_str i) (now env) in
  set_last_login (set_tokens u (Some a) (Some ae) (Some r) (Some re)) (now env).

Definition login_token (env : Env) (i : oid) : Token.t :=
  let '(a, ae, r, re) := create_tokens (id_str i) (now env) in Token.mk a ae r re.

(** [login] on a user whose index keys clash with no other user. *)
Lemma login_run env i u db :
  (forall j v, (j, v) ∈ collection (D:=User.t) db -> j <> i -> user_clash u v = false) ->
  login env i u db = (inr (logged_in env i u, login_token env i), snd (save i (logged_in env i u) db)).
Proof.
  intros Hc. unfold login, logged_in, login_token. pyunfold. rewrite save_user_fresh; [reflexivity|].
  intros j v Hj Hji. rewrite <- (user_clash_keys u); [by apply (Hc j)|reflexivity].
Qed.

(** E-mail verification with the stored, unexpired code. *)
Lemma verify_email_run env p i u db :
  find_one_in (D:=User.t) db (by_email_role (ve_email p) (ve_role p)) = Some (i, u) ->
  User.is_email_verified u = false -> User.verification_code u = Some (ve_verification_code p) ->
  ve_verification_code p <> "" -> (exists ex, User.verification_code_expires_at u = Some ex /\ now env <= ex) ->
  (forall j v, (j, v) ∈ collection (D:=User.t) db -> j <> i -> user_clash u v = false) -> smtp_up (smtp env) ->
  let u1 := set_code (set_verified u true) None (User.verification_code_created_at u) None in
  verify_email env p db =
    (inr (200, inr (AuthResponse.mk (Msg "Email verified successfully. You are now signed in.")
                      (Some (AuthData.mk (login_token env i) (from_user i (logged_in env i u1)))))),
     snd (save i (logged_in env i u1) db)).
Proof.
  intros Hf Hv Hcode Hne (ex & Hex & Hle) Hc Hs u1.
  unfold verify_email, auth_endpoint, find_user, find_one, mail_welcome. pyunfold.
  unfold by_email_role in Hf. rewrite Hf. simpl. rewrite ?Hv, Hcode, Hex. simpl.
  replace (String.eqb (ve_verification_code p) "") with false by (symmetry; by apply String.eqb_neq).
  replace (ex <? now env) with false by lia. rewrite String.eqb_refl. simpl.
  rewrite (login_run env i _ db); [simpl; by rewrite send_welcome_email_up|].
  intros j v Hj Hji. rewrite <- (user_clash_keys u); [by apply (Hc j)|reflexivity].
Qed.

(** Password update with the stored, unexpired code: the new hash is
    saved, then [login] stores a token pair. *)
Lemma update_password_run env p i u db :
  find_one_in (D:=User.t) db (by_email_role (pw_username_or_email p) (pw_role p)) = Some (i, u) ->
  User.verification_code u = Some (pw_verification_code p) -> pw_verification_code p <> "" ->
  (exists ex, User.verification_code_expires_at u = Some ex /\ now env <= ex) ->
  (forall j v, (j, v) ∈ collection (D:=User.t) db -> j <> i -> user_clash u v = false) ->
  let u1 := set_code (set_password u (pwd_hash (pw_password p))) None None None in
  update_password env p db =
    (inr (200, inr (AuthResponse.mk (Msg "Password updated successfully. Please sign in with your new password.")
                      (Some (AuthData.mk (login_token env i) (from_user i (logged_in env i u1)))))),
     snd (save i (logged_in env i u1) (snd (save i u1 db)))).
Proof.
  intros Hf Hcode Hne (ex & Hex & Hle) Hc u1.
  unfold update_password, auth_endpoint, find_user, find_one. pyunfold.
  unfold by_email_role in Hf. rewrite Hf. simpl. rewrite Hcode, Hex. simpl.
  replace (String.eqb (pw_verification_code p) "") with false by (symmetry; by apply String.eqb_neq).
  replace (ex <? now env) with false by lia. rewrite String.eqb_refl. simpl.
  rewrite save_user_fresh; [|intros j v Hj Hji; rewrite <- (user_clash_keys u); [by apply (Hc j)|reflexivity]].
  rewrite save_run. cbn beta iota zeta. rewrite (login_run env i _ _); [reflexivity|].
  intros j v [[-> _]|[_ Hj]]%elem_of_collection_save Hji; [done|].
  rewrite <- (user_clash_keys u); [by apply (Hc j)|reflexivity].
Qed.

(** Sign-in with the right password on an unverified account: 403. *)
Lemma sign_in_unverified_run env p i u db :
  find_one_in (D:=User.t) db (by_email_role (si_username_or_email p) (si_role p)) = Some (i, u) ->
  verify_password (si_password p) (User.hashed_password u) = true -> User.is_email_verified u = false ->
  sign_in env p db =
    (inr (403, inl (mkFail (fail_response_str "Please verify your email first"
                             "Veuillez d'abord vérifier votre email" "Email not verified") "HTTPException")), db).
Proof.
  intros Hf Hp Hv. unfold sign_in, auth_endpoint, find_user, find_one. pyunfold.
  unfold by_email_role in Hf. rewrite Hf. simpl. by rewrite Hp, Hv.
Qed.

(** A stored user of a store that keeps the unique indexes clashes with
    no other user. *)
Lemma unique_no_clash db i u :
  users_unique db -> (i, u) ∈ collection (D:=User.t) db ->
  forall j v, (j, v) ∈ collection (D:=User.t) db -> j <> i -> user_clash u v = false.
Proof. intros Hu Hi j v Hj Hji. apply (Hu i j u v Hi Hj). congruence. Qed.

(** After the sign-up of a fresh (e-mail, role) pair, the new user is the
    one [find_user] finds and it clashes with no other user. *)
Lemma signed_up_found env p db :
  find_one_in (D:=User.t) db (by_email_role (su_email p) (su_role p)) = None ->
  find_one_in (D:=User.t) (snd (insert (sign_up_user env p) db)) (by_email_role (su_email p) (su_role p)) =
    Some (next_id db, sign_up_user env p) /\
  forall j v, (j, v) ∈ collection (D:=User.t) (snd (insert (sign_up_user env p) db)) -> j <> next_id db ->
    user_clash (sign_up_user env p) v = false.
Proof.
  intros Hn. split.
  - apply find_one_in_insert_new; [done|]. unfold by_email_role. simpl.
    rewrite String.eqb_refl. simpl. by apply bool_decide_eq_true.
  - intros j v [[-> _]|Hin]%elem_of_collection_insert_inv Hj; [done|].
    apply user_clash_local; [done|]. exact (find_one_in_none_inv _ _ j v Hn Hin).
Qed.

#[global] Instance users_unique_dec db : Decision (users_unique db).
Proof.
  set (C := collection (D:=User.t) db).
  destruct (decide (Forall (fun p => Forall (fun q => p.1 = q.1 \/ user_clash p.2 q.2 = false) C) C)) as [Hf|Hf];
    [left|right]; rewrite Forall_forall in Hf.
  - intros i j u v Hi Hj Hij. specialize (Hf (i, u) Hi). rewrite Forall_forall in Hf.
    by destruct (Hf (j, v) Hj).
  - intros Hu. apply Hf. intros [i u] Hi. apply Forall_forall. intros [j v] Hj. simpl.
    destruct (decide (i = j)); [by left|right]. by apply (Hu i j).
Defined.
End Runs.

(** ** A reference implementation of [Crypto], for the examples

    Claims are written out with a self-delimiting encoding, so that
    decoding is a left inverse of encoding; a "hash" is the password
    behind a tag. *)
Module RefCrypto.
Fixpoint enc_pos (p : positive) : list Ascii.ascii :=
  match p with xI p => chr 49 :: enc_pos p | xO p => chr 48 :: enc_pos p | xH => [chr 104] end.

Fixpoint dec_pos (l : list Ascii.ascii) : option (positive * list Ascii.ascii) :=
  match l with
  | [] => None
  | c :: l' =>
      if Ascii.eqb c (chr 104) then Some (xH, l')
      else if Ascii.eqb c (chr 49) then (pr ← dec_pos l'; Some (xI pr.1, pr.2))
      else if Ascii.eqb c (chr 48) then (pr ← dec_pos l'; Some (xO pr.1, pr.2))
      else None
  end.

Definition enc_Z (z : Z) : list Ascii.ascii :=
  match z with Z0 => [chr 122] | Zpos p => chr 112 :: enc_pos p | Zneg p => chr 110 :: enc_pos p end.

Definition dec_Z (l : list Ascii.ascii) : option (Z * list Ascii.ascii) :=
  match l with
  | c :: l' =>
      if Ascii.eqb c (chr 122) then Some (Z0, l')
      else if Ascii.eqb c (chr 112) then (pr ← dec_pos l'; Some (Zpos pr.1, pr.2))
      else if Ascii.eqb c (chr 110) then (pr ← dec_pos l'; Some (Zneg pr.1, pr.2))
      else None
  | [] => None
  end.

Definition enc_str (s : list Ascii.ascii) : list Ascii.ascii := flat_map (fun c => [chr 97; c]) s ++ [chr 98].

Fixpoint dec_str (l : list Ascii.ascii) : option (list Ascii.ascii * list Ascii.ascii) :=
  match l with
  | c :: rest =>
      if Ascii.eqb c (chr 98) then Some ([], rest)
      else if Ascii.eqb c (chr 97) then
        match rest with c' :: l' => pr ← dec_str l'; Some (c' :: pr.1, pr.2) | [] => None end
      else None
  | [] => None
  end.

Definition encode (c : Claims) : string :=
  String.string_of_list_ascii (enc_str (String.list_ascii_of_string (sub c)) ++ enc_Z (exp c) ++ enc_Z (iat c) ++
                               enc_str (String.list_ascii_of_string (typ c))).

Definition decode (s : string) : option Claims :=
  let l := String.list_ascii_of_string s in
  p1 ← dec_str l; p2 ← dec_Z p1.2; p3 ← dec_Z p2.2; p4 ← dec_str p3.2;
  match p4.2 with
  | [] => Some (mkClaims (String.string_of_list_ascii p1.1) p2.1 p3.1 (String.string_of_list_ascii p4.1))
  | _ => None
  end.

Lemma dec_enc_pos p r : dec_pos (enc_pos p ++ r) = Some (p, r).
Proof. induction p; simpl; rewrite ?IHp; reflexivity. Qed.

Lemma dec_enc_Z z r : dec_Z (enc_Z z ++ r) = Some (z, r).
Proof. destruct z; simpl; rewrite ?dec_enc_pos; reflexivity. Qed.

Lemma dec_enc_str s r : dec_str (enc_str s ++ r) = Some (s, r).
Proof.
  induction s as [|c s IH]; [reflexivity|]. unfold enc_str in *. simpl. by rewrite IH. Qed.

Lemma decode_encode c : decode (encode c) = Some c.
Proof.
  destruct c as [s e i t]. unfold decode, encode.
  rewrite String.list_ascii_of_string_of_list_ascii, dec_enc_str. simpl.
  rewrite dec_enc_Z. simpl. rewrite dec_enc_Z. simpl. rewrite <- (app_nil_r (enc_str _)), dec_enc_str.
  simpl. by rewrite !String.string_of_list_ascii_of_string.
Qed.

Definition hash (p : string) : string := "bcrypt:" +:+ p.

#[export] Instance ref_crypto : Crypto := {|
  pwd_hash := hash; pwd_verify p h := String.eqb h (hash p);
  pwd_verify_hash p := String.eqb_refl (hash p);
  jwt_encode := encode; jwt_decode := decode; jwt_decode_encode := decode_encode |}.
End RefCrypto.

(** ** A reference for [str.split()]

    Python documents [s.split()] as: split at whitespace, runs of
    whitespace count as one separator, no empty strings in the result.
    [pieces] cuts at every whitespace character; dropping the empty pieces
    is the documented result. *)
Fixpoint pieces (l : list Ascii.ascii) : list Ascii.ascii * list (list Ascii.ascii) :=
  match l with
  | [] => ([], [])
  | c :: l' => let '(w, ws) := pieces l' in if is_py_space c then ([], w :: ws) else (c :: w, ws)
  end.

Definition nonempty {A} (l : list A) : bool := match l with [] => false | _ => true end.

Definition split_spec (s : string) : list string :=
  let '(w, ws) := pieces (String.list_ascii_of_string s) in
  map String.string_of_list_ascii (List.filter nonempty (w :: ws)).

Lemma split_ws_pieces cur l :
  split_ws cur l = List.filter nonempty ((rev cur ++ (pieces l).1) :: (pieces l).2).
Proof.
  revert cur. induction l as [|c l IH]; intros cur; simpl.
  - rewrite app_nil_r. destruct cur as [|c cur]; simpl; [done|].
    destruct (rev cur ++ [c]) eqn:E; [|done]. by apply app_eq_nil in E as [_ ?].
  - destruct (pieces l) as [w ws] eqn:Hp. simpl in IH. destruct (is_py_space c).
    + rewrite IH. simpl. rewrite app_nil_r.
      destruct cur as [|c' cur]; [done|]. simpl. destruct (rev cur ++ [c']) eqn:E; [|done].
      by apply app_eq_nil in E as [_ ?].
    + rewrite IH. simpl. by rewrite <- app_assoc.
Qed.

(** ** Properties of the auth endpoints *)
Section AuthClaims.
Context `{Crypto}.

(** (C17) Logout does not revoke the access token: it clears the four
    token fields of the caller, after which a refresh token signed for
    the caller is refused with 401, yet the very header that authenticated
    the logout is still accepted by [get_user_id], which never compares
    the bearer token with the stored one. *)
Theorem logout_keeps_access_token env h t uid rt c db :
  wf_db db -> users_unique db -> tokens_bound db ->
  fst (get_user_id (Some h) t db) = inr uid ->
  jwt_decode rt = Some c -> sub c = uid ->
  outcome (logout env uid) db = inr (200, inr (AuthResponse.mk (Msg "Logged out successfully") None)) /\
  outcome (get_user_id (Some h) t) (final (logout env uid) db) = inr uid /\
  outcome (refresh_token env rt) (final (logout env uid) db) =
    inr (401, inl (mkFail "Invalid refresh token" "HTTPException")).
Proof.
  intros Hwf Hu Hb Hg Hc Hsub. destruct (get_user_id_inr _ _ _ _ Hg) as (i & u & Hp & Hf & Hk).
  unfold outcome, final. rewrite (logout_run env uid i u db Hp Hf Hu). cbn [fst snd]. split_and!; [done| |].
  - rewrite Hk; [done|]. rewrite find_one_in_save. by eexists.
  - rewrite refresh_token_unknown; [done|]. apply (cleared_refresh_unheld db i (logout_cleared u) rt c); auto.
    congruence.
Qed.

(** (C21) Registration goes through: after the sign-up of an (e-mail,
    role) pair the store does not have, verifying the e-mail with the code
    sent, before it expires, answers 200 and leaves the new user verified,
    with its code cleared and a fresh token pair signed for it. *)
Theorem sign_up_then_verify env1 env2 p db :
  find_one_in (D:=User.t) db (by_email_role (su_email p) (su_role p)) = None ->
  smtp_up (smtp env1) -> smtp_up (smtp env2) -> fresh_code env1 <> "" -> now env2 <= now env1 + hours 24 ->
  let db1 := final (sign_up env1 p) db in
  let req := mkVerifyEmail (su_email p) (fresh_code env1) (su_role p) in
  (exists r, outcome (verify_email env2 req) db1 = inr (200, inr r)) /\
  exists u, find_one_in (D:=User.t) (final (verify_email env2 req) db1) (fun j _ => N.eqb j (next_id db)) =
              Some (next_id db, u) /\
            User.is_email_verified u = true /\ User.verification_code u = None /\
            bound_to (next_id db) (User.access_token u) /\ bound_to (next_id db) (User.refresh_token u) /\
            is_Some (User.access_token u) /\ is_Some (User.refresh_token u).
Proof.
  intros Hn Hs1 Hs2 Hc Ht db1 req. unfold db1, outcome, final. rewrite (sign_up_run env1 p db Hn Hs1). cbn [fst snd].
  destruct (signed_up_found env1 p db Hn) as [Hf Hclash].
  rewrite (verify_email_run env2 req (next_id db) (sign_up_user env1 p)); try done; [|by eexists].
  cbn [fst snd]. split; [by eexists|]. eexists. rewrite find_one_in_save. split; [reflexivity|].
  unfold logged_in, create_tokens, create_access_token, create_refresh_token. simpl.
  rewrite !jwt_decode_encode. split_and!; done.
Qed.

(** (C22) The code sign-up e-mails also resets the password, and the
    reset logs the still unverified account in: [update_password] checks
    the same [verification_code] field, answers 200 with a token pair and
    an unverified profile, while [sign_in] with the new password is then
    refused with 403 "Please verify your email first". *)
Theorem sign_up_code_resets_password env1 env2 env3 p pw db :
  find_one_in (D:=User.t) db (by_email_role (su_email p) (su_role p)) = None ->
  smtp_up (smtp env1) -> fresh_code env1 <> "" -> now env2 <= now env1 + hours 24 ->
  let db1 := final (sign_up env1 p) db in
  let req := mkPassword (su_email p) (fresh_code env1) pw (su_role p) in
  (exists tok prof, outcome (update_password env2 req) db1 =
     inr (200, inr (AuthResponse.mk (Msg "Password updated successfully. Please sign in with your new password.")
                      (Some (AuthData.mk tok prof)))) /\ UserProfile.is_email_verified prof = false) /\
  outcome (sign_in env3 (mkSignIn (su_email p) pw (su_role p) false)) (final (update_password env2 req) db1) =
    inr (403, inl (mkFail (fail_response_str "Please verify your email first"
                            "Veuillez d'abord vérifier votre email" "Email not verified") "HTTPException")).
Proof.
  intros Hn Hs1 Hc Ht db1 req. unfold db1, outcome, final. rewrite (sign_up_run env1 p db Hn Hs1). cbn [fst snd].
  destruct (signed_up_found env1 p db Hn) as [Hf Hclash].
  rewrite (update_password_run env2 req (next_id db) (sign_up_user env1 p)); try done; [|by eexists].
  cbn [fst snd]. split; [by do 2 eexists|].
  rewrite (sign_in_unverified_run env3 _ (next_id db)
             (logged_in env2 (next_id db) (set_code (set_password (sign_up_user env1 p) (pwd_hash pw)) None None None))).
  - reflexivity.
  - eapply find_one_in_save_found; [eapply find_one_in_save_found; [exact Hf|]|];
      unfold by_email_role; simpl; rewrite String.eqb_refl; by apply bool_decide_eq_true.
  - simpl. apply pwd_verify_hash.
  - unfold logged_in. by destruct (create_tokens _ _) as [[[? ?] ?] ?].
Qed.

(** (C23) A wrong password costs nothing: [sign_in] answers 401 and
    leaves the store as it was, so any number of guesses meets the same
    answer. The lockout helpers of utils/security.py and the
    [MAX_LOGIN_ATTEMPTS] setting are never used. *)
Theorem sign_in_wrong_password env p i u db :
  find_one_in (D:=User.t) db (by_email_role (si_username_or_email p) (si_role p)) = Some (i, u) ->
  verify_password (si_password p) (User.hashed_password u) = false ->
  sign_in env p db = (inr (401, inl (mkFail (fail_response_str "Invalid credentials" "Identifiants invalides"
                                               "Invalid credentials") "HTTPException")), db) /\
  forall n, Nat.iter n (final (sign_in env p)) db = db.
Proof.
  intros Hf Hp.
  assert (Hrun : sign_in env p db = (inr (401, inl (mkFail (fail_response_str "Invalid credentials"
                   "Identifiants invalides" "Invalid credentials") "HTTPException")), db)).
  { unfold sign_in, auth_endpoint, find_user, find_one. pyunfold. unfold by_email_role in Hf. rewrite Hf. simpl.
    by rewrite Hp. }
  split; [done|]. induction n as [|n IH]; [done|]. simpl. rewrite IH. unfold final. by rewrite Hrun.
Qed.

(** (C24) Google login ignores the role it is given for an account that
    exists: the first user with the token's e-mail or Google subject, in
    any role, is logged in and its own profile returned, although users
    are unique only per (e-mail, role). *)
Theorem google_login_ignores_role env g r i u db :
  users_unique db ->
  find_one_in (D:=User.t) db (fun _ v => String.eqb (User.email v) (g_email g) ||
                                        bool_decide (User.google_id v = Some (g_sub g))) = Some (i, u) ->
  now env <= g_exp g * usec ->
  outcome (verify_google_login env (inr g) r) db =
    inr (200, inr (AuthResponse.mk LoggedIn (Some (AuthData.mk (login_token env i) (from_user i (logged_in env i u)))))) /\
  UserProfile.role (from_user i (logged_in env i u)) = User.role u.
Proof.
  intros Hu Hf Ht. split.
  - unfold outcome, verify_google_login, auth_endpoint, find_one. pyunfold.
    replace (g_exp g * usec <? now env) with false by lia. simpl. rewrite Hf. simpl.
    rewrite (login_run env i u db); [reflexivity|].
    apply (unique_no_clash db i u Hu). by eapply find_one_in_elem.
  - unfold logged_in. by destruct (create_tokens _ _) as [[[? ?] ?] ?].
Qed.

(** The Authorization header's [authorization.split()]:
    [py_split], which accumulates characters and emits a word at each
    whitespace run, equals the documented [str.split()] on every string. *)
Theorem py_split_spec (s : string) : py_split s = split_spec s.
Proof.
  unfold py_split, split_spec. rewrite split_ws_pieces. simpl. by destruct (pieces _).
Qed.

(** (C35) The password-reset mail promises the wrong lifetime: when the
    server delivers the verification mail to the account's address, [send-password-reset_code] answers 200 and stores
    the mailed code with an expiry one hour ahead, while the mail it sent,
    the sign-up verification mail, says the code expires in 24 hours
    (and speaks of creating an account). The reset mail of utils/email.py
    is never sent. *)
Theorem reset_code_mail_says_24h env p i u db :
  find_one_in (D:=User.t) db (by_email_role (ue_username_or_email p) (ue_role p)) = Some (i, u) ->
  users_unique db ->
  smtp_delivers (smtp env) [User.email u] (verification_message (User.email u) (fresh_code env)) ->
  send_password_reset_code env p db =
    (inr (200, inr (AuthResponse.mk (Msg "Password reset verification code sent to your email") None)),
     snd (save i (set_code u (Some (fresh_code env)) (Some (now env)) (Some (now env + hours 1))) db)) /\
  str_contains "This code will expire in 24 hours." (verification_text (fresh_code env)) = true.
Proof.
  intros Hf Hu Hd. split; [|apply verification_text_24h].
  unfold send_password_reset_code, auth_endpoint, find_user, find_one, mail_code. pyunfold.
  unfold by_email_role in Hf. rewrite Hf. simpl. rewrite (proj2 (send_verification_email_inr _ _ _) Hd). simpl.
  rewrite (save_user_same_keys db i u); [reflexivity|done|by eapply find_one_in_elem|apply keys_set_code].
Qed.
End AuthClaims.

(** ** Concrete runs with the reference implementation *)
Module AuthDemo.
Import RefCrypto.

Definition env_at (t : Z) (code : string) : Env := mkEnv t code smtp_ok "" "".
Definition db0 : DB := mkDB [] 1%N.
Definition alice : SignUpRequest := mkSignUp "alice@example.com" "Secret_1" (Some "Alice") None Player.
(** Alice signs up at t = 1000 and verifies her address at t = 2000. *)
Definition db1 : DB := final (sign_up (env_at 1000 "123456") alice) db0.
Definition db2 : DB :=
  final (verify_email (env_at 2000 "") (mkVerifyEmail "alice@example.com" "123456" Player)) db1.
Definition alice_tokens := create_tokens (oid_str 1%N) 2000.
Definition alice_header : string := "Bearer " +:+ alice_tokens.1.1.1.
Definition alice_refresh : string := alice_tokens.1.2.

(** The user stored under id [i] (a placeholder when there is none). *)
Definition user_at (db : DB) (i : oid) : User.t :=
  match find_one_in (D:=User.t) db (fun j _ => N.eqb j i) with
  | Some (_, u) => u
  | None => sign_up_user (env_at 0 "") alice
  end.

(** Alice's Google ID token, valid until t = 10 s. *)
Definition alice_google : GoogleInfo :=
  mkGoogleInfo 10 "alice@example.com" "google-sub-1" (Some "Alice") None None (Some true).

(** Alice asks [PATCH /me] for the admin role, another address and the
    verified flag. *)
Definition escalate : ProfileUpdate :=
  mkProfileUpdate (UserProfile.mk None "mallory@example.com" None None None None Admin Local true)
                  ["email"; "role"; "is_email_verified"].
End AuthDemo.

Import RefCrypto.

Lemma logout_keeps_access_token_witness :
  outcome (logout (AuthDemo.env_at 3000 "") (oid_str 1%N)) AuthDemo.db2 =
    inr (200, inr (AuthResponse.mk (Msg "Logged out successfully") None)) /\
  outcome (get_user_id (Some AuthDemo.alice_header) 3000) (final (logout (AuthDemo.env_at 3000 "") (oid_str 1%N)) AuthDemo.db2)
    = inr (oid_str 1%N) /\
  outcome (refresh_token (AuthDemo.env_at 3000 "") AuthDemo.alice_refresh)
    (final (logout (AuthDemo.env_at 3000 "") (oid_str 1%N)) AuthDemo.db2) =
    inr (401, inl (mkFail "Invalid refresh token" "HTTPException")).
Proof.
  apply (logout_keeps_access_token _ _ _ _ _
           (mkClaims (oid_str 1%N) (int_timestamp (2000 + days REFRESH_TOKEN_EXPIRE_DAYS)) 0 "refresh")).
  - split; [|split]; apply (bool_decide_unpack _); vm_compute; reflexivity.
  - apply (bool_decide_unpack _); vm_compute; reflexivity.
  - apply (bool_decide_unpack _); vm_compute; reflexivity.
  - vm_compute; reflexivity.
  - vm_compute; reflexivity.
  - reflexivity.
Defined.

Lemma refresh_expired_500_witness :
  refresh_token (AuthDemo.env_at (2000 + days 31) "") AuthDemo.alice_refresh AuthDemo.db2 =
    (inr (500, inl (mkFail (exn_str unbound_payload) "Exception")),
     snd (insert (ErrorLog.mk (2000 + days 31) "UnboundLocalError" (exn_str unbound_payload) "" "") AuthDemo.db2)).
Proof.
  apply (refresh_expired_500 (AuthDemo.env_at (2000 + days 31) "") _
           (mkClaims (oid_str 1%N) (int_timestamp (2000 + days REFRESH_TOKEN_EXPIRE_DAYS)) 0 "refresh")).
  - vm_compute. eexists. reflexivity.
  - vm_compute. reflexivity.
  - vm_compute. reflexivity.
Defined.

(** Alice's access token, made at t = 2000, is valid at t = 3000, expired
    at 10 h + 5 s and refused with the [UnboundLocalError] after 10 h + 60 s. *)
Lemma access_token_lifetime_witness :
  verify_token (create_access_token (oid_str 1%N) 2000).1 "access" 3000 =
    inr (mkClaims (oid_str 1%N) (int_timestamp (2000 + hours 10)) 0 "access") /\
  verify_token (create_access_token (oid_str 1%N) 2000).1 "access" (2000 + hours 10 + 5 * usec) = inl (value_error "Token has expired") /\
  verify_token (create_access_token (oid_str 1%N) 2000).1 "access" (2000 + hours 10 + 60 * usec) = inl unbound_payload.
Proof.
  split_and!; rewrite access_token_lifetime by lia; vm_compute; reflexivity.
Defined.

Lemma sign_up_then_verify_witness :
  let db1 := final (sign_up (AuthDemo.env_at 1000 "123456") AuthDemo.alice) AuthDemo.db0 in
  let req := mkVerifyEmail "alice@example.com" "123456" Player in
  (exists r, outcome (verify_email (AuthDemo.env_at 2000 "") req) db1 = inr (200, inr r)) /\
  exists u, find_one_in (D:=User.t) (final (verify_email (AuthDemo.env_at 2000 "") req) db1) (fun j _ => N.eqb j 1%N) =
              Some (1%N, u) /\
            User.is_email_verified u = true /\ User.verification_code u = None /\
            bound_to 1%N (User.access_token u) /\ bound_to 1%N (User.refresh_token u) /\
            is_Some (User.access_token u) /\ is_Some (User.refresh_token u).
Proof.
  apply (sign_up_then_verify (AuthDemo.env_at 1000 "123456") (AuthDemo.env_at 2000 "") AuthDemo.alice AuthDemo.db0);
    try (vm_compute; reflexivity); try discriminate; try apply smtp_ok_up;
    try (unfold AuthDemo.env_at, hours, usec; simpl; lia).
Defined.

Lemma sign_up_code_resets_password_witness :
  let db1 := final (sign_up (AuthDemo.env_at 1000 "123456") AuthDemo.alice) AuthDemo.db0 in
  let req := mkPassword "alice@example.com" "123456" "New_pass1" Player in
  (exists tok prof, outcome (update_password (AuthDemo.env_at 2000 "") req) db1 =
     inr (200, inr (AuthResponse.mk (Msg "Password updated successfully. Please sign in with your new password.")
                      (Some (AuthData.mk tok prof)))) /\ UserProfile.is_email_verified prof = false) /\
  outcome (sign_in (AuthDemo.env_at 3000 "") (mkSignIn "alice@example.com" "New_pass1" Player false))
    (final (update_password (AuthDemo.env_at 2000 "") req) db1) =
    inr (403, inl (mkFail (fail_response_str "Please verify your email first"
                            "Veuillez d'abord vérifier votre email" "Email not verified") "HTTPException")).
Proof.
  apply (sign_up_code_resets_password (AuthDemo.env_at 1000 "123456") (AuthDemo.env_at 2000 "")
           (AuthDemo.env_at 3000 "") AuthDemo.alice "New_pass1" AuthDemo.db0);
    try (vm_compute; reflexivity); try discriminate; try apply smtp_ok_up;
    try (unfold AuthDemo.env_at, hours, usec; simpl; lia).
Defined.

Lemma sign_in_wrong_password_witness :
  sign_in (AuthDemo.env_at 3000 "") (mkSignIn "alice@example.com" "guess" Player false) AuthDemo.db2 =
    (inr (401, inl (mkFail (fail_response_str "Invalid credentials" "Identifiants invalides"
                              "Invalid credentials") "HTTPException")), AuthDemo.db2) /\
  forall n, Nat.iter n (final (sign_in (AuthDemo.env_at 3000 "") (mkSignIn "alice@example.com" "guess" Player false)))
              AuthDemo.db2 = AuthDemo.db2.
Proof.
  apply (sign_in_wrong_password _ _ 1%N (AuthDemo.user_at AuthDemo.db2 1%N)); vm_compute; reflexivity.
Defined.

(** Alice's Google login asked for the creator role gets her player
    account. *)
Lemma google_login_ignores_role_witness :
  outcome (verify_google_login (AuthDemo.env_at 3000 "") (inr AuthDemo.alice_google) Creator) AuthDemo.db2 =
    inr (200, inr (AuthResponse.mk LoggedIn
      (Some (AuthData.mk (login_token (AuthDemo.env_at 3000 "") 1%N)
                         (from_user 1%N (logged_in (AuthDemo.env_at 3000 "") 1%N (AuthDemo.user_at AuthDemo.db2 1%N))))))) /\
  UserProfile.role (from_user 1%N (logged_in (AuthDemo.env_at 3000 "") 1%N (AuthDemo.user_at AuthDemo.db2 1%N))) =
    User.role (AuthDemo.user_at AuthDemo.db2 1%N).
Proof.
  apply google_login_ignores_role.
  - apply (bool_decide_unpack _). vm_compute. reflexivity.
  - vm_compute. reflexivity.
  - unfold AuthDemo.env_at, AuthDemo.alice_google, usec. simpl. lia.
Defined.

Lemma update_me_escalates_witness :
  exists u', find_one_in (D:=User.t) (final (update_current_user (AuthDemo.env_at 3000 "") AuthDemo.escalate (oid_str 1%N))
                                        AuthDemo.db2) (fun j _ => N.eqb j 1%N) = Some (1%N, u') /\
    User.role u' = Admin /\ User.is_email_verified u' = true /\ User.email u' = "mallory@example.com".
Proof.
  apply (update_me_escalates (AuthDemo.env_at 3000 "") AuthDemo.escalate (oid_str 1%N) 1%N
           (AuthDemo.user_at AuthDemo.db2 1%N) AuthDemo.db2).
  - vm_compute. reflexivity.
  - vm_compute. reflexivity.
  - intros j v Hj Hji. vm_compute in Hj. apply list_elem_of_singleton in Hj. congruence.
  - apply (bool_decide_unpack _). vm_compute. reflexivity.
  - apply (bool_decide_unpack _). vm_compute. reflexivity.
  - apply (bool_decide_unpack _). vm_compute. reflexivity.
  - apply (bool_decide_unpack _). vm_compute. reflexivity.
Defined.


(** Alice asks for a reset code at t = 3000 and receives "654321". *)
Lemma reset_code_mail_says_24h_witness :
  users_unique AuthDemo.db2 /\
  send_password_reset_code (AuthDemo.env_at 3000 "654321") (mkUoE "alice@example.com" Player) AuthDemo.db2 =
    (inr (200, inr (AuthResponse.mk (Msg "Password reset verification code sent to your email") None)),
     snd (save 1%N (set_code (AuthDemo.user_at AuthDemo.db2 1%N) (Some "654321") (Some 3000) (Some (3000 + hours 1)))
                AuthDemo.db2)) /\
  str_contains "This code will expire in 24 hours." (verification_text "654321") = true.
Proof.
  assert (Hu : users_unique AuthDemo.db2).
  { intros i j u v Hi Hj Hij. vm_compute in Hi, Hj.
    apply list_elem_of_singleton in Hi, Hj. simplify_eq. }
  split; [exact Hu|].
  apply (reset_code_mail_says_24h (AuthDemo.env_at 3000 "654321") (mkUoE "alice@example.com" Player) 1%N
           (AuthDemo.user_at AuthDemo.db2 1%N) AuthDemo.db2).
  - vm_compute. reflexivity.
  - exact Hu.
  - apply smtp_up_delivers, smtp_ok_up.
Defined.

