(* ===== verification/AuthDocs.v ===== *)
(** * The documented error answers of the auth endpoints (api/public/auth.py)

    Each route decorator of auth.py lists the error responses OpenAPI
    shows, by status ([responses['401']], ... of models/__init__.py).
    The statuses a handler can answer come from the [HTTPException]s it
    raises: [auth_endpoint]'s [handle_exception] answers their status,
    and 500 for any other exception. This file computes, for every
    endpoint, a set of statuses that contains every answer, through a
    postcondition on the exceptions its body raises ([raises] of the
    prelude), and shows the undocumented ones reachable. The statuses
    that [get_user_id] and pydantic answer before the handler runs (401,
    422) are not the handler's. *)

From S2P Require Import Prelude ObjectId Json Email Documents Auth AuthProps.

(** ** The [responses=...] of each route *)

Definition sign_up_documented : list Z := [406; 409].
Definition verify_email_documented : list Z := [400; 401; 404].
Definition resend_verification_documented : list Z := [400; 404; 422].
Definition sign_in_documented : list Z := [401; 403].
Definition google_token_documented : list Z := [].
Definition refresh_token_documented : list Z := [401].
Definition logout_documented : list Z := [401; 404].
Definition send_password_reset_code_documented : list Z := [404].
Definition update_password_documented : list Z := [400; 404].
Definition get_current_user_documented : list Z := [401; 404].
Definition update_current_user_documented : list Z := [401; 404; 422].

(** An exception whose status, if it is an [HTTPException], is one of [L]. *)
Definition http_status_in (L : list Z) (e : exn) : Prop :=
  match e with HTTPException c _ => c ∈ L | PyException _ _ => True end.

(** A reply whose status is 200, 500 or one of [L]. *)
Definition reply_status_in (L : list Z) (r : reply) : Prop := r.1 ∈ 200 :: 500 :: L.

(** ** Exceptions of the building blocks *)

Lemma http_status_in_py L k m : http_status_in L (PyException k m).
Proof. done. Qed.

Lemma http_status_in_here L c d : http_status_in (c :: L) (HTTPException c d).
Proof. apply list_elem_of_here. Qed.

Lemma http_status_in_further L c c' d : http_status_in L (HTTPException c d) -> http_status_in (c' :: L) (HTTPException c d).
Proof. by right. Qed.

Lemma http_status_in_app_l L L' e : http_status_in L e -> http_status_in (L ++ L') e.
Proof. destruct e; simpl; [|done]. intros. apply elem_of_app. by left. Qed.

Lemma http_status_in_nil L e : http_status_in [] e -> http_status_in L e.
Proof. destruct e; simpl; [|done]. by intros ?%not_elem_of_nil. Qed.

#[export] Hint Resolve http_status_in_py http_status_in_here http_status_in_further : raises.

Section Blocks.
Context (L : list Z).

Lemma raises_find_one {D} `{Document D} q : raises (http_status_in L) (find_one (D:=D) q).
Proof. apply raises_gets. Qed.

Lemma raises_insert {D} `{Document D} (d : D) : raises (http_status_in L) (insert d).
Proof. by intros s e s' [=]. Qed.

Lemma raises_save {D} `{Document D} i (d : D) : raises (http_status_in L) (save i d).
Proof. apply raises_modify. Qed.

Lemma raises_to_oid {S} x : raises (S:=S) (http_status_in L) (to_oid x).
Proof. unfold to_oid. raises_tac. Qed.

Lemma raises_save_user i u : raises (http_status_in L) (save_user i u).
Proof. unfold save_user. raises_tac. Qed.

Lemma raises_insert_user u : raises (http_status_in L) (insert_user u).
Proof. unfold insert_user. raises_tac. apply raises_insert. Qed.

Lemma raises_token_of a ae r re : raises (S:=DB) (http_status_in L) (lift_exn (token_of a ae r re)).
Proof. apply raises_lift_exn. unfold token_of. intros e. repeat case_match; by intros [= <-]. Qed.

Lemma raises_get_user x : raises (http_status_in L) (get_user x).
Proof. unfold get_user. apply raises_bind; [apply raises_to_oid|]. intros. apply raises_find_one. Qed.

Lemma raises_save_profile i u p : raises (http_status_in L) (save_profile i u p).
Proof.
  unfold save_profile. repeat (case_bool_decide || case_match);
    first [apply raises_bind; [apply raises_save_user|intros; apply raises_ret] | apply raises_insert_user].
Qed.

Lemma raises_login `{Crypto} env i u : raises (http_status_in L) (login env i u).
Proof.
  unfold login. destruct (create_tokens _ _) as [[[? ?] ?] ?].
  apply raises_bind; [apply raises_save_user|]. intros. apply raises_ret.
Qed.
End Blocks.

Lemma verify_token_not_http `{Crypto} t ty now e : verify_token t ty now = inl e -> http_status_in [] e.
Proof. unfold verify_token. repeat case_match; by intros [= <-]. Qed.

#[export] Hint Resolve raises_find_one raises_insert raises_save raises_to_oid raises_save_user
  raises_insert_user raises_save_profile raises_token_of raises_get_user raises_login : raises.

(** ** From exceptions to statuses *)

Lemma auth_endpoint_status env L (m : PyM DB AuthResponse.t) :
  raises (http_status_in L) m -> returns (reply_status_in L) (auth_endpoint env m).
Proof.
  intros Hm s r s'. unfold auth_endpoint, py_try. rewrite bind_run.
  destruct (m s) as [[e|x] s1] eqn:Em; simpl.
  - specialize (Hm s e s1 Em). unfold handle_exception. destruct e as [c d|k msg]; simpl.
    + intros [= <- _]. unfold reply_status_in. simpl. by do 2 right.
    + rewrite bind_run. simpl. intros [= <- _]. right. left.
  - intros [= <- _]. left.
Qed.

(** ** The statuses of each endpoint *)

Section Statuses.
Context `{Crypto} (env : Env).
(** The mail library (smtplib) raises its own exceptions, never a
    FastAPI [HTTPException]. *)
Hypothesis smtp_not_http : smtp_raises (http_status_in []) (smtp env).

Lemma raises_mail_code L email code : raises (http_status_in L) (mail_code env email code).
Proof. apply raises_lift_exn. intros e He. by eapply http_status_in_nil, send_email_raises. Qed.

Lemma raises_mail_welcome L u : raises (http_status_in L) (mail_welcome env u).
Proof. apply raises_lift_exn. intros e He. by eapply http_status_in_nil, send_email_raises. Qed.

Lemma raises_find_user L email r : raises (http_status_in L) (find_user email r).
Proof. apply raises_find_one. Qed.

#[local] Hint Resolve raises_mail_code raises_mail_welcome raises_find_user : raises.

(** The handlers whose answers stay within what their route documents. *)
Lemma sign_up_status p : returns (reply_status_in sign_up_documented) (sign_up env p).
Proof. apply auth_endpoint_status. unfold sign_up_documented. raises_tac. Qed.

Lemma resend_verification_status p :
  returns (reply_status_in resend_verification_documented) (resend_verification env p).
Proof. apply auth_endpoint_status. unfold resend_verification_documented. raises_tac. Qed.

Lemma logout_status uid : returns (reply_status_in logout_documented) (logout env uid).
Proof. apply auth_endpoint_status. unfold logout_documented. raises_tac. Qed.

Lemma send_password_reset_code_status p :
  returns (reply_status_in send_password_reset_code_documented) (send_password_reset_code env p).
Proof. apply auth_endpoint_status. unfold send_password_reset_code_documented. raises_tac. Qed.

Lemma update_password_status p : returns (reply_status_in update_password_documented) (update_password env p).
Proof. apply auth_endpoint_status. unfold update_password_documented. raises_tac. Qed.

Lemma get_current_user_status uid : returns (reply_status_in get_current_user_documented) (get_current_user env uid).
Proof. apply auth_endpoint_status. unfold get_current_user_documented. raises_tac. Qed.

Lemma update_current_user_status p uid :
  returns (reply_status_in update_current_user_documented) (update_current_user env p uid).
Proof. apply auth_endpoint_status. unfold update_current_user_documented. raises_tac. Qed.

Lemma refresh_token_status t : returns (reply_status_in refresh_token_documented) (refresh_token env t).
Proof.
  apply auth_endpoint_status. unfold refresh_token_documented, unauthorized.
  apply raises_bind; [apply raises_find_one|]. intros [[i u]|]; [|raises_tac].
  destruct (verify_token _ _ _) as [e|c] eqn:Ev; [|raises_tac].
  pose proof (verify_token_not_http _ _ _ _ Ev) as Hn.
  destruct e as [c d|k m]; [by apply not_elem_of_nil in Hn|]. raises_tac.
Qed.

(** The handlers that answer a status their route does not document. *)
Lemma verify_email_status p :
  returns (reply_status_in (verify_email_documented ++ [409])) (verify_email env p).
Proof. apply auth_endpoint_status. unfold verify_email_documented. cbn [app]. raises_tac. Qed.

Lemma sign_in_status p : returns (reply_status_in (sign_in_documented ++ [404])) (sign_in env p).
Proof. apply auth_endpoint_status. unfold sign_in_documented. cbn [app]. raises_tac. Qed.

Lemma google_token_status info r :
  (forall e, info = inl e -> http_status_in [] e) ->
  returns (reply_status_in (google_token_documented ++ [401])) (verify_google_login env info r).
Proof.
  intros Hinfo. apply auth_endpoint_status. unfold google_token_documented. cbn [app]. cbv zeta.
  apply raises_bind; [|intros; raises_tac].
  destruct info as [e|g]; [|raises_tac].
  specialize (Hinfo e eq_refl). destruct e as [c d|k m]; [by apply not_elem_of_nil in Hinfo|]. raises_tac.
Qed.
End Statuses.

(** ** The undocumented statuses are answered *)

Section Reachable.
Context `{Crypto} (env : Env).

(** A sign-in for an e-mail and role with no account answers 404. *)
Lemma sign_in_unknown_404 p db :
  find_one_in (D:=User.t) db (fun _ u => String.eqb (User.email u) (si_username_or_email p) &&
                                         bool_decide (User.role u = si_role p)) = None ->
  fst (sign_in env p db) = inr (404, inl (mkFail "User not found. You need to sign up first" "HTTPException")).
Proof. intros Hf. unfold sign_in, auth_endpoint, find_user, find_one. pyunfold. by rewrite Hf. Qed.

(** Verifying the e-mail of a verified account answers 409. *)
Lemma verify_email_verified_409 p db i u :
  find_one_in (D:=User.t) db (fun _ u => String.eqb (User.email u) (ve_email p) &&
                                         bool_decide (User.role u = ve_role p)) = Some (i, u) ->
  User.is_email_verified u = true ->
  fst (verify_email env p db) = inr (409, inl (mkFail "Email is already verified" "HTTPException")).
Proof. intros Hf Hv. unfold verify_email, auth_endpoint, find_user, find_one. pyunfold. by rewrite Hf, Hv. Qed.

(** A Google token the library refuses answers 401. *)
Lemma google_token_refused_401 m r db :
  fst (verify_google_login env (inl (PyException "ValueError" m)) r db) =
    inr (401, inl (mkFail (fail_response_str "Invalid Google token" "Jeton Google invalide" m) "HTTPException")).
Proof. done. Qed.
End Reachable.

(** ** The documentation of the auth API against its handlers *)

Section Documented.
Context `{Crypto}.

(** An account with a verified address, for the 409 of [verify_email]. *)
Definition verified_user (email : string) (t : datetime) : User.t :=
  User.mk email None None None None Player Local true None None None None None None None None None t None None.

(** (C12) Every auth endpoint answers 200, 500 or a status its route
    documents in OpenAPI, with three exceptions: [/verify-email/]
    answers 409 for an address already verified, [/sign-in/] 404 for an
    unknown account and [/google-token] (which documents none) 401 for a
    refused token, and each of the three is answered on some request. *)
Theorem auth_statuses_documented env :
  smtp_raises (http_status_in []) (smtp env) ->
  (forall p, returns (reply_status_in sign_up_documented) (sign_up env p)) /\
  (forall p, returns (reply_status_in resend_verification_documented) (resend_verification env p)) /\
  (forall t, returns (reply_status_in refresh_token_documented) (refresh_token env t)) /\
  (forall uid, returns (reply_status_in logout_documented) (logout env uid)) /\
  (forall p, returns (reply_status_in send_password_reset_code_documented) (send_password_reset_code env p)) /\
  (forall p, returns (reply_status_in update_password_documented) (update_password env p)) /\
  (forall uid, returns (reply_status_in get_current_user_documented) (get_current_user env uid)) /\
  (forall p uid, returns (reply_status_in update_current_user_documented) (update_current_user env p uid)) /\
  (forall p, returns (reply_status_in (verify_email_documented ++ [409])) (verify_email env p)) /\
  (forall p, returns (reply_status_in (sign_in_documented ++ [404])) (sign_in env p)) /\
  (forall info r, (forall e, info = inl e -> http_status_in [] e) ->
     returns (reply_status_in (google_token_documented ++ [401])) (verify_google_login env info r)) /\
  (exists p db f, fst (verify_email env p db) = inr (409, inl f)) /\
  (exists p db f, fst (sign_in env p db) = inr (404, inl f)) /\
  (exists info r db f, fst (verify_google_login env info r db) = inr (401, inl f)).
Proof.
  intros Hs. split_and!;
    eauto using sign_up_status, resend_verification_status, refresh_token_status, logout_status,
      send_password_reset_code_status, update_password_status, get_current_user_status,
      update_current_user_status, verify_email_status, sign_in_status, google_token_status.
  - exists (mkVerifyEmail "a@b.co" "" Player), (mkDB [(0%N, DUser (verified_user "a@b.co" 0))] 1%N).
    eexists. by apply (verify_email_verified_409 _ _ _ 0%N (verified_user "a@b.co" 0)).
  - exists (mkSignIn "a@b.co" "" Player false), (mkDB [] 0%N). eexists. by apply sign_in_unknown_404.
  - exists (inl (PyException "ValueError" "Wrong number of segments")), Player, (mkDB [] 0%N).
    eexists. apply google_token_refused_401.
Qed.
End Documented.

Lemma auth_statuses_documented_witness :
  smtp_raises (http_status_in []) (smtp (AuthDemo.env_at 1000 "123456")) /\
  (exists p db f, fst (sign_in (H:=RefCrypto.ref_crypto) (AuthDemo.env_at 1000 "123456") p db) = inr (404, inl f)).
Proof.
  assert (Hs : smtp_raises (http_status_in []) (smtp (AuthDemo.env_at 1000 "123456"))) by apply smtp_ok_raises.
  split; [exact Hs|].
  destruct (auth_statuses_documented (H:=RefCrypto.ref_crypto) (AuthDemo.env_at 1000 "123456") Hs)
    as (_ & _ & _ & _ & _ & _ & _ & _ & _ & _ & _ & _ & H404 & _).
  exact H404.
Defined.
