(* ===== verification/Validation.v ===== *)
(** * Request validation and the security helpers (models/user.py, utils/security.py)

    [SignUpRequest] and [Password] validate their [password] field with
    [PASSWORD_REGEX], and [SignUpRequest] its e-mail with [EMAIL_REGEX]
    after pydantic's [EmailStr] (lines 26-28 and 168-205 of
    models/user.py). The two regular expressions are written out as
    executable checks on the characters, and each is proved equal to the
    language of its pattern. Python's [$] also matches before a final
    newline, which the checks keep.

    utils/security.py has helpers that no endpoint calls: random tokens,
    a token refresher, the login lockout, a password-strength test and
    the sanitizers. They are modelled too, over the [Crypto] class of
    [Auth.v]; the random choices of [secrets] are an oracle. *)

From S2P Require Import Prelude ObjectId Json PyString Documents Auth.

(** ** Character classes *)

Definition in_range (lo hi : nat) (c : Ascii.ascii) : bool :=
  ((lo <=? Ascii.nat_of_ascii c) && (Ascii.nat_of_ascii c <=? hi))%nat.

Definition is_upper (c : Ascii.ascii) : bool := in_range 65 90 c.
Definition is_lower (c : Ascii.ascii) : bool := in_range 97 122 c.
Definition is_digit (c : Ascii.ascii) : bool := in_range 48 57 c.
Definition is_letter (c : Ascii.ascii) : bool := is_upper c || is_lower c.

(** [c in chars] *)
Definition in_chars (chars : string) (c : Ascii.ascii) : bool :=
  existsb (Ascii.eqb c) (String.list_ascii_of_string chars).

(** The character class of [PASSWORD_REGEX]: letters, digits, the
    characters @$!%*?&_-+=#^(){}[]<>.,;:'`~ and the double quote. *)
Definition password_char (c : Ascii.ascii) : bool :=
  is_letter c || is_digit c || in_chars "@$!%*?&_-+=#^(){}[]<>.,;:'`~" c || Ascii.eqb c (chr 34).

(** [[a-zA-Z0-9._%+-]] and [[a-zA-Z0-9.-]] of [EMAIL_REGEX] *)
Definition email_local_char (c : Ascii.ascii) : bool := is_letter c || is_digit c || in_chars "._%+-" c.
Definition email_domain_char (c : Ascii.ascii) : bool := is_letter c || is_digit c || in_chars ".-" c.

(** [$] matches at the end of the text and before a final newline: the
    texts the pattern before it must match in full. *)
Definition dollar_variants (l : list Ascii.ascii) : list (list Ascii.ascii) :=
  l :: match rev l with c :: r => if Ascii.eqb c (chr 10) then [rev r] else [] | [] => [] end.

(** ** PASSWORD_REGEX = [^[...]{6,20}$] *)

Definition password_shape (l : list Ascii.ascii) : bool :=
  ((6 <=? length l) && (length l <=? 20))%nat && forallb password_char l.

(** [compile(PASSWORD_REGEX).match(value)] *)
Definition password_match (s : string) : bool :=
  existsb password_shape (dollar_variants (String.list_ascii_of_string s)).

(** ** EMAIL_REGEX = [^[a-zA-Z0-9._%+-]+@[a-zA-Z0-9.-]+\.[a-zA-Z]{2,}$] *)

(** The text before the first [c] and the text after it. *)
Fixpoint split_first (c : Ascii.ascii) (l : list Ascii.ascii) : option (list Ascii.ascii * list Ascii.ascii) :=
  match l with
  | [] => None
  | x :: l' => if Ascii.eqb x c then Some ([], l')
               else match split_first c l' with Some (a, b) => Some (x :: a, b) | None => None end
  end.

(** The text before the last [c] and the text after it. *)
Definition split_last (c : Ascii.ascii) (l : list Ascii.ascii) : option (list Ascii.ascii * list Ascii.ascii) :=
  match split_first c (rev l) with Some (b, a) => Some (rev a, rev b) | None => None end.

(** The local part takes everything up to the only [@] (neither class
    has it); the top-level domain has no dot, so [\.] is the last dot. *)
Definition email_shape (l : list Ascii.ascii) : bool :=
  match split_first (chr 64) l with
  | Some (local, rest) =>
      negb (bool_decide (local = [])) && forallb email_local_char local &&
      match split_last (chr 46) rest with
      | Some (dom, tld) =>
          negb (bool_decide (dom = [])) && forallb email_domain_char dom &&
          (2 <=? length tld)%nat && forallb is_letter tld
      | None => false
      end
  | None => false
  end.

(** [compile(EMAIL_REGEX).match(value)] *)
Definition email_match (s : string) : bool :=
  existsb email_shape (dollar_variants (String.list_ascii_of_string s)).

(** ** The field validators (models/user.py lines 168-205 and 271-275) *)

(** [User_Error.WEAK_PASSWORD] and [User_Error.INVALID_EMAIL_ADDRESS]
    come from app.messages.user, which is not in the repository: they
    are kept as their names. *)
Definition weak_password : exn := PyException "ValueError" "WEAK_PASSWORD".
Definition invalid_email : exn := PyException "ValueError" "INVALID_EMAIL_ADDRESS".

Definition validate_password (value : string) : exn + string :=
  if password_match value then inr value else inl weak_password.

(** [validate_email] runs on what [EmailStr] returned. *)
Definition validate_email (value : string) : exn + string :=
  if email_match value then inr value else inl invalid_email.

(** ** Helpers of utils/security.py (lines 132-239) *)

Definition ascii_letters_digits : list Ascii.ascii :=
  String.list_ascii_of_string "abcdefghijklmnopqrstuvwxyzABCDEFGHIJKLMNOPQRSTUVWXYZ0123456789".

(** [''.join(secrets.choice(alphabet) for _ in range(length))]: the
    [k]-th draw is [randbelow k n], an index below [n]. *)
Definition generate_secure_token (randbelow : nat -> nat -> nat) (length : Z) : string :=
  String.string_of_list_ascii
    (map (fun k => nth (randbelow k 62%nat) ascii_letters_digits (chr 48)) (seq 0 (Z.to_nat length))).

Definition generate_password_reset_token (randbelow : nat -> nat -> nat) : string :=
  generate_secure_token randbelow 64.
Definition generate_email_verification_token (randbelow : nat -> nat -> nat) : string :=
  generate_secure_token randbelow 32.

(** [datetime.utcnow() > expires_at] *)
Definition is_token_expired (expires_at now : datetime) : bool := Z.ltb expires_at now.

(** [validate_password_strength] (lines 192-215) *)
Definition password_specials : string := "!@#$%^&*()_+-=[]{}|;:,.<>?".

Definition validate_password_strength (password : string) : bool :=
  let l := String.list_ascii_of_string password in
  (8 <=? length l)%nat && existsb is_upper l && existsb is_lower l && existsb is_digit l &&
  existsb (in_chars password_specials) l.

(** [email.lower().strip()] and [username.lower().strip()] *)
Definition sanitize_email (email : string) : string := py_strip (py_lower email).
Definition sanitize_username (username : string) : string := py_strip (py_lower username).

(** [user.failed_login_attempts] is not a field of [User] (it is
    commented out in models/user.py): reading it raises [AttributeError],
    assigning it raises pydantic's [ValueError]. *)
Definition no_failed_attempts_read : exn :=
  PyException "AttributeError" "'User' object has no attribute 'failed_login_attempts'".
Definition no_failed_attempts_write : exn :=
  let dq := String (chr 34) EmptyString in
  PyException "ValueError" (dq +:+ "User" +:+ dq +:+ " object has no field " +:+ dq +:+ "failed_login_attempts" +:+ dq).

(** [handle_failed_login(user)]: the first statement reads the field. *)
Definition handle_failed_login (u : User.t) : exn + User.t := inl no_failed_attempts_read.

(** [reset_failed_login(user)]: the first statement assigns the field. *)
Definition reset_failed_login (u : User.t) : exn + User.t := inl no_failed_attempts_write.

(** [is_account_locked(user)] (lines 181-190); its [user.save()] is not
    awaited and would write nothing. *)
Definition is_account_locked (u : User.t) (now : datetime) : exn + bool :=
  match User.locked_until u with
  | None => inr false
  | Some t => if Z.ltb t now then inl no_failed_attempts_write else inr true
  end.

Section CryptoHelpers.
Context `{Crypto}.

(** [refresh_token(token, token_type)] (lines 148-165): every exception,
    its own [ValueError] included, is re-raised as [ValueError] with the
    prefix. *)
Definition security_refresh_token (token token_type : string) (now : datetime) : exn + (string * datetime) :=
  let r := let? payload := verify_token token token_type now in
           if String.eqb (sub payload) "" then inl (value_error "Invalid token payload")
           else if String.eqb token_type "access" then inr (create_access_token (sub payload) now)
           else inr (create_refresh_token (sub payload) now) in
  match r with
  | inl e => inl (value_error ("Failed to refresh token: " +:+ exn_str e))
  | inr v => inr v
  end.

(** [hash_token] and [verify_token_hash] *)
Definition hash_token (token : string) : string := pwd_hash token.
Definition verify_token_hash (token hashed_token : string) : bool := pwd_verify token hashed_token.
End CryptoHelpers.

(** ** The checks are the patterns' languages *)

Lemma split_first_spec c l a b : split_first c l = Some (a, b) -> l = a ++ c :: b /\ existsb (Ascii.eqb c) a = false.
Proof.
  revert a b. induction l as [|x l IH]; intros a b; simpl; [done|].
  destruct (Ascii.eqb_spec x c) as [->|Hx].
  - intros [= <- <-]. done.
  - destruct (split_first c l) as [[a' b']|]; [|done]. intros [= <- <-].
    destruct (IH a' b' eq_refl) as [-> Ha]. simpl. split; [done|].
    rewrite Ha, orb_false_r. apply Ascii.eqb_neq. congruence.
Qed.

Lemma split_first_app c a b : existsb (Ascii.eqb c) a = false -> split_first c (a ++ c :: b) = Some (a, b).
Proof.
  induction a as [|x a IH]; simpl; [by rewrite Ascii.eqb_refl|].
  intros [Hx Ha]%orb_false_iff. rewrite Ascii.eqb_sym, Hx, IH by done. done.
Qed.

Lemma existsb_rev {A} (f : A -> bool) l : existsb f (rev l) = existsb f l.
Proof.
  induction l as [|x l IH]; simpl; [done|].
  by rewrite existsb_app, IH; simpl; rewrite orb_false_r, orb_comm.
Qed.

Lemma split_last_spec c l a b : split_last c l = Some (a, b) -> l = a ++ c :: b /\ existsb (Ascii.eqb c) b = false.
Proof.
  unfold split_last. destruct (split_first c (rev l)) as [[b' a']|] eqn:E; [|done]. intros [= <- <-].
  destruct (split_first_spec _ _ _ _ E) as [Hl Hb]. rewrite existsb_rev. split; [|done].
  rewrite <- (rev_involutive l), Hl, rev_app_distr. simpl. by rewrite <- app_assoc.
Qed.

Lemma split_last_app c a b : existsb (Ascii.eqb c) b = false -> split_last c (a ++ c :: b) = Some (a, b).
Proof.
  intros Hb. unfold split_last. rewrite rev_app_distr. simpl. rewrite <- app_assoc. simpl.
  rewrite split_first_app by (by rewrite existsb_rev). by rewrite !rev_involutive.
Qed.

Lemma forallb_not_existsb (p : Ascii.ascii -> bool) c l :
  p c = false -> forallb p l = true -> existsb (Ascii.eqb c) l = false.
Proof.
  intros Hc Hl. apply not_true_iff_false. rewrite existsb_exists. intros (x & Hx & E).
  apply Ascii.eqb_eq in E. subst. rewrite forallb_forall in Hl. rewrite Hl in Hc by done. done.
Qed.

(** The e-mail check accepts exactly the texts of the form
    [local@domain.tld] of the pattern. *)
Lemma email_shape_spec l :
  email_shape l = true <->
  exists local dom tld, l = local ++ chr 64 :: dom ++ chr 46 :: tld /\
    local <> [] /\ forallb email_local_char local = true /\
    dom <> [] /\ forallb email_domain_char dom = true /\
    (2 <= length tld)%nat /\ forallb is_letter tld = true.
Proof.
  unfold email_shape. split.
  - destruct (split_first _ l) as [[local rest]|] eqn:E1; [|done].
    destruct (split_first_spec _ _ _ _ E1) as [-> _].
    destruct (split_last _ rest) as [[dom tld]|] eqn:E2; [|by rewrite andb_false_r].
    destruct (split_last_spec _ _ _ _ E2) as [-> _].
    intros H. repeat match goal with H : _ && _ = true |- _ => apply andb_true_iff in H as [? ?] end.
    exists local, dom, tld. split_and!; try done; [apply negb_true_iff, bool_decide_eq_false in H; done|apply negb_true_iff, bool_decide_eq_false in H0; done|by apply Nat.leb_le].
  - intros (local & dom & tld & -> & Hl & Hlc & Hd & Hdc & Htl & Htc).
    rewrite split_first_app by (by apply (forallb_not_existsb email_local_char)).
    rewrite split_last_app by (by apply (forallb_not_existsb is_letter)).
    rewrite Hlc, Hdc, Htc. rewrite !bool_decide_eq_false_2 by done. apply Nat.leb_le in Htl. by rewrite Htl.
Qed.

(** ** What the password check asks *)

(** The pattern only bounds the length and the alphabet: six to twenty
    lowercase letters pass, although the validator's log and the
    commented-out pattern ask for upper case, a digit and a special
    character. *)
Lemma password_lowercase_only l :
  (6 <= length l <= 20)%nat -> forallb is_lower l = true ->
  validate_password (String.string_of_list_ascii l) = inr (String.string_of_list_ascii l).
Proof.
  intros [H6 H20] Hl. unfold validate_password, password_match.
  rewrite String.list_ascii_of_string_of_list_ascii. simpl. unfold password_shape.
  apply Nat.leb_le in H6, H20. rewrite H6, H20. simpl.
  replace (forallb password_char l) with true; [done|].
  symmetry. apply forallb_forall. intros c Hc. unfold password_char, is_letter.
  rewrite forallb_forall in Hl. rewrite Hl by done. by rewrite orb_true_r.
Qed.

(** [$] lets a final newline through, although the newline is not in
    the class. *)
Lemma password_final_newline l :
  password_shape l = true ->
  password_match (String.string_of_list_ascii (l ++ [chr 10])) = true.
Proof.
  intros H. unfold password_match. rewrite String.list_ascii_of_string_of_list_ascii.
  unfold dollar_variants. rewrite rev_app_distr. simpl. rewrite rev_involutive, H. apply orb_true_r.
Qed.

Lemma password_weak_example :
  validate_password "aaaaaa" = inr "aaaaaa" /\ validate_password_strength "aaaaaa" = false.
Proof. split; reflexivity. Qed.

(** ** The helpers *)

(** A token of [length] characters, all letters and digits, when the
    random source stays below the alphabet's size. *)
Lemma generate_secure_token_spec randbelow length :
  (forall k n, (0 < n)%nat -> (randbelow k n < n)%nat) ->
  let l := String.list_ascii_of_string (generate_secure_token randbelow length) in
  List.length l = Z.to_nat length /\ forallb (fun c => is_letter c || is_digit c) l = true.
Proof.
  intros Hr l. subst l. unfold generate_secure_token. rewrite String.list_ascii_of_string_of_list_ascii.
  rewrite length_map, length_seq. split; [done|].
  apply forallb_forall. intros c (k & <- & _)%in_map_iff.
  assert (Hk : (randbelow k 62 < 62)%nat) by (apply Hr; lia).
  remember (randbelow k 62%nat) as i. clear Heqi.
  do 62 (destruct i as [|i]; [reflexivity|]). lia.
Qed.

(** Past [locked_until] the lock check raises instead of unlocking: a
    locked account could never be unlocked by it. *)
Lemma is_account_locked_after u t now :
  User.locked_until u = Some t -> t < now -> is_account_locked u now = inl no_failed_attempts_write.
Proof. intros Hl Ht. unfold is_account_locked. rewrite Hl. apply Z.ltb_lt in Ht. by rewrite Ht. Qed.

Section CryptoHelperProps.
Context `{Crypto}.

(** The refresher's access token carries the verified subject and
    decodes back to an access claim of the current time. *)
Lemma security_refresh_access token now c :
  verify_token token "access" now = inr c -> sub c <> "" ->
  exists tok exp', security_refresh_token token "access" now = inr (tok, exp') /\
    jwt_decode tok = Some (mkClaims (sub c) (int_timestamp exp') (int_timestamp now) "access").
Proof.
  intros Hv Hs. unfold security_refresh_token, bindE. rewrite Hv.
  apply String.eqb_neq in Hs. rewrite Hs. simpl.
  eexists _, _. split; [reflexivity|]. apply jwt_decode_encode.
Qed.

(** Any failure comes back as [ValueError] with the prefix. *)
Lemma security_refresh_error token token_type now e :
  verify_token token token_type now = inl e ->
  security_refresh_token token token_type now = inl (value_error ("Failed to refresh token: " +:+ exn_str e)).
Proof. intros Hv. unfold security_refresh_token, bindE. by rewrite Hv. Qed.
End CryptoHelperProps.
