(* ===== verification/Space.v ===== *)
(** * The file space (services/file_service.py, api/studio/space.py, api/play/space.py)

    A user's space is a tree of [GalleryDir] documents (models/gallery.py)
    linked by [parent_id], with [GalleryFile] documents hanging from a
    directory by [directory_id] ([None] is the root); the bytes live in
    GridFS. [FileService] (services/file_service.py) does every read and
    write; the studio endpoints (api/studio/space.py) call it with the
    caller's id from [get_user_id] and render the tree, and the player
    endpoints (api/play/space.py) let a subscriber download a creator's
    file.

    GridFS, the thumbnail generator and base64 are outside the store: a
    [SpaceEnv] gives the outcome of each GridFS call and of
    [ThumbnailService.generate_thumbnail], the [Base64] class the codec
    with its round-trip law. Python's call stack bounds the recursion of
    [delete_directory]: its fuel is the number of frames left, and
    running out is [RecursionError]. The [while] loop of
    [get_directory_path] has no such bound: its fuel counts iterations
    and running out means the request never answers.

    The file ends with three claims on single endpoints: the directory
    statistics every rendered directory reports (C31), the storage
    statistics in doubles (C36) and the format of an upload's name
    (C37). *)

From S2P Require Import Prelude ObjectId Json PyString PyFloat Documents.
From Stdlib Require Import SpecFloat.

(** ** What the service draws from outside the store *)

Definition bytes : Type := list Byte.byte.

(** [base64.b64encode(b).decode()] and [base64.b64decode(s)]. The
    alphabet has no comma, which the data-URL parsing relies on. *)
Class Base64 := {
  b64encode : bytes -> string;
  b64decode : string -> exn + bytes;
  b64decode_encode : forall b, b64decode (b64encode b) = inr b;
  b64encode_no_comma : forall b, py_in_char (chr 44) (b64encode b) = false
}.

(** The GridFS bucket: [upload_from_stream] returns the new blob's id,
    [open_download_stream(...).read()] its bytes, [delete] raises
    [NoFile] for a blob that is gone. *)
Record GridFS := mkGridFS {
  upload_from_stream : string -> bytes -> exn + oid;
  open_download_stream : oid -> exn + bytes;
  fs_delete : oid -> exn + unit
}.

Record SpaceEnv := mkSpaceEnv {
  fs : GridFS;
  (** [ThumbnailService.generate_thumbnail(content, file_format, content_type)] *)
  thumbnail_for : bytes -> string -> string -> exn + option bytes;
  (** [datetime.utcnow()] *)
  now : datetime
}.

(** FastAPI's [UploadFile] after [await file.read()] *)
Record UploadFile := mkUploadFile {
  filename : string;
  upload_content_type : option string;
  content : bytes
}.

(** ** Python idioms of the service *)

(** [except Exception as e: raise HTTPException(500, f"<prefix>{str(e)}")],
    which also catches an [HTTPException] raised inside. *)
Definition wrap_500 {A} (prefix : string) (m : PyM DB A) : PyM DB A :=
  py_try m (fun e => raise (HTTPException 500 (prefix +:+ exn_str e))).

(** [except HTTPException: raise] [except Exception as e: raise HTTPException(500, ...)] *)
Definition reraise_500 {A} (prefix : string) (m : PyM DB A) : PyM DB A :=
  py_try m (fun e => match e with
                     | HTTPException _ _ => raise e
                     | PyException _ _ => raise (HTTPException 500 (prefix +:+ exn_str e))
                     end).

(** [PydanticObjectId(s) if s else None] *)
Definition opt_oid {S} (s : option string) : PyM S (option oid) :=
  match s with
  | Some x => if str_truthy s then i ← to_oid x; mret (Some i) else mret None
  | None => mret None
  end.

(** [x or d] on an optional string *)
Definition str_or (x : option string) (d : string) : string :=
  match x with Some s => if String.eqb s "" then d else s | None => d end.

(** [chr 46] is ['.'] and [chr 44] is [','].
    [name.split('.')[-1].lower() if '.' in name else 'unknown'] *)
Definition file_format_of (name : string) : string :=
  if py_in_char (chr 46) name then py_lower (py_last (py_split_sep (chr 46) name)) else "unknown".

(** Beanie's [Document.count] is a class method without a filter
    parameter: [GalleryFile.count({...})] raises before it queries. *)
Definition count_with_filter {S A} : PyM S A :=
  raise (PyException "TypeError" "count() takes 1 positional argument but 2 were given").

Definition recursion_error : exn :=
  PyException "RecursionError" "maximum recursion depth exceeded".

(** The queries: [{"_id": i, "owner": o}], and the children of a
    directory ([dir_filter] / [parent_filter]) of one owner. *)
Definition file_q (i o : oid) (j : oid) (f : GalleryFile.t) : bool :=
  N.eqb j i && N.eqb (GalleryFile.owner f) o.
Definition dir_q (i o : oid) (j : oid) (d : GalleryDir.t) : bool :=
  N.eqb j i && N.eqb (GalleryDir.owner d) o.
Definition files_in (dir : option oid) (o : oid) (_ : oid) (f : GalleryFile.t) : bool :=
  N.eqb (GalleryFile.owner f) o && bool_decide (GalleryFile.directory_id f = dir).
Definition dirs_in (parent : option oid) (o : oid) (_ : oid) (d : GalleryDir.t) : bool :=
  N.eqb (GalleryDir.owner d) o && bool_decide (GalleryDir.parent_id d = parent).

(** [f"data:image/jpeg;base64,{b64}"] *)
Definition jpeg_data_url (b64 : string) : string := "data:image/jpeg;base64," +:+ b64.

Definition set_thumbnail_base64 (f : GalleryFile.t) (t : string) : GalleryFile.t :=
  GalleryFile.mk (GalleryFile.name f) (GalleryFile.content_type f) (GalleryFile.file_format f)
    (GalleryFile.size f) (GalleryFile.creation_time f) (GalleryFile.owner f)
    (GalleryFile.thumbnail f) (Some t) (GalleryFile.gridfs_file_id f) (GalleryFile.directory_id f).

Definition set_directory_id (f : GalleryFile.t) (d : option oid) : GalleryFile.t :=
  GalleryFile.mk (GalleryFile.name f) (GalleryFile.content_type f) (GalleryFile.file_format f)
    (GalleryFile.size f) (GalleryFile.creation_time f) (GalleryFile.owner f)
    (GalleryFile.thumbnail f) (GalleryFile.thumbnail_base64 f) (GalleryFile.gridfs_file_id f) d.

Definition set_dir_name (d : GalleryDir.t) (n : string) : GalleryDir.t :=
  GalleryDir.mk n (GalleryDir.owner d) (GalleryDir.parent_id d) (GalleryDir.created_at d).

(** One breadcrumb: [{"id": str(directory.id), "name": directory.name}] *)
Definition Breadcrumb : Type := string * string.

(** ** FileService (services/file_service.py) *)
Module FileService.
Section Service.
Context (env : SpaceEnv) `{Base64}.

(** [generate_thumbnail]: a non-empty thumbnail is stored on the file
    document as a JPEG data URL; any error is printed and swallowed. The
    caller's [file_doc] is the object mutated here, returned alongside. *)
Definition generate_thumbnail (i : oid) (f : GalleryFile.t) (file_content : bytes)
  : PyM DB (GalleryFile.t * option string) :=
  py_try (
    thumbnail_data ← lift_exn (thumbnail_for env file_content (GalleryFile.file_format f)
                                 (GalleryFile.content_type f));
    match thumbnail_data with
    | Some ((_ :: _) as b) =>
        let f' := set_thumbnail_base64 f (jpeg_data_url (b64encode b)) in
        save i f';; mret (f', Some (jpeg_data_url (b64encode b)))
    | _ => mret (f, None)
    end)
    (fun _ => mret (f, None)).

Definition upload_file (file : UploadFile) (owner_id : string) (directory_id : option string)
  : PyM DB (oid * GalleryFile.t) :=
  wrap_500 "File upload failed: " (
    let file_content := content file in
    grid_file_id ← lift_exn (upload_from_stream (fs env) (filename file) file_content);
    o ← to_oid owner_id;
    d ← opt_oid directory_id;
    let file_doc := GalleryFile.mk (filename file)
                      (str_or (upload_content_type file) "application/octet-stream")
                      (file_format_of (filename file)) (lenZ file_content) (now env) o None None
                      grid_file_id d in
    i ← insert file_doc;
    r ← py_try (generate_thumbnail i file_doc file_content) (fun _ => mret (file_doc, None));
    mret (i, r.1)).

(** [get_file]: the document and the blob's bytes *)
Definition get_file (file_id owner_id : string) : PyM DB (oid * GalleryFile.t * bytes) :=
  fid ← to_oid file_id; o ← to_oid owner_id;
  found ← find_one (file_q fid o);
  match found with
  | None => not_found "File not found"
  | Some (i, f) =>
      wrap_500 "File retrieval failed: " (
        grid_out ← lift_exn (open_download_stream (fs env) (GalleryFile.gridfs_file_id f));
        mret (i, f, grid_out))
  end.

Definition delete_file (file_id owner_id : string) : PyM DB bool :=
  fid ← to_oid file_id; o ← to_oid owner_id;
  found ← find_one (file_q fid o);
  match found with
  | None => not_found "File not found"
  | Some (i, f) =>
      wrap_500 "File deletion failed: " (
        lift_exn (fs_delete (fs env) (GalleryFile.gridfs_file_id f));;
        match GalleryFile.thumbnail f with
        | Some t => py_try (lift_exn (fs_delete (fs env) t)) (fun _ => mret tt)
        | None => mret tt
        end;;
        delete GalleryFile.t i;;
        mret true)
  end.

Definition move_file (file_id owner_id : string) (target_directory_id : option string)
  : PyM DB (oid * GalleryFile.t) :=
  fid ← to_oid file_id; o ← to_oid owner_id;
  found ← find_one (file_q fid o);
  match found with
  | None => not_found "File not found"
  | Some (i, f) =>
      (if str_truthy target_directory_id then
         t ← to_oid (default "" target_directory_id); o' ← to_oid owner_id;
         target_dir ← find_one (dir_q t o');
         match target_dir with
         | None => not_found "Target directory not found"
         | Some _ => mret tt
         end
       else mret tt);;
      d ← opt_oid target_directory_id;
      let f' := set_directory_id f d in
      save i f';;
      mret (i, f')
  end.

Definition list_user_files (owner_id : string) (directory_id : option string)
  : PyM DB (list (oid * GalleryFile.t) * list (oid * GalleryDir.t)) :=
  wrap_500 "File listing failed: " (
    dir_filter ← opt_oid directory_id;
    o ← to_oid owner_id;
    files ← find (files_in dir_filter o);
    parent_filter ← opt_oid directory_id;
    o' ← to_oid owner_id;
    directories ← find (dirs_in parent_filter o');
    mret (files, directories)).

Definition create_directory (name owner_id : string) (parent_id : option string)
  : PyM DB (oid * GalleryDir.t) :=
  reraise_500 "Directory creation failed: " (
    (if str_truthy parent_id then
       p ← to_oid (default "" parent_id); o ← to_oid owner_id;
       parent_dir ← find_one (dir_q p o);
       match parent_dir with
       | None => not_found "Parent directory not found"
       | Some _ => mret tt
       end
     else mret tt);;
    o ← to_oid owner_id;
    par ← opt_oid parent_id;
    let directory := GalleryDir.mk name o par (now env) in
    i ← insert directory;
    mret (i, directory)).

Definition update_directory (dir_id owner_id name : string) : PyM DB (oid * GalleryDir.t) :=
  did ← to_oid dir_id; o ← to_oid owner_id;
  found ← find_one (dir_q did o);
  match found with
  | None => not_found "Directory not found"
  | Some (i, d) => let d' := set_dir_name d name in save i d';; mret (i, d')
  end.

(** [delete_directory]: [fuel] is the number of Python frames left for
    the recursion. With [recursive] the files of the directory are
    deleted one by one through [delete_file], then each subdirectory of
    the same owner recursively (both lists read before the loop), then
    the directory itself. *)
Fixpoint delete_directory (fuel : nat) (dir_id owner_id : string) (recursive : bool) : PyM DB bool :=
  match fuel with
  | O => raise recursion_error
  | S fuel' =>
      did ← to_oid dir_id; o ← to_oid owner_id;
      found ← find_one (dir_q did o);
      match found with
      | None => not_found "Directory not found"
      | Some (i, _) =>
          (if recursive then
             did1 ← to_oid dir_id; o1 ← to_oid owner_id;
             files ← find (files_in (Some did1) o1);
             py_mapM (fun p => delete_file (oid_str p.1) owner_id) files;;
             did2 ← to_oid dir_id; o2 ← to_oid owner_id;
             subdirs ← find (dirs_in (Some did2) o2);
             py_mapM (fun p => delete_directory fuel' (oid_str p.1) owner_id true) subdirs;;
             mret tt
           else mret tt);;
          delete GalleryDir.t i;;
          mret true
      end
  end.

(** [get_directory_stats]: the two [count] calls come first, so the
    [except] branch answers [(0, 0, 0)] before the file sizes are read. *)
Definition get_directory_stats (dir_id owner_id : string) : PyM DB (Z * Z * Z) :=
  py_try (
    did ← to_oid dir_id; o ← to_oid owner_id;
    files_count ← count_with_filter (A:=Z);
    did' ← to_oid dir_id; o' ← to_oid owner_id;
    directories_count ← count_with_filter (A:=Z);
    did'' ← to_oid dir_id; o'' ← to_oid owner_id;
    files ← find (files_in (Some did'') o'');
    mret (files_count, directories_count, sumZ (fun p => GalleryFile.size p.2) files))
    (fun _ => mret (0, 0, 0)).

(** The [while current_id:] loop of [get_directory_path]. [None] is a
    loop still running when [fuel] iterations are spent. *)
Fixpoint directory_path_loop (fuel : nat) (current_id : option string) (owner_id : string)
    (path : list Breadcrumb) : PyM DB (option (list Breadcrumb)) :=
  if negb (str_truthy current_id) then mret (Some path) else
  match fuel with
  | O => mret None
  | S fuel' =>
      c ← to_oid (default "" current_id); o ← to_oid owner_id;
      directory ← find_one (dir_q c o);
      match directory with
      | None => mret (Some path)
      | Some (i, d) =>
          directory_path_loop fuel'
            (match GalleryDir.parent_id d with Some p => Some (oid_str p) | None => None end)
            owner_id ((oid_str i, GalleryDir.name d) :: path)
      end
  end.

Definition get_directory_path (fuel : nat) (dir_id owner_id : string)
  : PyM DB (option (list Breadcrumb)) :=
  directory_path_loop fuel (Some dir_id) owner_id [].

(** [get_file_thumbnail]: the data URL's payload after its first comma
    (or the whole text), else the GridFS thumbnail blob; [None] when
    neither decodes. *)
Definition get_file_thumbnail (file_id owner_id : string) : PyM DB (option bytes) :=
  fid ← to_oid file_id; o ← to_oid owner_id;
  found ← find_one (file_q fid o);
  match found with
  | None => mret None
  | Some (_, f) =>
      let from_gridfs :=
        match GalleryFile.thumbnail f with
        | Some t => match open_download_stream (fs env) t with
                    | inr b => mret (Some b)
                    | inl _ => mret None
                    end
        | None => mret None
        end in
      if str_truthy (GalleryFile.thumbnail_base64 f) then
        let t := default "" (GalleryFile.thumbnail_base64 f) in
        let base64_data := if py_in_char (chr 44) t
                           then nth 1 (py_split_sep (chr 44) t) "" else t in
        match b64decode base64_data with
        | inr b => mret (Some b)
        | inl _ => from_gridfs
        end
      else from_gridfs
  end.

End Service.
End FileService.
Import FileService.

(** ** Responses (models/space.py) *)

Module FileResponse.
Record t := mk {
  id : string; name : string; content_type : string; file_format : string; size : Z;
  created_at : datetime; owner : string; thumbnail : option string; gridfs_file_id : string;
  directory_id : option string; has_thumbnail : bool; thumbnail_url : option string;
  thumbnail_data : option string }.
End FileResponse.

(** [DirResponse] without its [contents], which [content_item] carries. *)
Module DirResponse.
Record t := mk {
  id : string; name : string; owner : string; parent_id : option string; created_at : datetime;
  files_count : Z; directories_count : Z; total_size : Z; breadcrumb : option (list Breadcrumb) }.
End DirResponse.

(** [Union[FileResponse, DirResponse]], a directory with its optional contents *)
#[warnings="-register-all"] Inductive content_item :=
  | IFile (f : FileResponse.t)
  | IDir (d : DirResponse.t) (contents : option (list content_item)).

Module SpaceResponse.
Record t := mk {
  used_space_mb : Z; free_space_mb : Z; total_space_mb : Z; used_space_percentage : Z;
  content : list content_item }.
End SpaceResponse.

Record StorageStats := mkStorageStats {
  used_space_mb : Z; free_space_mb : Z; total_space_mb : Z; used_space_percentage : Z }.

Record DirectoryCreateRequest := mkDirectoryCreateRequest { create_parent_id : option string; create_name : string }.
Record FileMoveRequest := mkFileMoveRequest { move_parent_id : option string }.
Record DirectoryUpdateRequest := mkDirectoryUpdateRequest { update_name : string }.

(** ** The studio space API (api/studio/space.py) *)
Module Studio.

(** [calculate_storage_stats(files_size, total_space_mb)] in doubles:
    [max(0, x)] is [x] only when [x > 0], else the int [0]. *)
Definition calculate_storage_stats {S} (files_size total_space_mb : Z) : PyM S StorageStats :=
  let used := py_round (py_truediv files_size (1024 * 1024)) 2 in
  let free := py_int_fsub total_space_mb used in
  let pct := py_round (py_fmul_int (py_fdiv_int used total_space_mb) 100) 2 in
  u ← lift_exn (py_int used);
  f ← (if SFltb (float_of_int 0) free then lift_exn (py_int free) else mret 0);
  p ← lift_exn (py_int pct);
  mret (mkStorageStats u f total_space_mb p).

Definition thumbnail_url_of (i : oid) : string := "/studio/space/file/" +:+ oid_str i +:+ "/thumbnail/".

Definition convert_file_to_response (p : oid * GalleryFile.t) (include_thumbnail_data : bool)
  : FileResponse.t :=
  let '(i, f) := p in
  let has_thumbnail := str_truthy (GalleryFile.thumbnail_base64 f) || bool_decide (is_Some (GalleryFile.thumbnail f)) in
  FileResponse.mk (oid_str i) (GalleryFile.name f)
    (str_or (Some (GalleryFile.content_type f)) "application/octet-stream")
    (file_format_of (GalleryFile.name f)) (GalleryFile.size f) (GalleryFile.creation_time f)
    (oid_str (GalleryFile.owner f)) (oid_str <$> GalleryFile.thumbnail f)
    (oid_str (GalleryFile.gridfs_file_id f)) (oid_str <$> GalleryFile.directory_id f)
    has_thumbnail (if has_thumbnail then Some (thumbnail_url_of i) else None)
    (if include_thumbnail_data then GalleryFile.thumbnail_base64 f else None).

Definition dir_response (i : oid) (d : GalleryDir.t) (fc dc ts : Z) : DirResponse.t :=
  DirResponse.mk (oid_str i) (GalleryDir.name d) (oid_str (GalleryDir.owner d))
    (oid_str <$> GalleryDir.parent_id d) (GalleryDir.created_at d) fc dc ts None.

Section Render.
Context (env : SpaceEnv) `{Base64}.

(** [convert_dir_to_response(dir_doc, load_contents, max_depth,
    current_depth)] with [levels = max_depth - current_depth]: contents
    are loaded while [current_depth < max_depth]. *)
Fixpoint convert_dir_to_response (levels : nat) (load_contents : bool) (p : oid * GalleryDir.t)
  : PyM DB content_item :=
  let '(i, d) := p in
  py_try (
    '(fc, dc, ts) ← get_directory_stats (oid_str i) (oid_str (GalleryDir.owner d));
    contents ← match levels with
               | S levels' =>
                   if load_contents then
                     '(files, subdirs) ← list_user_files (oid_str (GalleryDir.owner d)) (Some (oid_str i));
                     dir_responses ← py_mapM (convert_dir_to_response levels' true) subdirs;
                     mret (Some (map (fun f => IFile (convert_file_to_response f false)) files
                                 ++ dir_responses))
                   else mret None
               | O => mret None
               end;
    mret (IDir (dir_response i d fc dc ts) contents))
    (fun _ => mret (IDir (dir_response i d 0 0 0) None)).

Definition get_space (directory_id : option string) (uid : string) : PyM DB SpaceResponse.t :=
  except_500 (
    '(files, dirs) ← list_user_files uid directory_id;
    '(total_files, _) ← list_user_files uid None;
    let total_size := sumZ (fun p => GalleryFile.size p.2) total_files in
    let file_responses := map (fun f => IFile (convert_file_to_response f false)) files in
    dir_responses ← py_mapM (convert_dir_to_response 5 true) dirs;
    st ← calculate_storage_stats total_size 1024;
    mret (SpaceResponse.mk (used_space_mb st) (free_space_mb st) (total_space_mb st)
            (used_space_percentage st) (file_responses ++ dir_responses))).

(** [convert_file_to_response_with_thumbnail]: when the data is asked
    for and the document has none, the thumbnail is loaded through the
    service and re-encoded; failures are printed and ignored. *)
Definition convert_file_to_response_with_thumbnail (p : oid * GalleryFile.t)
    (include_thumbnail_data : bool) : PyM DB FileResponse.t :=
  let r := convert_file_to_response p include_thumbnail_data in
  if include_thumbnail_data && negb (str_truthy (FileResponse.thumbnail_data r)) then
    py_try (
      thumbnail_data ← get_file_thumbnail env (oid_str p.1) (oid_str (GalleryFile.owner p.2));
      match thumbnail_data with
      | Some ((_ :: _) as b) =>
          let '(FileResponse.mk a1 a2 a3 a4 a5 a6 a7 a8 a9 a10 a11 a12 _) := r in
          mret (FileResponse.mk a1 a2 a3 a4 a5 a6 a7 a8 a9 a10 a11 a12 (Some (jpeg_data_url (b64encode b))))
      | _ => mret r
      end) (fun _ => mret r)
  else mret r.

(** [convert_dir_to_response_with_contents]: subdirectories are rendered
    without their contents; the counts are recomputed from the listing. *)
Definition convert_dir_to_response_with_contents (p : oid * GalleryDir.t)
    (include_contents include_breadcrumb include_thumbnail_data : bool) (path_fuel : nat)
  : PyM DB (option content_item) :=
  let '(i, d) := p in
  r ← (if include_contents then
         '(files, subdirs) ← list_user_files (oid_str (GalleryDir.owner d)) (Some (oid_str i));
         file_responses ← (if include_thumbnail_data
                           then py_mapM (fun f => convert_file_to_response_with_thumbnail f true) files
                           else mret (map (fun f => convert_file_to_response f false) files));
         dir_responses ← py_mapM (convert_dir_to_response 5 false) subdirs;
         mret (dir_response i d (lenZ files) (lenZ subdirs) (sumZ (fun f => GalleryFile.size f.2) files),
               Some (map IFile file_responses ++ dir_responses))
       else mret (dir_response i d 0 0 0, None));
  let '(info, contents) := r in
  if include_breadcrumb then
    breadcrumb_path ← get_directory_path path_fuel (oid_str i) (oid_str (GalleryDir.owner d));
    match breadcrumb_path with
    | Some bp =>
        let '(DirResponse.mk a1 a2 a3 a4 a5 a6 a7 a8 _) := info in
        mret (Some (IDir (DirResponse.mk a1 a2 a3 a4 a5 a6 a7 a8 (Some bp)) contents))
    | None => mret None
    end
  else mret (Some (IDir info contents)).
End Render.

(** A [StreamingResponse]: media type, headers and body. *)
Record StreamingResponse := mkStreamingResponse {
  media_type : string; headers : list (string * string); body : bytes }.

(** The response of a download: [Content-Disposition] quotes the name. *)
Definition attachment (f : GalleryFile.t) (file_content : bytes) : StreamingResponse :=
  let dq := String (chr 34) EmptyString in
  mkStreamingResponse (str_or (Some (GalleryFile.content_type f)) "application/octet-stream")
    [("Content-Disposition", "attachment; filename=" +:+ dq +:+ GalleryFile.name f +:+ dq);
     ("Content-Length", pretty (lenZ file_content))]
    file_content.

Definition jpeg_response (thumbnail_data : bytes) : StreamingResponse :=
  mkStreamingResponse "image/jpeg" [("Cache-Control", "public, max-age=3600")] thumbnail_data.

(** One entry of [get_thumbnails_batch]; [thumbnail_base64] is the
    optional key of the dict. *)
Record ThumbnailInfo := mkThumbnailInfo {
  info_file_id : string; info_has_thumbnail : bool; info_thumbnail_url : option string;
  info_thumbnail_base64 : option string }.

Record ThumbnailsBatch := mkThumbnailsBatch {
  thumbnails : list ThumbnailInfo; total_requested : Z; total_found : Z }.

Section Endpoints.
Context (env : SpaceEnv) `{Base64}.

Definition upload_file (file : UploadFile) (directory_id : option string) (uid : string)
  : PyM DB FileResponse.t :=
  reraise_500 "Upload failed: " (
    uploaded_file ← FileService.upload_file env file uid directory_id;
    mret (convert_file_to_response uploaded_file false)).

Definition create_directory (request : DirectoryCreateRequest) (uid : string) : PyM DB content_item :=
  reraise_500 "Directory creation failed: " (
    new_dir ← FileService.create_directory env (create_name request) uid (create_parent_id request);
    convert_dir_to_response 5 true new_dir).

Definition delete_file (file_id uid : string) : PyM DB SpaceResponse.t :=
  reraise_500 "File deletion failed: " (
    FileService.delete_file env file_id uid;; get_space None uid).

Definition move_file (file_id : string) (request : FileMoveRequest) (uid : string) : PyM DB SpaceResponse.t :=
  reraise_500 "File move failed: " (
    FileService.move_file file_id uid (move_parent_id request);; get_space None uid).

(** [stack] is the number of Python frames the recursion may use. *)
Definition delete_directory (stack : nat) (dir_id uid : string) : PyM DB SpaceResponse.t :=
  reraise_500 "Directory deletion failed: " (
    FileService.delete_directory env stack dir_id uid true;; get_space None uid).

Definition update_directory (dir_id : string) (request : DirectoryUpdateRequest) (uid : string)
  : PyM DB SpaceResponse.t :=
  reraise_500 "Directory update failed: " (
    FileService.update_directory dir_id uid (update_name request);; get_space None uid).

Definition download_file (file_id uid : string) : PyM DB StreamingResponse :=
  reraise_500 "File download failed: " (
    '(_, file_doc, file_content) ← FileService.get_file env file_id uid;
    mret (attachment file_doc file_content)).

Definition get_file_thumbnail (file_id uid : string) : PyM DB StreamingResponse :=
  reraise_500 "Thumbnail retrieval failed: " (
    thumbnail_data ← FileService.get_file_thumbnail env file_id uid;
    match thumbnail_data with
    | Some ((_ :: _) as b) => mret (jpeg_response b)
    | _ => not_found "Thumbnail not found"
    end).

(** One iteration of the batch loop; [None] is a [continue]. *)
Definition thumbnail_info (format uid file_id : string) : PyM DB (option ThumbnailInfo) :=
  py_try (
    fid ← to_oid file_id; o ← to_oid uid;
    found ← find_one (file_q fid o);
    match found with
    | None => mret None
    | Some (_, f) =>
        let has := str_truthy (GalleryFile.thumbnail_base64 f) || bool_decide (is_Some (GalleryFile.thumbnail f)) in
        mret (Some (mkThumbnailInfo file_id has
                      (if has then Some ("/studio/space/file/" +:+ file_id +:+ "/thumbnail/") else None)
                      (if String.eqb format "base64" && str_truthy (GalleryFile.thumbnail_base64 f)
                       then GalleryFile.thumbnail_base64 f else None)))
    end) (fun _ => mret None).

Definition get_thumbnails_batch (file_ids : list string) (format uid : string) : PyM DB ThumbnailsBatch :=
  wrap_500 "Batch thumbnail operation failed: " (
    infos ← py_mapM (thumbnail_info format uid) file_ids;
    let found := omap id infos in
    mret (mkThumbnailsBatch found (lenZ file_ids) (lenZ found))).

Definition get_directory (dir_id uid : string) : PyM DB SpaceResponse.t :=
  wrap_500 "Directory retrieval failed: " (get_space (Some dir_id) uid).

(** [path_fuel] bounds the breadcrumb loop; [None] is a request that
    does not answer. *)
Definition get_directory_details (dir_id : string)
    (include_contents include_breadcrumb include_thumbnail_data : bool) (uid : string)
    (path_fuel : nat) : PyM DB (option content_item) :=
  reraise_500 "Directory details retrieval failed: " (
    did ← to_oid dir_id; o ← to_oid uid;
    dir_doc ← find_one (dir_q did o);
    match dir_doc with
    | None => not_found "Directory not found"
    | Some p => convert_dir_to_response_with_contents env p include_contents include_breadcrumb
                  include_thumbnail_data path_fuel
    end).
End Endpoints.
End Studio.

(** ** The player space API (api/play/space.py) *)
Module PlaySpace.
Section Endpoints.
Context (env : SpaceEnv) `{Base64}.

(** [verify_subscription_access]: the caller exists, the file exists
    (any owner), the owner has a channel, and the caller has a progress
    record on that channel. [Channel.find_one] returns the owner's first
    channel. *)
Definition verify_subscription_access (file_id user_id : string)
  : PyM DB (oid * GalleryFile.t * bool) :=
  u ← to_oid user_id;
  user ← find_one (D:=User.t) (fun j _ => N.eqb j u);
  match user with
  | None => raise (HTTPException 403 "User not found")
  | Some _ =>
      fid ← to_oid file_id;
      file_doc ← find_one (D:=GalleryFile.t) (fun j _ => N.eqb j fid);
      match file_doc with
      | None => not_found "File not found"
      | Some (i, f) =>
          channel ← find_one (D:=Channel.t) (fun _ c => N.eqb (Channel.user_id c) (GalleryFile.owner f));
          match channel with
          | None => not_found "Channel not found"
          | Some (_, c) =>
              player_progress ← find_one (D:=PlayerProgress.t) (fun _ p =>
                String.eqb (PlayerProgress.player_id p) user_id
                && String.eqb (PlayerProgress.channel_id p) (Channel.channel_id c));
              match player_progress with
              | None => raise (HTTPException 403 "Access denied - subscription required")
              | Some _ => mret (i, f, true)
              end
          end
      end
  end.

Definition download_file (file_id uid : string) : PyM DB Studio.StreamingResponse :=
  reraise_500 "File download failed: " (
    '(_, file_doc, _) ← verify_subscription_access file_id uid;
    file_content ← lift_exn (open_download_stream (fs env) (GalleryFile.gridfs_file_id file_doc));
    mret (Studio.attachment file_doc file_content)).

Definition get_file_thumbnail (file_id uid : string) : PyM DB Studio.StreamingResponse :=
  reraise_500 "Thumbnail retrieval failed: " (
    '(_, file_doc, _) ← verify_subscription_access file_id uid;
    thumbnail_data ← FileService.get_file_thumbnail env file_id (oid_str (GalleryFile.owner file_doc));
    match thumbnail_data with
    | Some ((_ :: _) as b) => mret (Studio.jpeg_response b)
    | _ => not_found "Thumbnail not found"
    end).
End Endpoints.
End PlaySpace.

(** ** The rendered directory statistics *)

(** (C31) The directory statistics are always zero: [get_directory_stats]
    passes a filter to Beanie's class method [count], which takes none,
    and its [except] clause answers [(0, 0, 0)]. So every directory that
    [convert_dir_to_response] renders, at every depth (the tree of
    [get_space] and the answer of [create_directory]), reports no files,
    no subdirectories and no bytes. *)
Theorem rendered_directory_stats_zero levels load (p : oid * GalleryDir.t) db :
  exists contents,
    fst (Studio.convert_dir_to_response levels load p db) = inr (IDir (Studio.dir_response p.1 p.2 0 0 0) contents).
Proof.
  destruct p as [i d]. assert (Hz : forall a b, FileService.get_directory_stats a b db = (inr (0, 0, 0), db)).
  { intros a b. unfold FileService.get_directory_stats, to_oid, count_with_filter.
    destruct (parse_oid a), (parse_oid b); pyunfold; done. }
  destruct levels as [|levels]; cbn [Studio.convert_dir_to_response]; unfold py_try;
    rewrite bind_run, Hz; unfold mbind, pym_bind, mret, pym_ret; cbv beta iota; [by eexists|].
  destruct load; cbv beta iota; [|by eexists].
  destruct (FileService.list_user_files _ _ db) as [[e|[files subdirs]] s1]; cbv beta iota; [by eexists|].
  destruct (py_mapM _ subdirs s1) as [[e|rs] s2]; cbv beta iota; by eexists.
Qed.

(** ** Storage statistics in doubles *)

Definition stats_ok (k : Z) : bool :=
  match fst (Studio.calculate_storage_stats (S:=unit) (k * 2 ^ 20) 1024 tt) with
  | inr st => Z.eqb (used_space_mb st) k && Z.eqb (free_space_mb st) (Z.max 0 (1024 - k)) &&
              Z.eqb (total_space_mb st) 1024 && Z.eqb (used_space_percentage st) ((25 * k + 1) / 256)
  | inl _ => false
  end.

Definition stats_table (n : Z) : bool := forallb stats_ok (seqZ 0 (n + 1)).

Lemma stats_table_2048 : stats_table 2048 = true.
Proof. vm_compute. reflexivity. Qed.

Lemma stats_table_sound n k : stats_table n = true -> 0 <= k <= n -> stats_ok k = true.
Proof.
  unfold stats_table. rewrite forallb_forall. intros Ht Hk.
  apply Ht, list_elem_of_In, elem_of_seqZ. lia.
Qed.

(** The statistics do not depend on the store. *)
Lemma calculate_storage_stats_pure {S} n t (s : S) :
  fst (Studio.calculate_storage_stats n t s) = fst (Studio.calculate_storage_stats (S:=unit) n t tt).
Proof.
  unfold Studio.calculate_storage_stats, lift_exn, mbind, pym_bind, mret, pym_ret. cbv beta iota zeta.
  destruct (py_int _); [done|]. destruct (SFltb _ _); [destruct (py_int _); [done|]|];
    destruct (py_int _); done.
Qed.

Lemma stats_ok_spec k :
  stats_ok k = true ->
  fst (Studio.calculate_storage_stats (S:=unit) (k * 2 ^ 20) 1024 tt) =
    inr (mkStorageStats k (Z.max 0 (1024 - k)) 1024 ((25 * k + 1) / 256)).
Proof.
  unfold stats_ok. destruct (fst _) as [e|[u f t p]]; [done|].
  cbv beta iota delta [used_space_mb free_space_mb total_space_mb used_space_percentage].
  intros Hok. repeat match goal with H : _ && _ = true |- _ => apply andb_true_iff in H as [? ?] end.
  repeat match goal with H : Z.eqb _ _ = true |- _ => apply Z.eqb_eq in H end. by subst.
Qed.

(** (C36) For a total of [k] whole megabytes, [0 <= k <= 2048],
    [calculate_storage_stats] in IEEE doubles reports [k] MB used,
    [max(0, 1024 - k)] MB free and [floor((25k + 1) / 256)] percent: the
    percentage [100k / 1024] rounded down, except within 0.005 below the
    next integer, where [round(_, 2)] carries it up. Nothing holds the
    use to the 1024 MB quota: at 2048 MB the space reports 0 MB free and
    200 percent. *)
Theorem storage_stats_whole_mb {S} k (s : S) :
  0 <= k <= 2048 ->
  fst (Studio.calculate_storage_stats (k * 2 ^ 20) 1024 s) =
    inr (mkStorageStats k (Z.max 0 (1024 - k)) 1024 ((25 * k + 1) / 256)).
Proof.
  intros Hk. rewrite calculate_storage_stats_pure.
  apply stats_ok_spec, (stats_table_sound 2048 k stats_table_2048 Hk).
Qed.

(** ** The format of an upload *)

(** The format of an upload is the lowercased text after the last
    dot of its name, and ["unknown"] for a name without a dot:
    [file_format_of], the model of
    [name.split('.')[-1].lower() if '.' in name else 'unknown'], agrees
    with that description on every name (a name ending in a dot has the
    empty format). *)
Theorem file_format_of_spec name :
  (forall l1 l2, String.list_ascii_of_string name = l1 ++ chr 46 :: l2 ->
     existsb (Ascii.eqb (chr 46)) l2 = false ->
     file_format_of name = py_lower (String.string_of_list_ascii l2)) /\
  (py_in_char (chr 46) name = false -> file_format_of name = "unknown").
Proof.
  unfold file_format_of, py_in_char, py_last, py_split_sep. split.
  - intros l1 l2 Hn H2. rewrite Hn, existsb_app. cbn [existsb]. rewrite Ascii.eqb_refl, orb_true_l, orb_true_r.
    f_equal. change "" with (String.string_of_list_ascii []). rewrite last_map. by rewrite split_sep_last.
  - by intros ->.
Qed.
