(* ===== verification/SpaceProps.v ===== *)
(** * Properties of the file space

    The directories of the store form a forest: every directory's
    [parent_id] names a stored directory of the same owner with a smaller
    id ([dir_tree]). Every write of [FileService] keeps it, the recursive
    [delete_directory] included, on every path (a GridFS failure or a
    [RecursionError] half-way leaves a smaller forest), so every state the
    space endpoints reach from a forest is one ([space_reachable_tree]).
    On a forest the breadcrumb loop of [get_directory_path] ends.

    The other theorems pin down what the handlers do: directory statistics
    are always zero, an upload is not checked against the directories, an
    uploaded thumbnail reads back, the player's access check looks at one
    channel of the owner only, and the error text of a bad directory id. *)

From stdpp Require Import relations.
From S2P Require Import Prelude ObjectId Json PyString PyFloat Documents Space.
From Stdlib Require Import SpecFloat.
Import FileService.

(** ** The directory forest *)

Definition dir_ok (db : DB) (i : oid) (d : GalleryDir.t) : Prop :=
  (i < next_id db)%N /\
  match GalleryDir.parent_id d with
  | None => True
  | Some p => (p < i)%N /\
              exists y, (p, y) ∈ collection (D:=GalleryDir.t) db /\ GalleryDir.owner y = GalleryDir.owner d
  end.

Definition dir_tree (db : DB) : Prop :=
  forall i d, (i, d) ∈ collection (D:=GalleryDir.t) db -> dir_ok db i d.

Definition space_inv (db : DB) : Prop := dir_tree db /\ wf_db db.

(** The generator has an id left for one more insert. *)
Definition ids_left (db : DB) : Prop := (next_id db < 16 ^ 24)%N.

Lemma dirs_files_disjoint : disjoint_classes GalleryDir.t GalleryFile.t.
Proof. classes_disjoint. Qed.

Lemma dir_tree_frame db db' :
  collection (D:=GalleryDir.t) db' = collection db -> (next_id db <= next_id db')%N ->
  dir_tree db -> dir_tree db'.
Proof.
  intros Ec Hn Ht i d Hin. rewrite Ec in Hin. destruct (Ht i d Hin) as [Hi Hp].
  split; [lia|]. destruct (GalleryDir.parent_id d); [|done]. by rewrite Ec.
Qed.

Section FileWrites.
Context (db : DB) (Hinv : space_inv db).

Lemma space_inv_insert_file (f : GalleryFile.t) : ids_left db -> space_inv (snd (insert f db)).
Proof.
  destruct Hinv as [Ht Hwf]. intros Hn. split; [|by apply wf_db_insert].
  eapply dir_tree_frame; [by apply (keeps_insert_other dirs_files_disjoint f)| |done]. simpl. lia.
Qed.

Lemma space_inv_save_file i (f f0 : GalleryFile.t) :
  (i, f0) ∈ collection db -> space_inv (snd (save i f db)).
Proof.
  destruct Hinv as [Ht Hwf]. intros Hin. split; [|by eapply wf_db_save].
  eapply dir_tree_frame; [by apply (keeps_save_other dirs_files_disjoint i f)| |done].
  by rewrite next_id_save.
Qed.

Lemma space_inv_delete_file i : space_inv (snd (delete GalleryFile.t i db)).
Proof.
  destruct Hinv as [Ht Hwf]. split; [|by apply wf_db_delete].
  eapply dir_tree_frame; [by apply (keeps_delete_other dirs_files_disjoint i)| |done]. done.
Qed.
End FileWrites.

(** The parent a new or renamed directory names is stored, with its owner. *)
Definition parent_stored (db : DB) (d : GalleryDir.t) : Prop :=
  match GalleryDir.parent_id d with
  | None => True
  | Some p => exists y, (p, y) ∈ collection (D:=GalleryDir.t) db /\ GalleryDir.owner y = GalleryDir.owner d
  end.

Section DirWrites.
Context (db : DB) (Hinv : space_inv db).

Lemma space_inv_insert_dir (d : GalleryDir.t) :
  ids_left db -> parent_stored db d -> space_inv (snd (insert d db)).
Proof.
  destruct Hinv as [Ht Hwf]. intros Hn Hp. split; [|by apply wf_db_insert].
  intros j v [[-> ->]|Hin]%elem_of_collection_insert_inv; unfold dir_ok.
  - split; [simpl; lia|]. unfold parent_stored in Hp. destruct (GalleryDir.parent_id d) as [p|]; [|done].
    destruct Hp as (y & Hy & Ho). split; [|exists y; split; [by apply elem_of_collection_insert_old|done]].
    destruct Hwf as (_ & Hlt & _).
    apply collection_elem in Hy. rewrite Forall_forall in Hlt. exact (Hlt _ Hy).
  - destruct (Ht j v Hin) as [Hj Hpar]. split; [simpl; lia|].
    destruct (GalleryDir.parent_id v); [|done]. destruct Hpar as (Hlt & y & Hy & Ho).
    split; [done|]. exists y. split; [by apply elem_of_collection_insert_old|done].
Qed.

(** Renaming keeps the parent and the owner. *)
Lemma space_inv_save_dir i (d d0 : GalleryDir.t) :
  (i, d0) ∈ collection db -> GalleryDir.parent_id d = GalleryDir.parent_id d0 ->
  GalleryDir.owner d = GalleryDir.owner d0 -> space_inv (snd (save i d db)).
Proof.
  destruct Hinv as [Ht Hwf]. intros Hin0 Hpe Hoe. split; [|by eapply wf_db_save].
  intros j v [[-> ->]|[Hj Hin]]%elem_of_collection_save; unfold dir_ok; rewrite next_id_save.
  - destruct (Ht i d0 Hin0) as [Hi Hpar]. split; [done|]. rewrite Hpe.
    destruct (GalleryDir.parent_id d0) as [p|]; [|done]. destruct Hpar as (Hlt & y & Hy & Ho).
    split; [done|]. exists y. split; [|congruence]. apply elem_of_collection_save_other; [done|lia].
  - destruct (Ht j v Hin) as [Hj' Hpar]. split; [done|].
    destruct (GalleryDir.parent_id v) as [p|]; [|done]. destruct Hpar as (Hlt & y & Hy & Ho).
    split; [done|]. destruct (decide (p = i)) as [->|Hne].
    + exists d. split; [apply elem_of_collection_save_self|].
      rewrite (wf_collection_same_id db i y d0 Hwf Hy Hin0) in Ho. congruence.
    + exists y. split; [by apply elem_of_collection_save_other|done].
Qed.

(** Deleting a directory no stored directory names as its parent. *)
Lemma space_inv_delete_dir i :
  (forall j v, (j, v) ∈ collection db -> GalleryDir.parent_id v <> Some i) ->
  space_inv (snd (delete GalleryDir.t i db)).
Proof.
  destruct Hinv as [Ht Hwf]. intros Hnc. split; [|by apply wf_db_delete].
  intros j v [Hin Hj]%elem_of_collection_delete. destruct (Ht j v Hin) as [Hj' Hpar].
  unfold dir_ok. rewrite next_id_delete. split; [done|].
  destruct (GalleryDir.parent_id v) as [p|] eqn:Ep; [|done]. destruct Hpar as (Hlt & y & Hy & Ho).
  split; [done|]. exists y. split; [|done]. apply elem_of_collection_delete. split; [done|].
  intros ->. by apply (Hnc j v Hin).
Qed.
End DirWrites.

(** ** Deleting files and directories *)

(** A pass of the file loop: the forest and the directories untouched. *)
Definition files_only (c : list (oid * GalleryDir.t)) (n : oid) (s : DB) : Prop :=
  space_inv s /\ collection (D:=GalleryDir.t) s = c /\ next_id s = n.

Lemma preserves_files_only_delete c n i : preserves (files_only c n) (delete GalleryFile.t i).
Proof.
  intros s (Hs & Hc & Hn). split_and!; [by apply space_inv_delete_file| |done].
  exact (keeps_delete_other dirs_files_disjoint i c s Hc).
Qed.

Lemma preserves_space_inv_delete_file i : preserves space_inv (delete GalleryFile.t i).
Proof. intros s Hs. by apply space_inv_delete_file. Qed.

#[local] Hint Resolve preserves_files_only_delete preserves_space_inv_delete_file : preserve.

Lemma delete_file_files_only env file_id uid c n :
  preserves (files_only c n) (FileService.delete_file env file_id uid).
Proof. unfold FileService.delete_file, wrap_500. preserve. Qed.

(** The directories after are some of those before; no id is spent. *)
Definition shrinks (s s' : DB) : Prop :=
  next_id s' = next_id s /\
  forall j v, (j, v) ∈ collection (D:=GalleryDir.t) s' -> (j, v) ∈ collection s.

#[local] Instance shrinks_refl : Reflexive shrinks.
Proof. by intros s. Qed.

#[local] Instance shrinks_trans : Transitive shrinks.
Proof. intros s1 s2 s3 [E1 H1] [E2 H2]. split; [congruence|auto]. Qed.

Lemma files_only_shrinks s s' : files_only (collection s) (next_id s) s' -> shrinks s s'.
Proof. intros (_ & Hc & Hn). split; [done|]. by rewrite Hc. Qed.

#[local] Arguments delete : simpl never.

Lemma shrinks_delete_dir s i : shrinks s (snd (delete GalleryDir.t i s)).
Proof. split; [apply next_id_delete|]. intros j v [Hin _]%elem_of_collection_delete. done. Qed.

Lemma dir_q_true did o i d : dir_q did o i d = true -> i = did /\ GalleryDir.owner d = o.
Proof. unfold dir_q. by intros [?%N.eqb_eq ?%N.eqb_eq]%andb_true_iff. Qed.

(** After the loops of [delete_directory], once every subdirectory the
    second loop read is gone, no directory names the deleted one as its
    parent: a child has the owner of its parent, so the owner filter of
    the query misses none. *)
Lemma no_children_left s s1 s2 did o i d :
  files_only (collection s) (next_id s) s1 -> find_one_in s (dir_q did o) = Some (i, d) ->
  shrinks s1 s2 ->
  (forall x, x ∈ find_in s1 (dirs_in (Some did) o) -> forall v, (x.1, v) ∉ collection (D:=GalleryDir.t) s2) ->
  forall j v, (j, v) ∈ collection s2 -> GalleryDir.parent_id v <> Some i.
Proof.
  intros ([Ht1 Hwf1] & Hc1 & _) Hf [_ Hsub] Hgone j v Hin Hp.
  apply Hsub in Hin as Hin1. destruct (Ht1 j v Hin1) as [_ Hpar]. rewrite Hp in Hpar.
  destruct Hpar as (_ & y & Hy & Hoy).
  assert (Hd1 : (i, d) ∈ collection (D:=GalleryDir.t) s1) by (rewrite Hc1; by eapply find_one_in_elem).
  rewrite (wf_collection_same_id s1 i y d Hwf1 Hy Hd1) in Hoy.
  destruct (dir_q_true did o i d (find_one_in_sat _ _ _ _ Hf)) as [-> Ho].
  apply (Hgone (j, v)) with v; [|done]. apply find_in_intro; [done|].
  unfold dirs_in. rewrite Hp, <- Hoy, Ho, N.eqb_refl. simpl. by apply bool_decide_eq_true.
Qed.

Ltac raised := split_and!; [done|reflexivity|discriminate].

Lemma delete_directory_shrinks env fuel : forall dir_id uid s, space_inv s ->
  let r := FileService.delete_directory env fuel dir_id uid true s in
  space_inv r.2 /\ shrinks s r.2 /\
  (forall b, r.1 = inr b -> forall i, parse_oid dir_id = Some i ->
     forall d, (i, d) ∉ collection (D:=GalleryDir.t) r.2).
Proof.
  induction fuel as [|fuel IH]; intros dir_id uid s Hs; [raised|].
  cbn [FileService.delete_directory]. unfold to_oid, find_one, find, not_found.
  destruct (parse_oid dir_id) as [did|] eqn:Hd; [|pyunfold; raised].
  destruct (parse_oid uid) as [o|] eqn:Ho; [|pyunfold; raised].
  pyunfold. destruct (find_one_in s (dir_q did o)) as [[i d]|] eqn:Hf; [|raised].
  pose proof (preserves_py_mapM (files_only (collection s) (next_id s)) _ (find_in s (files_in (Some did) o))
    (fun p => delete_file_files_only env (oid_str p.1) uid _ _) s (conj Hs (conj eq_refl eq_refl))) as Hl1.
  destruct (py_mapM _ (find_in s (files_in (Some did) o)) s) as [[e|ys] s1]; simpl in Hl1;
    [split_and!; [apply Hl1|by apply files_only_shrinks|discriminate]|].
  destruct (py_mapM_trace space_inv shrinks (fun p => FileService.delete_directory env fuel (oid_str p.1) uid true)
              (fun x s => forall v, (x.1, v) ∉ collection (D:=GalleryDir.t) s)
              (find_in s1 (dirs_in (Some did) o)) s1) as (Hs2 & Hsh2 & Hg2).
  { intros x s' Hx Hs'. destruct (IH (oid_str x.1) uid s' Hs') as (? & ? & Hgone). split_and!; [done..|].
    intros y Hy v. apply (Hgone y Hy). apply oid_str_roundtrip.
    destruct Hl1 as ([_ Hwf1] & _). destruct x as [j v']. apply find_in_elem in Hx as [Hx _].
    by eapply wf_id_bound. }
  { intros x s' s'' _ Hg [_ Hsub] v Hv. by apply (Hg v), Hsub. }
  { apply Hl1. }
  destruct (py_mapM _ (find_in s1 (dirs_in (Some did) o)) s1) as [[e|ys'] s2]; simpl in *;
    [split_and!; [done|etrans; [by apply files_only_shrinks|done]|discriminate]|].
  pose proof (no_children_left s s1 s2 did o i d Hl1 Hf Hsh2 (Hg2 ys' eq_refl)) as Hnc.
  split_and!; [by apply space_inv_delete_dir|
               etrans; [by apply files_only_shrinks|]; etrans; [exact Hsh2|apply shrinks_delete_dir]|].
  intros b _ i' Hi' d' [_ Hne]%elem_of_collection_delete. apply Hne.
  destruct (dir_q_true did o i d (find_one_in_sat _ _ _ _ Hf)) as [-> _]. congruence.
Qed.

(** ** Every write of the service keeps the forest *)

(** The store once the file [i] is stored. *)
Definition has_file (i : oid) (s : DB) : Prop :=
  space_inv s /\ exists f, (i, f) ∈ collection (D:=GalleryFile.t) s.

Lemma preserves_has_file_save i (f : GalleryFile.t) : preserves (has_file i) (save i f).
Proof.
  intros s [Hs [f0 Hin]]. split; [by eapply space_inv_save_file|].
  exists f. apply elem_of_collection_save_self.
Qed.

#[local] Hint Resolve preserves_has_file_save : preserve.

Lemma generate_thumbnail_has_file env `{Base64} i f c h :
  (forall e, preserves (has_file i) (h e)) ->
  preserves (has_file i) (py_try (generate_thumbnail env i f c) h).
Proof. intros Hh. apply preserves_py_try; [|done]. unfold generate_thumbnail. preserve. Qed.

Lemma opt_oid_state {S} x (s : S) : snd (opt_oid x s) = s.
Proof.
  unfold opt_oid, to_oid, mbind, pym_bind, mret, pym_ret, raise.
  destruct x as [x|]; [|done]. by destruct (str_truthy (Some x)), (parse_oid x).
Qed.

Lemma preserves_opt_oid (P : DB -> Prop) x : preserves P (opt_oid x).
Proof. intros s Hs. by rewrite opt_oid_state. Qed.

#[local] Hint Resolve preserves_opt_oid : preserve.

Lemma insert_doc_run {D} `{Document D} (d : D) s : insert d s = (inr (next_id s), snd (insert d s)).
Proof. done. Qed.

Lemma upload_file_inv env `{Base64} file uid dir s :
  space_inv s -> ids_left s -> space_inv (snd (FileService.upload_file env file uid dir s)).
Proof.
  intros Hs Hn. unfold FileService.upload_file, wrap_500. rewrite py_try_reraise_snd.
  unfold to_oid, lift_exn, mbind, pym_bind, mret, pym_ret, raise.
  cbn -[Documents.insert generate_thumbnail opt_oid].
  destruct (upload_from_stream _ _ _) as [e|g]; [done|].
  destruct (parse_oid uid) as [o|]; [|done].
  destruct (opt_oid dir s) as [[e|x] s1] eqn:E; pose proof (f_equal snd E) as Es;
    rewrite opt_oid_state in Es; simpl in Es; subst s1; [done|].
  rewrite insert_doc_run. cbn -[Documents.insert generate_thumbnail].
  match goal with |- context [py_try (generate_thumbnail env _ ?f ?c) ?h (snd (insert _ s))] =>
    pose proof (generate_thumbnail_has_file env (next_id s) f c h ltac:(by intros ? ?) (snd (insert f s))) as Hg;
    destruct (py_try (generate_thumbnail env _ f c) h (snd (insert f s))) as [[e|r] s2] end;
  (apply Hg; split; [by apply space_inv_insert_file|eexists; apply elem_of_collection_insert_self]).
Qed.

Lemma preserves_find_one_file {A} q (k : option (oid * GalleryFile.t) -> PyM DB A) :
  (forall i f, preserves (has_file i) (k (Some (i, f)))) -> preserves space_inv (k None) ->
  preserves space_inv (find_one q ≫= k).
Proof.
  intros Hk Hn s Hs. rewrite bind_run. unfold find_one, gets. simpl.
  destruct (find_one_in s q) as [[i f]|] eqn:Hf; [|by apply Hn].
  apply (Hk i f s). split; [done|]. exists f. by eapply find_one_in_elem.
Qed.

Lemma has_file_inv i s : has_file i s -> space_inv s.
Proof. by intros []. Qed.

(** [preserve], and a read of a file keeps the file's id in view. *)
Ltac space_preserve :=
  repeat match goal with
  | |- preserves space_inv (find_one (D:=GalleryFile.t) _ ≫= _) =>
      apply preserves_find_one_file; [intros ? ?|]
  | |- preserves _ (mbind _ _) => apply preserves_bind; [|intro]
  | |- preserves _ (match ?x with _ => _ end) => destruct x
  | |- preserves _ (let '(_, _) := ?x in _) => destruct x
  | |- preserves _ (py_try _ _) => apply preserves_py_try; [|intro]
  | |- preserves _ (py_mapM _ _) => apply preserves_py_mapM; intro
  | |- preserves _ _ => progress (eauto with preserve)
  end.

Lemma move_file_inv file_id uid target : preserves space_inv (FileService.move_file file_id uid target).
Proof. unfold FileService.move_file. cbv zeta. space_preserve. Qed.

Lemma delete_file_inv env file_id uid : preserves space_inv (FileService.delete_file env file_id uid).
Proof. unfold FileService.delete_file, wrap_500. preserve. Qed.

Lemma update_directory_inv dir_id uid name : preserves space_inv (FileService.update_directory dir_id uid name).
Proof.
  intros s Hs. unfold FileService.update_directory, to_oid, find_one, not_found.
  destruct (parse_oid dir_id) as [did|]; [|done]. destruct (parse_oid uid) as [o|]; [|done].
  unfold mbind, pym_bind, mret, pym_ret, gets, raise. cbn -[Documents.save set_dir_name].
  destruct (find_one_in s (dir_q did o)) as [[i d]|] eqn:Hf; [|done]. cbn -[Documents.save set_dir_name].
  pose proof (space_inv_save_dir s Hs i (set_dir_name d name) d (find_one_in_elem _ _ _ _ Hf) eq_refl eq_refl)
    as Hs'.
  by destruct (save i _ s) as [[e|u] s'].
Qed.

(** The [except] clauses of the service and of the endpoints only raise. *)
Lemma reraise_500_snd {A} p (m : PyM DB A) s : snd (reraise_500 p m s) = snd (m s).
Proof. unfold reraise_500, py_try. by destruct (m s) as [[[]|] s']. Qed.

Lemma wrap_500_snd {A} p (m : PyM DB A) s : snd (wrap_500 p m s) = snd (m s).
Proof. apply py_try_reraise_snd. Qed.

Lemma create_directory_inv env name uid parent s :
  space_inv s -> ids_left s -> space_inv (snd (FileService.create_directory env name uid parent s)).
Proof.
  intros Hs Hn. unfold FileService.create_directory. rewrite reraise_500_snd.
  unfold opt_oid, to_oid, find_one, not_found, mbind, pym_bind, mret, pym_ret, gets, raise.
  assert (Hins : forall d, parent_stored s d -> space_inv (let (r, s') := insert d s in
            match r with inl e => (inl e, s') | inr x => (inr (x, d), s') end).2).
  { intros d Hd. rewrite insert_doc_run. by apply space_inv_insert_dir. }
  destruct parent as [p|]; [destruct (str_truthy (Some p)) eqn:Ht|];
    destruct (parse_oid uid) as [o|]; cbn -[Documents.insert]; try done; try (by apply Hins); try (by destruct (parse_oid p)).
  destruct (parse_oid p) as [pid|] eqn:Hp; [|done]. cbn -[Documents.insert].
  destruct (find_one_in s (dir_q pid o)) as [[j y]|] eqn:Hf; [|done]. cbn -[Documents.insert].
  apply Hins. destruct (dir_q_true _ _ _ _ (find_one_in_sat _ _ _ _ Hf)) as [<- Ho].
  exists y. split; [by eapply find_one_in_elem|done].
Qed.

(** ** The reads *)

(** A handler that leaves the store as it found it, on every path. *)
Definition readonly {A} (m : PyM DB A) : Prop := forall s0, preserves (fun s => s = s0) m.

Lemma readonly_snd {A} (m : PyM DB A) s : readonly m -> snd (m s) = s.
Proof. intros Hm. by apply (Hm s s). Qed.

Lemma bind_readonly_snd {A B} (m : PyM DB A) (f : A -> PyM DB B) s :
  (forall x, readonly (f x)) -> snd ((m ≫= f) s) = snd (m s).
Proof. intros Hf. rewrite bind_run. destruct (m s) as [[e|x] s']; [done|]. by apply readonly_snd. Qed.

Lemma preserves_count_with_filter {A} (P : DB -> Prop) : preserves P (count_with_filter (A:=A)).
Proof. by intros s. Qed.

#[local] Hint Resolve preserves_count_with_filter : preserve.

Lemma list_user_files_readonly uid d s0 : preserves (fun s => s = s0) (FileService.list_user_files uid d).
Proof. unfold FileService.list_user_files, wrap_500. preserve. Qed.

Lemma get_directory_stats_readonly dir_id uid s0 :
  preserves (fun s => s = s0) (FileService.get_directory_stats dir_id uid).
Proof. unfold FileService.get_directory_stats. preserve. Qed.

#[local] Hint Resolve list_user_files_readonly get_directory_stats_readonly : preserve.

Lemma convert_dir_to_response_readonly levels : forall load p s0,
  preserves (fun s => s = s0) (Studio.convert_dir_to_response levels load p).
Proof.
  induction levels as [|levels IH]; intros load [i d] s0; cbn [Studio.convert_dir_to_response]; preserve.
Qed.

#[local] Hint Resolve convert_dir_to_response_readonly : preserve.

Lemma get_space_readonly d uid s0 : preserves (fun s => s = s0) (Studio.get_space d uid).
Proof. unfold Studio.get_space, Studio.calculate_storage_stats. preserve. Qed.

#[local] Hint Resolve get_space_readonly : preserve.

Lemma directory_path_loop_readonly fuel : forall cur uid path s0,
  preserves (fun s => s = s0) (FileService.directory_path_loop fuel cur uid path).
Proof.
  induction fuel as [|fuel IH]; intros cur uid path s0; cbn [FileService.directory_path_loop];
    destruct (negb _); preserve.
Qed.

Lemma get_file_thumbnail_readonly env `{Base64} file_id uid s0 :
  preserves (fun s => s = s0) (FileService.get_file_thumbnail env file_id uid).
Proof. unfold FileService.get_file_thumbnail. cbv zeta. preserve. Qed.

#[local] Hint Resolve directory_path_loop_readonly get_file_thumbnail_readonly : preserve.

Lemma get_directory_details_readonly env `{Base64} dir_id c b t uid fuel s0 :
  preserves (fun s => s = s0) (Studio.get_directory_details env dir_id c b t uid fuel).
Proof.
  unfold Studio.get_directory_details, reraise_500, Studio.convert_dir_to_response_with_contents,
    Studio.convert_file_to_response_with_thumbnail, FileService.get_directory_path.
  cbv zeta. preserve.
Qed.

Ltac read_endpoint :=
  unfold Studio.download_file, Studio.get_file_thumbnail, Studio.get_thumbnails_batch, Studio.get_directory,
    Studio.thumbnail_info, FileService.get_file, PlaySpace.download_file, PlaySpace.get_file_thumbnail,
    PlaySpace.verify_subscription_access, reraise_500, wrap_500;
  cbv zeta; preserve.

Lemma download_file_readonly env file_id uid s0 :
  preserves (fun s => s = s0) (Studio.download_file env file_id uid).
Proof. read_endpoint. Qed.

Lemma studio_file_thumbnail_readonly env `{Base64} file_id uid s0 :
  preserves (fun s => s = s0) (Studio.get_file_thumbnail env file_id uid).
Proof. read_endpoint. Qed.

Lemma thumbnails_batch_readonly file_ids format uid s0 :
  preserves (fun s => s = s0) (Studio.get_thumbnails_batch file_ids format uid).
Proof. read_endpoint. Qed.

Lemma get_directory_readonly dir_id uid s0 : preserves (fun s => s = s0) (Studio.get_directory dir_id uid).
Proof. read_endpoint. Qed.

Lemma play_download_file_readonly env file_id uid s0 :
  preserves (fun s => s = s0) (PlaySpace.download_file env file_id uid).
Proof. read_endpoint. Qed.

Lemma play_file_thumbnail_readonly env `{Base64} file_id uid s0 :
  preserves (fun s => s = s0) (PlaySpace.get_file_thumbnail env file_id uid).
Proof. read_endpoint. Qed.

#[local] Hint Resolve get_directory_details_readonly download_file_readonly studio_file_thumbnail_readonly
  thumbnails_batch_readonly get_directory_readonly play_download_file_readonly play_file_thumbnail_readonly
  : preserve.

(** ** The endpoints *)

Lemma ret_readonly {A} (x : A) s0 : preserves (fun s => s = s0) (mret x : PyM DB A).
Proof. apply preserves_ret. Qed.

#[local] Hint Resolve ret_readonly : preserve.

(** An endpoint that runs one service write and then reads. *)
Lemma write_then_read {A B} p (m : PyM DB A) (f : A -> PyM DB B) s :
  (forall x s0, preserves (fun s => s = s0) (f x)) -> snd (reraise_500 p (m ≫= f) s) = snd (m s).
Proof. intros Hf. rewrite reraise_500_snd. apply bind_readonly_snd. intros x s0. apply Hf. Qed.

Ltac endpoint_write lem :=
  intros; unfold Studio.upload_file, Studio.create_directory, Studio.delete_file, Studio.move_file,
    Studio.update_directory, Studio.delete_directory;
  rewrite write_then_read; [apply lem; done|intros; preserve].

Section Endpoints.
Context (env : SpaceEnv) `{Base64}.

Lemma studio_upload_file_inv file dir uid s :
  space_inv s -> ids_left s -> space_inv (snd (Studio.upload_file env file dir uid s)).
Proof. endpoint_write upload_file_inv. Qed.

Lemma studio_create_directory_inv req uid s :
  space_inv s -> ids_left s -> space_inv (snd (Studio.create_directory env req uid s)).
Proof. endpoint_write create_directory_inv. Qed.

Lemma studio_delete_file_inv file_id uid : preserves space_inv (Studio.delete_file env file_id uid).
Proof. intros s. endpoint_write delete_file_inv. Qed.

Lemma studio_move_file_inv file_id req uid : preserves space_inv (Studio.move_file file_id req uid).
Proof. intros s. endpoint_write move_file_inv. Qed.

Lemma studio_update_directory_inv dir_id req uid : preserves space_inv (Studio.update_directory dir_id req uid).
Proof. intros s. endpoint_write update_directory_inv. Qed.

Lemma studio_delete_directory_inv stack dir_id uid : preserves space_inv (Studio.delete_directory env stack dir_id uid).
Proof. intros s. endpoint_write (fun s Hs => proj1 (delete_directory_shrinks env stack dir_id uid s Hs)). Qed.
End Endpoints.

(** ** The space as a transition system

    One step is one request to an endpoint of api/studio/space.py or
    api/play/space.py, by any caller, with any arguments; a request that
    inserts needs an id left in the generator. *)
Section Steps.
Context (env : SpaceEnv) `{Base64}.

Inductive space_step : relation DB :=
  | step_get_space d uid db : space_step db (snd (Studio.get_space d uid db))
  | step_upload_file file d uid db :
      ids_left db -> space_step db (snd (Studio.upload_file env file d uid db))
  | step_create_directory req uid db :
      ids_left db -> space_step db (snd (Studio.create_directory env req uid db))
  | step_delete_file file_id uid db : space_step db (snd (Studio.delete_file env file_id uid db))
  | step_move_file file_id req uid db : space_step db (snd (Studio.move_file file_id req uid db))
  | step_delete_directory stack dir_id uid db :
      space_step db (snd (Studio.delete_directory env stack dir_id uid db))
  | step_update_directory dir_id req uid db :
      space_step db (snd (Studio.update_directory dir_id req uid db))
  | step_download_file file_id uid db : space_step db (snd (Studio.download_file env file_id uid db))
  | step_get_file_thumbnail file_id uid db :
      space_step db (snd (Studio.get_file_thumbnail env file_id uid db))
  | step_get_thumbnails_batch file_ids format uid db :
      space_step db (snd (Studio.get_thumbnails_batch file_ids format uid db))
  | step_get_directory dir_id uid db : space_step db (snd (Studio.get_directory dir_id uid db))
  | step_get_directory_details dir_id c b t uid fuel db :
      space_step db (snd (Studio.get_directory_details env dir_id c b t uid fuel db))
  | step_play_download_file file_id uid db :
      space_step db (snd (PlaySpace.download_file env file_id uid db))
  | step_play_file_thumbnail file_id uid db :
      space_step db (snd (PlaySpace.get_file_thumbnail env file_id uid db)).

Lemma readonly_inv {A} (m : PyM DB A) db :
  (forall s0, preserves (fun s => s = s0) m) -> space_inv db -> space_inv (snd (m db)).
Proof. intros Hm Hs. by rewrite (Hm db db eq_refl). Qed.

Lemma space_step_inv db db' : space_step db db' -> space_inv db -> space_inv db'.
Proof.
  destruct 1; intros Hs; try solve [apply readonly_inv; [intros s0; eauto with preserve|done]].
  - by apply studio_upload_file_inv.
  - by apply studio_create_directory_inv.
  - by apply studio_delete_file_inv.
  - by apply studio_move_file_inv.
  - by apply studio_delete_directory_inv.
  - by apply studio_update_directory_inv.
Qed.
End Steps.

(** ** The breadcrumb loop ends on a forest *)

Lemma parse_oid_truthy s c : parse_oid s = Some c -> str_truthy (Some s) = true.
Proof. unfold parse_oid. by destruct s. Qed.

(** (C30) On a forest the breadcrumb loop of [get_directory_path]
    ends: from a directory id [c] it answers within [c + 1] passes, since
    each pass moves to the parent, whose id is smaller, and the answer does
    not depend on how many more passes it may run. A store with a cycle
    of parents would keep the request running forever. *)
Theorem directory_path_terminates db uid o :
  space_inv db -> parse_oid uid = Some o ->
  forall n cur c path, parse_oid cur = Some c -> (N.to_nat c < n)%nat ->
  exists res, forall fuel, (n <= fuel)%nat ->
    FileService.directory_path_loop fuel (Some cur) uid path db = (inr (Some res), db).
Proof.
  intros [Ht Hwf] Ho. induction n as [|n IH]; intros cur c path Hc Hn; [lia|].
  destruct (find_one_in db (dir_q c o)) as [[i d]|] eqn:Hf.
  - destruct (dir_q_true _ _ _ _ (find_one_in_sat _ _ _ _ Hf)) as [-> _].
    pose proof (find_one_in_elem _ _ _ _ Hf) as Hin. destruct (Ht c d Hin) as [_ Hpar].
    destruct (GalleryDir.parent_id d) as [p|] eqn:Ep.
    + destruct Hpar as (Hlt & y & Hy & _).
      destruct (IH (oid_str p) p ((oid_str c, GalleryDir.name d) :: path)) as [res Hres];
        [apply oid_str_roundtrip; by eapply wf_id_bound|lia|].
      exists res. intros [|fuel] Hfuel; [lia|]. cbn [FileService.directory_path_loop].
      rewrite (parse_oid_truthy _ _ Hc). simpl. unfold to_oid. rewrite Hc, Ho. pyunfold. rewrite Hf, Ep.
      apply Hres. lia.
    + exists ((oid_str c, GalleryDir.name d) :: path). intros [|fuel] Hfuel; [lia|].
      cbn [FileService.directory_path_loop]. rewrite (parse_oid_truthy _ _ Hc). simpl.
      unfold to_oid. rewrite Hc, Ho. pyunfold. rewrite Hf, Ep. by destruct fuel.
  - exists path. intros [|fuel] Hfuel; [lia|]. cbn [FileService.directory_path_loop].
    rewrite (parse_oid_truthy _ _ Hc). simpl. unfold to_oid. rewrite Hc, Ho. pyunfold. by rewrite Hf.
Qed.

(** ** A codec for the witnesses

    Each byte as two letters of [a..p], its high and low nibble: no
    comma, and it decodes back. *)
Module RefBase64.
Definition enc_byte (b : Byte.byte) : list Ascii.ascii :=
  let n := Ascii.N_of_ascii (Ascii.ascii_of_byte b) in
  [Ascii.ascii_of_N (97 + n / 16); Ascii.ascii_of_N (97 + n mod 16)].

Definition dec_byte (c1 c2 : Ascii.ascii) : Byte.byte :=
  Ascii.byte_of_ascii (Ascii.ascii_of_N (16 * (Ascii.N_of_ascii c1 - 97) + (Ascii.N_of_ascii c2 - 97))).

Fixpoint dec (l : list Ascii.ascii) : exn + bytes :=
  match l with
  | [] => inr []
  | c1 :: c2 :: l' => match dec l' with inr bs => inr (dec_byte c1 c2 :: bs) | inl e => inl e end
  | [_] => inl (PyException "Error" "Incorrect padding")
  end.

Definition encode (b : bytes) : string := String.string_of_list_ascii (flat_map enc_byte b).
Definition decode (s : string) : exn + bytes := dec (String.list_ascii_of_string s).

Lemma dec_enc_byte b l : dec (enc_byte b ++ l) = match dec l with inr bs => inr (b :: bs) | inl e => inl e end.
Proof. assert (E : forall c1 c2, enc_byte b = [c1; c2] -> dec_byte c1 c2 = b).
  { destruct b; intros c1 c2 [= <- <-]; reflexivity. }
  destruct (enc_byte b) as [|c1 [|c2 []]] eqn:Eb; try (destruct b; discriminate). simpl. by rewrite (E c1 c2).
Qed.

Lemma ref_decode_encode b : decode (encode b) = inr b.
Proof.
  unfold decode, encode. rewrite String.list_ascii_of_string_of_list_ascii.
  induction b as [|x b IH]; [done|]. cbn [flat_map]. rewrite dec_enc_byte, IH. done.
Qed.

Lemma encode_no_comma b : py_in_char (chr 44) (encode b) = false.
Proof.
  unfold py_in_char, encode. rewrite String.list_ascii_of_string_of_list_ascii.
  induction b as [|x b IH]; [done|]. cbn [flat_map]. rewrite existsb_app, IH, orb_false_r. by destruct x.
Qed.

#[export] Instance ref_base64 : Base64 := {|
  b64encode := encode; b64decode := decode;
  b64decode_encode := ref_decode_encode; b64encode_no_comma := encode_no_comma |}.
End RefBase64.

(** ** Runs of an upload *)

(** The file document once [generate_thumbnail] has run on it. *)
Definition thumbnail_outcome env `{Base64} (f : GalleryFile.t) (c : bytes) : GalleryFile.t :=
  match thumbnail_for env c (GalleryFile.file_format f) (GalleryFile.content_type f) with
  | inr (Some ((_ :: _) as b)) => set_thumbnail_base64 f (jpeg_data_url (b64encode b))
  | _ => f
  end.

(** No stored document has the generator's next id. *)
Lemma find_one_in_fresh {D} `{Document D} s q : wf_db s -> find_one_in (D:=D) s (fun j d => N.eqb j (next_id s) && q j d) = None.
Proof.
  intros (_ & Hlt & _). apply find_one_in_none. intros j d Hin%collection_elem.
  rewrite Forall_forall in Hlt. specialize (Hlt _ Hin). simpl in Hlt.
  destruct (N.eqb_spec j (next_id s)); [lia|done].
Qed.

Lemma upload_file_run env `{Base64} file uid dir s g o x :
  wf_db s -> upload_from_stream (fs env) (filename file) (content file) = inr g ->
  parse_oid uid = Some o -> opt_oid dir s = (inr x, s) ->
  let f := GalleryFile.mk (filename file) (str_or (upload_content_type file) "application/octet-stream")
             (file_format_of (filename file)) (lenZ (content file)) (now env) o None None g x in
  exists s', FileService.upload_file env file uid dir s = (inr (next_id s, thumbnail_outcome env f (content file)), s') /\
             find_one_in s' (file_q (next_id s) o) = Some (next_id s, thumbnail_outcome env f (content file)).
Proof.
  intros Hwf Hup Ho Hx f. unfold FileService.upload_file, wrap_500.
  unfold to_oid, lift_exn, mbind, pym_bind, mret, pym_ret, raise, py_try.
  cbn -[Documents.insert generate_thumbnail opt_oid]. rewrite Hup, Ho, Hx, insert_doc_run.
  cbn -[Documents.insert generate_thumbnail].
  assert (Hf : find_one_in (snd (insert f s)) (file_q (next_id s) o) = Some (next_id s, f)).
  { apply find_one_in_insert_new; [apply (find_one_in_fresh s (fun _ f => N.eqb (GalleryFile.owner f) o) Hwf)|].
    unfold file_q. by rewrite !N.eqb_refl. }
  unfold generate_thumbnail, thumbnail_outcome, lift_exn, py_try, mbind, pym_bind, mret, pym_ret.
  fold f. cbn -[Documents.insert Documents.save].
  destruct (thumbnail_for _ _ _ _) as [e|[[|b bs]|]]; cbn -[Documents.insert Documents.save]; eauto.
  eexists. split; [done|]. apply find_one_in_save_found with f; [done|]. unfold file_q. by rewrite !N.eqb_refl.
Qed.

Lemma jpeg_data_url_truthy t : str_truthy (Some (jpeg_data_url t)) = true.
Proof. done. Qed.

(** The payload of a JPEG data URL is the text after its comma. *)
Lemma jpeg_data_url_payload t :
  py_in_char (chr 44) t = false ->
  py_in_char (chr 44) (jpeg_data_url t) = true /\ nth 1 (py_split_sep (chr 44) (jpeg_data_url t)) "" = t.
Proof.
  unfold py_in_char, py_split_sep, jpeg_data_url. rewrite list_ascii_of_string_app. intros Ht. split.
  - rewrite existsb_app. done.
  - change (String.list_ascii_of_string "data:image/jpeg;base64," ++ String.list_ascii_of_string t)
      with (String.list_ascii_of_string "data:image/jpeg;base64" ++ chr 44 :: String.list_ascii_of_string t).
    rewrite split_sep_app_sep by done.
    rewrite split_sep_nosep by done. simpl. apply String.string_of_list_ascii_of_string.
Qed.

(** ** Deciding the invariant *)

Lemma parent_exists_Exists (l : list (oid * GalleryDir.t)) p o :
  (exists y, (p, y) ∈ l /\ GalleryDir.owner y = o) <-> Exists (fun q => q.1 = p /\ GalleryDir.owner q.2 = o) l.
Proof.
  rewrite Exists_exists. split.
  - intros (y & Hy & Ho). by exists (p, y).
  - intros ([q y] & Hq & <- & Ho). by exists y.
Qed.

#[global] Instance parent_exists_dec (l : list (oid * GalleryDir.t)) p o :
  Decision (exists y, (p, y) ∈ l /\ GalleryDir.owner y = o).
Proof.
  destruct (decide (Exists (fun q => q.1 = p /\ GalleryDir.owner q.2 = o) l)) as [H|H];
    [left|right]; by rewrite parent_exists_Exists.
Defined.

#[global] Instance dir_ok_dec db i d : Decision (dir_ok db i d).
Proof. unfold dir_ok. destruct (GalleryDir.parent_id d); apply _. Defined.

#[global] Instance dir_tree_dec db : Decision (dir_tree db).
Proof.
  destruct (decide (Forall (fun q => dir_ok db q.1 q.2) (collection (D:=GalleryDir.t) db))) as [H|H];
    [left|right]; unfold dir_tree; rewrite Forall_forall in H.
  - intros i d Hin. exact (H (i, d) Hin).
  - intros Ht. apply H. intros [i d]. apply Ht.
Defined.

(** ** The space's claims *)

Module SpaceDemo.
Import RefBase64.
Definition owner : oid := 1%N.
Definition uid : string := oid_str owner.
(** GridFS accepts every blob under id 100 and holds the byte [A]; the
    thumbnailer answers one byte. *)
Definition env : SpaceEnv :=
  mkSpaceEnv (mkGridFS (fun _ _ => inr 100%N) (fun _ => inr [Byte.x41]) (fun _ => inr tt))
             (fun _ _ _ => inr (Some [Byte.x07])) 1000.
Definition docs_dir : GalleryDir.t := GalleryDir.mk "docs" owner None 10.
Definition img_dir : GalleryDir.t := GalleryDir.mk "img" owner (Some 2%N) 11.
Definition photo : GalleryFile.t :=
  GalleryFile.mk "cat.PNG" "image/png" "png" 2048 12 owner None None 100%N (Some 3%N).
(** [docs/img/cat.PNG] of user 1 *)
Definition db0 : DB :=
  mkDB [(2%N, DGalleryDir docs_dir); (3%N, DGalleryDir img_dir); (4%N, DGalleryFile photo)] 5%N.

Lemma db0_inv : space_inv db0.
Proof. split; [|split; [|split]]; apply (bool_decide_unpack _); vm_compute; reflexivity. Qed.
End SpaceDemo.
Import SpaceDemo RefBase64.

(** (C28) A recursive [delete_directory] run from a forest leaves a
    forest on every path, whatever stops it (a GridFS error, a file gone
    in between, [RecursionError] when the stack runs out): it removes
    directories only, and when it answers [True] the directory is gone
    and no stored directory names it as its parent. *)
Theorem delete_directory_forest env stack dir_id uid db i :
  space_inv db -> parse_oid dir_id = Some i ->
  let r := FileService.delete_directory env stack dir_id uid true db in
  space_inv r.2 /\
  (forall j v, (j, v) ∈ collection (D:=GalleryDir.t) r.2 -> (j, v) ∈ collection db) /\
  (r.1 = inr true -> (forall d, (i, d) ∉ collection (D:=GalleryDir.t) r.2) /\
                     forall j v, (j, v) ∈ collection (D:=GalleryDir.t) r.2 -> GalleryDir.parent_id v <> Some i).
Proof.
  intros Hs Hi r. destruct (delete_directory_shrinks env stack dir_id uid db Hs) as (Hs' & [_ Hsub] & Hgone).
  split_and!; [done|done|]. intros Hr. specialize (Hgone true Hr i Hi).
  split; [done|]. intros j v Hin Hp. destruct (proj1 Hs' j v Hin) as [_ Hpar]. rewrite Hp in Hpar.
  destruct Hpar as (_ & y & Hy & _). by apply (Hgone y).
Qed.

(** Deleting [docs] with three frames of stack removes the whole tree. *)
Lemma delete_directory_forest_witness :
  space_inv db0 /\ parse_oid (oid_str 2%N) = Some 2%N /\
  fst (FileService.delete_directory env 3 (oid_str 2%N) uid true db0) = inr true /\
  space_inv (snd (FileService.delete_directory env 3 (oid_str 2%N) uid true db0)).
Proof.
  split_and!; [exact db0_inv|vm_compute; reflexivity|vm_compute; reflexivity|].
  exact (proj1 (delete_directory_forest env 3 (oid_str 2%N) uid db0 2%N db0_inv eq_refl)).
Defined.

(** (C29) Every state the space endpoints reach from a forest is a
    forest: requests to any endpoint of api/studio/space.py and
    api/play/space.py, by any caller, in any order. *)
Theorem space_reachable_forest env `{Base64} db db' :
  space_inv db -> rtc (space_step env) db db' -> space_inv db'.
Proof. intros Hs Hr. induction Hr as [|x y z Hxy _ IH]; [done|]. apply IH. by eapply space_step_inv. Qed.

(** Creating [docs/new] and then deleting [docs] keeps a forest. *)
Lemma space_reachable_forest_witness :
  space_inv db0 /\
  space_inv (snd (Studio.delete_directory env 5 (oid_str 2%N) uid
                    (snd (Studio.create_directory env (mkDirectoryCreateRequest (Some (oid_str 2%N)) "new") uid db0)))).
Proof.
  split; [exact db0_inv|]. apply (space_reachable_forest env db0); [exact db0_inv|].
  eapply rtc_l; [apply step_create_directory; unfold ids_left; vm_compute; reflexivity|].
  apply rtc_once, step_delete_directory.
Defined.

(** [docs/img] has the breadcrumbs [docs] then [img]. *)
Lemma directory_path_terminates_witness :
  space_inv db0 /\ parse_oid uid = Some owner /\ parse_oid (oid_str 3%N) = Some 3%N /\
  (N.to_nat 3%N < 4)%nat /\
  FileService.get_directory_path 4 (oid_str 3%N) uid db0 =
    (inr (Some [(oid_str 2%N, "docs"); (oid_str 3%N, "img")]), db0) /\
  exists res, forall fuel, (4 <= fuel)%nat ->
    FileService.directory_path_loop fuel (Some (oid_str 3%N)) uid [] db0 = (inr (Some res), db0).
Proof.
  split_and!; [exact db0_inv|vm_compute; reflexivity..|].
  apply (directory_path_terminates db0 uid owner db0_inv ltac:(vm_compute; reflexivity) 4 (oid_str 3%N) 3%N []);
    vm_compute; reflexivity.
Defined.

(** The directory [docs] holds [img], yet renders with zero counts. *)
Lemma rendered_directory_stats_zero_witness :
  fst (Studio.convert_dir_to_response 5 true (2%N, docs_dir) db0)
  = inr (IDir (Studio.dir_response 2%N docs_dir 0 0 0)
              (Some [IDir (Studio.dir_response 3%N img_dir 0 0 0)
                          (Some [IFile (Studio.convert_file_to_response (4%N, photo) false)])])) /\
  exists contents, fst (Studio.convert_dir_to_response 5 true (2%N, docs_dir) db0)
                   = inr (IDir (Studio.dir_response 2%N docs_dir 0 0 0) contents).
Proof. split; [vm_compute; reflexivity|apply rendered_directory_stats_zero]. Defined.

(** An upload writes files only. *)
Lemma preserves_dirs_insert_file c (f : GalleryFile.t) :
  preserves (fun db => collection (D:=GalleryDir.t) db = c) (insert f).
Proof. apply (keeps_insert_other dirs_files_disjoint f c). Qed.

Lemma preserves_dirs_save_file c i (f : GalleryFile.t) :
  preserves (fun db => collection (D:=GalleryDir.t) db = c) (save i f).
Proof. apply (keeps_save_other dirs_files_disjoint i f c). Qed.

#[local] Hint Resolve preserves_dirs_insert_file preserves_dirs_save_file : preserve.

Lemma upload_file_keeps_dirs env `{Base64} file uid dir :
  keeps GalleryDir.t (FileService.upload_file env file uid dir).
Proof. intros c. unfold FileService.upload_file, wrap_500, generate_thumbnail. cbv zeta. preserve. Qed.

Lemma thumbnail_outcome_directory env `{Base64} f c :
  GalleryFile.directory_id (thumbnail_outcome env f c) = GalleryFile.directory_id f.
Proof. unfold thumbnail_outcome. by destruct (thumbnail_for _ _ _ _) as [?|[[|? ?]|]]. Qed.

(** (C32) [upload_file] never checks the directory it is given, unlike
    [move_file] and [create_directory]: an upload into an id that names
    no directory of the caller succeeds and stores the file under that
    id, where no listing of the caller shows it, while moving the same
    file to the same id is refused with 404. *)
Theorem upload_skips_directory_check env `{Base64} file uid dir s g o x :
  wf_db s -> ids_left s -> upload_from_stream (fs env) (filename file) (content file) = inr g ->
  parse_oid uid = Some o -> parse_oid dir = Some x -> find_one_in (D:=GalleryDir.t) s (dir_q x o) = None ->
  exists f s', FileService.upload_file env file uid (Some dir) s = (inr (next_id s, f), s') /\
    GalleryFile.directory_id f = Some x /\
    fst (FileService.move_file (oid_str (next_id s)) uid (Some dir) s') =
      inl (HTTPException 404 "Target directory not found").
Proof.
  intros Hwf Hn Hup Ho Hd Hnone.
  assert (Hx : opt_oid (Some dir) s = (inr (Some x), s)).
  { unfold opt_oid, to_oid. rewrite (parse_oid_truthy _ _ Hd), Hd. done. }
  destruct (upload_file_run env file uid (Some dir) s g o (Some x) Hwf Hup Ho Hx) as (s' & E & Hf).
  eexists _, s'. split; [exact E|]. split; [by rewrite thumbnail_outcome_directory|].
  assert (Hnone' : find_one_in (D:=GalleryDir.t) s' (dir_q x o) = None).
  { rewrite <- Hnone. apply find_one_in_same.
    pose proof (upload_file_keeps_dirs env file uid (Some dir) (collection s) s eq_refl) as Hk.
    by rewrite E in Hk. }
  unfold FileService.move_file, to_oid, find_one, not_found.
  rewrite (oid_str_roundtrip _ Hn), Ho. unfold mbind, pym_bind, mret, pym_ret, gets, raise.
  cbv beta iota. rewrite Hf. cbv beta iota. rewrite (parse_oid_truthy _ _ Hd). unfold default, from_option, id. rewrite Hd.
  cbv beta iota. by rewrite Hnone'.
Qed.

(** What the thumbnailer answered for an upload is what the thumbnail
    endpoint's service method reads back. *)
Lemma upload_thumbnail_read env `{Base64} file uid dir s g o x b :
  wf_db s -> ids_left s -> upload_from_stream (fs env) (filename file) (content file) = inr g ->
  parse_oid uid = Some o -> opt_oid dir s = (inr x, s) ->
  thumbnail_for env (content file) (file_format_of (filename file))
    (str_or (upload_content_type file) "application/octet-stream") = inr (Some b) -> b <> [] ->
  fst (FileService.get_file_thumbnail env (oid_str (next_id s)) uid
         (snd (FileService.upload_file env file uid dir s))) = inr (Some b).
Proof.
  intros Hwf Hn Hup Ho Hx Hth Hb.
  destruct (upload_file_run env file uid dir s g o x Hwf Hup Ho Hx) as (s' & E & Hf). rewrite E.
  unfold FileService.get_file_thumbnail, to_oid, find_one. rewrite (oid_str_roundtrip _ Hn), Ho.
  unfold mbind, pym_bind, mret, pym_ret, gets. cbv beta iota. cbn [snd]. rewrite Hf. cbv beta iota zeta.
  unfold thumbnail_outcome. cbn [GalleryFile.file_format GalleryFile.content_type]. rewrite Hth.
  destruct b as [|b0 bs]; [done|]. cbn [set_thumbnail_base64 GalleryFile.thumbnail_base64].
  destruct (jpeg_data_url_payload (b64encode (b0 :: bs)) (b64encode_no_comma _)) as [Hc Hp].
  rewrite jpeg_data_url_truthy. cbn [default from_option id]. rewrite Hc, Hp, b64decode_encode. done.
Qed.

(** (C33) A thumbnail stored by an upload reads back: when the
    thumbnailer answers the bytes [b], [get_file_thumbnail] on the new
    file returns [b], through the JPEG data URL, its split at the comma
    and base64 in both directions. *)
Theorem thumbnail_roundtrip env `{Base64} file uid dir s g o x b :
  wf_db s -> ids_left s -> upload_from_stream (fs env) (filename file) (content file) = inr g ->
  parse_oid uid = Some o -> opt_oid dir s = (inr x, s) ->
  thumbnail_for env (content file) (file_format_of (filename file))
    (str_or (upload_content_type file) "application/octet-stream") = inr (Some b) -> b <> [] ->
  fst (FileService.get_file_thumbnail env (oid_str (next_id s)) uid
         (snd (FileService.upload_file env file uid dir s))) = inr (Some b).
Proof. exact (upload_thumbnail_read env file uid dir s g o x b). Qed.

Definition notes : UploadFile := mkUploadFile "notes.txt" (Some "text/plain") [Byte.x68; Byte.x69].

(** User 1 uploads into directory 9, which does not exist. *)
Lemma upload_skips_directory_check_witness :
  wf_db db0 /\ ids_left db0 /\ upload_from_stream (fs env) (filename notes) (content notes) = inr 100%N /\
  parse_oid uid = Some owner /\ parse_oid (oid_str 9%N) = Some 9%N /\
  find_one_in (D:=GalleryDir.t) db0 (dir_q 9%N owner) = None /\
  exists f s', FileService.upload_file env notes uid (Some (oid_str 9%N)) db0 = (inr (next_id db0, f), s') /\
    GalleryFile.directory_id f = Some 9%N /\
    fst (FileService.move_file (oid_str (next_id db0)) uid (Some (oid_str 9%N)) s') =
      inl (HTTPException 404 "Target directory not found").
Proof.
  assert (Hwf : wf_db db0) by apply db0_inv.
  split_and!; [exact Hwf|unfold ids_left; vm_compute; reflexivity|reflexivity|vm_compute; reflexivity..|].
  apply (upload_skips_directory_check env notes uid (oid_str 9%N) db0 100%N owner 9%N); [exact Hwf|unfold ids_left; vm_compute; reflexivity|
    reflexivity|vm_compute; reflexivity..].
Defined.

(** The thumbnail byte 7 stored with [notes.txt] reads back. *)
Lemma thumbnail_roundtrip_witness :
  wf_db db0 /\ ids_left db0 /\ opt_oid (S:=DB) None db0 = (inr None, db0) /\
  thumbnail_for env (content notes) (file_format_of (filename notes))
    (str_or (upload_content_type notes) "application/octet-stream") = inr (Some [Byte.x07]) /\
  fst (FileService.get_file_thumbnail env (oid_str (next_id db0)) uid
         (snd (FileService.upload_file env notes uid None db0))) = inr (Some [Byte.x07]).
Proof.
  assert (Hwf : wf_db db0) by apply db0_inv.
  split_and!; [exact Hwf|unfold ids_left; vm_compute; reflexivity|reflexivity..|].
  apply (thumbnail_roundtrip env notes uid None db0 100%N owner None); [exact Hwf|unfold ids_left; vm_compute; reflexivity|
    reflexivity|vm_compute; reflexivity|reflexivity|reflexivity|discriminate].
Defined.

(** (C34) The player's access check does not look at the file beyond
    its owner: for two stored files of one owner, a caller may fetch the
    one exactly when the caller may fetch the other. The check asks for
    a progress record on the owner's first channel only, so a subscriber
    of the owner's other channel is refused every file, and a subscriber
    of the first is granted every file, whatever directory it is in. *)
Theorem play_access_per_owner db uid fid1 fid2 i1 i2 (f1 f2 : GalleryFile.t) :
  parse_oid fid1 = Some i1 -> parse_oid fid2 = Some i2 ->
  find_one_in (D:=GalleryFile.t) db (fun j _ => N.eqb j i1) = Some (i1, f1) ->
  find_one_in (D:=GalleryFile.t) db (fun j _ => N.eqb j i2) = Some (i2, f2) ->
  GalleryFile.owner f1 = GalleryFile.owner f2 ->
  (exists r, fst (PlaySpace.verify_subscription_access fid1 uid db) = inr r) <->
  (exists r, fst (PlaySpace.verify_subscription_access fid2 uid db) = inr r).
Proof.
  intros H1 H2 F1 F2 Ho.
  unfold PlaySpace.verify_subscription_access, to_oid, find_one, not_found.
  rewrite H1, H2. unfold mbind, pym_bind, mret, pym_ret, gets, raise. cbv beta iota.
  destruct (parse_oid uid) as [u|]; cbv beta iota; [|split; intros [? ?]; discriminate].
  destruct (find_one_in (D:=User.t) db _) as [[]|]; cbv beta iota; [|split; intros [? ?]; discriminate].
  rewrite F1, F2, Ho. cbv beta iota.
  destruct (find_one_in (D:=Channel.t) db _) as [[? c]|]; cbv beta iota; [|split; intros [? ?]; discriminate].
  destruct (find_one_in (D:=PlayerProgress.t) db _) as [[]|]; cbv beta iota; split; intros [? ?]; try discriminate; eauto.
Qed.

Definition player : User.t :=
  User.mk "p@example.com" None None None None Player Local true None None None None None None None None None 0
          None None.
Definition channel_of (cid : string) : Channel.t :=
  Channel.mk owner "Course" cid "" 0 0 0 0 0 0 0 0 None None None None (Some true) None 0 (JDict []).
Definition progress_b : PlayerProgress.t :=
  PlayerProgress.mk (oid_str 20%N) "ch-b" false None 0 None (JDict []) 0 0.
Definition report : GalleryFile.t :=
  GalleryFile.mk "report.pdf" "application/pdf" "pdf" 4096 13 owner None None 101%N None.
(** User 20 follows channel [ch-b] of user 1, whose first channel is [ch-a]. *)
Definition play_db : DB :=
  mkDB (docs db0 ++ [(20%N, DUser player); (21%N, DChannel (channel_of "ch-a"));
                     (22%N, DChannel (channel_of "ch-b")); (23%N, DPlayerProgress progress_b);
                     (24%N, DGalleryFile report)]) 25%N.

(** The follower of [ch-b] is refused both files of user 1. *)
Lemma play_access_per_owner_witness :
  fst (PlaySpace.verify_subscription_access (oid_str 4%N) (oid_str 20%N) play_db)
    = inl (HTTPException 403 "Access denied - subscription required") /\
  ((exists r, fst (PlaySpace.verify_subscription_access (oid_str 4%N) (oid_str 20%N) play_db) = inr r) <->
   (exists r, fst (PlaySpace.verify_subscription_access (oid_str 24%N) (oid_str 20%N) play_db) = inr r)).
Proof.
  split; [vm_compute; reflexivity|].
  apply (play_access_per_owner play_db (oid_str 20%N) (oid_str 4%N) (oid_str 24%N) 4%N 24%N photo report);
    vm_compute; reflexivity.
Defined.

(** [get_directory] with a malformed directory id answers 500, and
    its detail carries the status three times over: the listing's
    [except] turns [InvalidId] into a 500, [get_space]'s blanket [except]
    wraps that exception's text, and [get_directory], which unlike the
    other endpoints has no [except HTTPException: raise], wraps it once
    more. The store is untouched. *)
Theorem get_directory_malformed_id dir_id uid db :
  dir_id <> "" -> parse_oid dir_id = None ->
  Studio.get_directory dir_id uid db =
    (inl (HTTPException 500 ("Directory retrieval failed: 500: 500: File listing failed: " +:+
                             dir_id +:+ " is not a valid ObjectId")), db).
Proof.
  intros Hne Hd. unfold Studio.get_directory, wrap_500, Studio.get_space, except_500,
    FileService.list_user_files, wrap_500, opt_oid, to_oid.
  assert (Ht : str_truthy (Some dir_id) = true).
  { unfold str_truthy. destruct (String.eqb_spec dir_id ""); [done|reflexivity]. }
  rewrite Ht, Hd. reflexivity.
Qed.

(** The id [bad] is not 24 hexadecimal digits. *)
Lemma get_directory_malformed_id_witness :
  "bad" <> "" /\ parse_oid "bad" = None /\
  Studio.get_directory "bad" uid db0 =
    (inl (HTTPException 500 "Directory retrieval failed: 500: 500: File listing failed: bad is not a valid ObjectId"),
     db0).
Proof.
  split_and!; [discriminate|reflexivity|].
  apply (get_directory_malformed_id "bad" uid db0); [discriminate|reflexivity].
Defined.

(** Two gigabytes stored: 200 percent of the quota. *)
Lemma storage_stats_whole_mb_witness :
  0 <= 2048 <= 2048 /\
  fst (Studio.calculate_storage_stats (S:=DB) (2048 * 2 ^ 20) 1024 db0) = inr (mkStorageStats 2048 0 1024 200).
Proof. split; [lia|]. apply (storage_stats_whole_mb 2048 db0). lia. Defined.

(** [cat.PNG] is a [png]; [a.tar.gz] a [gz]; [README] [unknown]. *)
Lemma file_format_of_spec_witness :
  String.list_ascii_of_string "a.tar.gz" = String.list_ascii_of_string "a.tar" ++ chr 46 :: String.list_ascii_of_string "gz" /\
  existsb (Ascii.eqb (chr 46)) (String.list_ascii_of_string "gz") = false /\
  file_format_of "a.tar.gz" = "gz" /\ file_format_of "cat.PNG" = "png" /\ file_format_of "README" = "unknown".
Proof.
  split_and!; [reflexivity|reflexivity| |reflexivity|].
  - transitivity (py_lower (String.string_of_list_ascii (String.list_ascii_of_string "gz"))); [|reflexivity].
    apply (proj1 (file_format_of_spec "a.tar.gz") (String.list_ascii_of_string "a.tar")); reflexivity.
  - apply (proj2 (file_format_of_spec "README")). reflexivity.
Defined.
