(* ===== verification/Thumbnails.v ===== *)
(** * Thumbnail generation (services/thumbnail_service.py, settings.py)

    [ThumbnailService.generate_thumbnail(file_content, file_format,
    content_type)] picks a generator by the lowercased format: PIL's
    thumbnail of an image, the middle frame of a video (OpenCV), an icon
    for documents (PDFs included: the page count is read and an icon
    drawn anyway), audio and every other format. Each generator catches
    its own exceptions: an image PIL cannot read gives no thumbnail, a
    video that fails gives the video icon, an icon that fails to draw
    gives none.

    The imaging libraries are an oracle, the record [Imaging]: whether
    PIL, OpenCV and PyPDF2 imported, PIL's thumbnail pipeline, OpenCV's
    frame grab, PyPDF2's page count, the two font loads and PIL's drawing
    of the icon. The model computes what the code computes around them:
    the dispatch on the type sets of [settings.THUMBNAIL], the sizes and
    qualities, the icon's label ([file_type.upper()[:4]]) and accent
    colour. The service's [print] calls only log and are left out.

    Plugged into the file service as the [thumbnail_for] of [SpaceEnv]
    ([service_env]), it gives what an upload stores and what the
    thumbnail endpoint reads back. *)

From S2P Require Import Prelude ObjectId Json PyString Documents Space SpaceProps.

(** ** settings.THUMBNAIL (settings.py lines 176-221) *)

Record ThumbSize := mkThumbSize { WIDTH : Z; HEIGHT : Z; QUALITY : Z }.

Definition THUMBNAIL_IMAGE : ThumbSize := mkThumbSize 200 200 85.
Definition THUMBNAIL_VIDEO : ThumbSize := mkThumbSize 200 200 80.

Definition IMAGE_TYPES : list string := ["jpg"; "jpeg"; "png"; "gif"; "bmp"; "tiff"; "webp"; "svg"; "ico"].
Definition VIDEO_TYPES : list string := ["mp4"; "avi"; "mov"; "wmv"; "flv"; "webm"; "mkv"; "m4v"; "3gp"].
Definition DOCUMENT_TYPES : list string := ["pdf"; "doc"; "docx"; "xls"; "xlsx"; "ppt"; "pptx"; "txt"].
Definition AUDIO_TYPES : list string := ["mp3"; "wav"; "flac"; "aac"; "ogg"; "wma"; "m4a"].

(** [x in S] for a set of strings *)
Definition py_in_set (x : string) (S : list string) : bool := existsb (String.eqb x) S.

Definition rgb : Type := Z * Z * Z.

Record Imaging := mkImaging {
  (** the [try: import ...] flags of lines 6-23 *)
  PIL_AVAILABLE : bool;
  CV2_AVAILABLE : bool;
  PDF_AVAILABLE : bool;
  (** [Image.open], conversion to RGB, [image.thumbnail((w, h))] and
      [image.save(format='JPEG', quality=q)] of lines 91-113 *)
  pil_thumbnail : bytes -> ThumbSize -> exn + bytes;
  (** lines 126-163: the temporary file, [cv2.VideoCapture], the middle
      frame, its thumbnail; [None] when the capture is not opened or no
      frame is read *)
  video_frame_thumbnail : bytes -> ThumbSize -> exn + option bytes;
  (** [len(PyPDF2.PdfReader(io.BytesIO(content)).pages)] *)
  pdf_page_count : bytes -> exn + nat;
  (** [ImageFont.truetype("/usr/share/fonts/.../DejaVuSans-Bold.ttf", 24)] *)
  truetype_font : exn + unit;
  (** [ImageFont.load_default()] *)
  load_default_font : exn + unit;
  (** lines 216-262: a [w] by [h] grey canvas with a border, the label
      centred when there is a font, the accent square, saved as JPEG *)
  draw_icon : ThumbSize -> option string -> rgb -> exn + bytes
}.

Module ThumbnailService.
Section Service.
Variable img : Imaging.

(** lines 245-254 *)
Definition icon_colors : list (string * rgb) :=
  [("image", (0, 150, 255)); ("video", (255, 100, 100)); ("audio", (100, 255, 100));
   ("pdf", (255, 0, 0)); ("document", (0, 100, 255)); ("txt", (100, 100, 100))].

Definition icon_color (file_type : string) : rgb :=
  default (150, 150, 150) (snd <$> List.find (fun kv => String.eqb kv.1 file_type) icon_colors).

(** [_generate_default_thumbnail] (lines 210-266) *)
Definition default_thumbnail (file_type : string) : exn + option bytes :=
  if negb (PIL_AVAILABLE img) then inr None
  else
    let font := match truetype_font img with
                | inr _ => true
                | inl _ => match load_default_font img with inr _ => true | inl _ => false end
                end in
    let text := if font then Some (py_prefix 4 (py_upper file_type)) else None in
    match draw_icon img THUMBNAIL_IMAGE text (icon_color file_type) with
    | inr b => inr (Some b)
    | inl _ => inr None
    end.

(** [_generate_image_thumbnail] (lines 84-117) *)
Definition image_thumbnail (file_content : bytes) : exn + option bytes :=
  if negb (PIL_AVAILABLE img) then inr None
  else match pil_thumbnail img file_content THUMBNAIL_IMAGE with
       | inr b => inr (Some b)
       | inl _ => inr None
       end.

(** [_generate_video_thumbnail] (lines 119-177) *)
Definition video_thumbnail (file_content : bytes) : exn + option bytes :=
  if negb (CV2_AVAILABLE img) || negb (PIL_AVAILABLE img) then default_thumbnail "video"
  else match video_frame_thumbnail img file_content THUMBNAIL_VIDEO with
       | inr (Some b) => inr (Some b)
       | inr None => default_thumbnail "video"
       | inl _ => default_thumbnail "video"
       end.

(** [_generate_pdf_thumbnail] (lines 186-204): every path draws the pdf
    icon. *)
Definition pdf_thumbnail (file_content : bytes) : exn + option bytes :=
  if negb (PDF_AVAILABLE img) || negb (PIL_AVAILABLE img) then default_thumbnail "pdf"
  else match pdf_page_count img file_content with
       | inr O => default_thumbnail "pdf"
       | inr _ => default_thumbnail "pdf"
       | inl _ => default_thumbnail "pdf"
       end.

(** [_generate_document_thumbnail] (lines 179-184) *)
Definition document_thumbnail (file_content : bytes) (file_format : string) : exn + option bytes :=
  if String.eqb file_format "pdf" then pdf_thumbnail file_content else default_thumbnail "document".

(** [_generate_audio_thumbnail] (lines 206-208) *)
Definition audio_thumbnail : exn + option bytes := default_thumbnail "audio".

(** [generate_thumbnail] (lines 59-82) *)
Definition generate_thumbnail (file_content : bytes) (file_format content_type : string) : exn + option bytes :=
  let file_format_lower := py_lower file_format in
  let r := if py_in_set file_format_lower IMAGE_TYPES then image_thumbnail file_content
           else if py_in_set file_format_lower VIDEO_TYPES then video_thumbnail file_content
           else if py_in_set file_format_lower DOCUMENT_TYPES then document_thumbnail file_content file_format_lower
           else if py_in_set file_format_lower AUDIO_TYPES then audio_thumbnail
           else default_thumbnail file_format_lower in
  match r with
  | inl _ => default_thumbnail file_format_lower
  | inr o => inr o
  end.
End Service.
End ThumbnailService.

(** The file service of an application whose thumbnails come from
    [ThumbnailService] (file_service.py lines 341-364). *)
Definition service_env (img : Imaging) (fs : GridFS) (now : datetime) : SpaceEnv :=
  mkSpaceEnv fs (ThumbnailService.generate_thumbnail img) now.

(** ** What the service answers *)

(** The icon a format outside the image and video sets gets: documents
    the document icon (PDFs the pdf icon), audio the audio icon, any
    other format an icon of its own name. *)
Definition icon_category (f : string) : string :=
  if py_in_set f DOCUMENT_TYPES then (if String.eqb f "pdf" then "pdf" else "document")
  else if py_in_set f AUDIO_TYPES then "audio"
  else f.

Section ServiceProps.
Variable img : Imaging.

Lemma default_thumbnail_inr t : exists o, ThumbnailService.default_thumbnail img t = inr o.
Proof. unfold ThumbnailService.default_thumbnail. repeat case_match; eauto. Qed.

Lemma pdf_thumbnail_default c : ThumbnailService.pdf_thumbnail img c = ThumbnailService.default_thumbnail img "pdf".
Proof. unfold ThumbnailService.pdf_thumbnail. repeat case_match; done. Qed.

Lemma video_thumbnail_inr c : exists o, ThumbnailService.video_thumbnail img c = inr o.
Proof. unfold ThumbnailService.video_thumbnail. repeat case_match; eauto using default_thumbnail_inr. Qed.

(** The service never raises: every generator catches its exceptions. *)
Lemma generate_thumbnail_total c f ct : exists o, ThumbnailService.generate_thumbnail img c f ct = inr o.
Proof.
  unfold ThumbnailService.generate_thumbnail.
  destruct (default_thumbnail_inr (py_lower f)) as [o0 H0].
  case_match; eauto.
Qed.

(** Outside the image and video sets the answer is the category's icon. *)
Lemma generate_thumbnail_icon c f ct :
  py_in_set (py_lower f) IMAGE_TYPES = false -> py_in_set (py_lower f) VIDEO_TYPES = false ->
  ThumbnailService.generate_thumbnail img c f ct =
    ThumbnailService.default_thumbnail img (icon_category (py_lower f)).
Proof.
  intros Hi Hv. unfold ThumbnailService.generate_thumbnail, icon_category. rewrite Hi, Hv.
  destruct (py_in_set _ DOCUMENT_TYPES).
  - unfold ThumbnailService.document_thumbnail. destruct (String.eqb _ "pdf").
    + rewrite pdf_thumbnail_default. by destruct (default_thumbnail_inr "pdf") as [? ->].
    + by destruct (default_thumbnail_inr "document") as [? ->].
  - unfold ThumbnailService.audio_thumbnail. destruct (py_in_set _ AUDIO_TYPES).
    + by destruct (default_thumbnail_inr "audio") as [? ->].
    + by destruct (default_thumbnail_inr (py_lower f)) as [? ->].
Qed.

(** An image PIL cannot read (an SVG, which PIL does not decode, or a
    corrupt file) gets no thumbnail at all, not the icon other failures
    fall back to. *)
Lemma image_unreadable_no_thumbnail c f ct e :
  py_in_set (py_lower f) IMAGE_TYPES = true ->
  pil_thumbnail img c THUMBNAIL_IMAGE = inl e ->
  ThumbnailService.generate_thumbnail img c f ct = inr None.
Proof.
  intros Hi He. unfold ThumbnailService.generate_thumbnail, ThumbnailService.image_thumbnail.
  rewrite Hi, He. by destruct (PIL_AVAILABLE img).
Qed.
End ServiceProps.

Lemma file_format_of_lower name : py_lower (file_format_of name) = file_format_of name.
Proof. unfold file_format_of. destruct (py_in_char _ _); [apply py_lower_idem|reflexivity]. Qed.

(** (C40) The file service and the thumbnail service together: with
    [ThumbnailService] as the thumbnailer, a file whose format is in
    neither the image nor the video set is stored with its category's
    icon (the document icon for office files and text, the pdf icon for
    PDFs, the audio icon for audio, an icon of its own name otherwise),
    and the thumbnail endpoint's service method reads exactly the icon's
    bytes back. *)
Theorem uploaded_file_icon img gridfs now `{Base64} file uid dir s g o x b :
  wf_db s -> ids_left s -> upload_from_stream gridfs (filename file) (content file) = inr g ->
  parse_oid uid = Some o -> opt_oid dir s = (inr x, s) ->
  py_in_set (file_format_of (filename file)) IMAGE_TYPES = false ->
  py_in_set (file_format_of (filename file)) VIDEO_TYPES = false ->
  ThumbnailService.default_thumbnail img (icon_category (file_format_of (filename file))) = inr (Some b) ->
  b <> [] ->
  fst (FileService.get_file_thumbnail (service_env img gridfs now) (oid_str (next_id s)) uid
         (snd (FileService.upload_file (service_env img gridfs now) file uid dir s))) = inr (Some b).
Proof.
  intros Hwf Hn Hup Ho Hx Hi Hv Hd Hb.
  apply (upload_thumbnail_read (service_env img gridfs now) file uid dir s g o x b); try done.
  cbn [thumbnail_for service_env]. rewrite generate_thumbnail_icon; rewrite ?file_format_of_lower; done.
Qed.

Import SpaceDemo RefBase64.

(** PIL and both fonts load; the icon is one byte whatever it shows. *)
Definition demo_imaging : Imaging :=
  mkImaging true false false (fun _ _ => inr [Byte.x01]) (fun _ _ => inr None) (fun _ => inr 1%nat)
            (inr tt) (inr tt) (fun _ _ _ => inr [Byte.x02]).

Lemma uploaded_file_icon_witness :
  fst (FileService.get_file_thumbnail (service_env demo_imaging (fs env) 1000) (oid_str (next_id db0)) uid
         (snd (FileService.upload_file (service_env demo_imaging (fs env) 1000) notes uid None db0))) =
    inr (Some [Byte.x02]).
Proof.
  apply (uploaded_file_icon demo_imaging (fs env) 1000 notes uid None db0 100%N owner None);
    [apply db0_inv|unfold ids_left; vm_compute; reflexivity|reflexivity..|discriminate].
Defined.
