(* ===== verification/Routing.v ===== *)
(** * The application's routes (main.py)

    [main.py] includes each [APIRouter] of api/ under a prefix and a tag.
    FastAPI's [include_router] gives every route of the router the path
    [prefix + route.path] and the tags [tags + route.tags]; the routers
    of this repository declare no tags of their own. Starlette dispatches
    a request to the first route, in inclusion order, whose method and
    path pattern match. A pattern is cut at ['/']; a segment [{name}]
    (the regular expression [[^/]+]) matches any non-empty segment, any
    other segment only itself.

    The path strings are the decorators' [@api.<method>(path)] in the
    order the modules declare them. Two included modules,
    app.api.studio.user and app.api.admin.user, are not in the
    repository: their routers are parameters of [app_routes]. The tags
    are UTF-8 text: ['▸'] is the three bytes E2 96 B8. *)

From S2P Require Import Prelude PyString.

(** ** Routes *)

(** An [APIRoute]: its method, full path, tags and endpoint function. *)
Record APIRoute := mkRoute { rt_method : string; rt_path : string; rt_tags : list string; rt_name : string }.

(** The routes of [app.routes]: the [Route]s FastAPI adds for its
    documentation pages, which have no [tags] attribute, and the
    [APIRoute]s of the routers. *)
Inductive AppRoute := Starlette (path : string) | Api (r : APIRoute).

(** An [APIRouter]: the [(method, path, endpoint)] of its decorators. *)
Definition Router := list (string * string * string).

(** [app.include_router(router, tags=tags, prefix=prefix)] *)
Definition include_router (router : Router) (tags : list string) (prefix : string) : list APIRoute :=
  map (fun '(m, p, n) => mkRoute m (prefix +:+ p) tags n) router.

(** ** The routers of api/ *)

Definition public_auth : Router := [
  ("POST", "/sign-up/", "sign_up"); ("POST", "/verify-email/", "verify_email");
  ("POST", "/resend-verification/", "resend_verification"); ("POST", "/sign-in/", "sign_in");
  ("POST", "/google-token", "verify_google_login"); ("POST", "/refresh-token/", "refresh_token");
  ("POST", "/logout/", "logout"); ("POST", "/send-password-reset_code/", "send_password_reset_code");
  ("POST", "/update-password/", "update_password"); ("GET", "/me/", "get_current_user");
  ("PATCH", "/me/", "update_current_user")].

Definition channel_router : Router := [
  ("GET", "/all_my_channels/", "get_all_channels_basic_info"); ("GET", "/{channel_id}/", "get_channel_by_id");
  ("POST", "/generate-questions/", "generate_questions"); ("POST", "/generate_prompt/", "revise_text")].

Definition content_router : Router := [
  ("POST", "/{channel_id}/sections/outline/{order}/", "create_section_outline");
  ("PUT", "/{channel_id}/sections/outline/{section_outline_id}/", "update_section_outline");
  ("DELETE", "/{channel_id}/sections/outline/{section_outline_id}/", "delete_section_outline");
  ("POST", "/{channel_id}/sections/", "create_section");
  ("POST", "/{channel_id}/units/outline/{order}/", "create_unit_outline");
  ("PUT", "/{channel_id}/units/outline/{unit_outline_id}/", "update_unit_outline");
  ("DELETE", "/{channel_id}/units/outline/{unit_outline_id}/", "delete_unit_outline");
  ("POST", "/{channel_id}/units/", "create_unit");
  ("POST", "/{channel_id}/activities/outline/{order}/", "create_activity_outline");
  ("PUT", "/{channel_id}/activities/outline/{activity_outline_id}/", "update_activity_outline");
  ("DELETE", "/{channel_id}/activities/outline/{activity_outline_id}/", "delete_activity_outline");
  ("POST", "/{channel_id}/activities/", "create_activity");
  ("POST", "/{channel_id}/lessons/outline/{order}/", "create_lesson_outline");
  ("PUT", "/{channel_id}/lessons/outline/{lesson_outline_id}/", "update_lesson_outline");
  ("DELETE", "/{channel_id}/lessons/outline/{lesson_outline_id}/", "delete_lesson_outline");
  ("POST", "/{channel_id}/lessons/", "create_lesson");
  ("DELETE", "/{channel_id}/lessons/{lesson_id}/", "delete_lesson");
  ("POST", "/{channel_id}/quizzes/outline/{order}/", "create_quiz_outline");
  ("PUT", "/{channel_id}/quizzes/outline/{quiz_outline_id}/", "update_quiz_outline");
  ("DELETE", "/{channel_id}/quizzes/outline/{quiz_outline_id}/", "delete_quiz_outline");
  ("POST", "/{channel_id}/questions/", "create_question");
  ("DELETE", "/{channel_id}/questions/{question_id}/", "delete_question")].

Definition setting_router : Router := [
  ("POST", "/", "create_channel"); ("POST", "/{channel_id}/duplicate/", "duplicate_channel");
  ("PATCH", "/{channel_id}/publish/", "publish_channel"); ("GET", "/{channel_id}/publish/", "get_publish_channel");
  ("PUT", "/{channel_id}/info/", "update_channel_info"); ("DELETE", "/{channel_id}/info/", "delete_channel");
  ("POST", "/{channel_id}/tier/", "create_tier"); ("GET", "/{channel_id}/tier/", "get_all_tiers");
  ("PUT", "/{channel_id}/tier/{tier_id}/", "update_tier"); ("DELETE", "/{channel_id}/tier/{tier_id}/", "delete_tier");
  ("GET", "/{channel_id}/free-access/percentage/", "get_activity_percentage");
  ("PUT", "/{channel_id}/free-access/", "update_free_access"); ("GET", "/{channel_id}/free-access/", "get_free_access");
  ("POST", "/{channel_id}/coupon/", "create_coupon"); ("GET", "/{channel_id}/coupon/", "get_coupons");
  ("PUT", "/{channel_id}/coupon/{coupon_id}/", "update_coupon");
  ("DELETE", "/{channel_id}/coupon/{coupon_id}/", "delete_coupon")].

Definition space_router : Router := [
  ("GET", "/", "get_space"); ("POST", "/file/", "upload_file"); ("POST", "/dir/", "create_directory");
  ("DELETE", "/file/{file_id}/", "delete_file"); ("PUT", "/file/{file_id}/", "move_file");
  ("DELETE", "/dir/{dir_id}/", "delete_directory"); ("PUT", "/dir/{dir_id}/", "update_directory");
  ("GET", "/file/{file_id}/", "download_file"); ("GET", "/file/{file_id}/thumbnail/", "get_file_thumbnail");
  ("POST", "/thumbnails/batch/", "get_thumbnails_batch"); ("GET", "/dir/{dir_id}/", "get_directory");
  ("GET", "/dir/{dir_id}/details/", "get_directory_details")].

Definition play_user : Router := [
  ("GET", "/channels/{creator_id}/", "get_creator_channels");
  ("GET", "/channels_tier_coupons/{creator_id}/", "get_channel_subscription_info");
  ("GET", "/subscriptions/", "get_user_subscribed_channels");
  ("POST", "/subscribe/{channel_id}/", "subscribe_to_channel");
  ("GET", "/content_progress/{channel_id}/", "get_user_content_progress");
  ("POST", "/content_progress/{channel_id}/", "update_user_progress")].

Definition play_space_router : Router := [
  ("GET", "/file/{file_id}/", "download_file"); ("GET", "/file/{file_id}/thumbnail/", "get_file_thumbnail")].

(** ** main.py *)

(** ['▸'] and the tags of main.py *)
Definition tri : string := String (chr 226) (String (chr 150) (String (chr 184) EmptyString)).
Definition tag (area name : string) : string := area +:+ " " +:+ tri +:+ " " +:+ name.

(** The routes FastAPI adds in [FastAPI.setup()]: [openapi_url],
    [docs_url], its OAuth2 redirect and [redoc_url]. *)
Definition doc_routes : list AppRoute :=
  [Starlette "/openapi.json"; Starlette "/docs"; Starlette "/docs/oauth2-redirect"; Starlette "/redoc"].

(** [app.routes] after the [include_router] calls of lines 64-80. *)
Definition app_routes (studio_user admin_user : Router) : list AppRoute :=
  doc_routes ++ map Api (
    include_router public_auth [tag "Public" "Auth"] "/public/auth" ++
    include_router studio_user [tag "Studio" "User"] "/studio/user" ++
    include_router channel_router [tag "Studio" "Channel"] "/studio/channel" ++
    include_router content_router [tag "Studio" "Content"] "/studio/channel/content" ++
    include_router setting_router [tag "Studio" "Setting"] "/studio/channel/setting" ++
    include_router space_router [tag "Studio" "Space"] "/studio/space" ++
    include_router play_user [tag "Play" "User"] "/play/user" ++
    include_router play_space_router [tag "Play" "Space"] "/play/space" ++
    include_router admin_user [tag "Admin" "User"] "/admin/user").

(** The API routes the repository's routers give. *)
Definition api_routes : list APIRoute :=
  foldr (fun r acc => match r with Api a => a :: acc | Starlette _ => acc end) [] (app_routes [] []).

(** ** Dispatch *)

(** A segment of a path pattern. *)
Inductive seg := Lit (s : string) | Param.

(** [{name}]: Starlette's [param_regex]. *)
Definition is_param (s : string) : bool :=
  match String.get 0 s, String.get (String.length s - 1) s with
  | Some a, Some b => Ascii.eqb a (chr 123) && Ascii.eqb b (chr 125)
  | _, _ => false
  end.

Definition segments (pattern : string) : list seg :=
  map (fun s => if is_param s then Param else Lit s) (py_split_sep (chr 47) pattern).

Definition seg_matches (g : seg) (s : string) : bool :=
  match g with Lit l => String.eqb l s | Param => negb (String.eqb s "") end.

Fixpoint segs_match (gs : list seg) (ss : list string) : bool :=
  match gs, ss with
  | [], [] => true
  | g :: gs', s :: ss' => seg_matches g s && segs_match gs' ss'
  | _, _ => false
  end.

(** [Route.matches] gives [Match.FULL]: the method is the route's and
    the path matches its pattern. (A GET route also answers HEAD.) *)
Definition route_matches (r : APIRoute) (m path : string) : bool :=
  String.eqb (rt_method r) m && segs_match (segments (rt_path r)) (py_split_sep (chr 47) path).

(** [Router.app]: the first route with a full match. *)
Definition dispatch (rs : list APIRoute) (m path : string) : option APIRoute :=
  List.find (fun r => route_matches r m path) rs.

(** Two patterns some path matches both. *)
Definition seg_overlap (g1 g2 : seg) : bool :=
  match g1, g2 with
  | Lit a, Lit b => String.eqb a b
  | Lit a, Param | Param, Lit a => negb (String.eqb a "")
  | Param, Param => true
  end.

Fixpoint segs_overlap (gs1 gs2 : list seg) : bool :=
  match gs1, gs2 with
  | [], [] => true
  | g1 :: gs1', g2 :: gs2' => seg_overlap g1 g2 && segs_overlap gs1' gs2'
  | _, _ => false
  end.

Definition overlap (r1 r2 : APIRoute) : bool :=
  String.eqb (rt_method r1) (rt_method r2) && segs_overlap (segments (rt_path r1)) (segments (rt_path r2)).

(** The pairs of routes, the earlier one first, that some request
    matches both. *)
Fixpoint overlapping_pairs (rs : list APIRoute) : list (APIRoute * APIRoute) :=
  match rs with
  | [] => []
  | r :: rs' => map (pair r) (List.filter (fun r' => overlap r r') rs') ++ overlapping_pairs rs'
  end.

(** A request for route [r]: each parameter segment filled with ["x"]. *)
Definition example_path (r : APIRoute) : string :=
  String.concat "/" (map (fun s => if is_param s then "x" else s) (py_split_sep (chr 47) (rt_path r))).

#[global] Instance APIRoute_eq_dec : EqDecision APIRoute.
Proof. solve_decision. Defined.

(** ** Lemmas *)

Lemma seg_matches_overlap g1 g2 s : seg_matches g1 s = true -> seg_matches g2 s = true -> seg_overlap g1 g2 = true.
Proof.
  destruct g1 as [a|], g2 as [b|]; simpl; intros H1 H2; try done.
  - apply String.eqb_eq in H1, H2. subst. apply String.eqb_refl.
  - apply String.eqb_eq in H1. by subst.
  - apply String.eqb_eq in H2. by subst.
Qed.

Lemma segs_match_overlap gs1 gs2 ss :
  segs_match gs1 ss = true -> segs_match gs2 ss = true -> segs_overlap gs1 gs2 = true.
Proof.
  revert gs1 gs2. induction ss as [|s ss IH]; intros [|g1 gs1] [|g2 gs2]; simpl; try done.
  rewrite !andb_true_iff. intros [H1 H1'] [H2 H2']. split; [by eapply seg_matches_overlap|by apply IH].
Qed.

(** A request that two routes match: their patterns overlap. *)
Lemma matches_overlap r1 r2 m path :
  route_matches r1 m path = true -> route_matches r2 m path = true -> overlap r1 r2 = true.
Proof.
  unfold route_matches, overlap. rewrite !andb_true_iff, !String.eqb_eq.
  intros [-> H1] [<- H2]. split; [done|by eapply segs_match_overlap].
Qed.

Lemma overlapping_pairs_spec rs i j r1 r2 :
  rs !! i = Some r1 -> rs !! j = Some r2 -> (i < j)%nat -> overlap r1 r2 = true ->
  (r1, r2) ∈ overlapping_pairs rs.
Proof.
  revert i j. induction rs as [|r rs IH]; intros i j Hi Hj Hij Ho; [done|]. simpl.
  apply elem_of_app. destruct i as [|i]; destruct j as [|j]; simplify_eq/=; [lia| |lia|].
  - left. apply list_elem_of_fmap. exists r2. split; [done|]. apply list_elem_of_In, filter_In.
    split; [apply list_elem_of_In; by eapply list_elem_of_lookup_2|done].
  - right. apply (IH i j); auto with lia.
Qed.

Lemma find_first {A} (f : A -> bool) rs i r :
  rs !! i = Some r -> f r = true -> (forall k r', (k < i)%nat -> rs !! k = Some r' -> f r' = false) ->
  List.find f rs = Some r.
Proof.
  revert i. induction rs as [|x rs IH]; intros i Hi Hr Hk; [done|]. simpl.
  destruct i as [|i]; simplify_eq/=; [by rewrite Hr|].
  rewrite (Hk 0%nat x); [|lia|done]. apply (IH i); [done|done|].
  intros k r' ? ?. apply (Hk (S k)); [lia|done].
Qed.

(** ** The routes of the repository *)

Definition list_my_channels_route : APIRoute :=
  mkRoute "GET" "/studio/channel/all_my_channels/" [tag "Studio" "Channel"] "get_all_channels_basic_info".
Definition get_channel_route : APIRoute :=
  mkRoute "GET" "/studio/channel/{channel_id}/" [tag "Studio" "Channel"] "get_channel_by_id".

Lemma api_routes_overlapping : overlapping_pairs api_routes = [(list_my_channels_route, get_channel_route)].
Proof. vm_compute. reflexivity. Qed.

(** No dead route: every route gets the request that fills its
    parameters with ["x"]. *)
Lemma every_route_reached r : r ∈ api_routes -> dispatch api_routes (rt_method r) (example_path r) = Some r.
Proof.
  assert (H : forallb (fun r => bool_decide (dispatch api_routes (rt_method r) (example_path r) = Some r))
                api_routes = true) by (vm_compute; reflexivity).
  intros Hr. rewrite forallb_forall in H. apply list_elem_of_In in Hr. by apply (bool_decide_eq_true _), H.
Qed.

(** (C37) Dispatch is unambiguous: of two routes of the repository's
    routers that match the same request, the earlier is
    [GET /studio/channel/all_my_channels/] and the later
    [GET /studio/channel/{channel_id}/], and the request goes to the
    earlier one; every other request matches at most one route. *)
Theorem route_dispatch_unambiguous i j r1 r2 m path :
  api_routes !! i = Some r1 -> api_routes !! j = Some r2 -> (i < j)%nat ->
  route_matches r1 m path = true -> route_matches r2 m path = true ->
  r1 = list_my_channels_route /\ r2 = get_channel_route /\ dispatch api_routes m path = Some r1.
Proof.
  intros Hi Hj Hij H1 H2.
  pose proof (overlapping_pairs_spec _ _ _ _ _ Hi Hj Hij (matches_overlap _ _ _ _ H1 H2)) as Hp.
  rewrite api_routes_overlapping in Hp. apply list_elem_of_singleton in Hp.
  injection Hp as -> ->. split; [reflexivity|split; [reflexivity|]].
  apply (find_first _ _ i _ Hi H1). intros k r' Hk Hr'.
  destruct (route_matches r' m path) eqn:E; [exfalso|reflexivity].
  pose proof (overlapping_pairs_spec _ _ _ _ _ Hr' Hi Hk (matches_overlap _ _ _ _ E H1)) as Hp.
  rewrite api_routes_overlapping in Hp. apply list_elem_of_singleton in Hp.
  apply (f_equal snd) in Hp. apply (f_equal rt_name) in Hp. discriminate Hp.
Qed.

Lemma route_dispatch_unambiguous_witness :
  route_matches list_my_channels_route "GET" "/studio/channel/all_my_channels/" = true /\
  dispatch api_routes "GET" "/studio/channel/all_my_channels/" = Some list_my_channels_route.
Proof.
  split; [reflexivity|].
  apply (route_dispatch_unambiguous 11 12 list_my_channels_route get_channel_route).
  - vm_compute. reflexivity.
  - vm_compute. reflexivity.
  - lia.
  - vm_compute. reflexivity.
  - vm_compute. reflexivity.
Defined.
