(* ===== verification/Translations.v ===== *)
(** * Message translations (translations/__init__.py)

    The module keeps a global dict [translations] from language to the
    messages of its YAML file. [load_translations] reads each language's
    file, creating an empty one when it is missing; [translate(code)]
    answers the code's message in every language, and the first time a
    code is asked it adds the code with the placeholder ['---'] to the
    dict and rewrites the file. The files are a map from path to
    content: the dict [yaml.load] gives, or [None] for an empty file.
    Dicts of messages are stdpp maps: only their keys and values matter
    (yaml.dump sorts the keys). *)

From stdpp Require Import gmap.
From S2P Require Import Prelude Json PyString.

(** [LANGUAGES = 'en'.split()] (settings.py, line 19) *)
Definition LANGUAGES : list string := ["en"].

Abbreviation messages := (gmap string string).

(** The module's [translations] dict and the translation files. *)
Record TState := mkTState {
  translations : gmap string (option messages);
  files : gmap string (option messages) }.

Definition translation_path (lang : string) : string := "app/translations/" +:+ lang +:+ ".yaml".

(** [translations[lang] = m] and [yaml.dump(m, open(path, 'w'))] *)
Definition store_lang (lang : string) (m : messages) (s : TState) : TState :=
  mkTState (<[lang := Some m]> (translations s)) (<[translation_path lang := Some m]> (files s)).

(** ** load_translations (lines 10-19) *)
Definition load_lang (lang : string) : PyM TState unit :=
  fs ← gets files;
  match fs !! translation_path lang with
  | Some content => modify (fun s => mkTState (<[lang := content]> (translations s)) (files s))
  | None => modify (store_lang lang ∅)
  end.

Definition load_translations : PyM TState unit := py_foldM (fun _ lang => load_lang lang) tt LANGUAGES.

(** ** translate (lines 22-44) *)

(** The loop body for one language: [messages = translations.get(lang, {})]
    is [None] for an empty file, and [messages.get] then raises. *)
Definition translate_lang (code : string) (result : list (string * string)) (lang : string)
  : PyM TState (list (string * string)) :=
  ts ← gets translations;
  match default (Some ∅) (ts !! lang) with
  | None => raise (PyException "AttributeError" "'NoneType' object has no attribute 'get'")
  | Some msgs =>
      let value := default "---" (msgs !! code) in
      (if bool_decide (is_Some (msgs !! code)) then mret tt
       else modify (store_lang lang (<[code := "---"]> msgs)));;
      mret (dict_set result lang (if String.eqb value "---" then code else value))
  end.

Definition translate (code : string) : PyM TState (list (string * string)) :=
  py_foldM (translate_lang code) [] LANGUAGES.

(** ** The state invariant *)

(** Language [lang]'s dict is what its file holds. *)
Definition lang_synced (s : TState) (lang : string) : Prop :=
  exists c, files s !! translation_path lang = Some c /\ translations s !! lang = Some c.

Definition synced (s : TState) : Prop := Forall (lang_synced s) LANGUAGES.

(** ** Lemmas *)

Lemma translation_path_inj l1 l2 : translation_path l1 = translation_path l2 -> l1 = l2.
Proof.
  unfold translation_path. intros H%(inj (String.app _)).
  apply (f_equal String.list_ascii_of_string) in H. rewrite !list_ascii_of_string_app in H.
  apply app_inv_tail in H. rewrite <- (String.string_of_list_ascii_of_string l1), <- (String.string_of_list_ascii_of_string l2).
  by rewrite H.
Qed.

Lemma store_lang_synced_same s lang m : lang_synced (store_lang lang m s) lang.
Proof. exists (Some m). simpl. by rewrite !lookup_insert_eq. Qed.

Lemma store_lang_synced_other s lang lang' m : lang' <> lang -> lang_synced s lang' -> lang_synced (store_lang lang m s) lang'.
Proof.
  intros Hne (c & Hf & Ht). exists c. simpl. rewrite !lookup_insert_ne; [done|done|].
  intros Hp. by apply Hne, translation_path_inj.
Qed.

Lemma store_lang_synced s lang m l : lang_synced s l -> lang_synced (store_lang lang m s) l.
Proof. intros H. destruct (decide (l = lang)) as [->|]; [apply store_lang_synced_same|by apply store_lang_synced_other]. Qed.

(** ** Runs *)

Lemma load_lang_run lang s :
  load_lang lang s =
    (inr tt, match files s !! translation_path lang with
             | Some content => mkTState (<[lang := content]> (translations s)) (files s)
             | None => store_lang lang ∅ s
             end).
Proof. unfold load_lang. pyrun. by destruct (files s !! _). Qed.

(** [translate_lang] on a language whose dict is [m]. *)
Lemma translate_lang_run code res lang s m :
  translations s !! lang = Some (Some m) ->
  translate_lang code res lang s =
    (inr (dict_set res lang (match m !! code with Some v => if String.eqb v "---" then code else v | None => code end)),
     if bool_decide (is_Some (m !! code)) then s else store_lang lang (<[code := "---"]> m) s).
Proof.
  intros Hm. unfold translate_lang. pyrun. rewrite Hm. simpl.
  destruct (m !! code) as [v|] eqn:E; simpl; pyrun; done.
Qed.

(** [translate_lang] on a language whose file was empty. *)
Lemma translate_lang_null code res lang s :
  translations s !! lang = Some None ->
  translate_lang code res lang s = (inl (PyException "AttributeError" "'NoneType' object has no attribute 'get'"), s).
Proof. intros Hm. unfold translate_lang. pyrun. by rewrite Hm. Qed.

(** ** Ready languages *)

(** Language [lang] has the same dict [m] in memory and in its file,
    and [m] has a message for every code of [cs]. *)
Definition ready (cs : list string) (s : TState) (lang : string) : Prop :=
  exists m, files s !! translation_path lang = Some (Some m) /\ translations s !! lang = Some (Some m) /\
            Forall (fun c => is_Some (m !! c)) cs.

Lemma ready_mono cs cs' s l : ready cs s l -> (forall c, c ∈ cs' -> c ∈ cs) -> ready cs' s l.
Proof.
  intros (m & Hf & Ht & Hc) Hi. exists m. split_and!; [done|done|].
  apply Forall_forall. intros c Hc'%Hi. by eapply Forall_forall in Hc.
Qed.

Lemma store_lang_ready_other cs s lang l m : l <> lang -> ready cs s l -> ready cs (store_lang lang m s) l.
Proof.
  intros Hne (m' & Hf & Ht & Hc). exists m'. simpl. rewrite !lookup_insert_ne; [done|done|].
  intros Hp. by apply Hne, translation_path_inj.
Qed.

Lemma translate_lang_ready code res lang cs s :
  ready cs s lang ->
  exists r, translate_lang code res lang s = (inr r, snd (translate_lang code res lang s)) /\
    ready (code :: cs) (snd (translate_lang code res lang s)) lang /\
    forall l cs', l <> lang -> ready cs' s l -> ready cs' (snd (translate_lang code res lang s)) l.
Proof.
  intros (m & Hf & Ht & Hc). rewrite (translate_lang_run code res lang s m Ht). eexists. split; [done|]. simpl.
  case_bool_decide as Hm.
  - split; [|done]. exists m. split_and!; [done|done|by constructor].
  - split; [|intros; by apply store_lang_ready_other].
    exists (<[code := "---"]> m). simpl. rewrite !lookup_insert_eq. split_and!; [done|done|].
    constructor; [by rewrite lookup_insert_eq|].
    apply Forall_forall. intros c Hc'. eapply Forall_forall in Hc; [|done].
    destruct (decide (c = code)) as [->|]; [by rewrite lookup_insert_eq|by rewrite lookup_insert_ne].
Qed.

(** The loop of [translate] over distinct languages. *)
Lemma translate_loop_ready code L : NoDup L -> forall res cs s, Forall (ready cs s) L ->
  (exists r, fst (py_foldM (translate_lang code) res L s) = inr r) /\
  Forall (ready (code :: cs) (snd (py_foldM (translate_lang code) res L s))) L /\
  forall l cs', l ∉ L -> ready cs' s l -> ready cs' (snd (py_foldM (translate_lang code) res L s)) l.
Proof.
  induction 1 as [|l L Hl HL IH]; intros res cs s Hr.
  - split_and!; [by eexists|done|done].
  - apply Forall_cons in Hr as [Hr0 Hr]. rewrite py_foldM_cons_run.
    destruct (translate_lang_ready code res l cs s Hr0) as (r & Hrun & Hready & Hframe).
    rewrite Hrun. set (s1 := snd (translate_lang code res l s)) in *.
    assert (Hr1 : Forall (ready cs s1) L).
    { apply Forall_forall. intros l' Hl'. apply Hframe; [by intros ->|]. by eapply Forall_forall in Hr. }
    destruct (IH r cs s1 Hr1) as (Hout & Hall & Hframe').
    split_and!; [done| |].
    + constructor; [by apply Hframe'|done].
    + intros l' cs' Hl' H'. apply not_elem_of_cons in Hl' as [Hne Hl']. by apply Hframe', Hframe.
Qed.

Lemma load_lang_ready lang s :
  files s !! translation_path lang <> Some None ->
  ready [] (snd (load_lang lang s)) lang /\
  (forall l cs, l <> lang -> ready cs s l -> ready cs (snd (load_lang lang s)) l) /\
  (forall l, l <> lang -> files (snd (load_lang lang s)) !! translation_path l = files s !! translation_path l).
Proof.
  intros Hn. rewrite load_lang_run. simpl.
  destruct (files s !! translation_path lang) as [[m|]|] eqn:E; [|done|].
  - split_and!.
    + exists m. simpl. rewrite lookup_insert_eq. by split_and!.
    + intros l cs Hne (m' & Hf & Ht & Hc). exists m'. simpl. rewrite lookup_insert_ne by done. by split_and!.
    + done.
  - split_and!.
    + exists ∅. simpl. rewrite !lookup_insert_eq. by split_and!.
    + intros. by apply store_lang_ready_other.
    + intros l Hne. simpl. rewrite lookup_insert_ne; [done|]. intros Hp. by apply Hne, translation_path_inj.
Qed.

Lemma load_loop_frame L l cs s :
  l ∉ L -> ready cs s l -> ready cs (snd (py_foldM (fun _ l => load_lang l) tt L s)) l.
Proof.
  revert s. induction L as [|l' L IH]; intros s Hl Hr; [done|].
  apply not_elem_of_cons in Hl as [Hne Hl]. rewrite py_foldM_cons_run, load_lang_run. simpl.
  apply IH; [done|]. destruct (files s !! translation_path l') as [c|].
  - destruct Hr as (m & Hf & Ht & Hc). exists m. simpl. rewrite lookup_insert_ne by done. by split_and!.
  - by apply store_lang_ready_other.
Qed.

Lemma load_loop_ready L : NoDup L -> forall s, Forall (fun l => files s !! translation_path l <> Some None) L ->
  fst (py_foldM (fun _ l => load_lang l) tt L s) = inr tt /\
  Forall (ready [] (snd (py_foldM (fun _ l => load_lang l) tt L s))) L.
Proof.
  induction 1 as [|l L Hl HL IH]; intros s Hn; [done|].
  apply Forall_cons in Hn as [Hn0 Hn]. rewrite py_foldM_cons_run.
  pose proof (load_lang_ready l s Hn0) as (Hr & _ & Hfiles).
  assert (E : load_lang l s = (inr tt, snd (load_lang l s))) by by rewrite load_lang_run.
  rewrite E. set (s1 := snd (load_lang l s)) in *. clearbody s1.
  destruct (IH s1) as [Hout Hall].
  { apply Forall_forall. intros l' Hl'. rewrite Hfiles; [by eapply Forall_forall in Hn|by intros ->]. }
  split; [done|]. constructor; [by apply load_loop_frame|done].
Qed.

Lemma languages_nodup : NoDup LANGUAGES.
Proof. apply NoDup_singleton. Qed.

Lemma translate_ready code cs s :
  Forall (ready cs s) LANGUAGES ->
  (exists r, fst (translate code s) = inr r) /\ Forall (ready (code :: cs) (snd (translate code s))) LANGUAGES.
Proof. intros H. unfold translate. destruct (translate_loop_ready code _ languages_nodup [] cs s H) as (? & ? & _). done. Qed.

Lemma translate_all_ready codes : forall cs s, Forall (ready cs s) LANGUAGES ->
  (exists rs, fst (py_mapM translate codes s) = inr rs) /\
  Forall (ready (codes ++ cs) (snd (py_mapM translate codes s))) LANGUAGES.
Proof.
  induction codes as [|code codes IH]; intros cs s H; [split; [by eexists|done]|].
  rewrite py_mapM_cons_run. destruct (translate_ready code cs s H) as [[r Hr] H1].
  destruct (translate code s) as [[e|r'] s1]; simpl in *; [discriminate|].
  destruct (IH (code :: cs) s1 H1) as [[rs Hrs] H2].
  destruct (py_mapM translate codes s1) as [[e|rs'] s2]; simpl in *; [discriminate|].
  split; [by eexists|]. eapply Forall_impl; [exact H2|]. intros l Hl. eapply ready_mono; [exact Hl|].
  intros c [->|[Hc|Hc]%elem_of_app]%elem_of_cons; apply elem_of_app;
    [right; apply list_elem_of_here|by left|right; by right].
Qed.

(** Loading the files of ready languages changes nothing. *)
Lemma load_loop_id L cs s : Forall (ready cs s) L -> snd (py_foldM (fun _ l => load_lang l) tt L s) = s.
Proof.
  revert s. induction L as [|l L IH]; intros s H; [done|]. apply Forall_cons in H as [(m & Hf & Ht & _) H].
  rewrite py_foldM_cons_run, load_lang_run, Hf. simpl. rewrite insert_id by done.
  destruct s. by apply IH.
Qed.

(** (C26) Translations persist: from any files none of which is empty,
    [load_translations] followed by [translate] of any list of codes
    answers, and leaves each language's dict in memory equal to the one
    its YAML file holds, with an entry for every code asked; a restart,
    which runs [load_translations] again, finds exactly these dicts. *)
Theorem translations_persist s codes :
  Forall (fun l => files s !! translation_path l <> Some None) LANGUAGES ->
  let m := (load_translations;; py_mapM translate codes) in
  (exists rs, outcome m s = inr rs) /\
  Forall (ready codes (final m s)) LANGUAGES /\
  final load_translations (final m s) = final m s.
Proof.
  intros Hn m. unfold m, outcome, final. rewrite bind_run.
  destruct (load_loop_ready _ languages_nodup s Hn) as [Hout Hready]. unfold load_translations.
  destruct (py_foldM _ tt LANGUAGES s) as [[e|[]] s1]; cbn [fst snd] in *; [discriminate|].
  destruct (translate_all_ready codes [] s1 Hready) as [Hrs Hall]. rewrite app_nil_r in Hall.
  split_and!; [done|done|]. exact (load_loop_id LANGUAGES codes _ Hall).
Qed.

Lemma translations_persist_witness :
  let s := mkTState ∅ ∅ in
  Forall (fun l => files s !! translation_path l <> Some None) LANGUAGES /\
  Forall (ready ["VALIDATION_ERROR"] (final (load_translations;; py_mapM translate ["VALIDATION_ERROR"]) s)) LANGUAGES.
Proof.
  assert (Hn : Forall (fun l => files (mkTState ∅ ∅) !! translation_path l <> Some None) LANGUAGES)
    by (constructor; [cbn [files]; rewrite lookup_empty; discriminate|constructor]).
  split; [exact Hn|]. exact (proj1 (proj2 (translations_persist (mkTState ∅ ∅) ["VALIDATION_ERROR"] Hn))).
Defined.

(** An empty translation file, which [yaml.load] reads as [None], makes
    every [translate] raise. *)
Lemma translate_empty_file code s :
  translations s !! "en" = Some None ->
  translate code s = (inl (PyException "AttributeError" "'NoneType' object has no attribute 'get'"), s).
Proof. intros H. unfold translate, LANGUAGES. rewrite py_foldM_cons_run, translate_lang_null by done. done. Qed.
