(* ===== verification/OpenApi.v ===== *)
(** * The OpenAPI document and the error handlers (utils/openapi.py, main.py)

    [patch_openapi] takes the schema FastAPI's [get_openapi] builds (an
    input here), adds the [FailResponse] component, points every 422
    response at it, and adds the [x-tagGroups] ReDoc shows: the tags of
    the app's routes grouped by the text before [SEP]. [SEP] is the
    separator [' ▸ '] decoded with the wrong code page: the source holds
    the characters [â], [–] and [¸] between two spaces, the UTF-8 bytes of
    ['▸'] read as cp1252. Strings are UTF-8 byte strings; substring
    search and split on them agree with Python's on the characters. The
    code [General_Message.VALIDATION_ERROR.value] comes from
    app.messages.general, which is not in the repository: it is a
    parameter [vcode]. *)

From S2P Require Import Prelude ObjectId PyString Json Routing Translations.

(** ** Tags (lines 8-35) *)

(** [SEP = ' â–¸ '] (line 8) *)
Definition SEP : string :=
  " " +:+ String (chr 195) (String (chr 162) (String (chr 226) (String (chr 128) (String (chr 147)
    (String (chr 194) (String (chr 184) EmptyString)))))) +:+ " ".

(** [if tag not in tags: tags.append(tag)] *)
Definition add_tag (tags : list string) (t : string) : list string :=
  if bool_decide (t ∈ tags) then tags else tags ++ [t].

(** [get_unique_tags(app)]: only the [APIRoute]s have [tags]. *)
Definition get_unique_tags (routes : list AppRoute) : list string :=
  foldl (fun tags r => match r with Api a => foldl add_tag tags (rt_tags a) | Starlette _ => tags end) [] routes.

(** [s.split(sep)[0]] for a non-empty [sep]: the text before the first
    [sep]. *)
Fixpoint before_sep (sep s : list Ascii.ascii) : list Ascii.ascii :=
  match s with
  | [] => []
  | c :: s' => if bool_decide (sep = take (length sep) s) then [] else c :: before_sep sep s'
  end.

Definition split_head (sep s : string) : string :=
  String.string_of_list_ascii (before_sep (String.list_ascii_of_string sep) (String.list_ascii_of_string s)).

(** [tag.split(SEP)[0].strip() if SEP in tag else tag] *)
Definition category_of (sep tag : string) : string :=
  if str_contains sep tag then py_strip (split_head sep tag) else tag.

(** [if category not in categories: categories[category] = []] and
    [categories[category].append(tag)] *)
Fixpoint dict_append (k v : string) (d : list (string * list string)) : list (string * list string) :=
  match d with
  | [] => [(k, [v])]
  | (k', vs) :: d' => if String.eqb k k' then (k', vs ++ [v]) :: d' else (k', vs) :: dict_append k v d'
  end.

(** [categorize_tags], with the separator as a parameter. *)
Definition categorize_tags_by (sep : string) (tags : list string) : list (string * list string) :=
  foldl (fun d t => dict_append (category_of sep t) t d) [] tags.

Definition categorize_tags (tags : list string) : list (string * list string) := categorize_tags_by SEP tags.

(** [[{"name": category, "tags": tags} for category, tags in ...items()]] *)
Definition tag_group (c : string) (tags : list string) : json :=
  JDict [("name", JStr c); ("tags", JList (map JStr tags))].

Definition x_tag_groups (routes : list AppRoute) : json :=
  JList (map (fun '(c, ts) => tag_group c ts) (categorize_tags (get_unique_tags routes))).

(** ** patch_openapi (lines 38-89) *)

(** [d[k] = v] on a JSON value. *)
Definition json_set (j : json) (k : string) (v : json) : exn + json :=
  match j with
  | JDict kvs => inr (JDict (dict_set kvs k v))
  | _ => inl (type_error "object does not support item assignment")
  end.

(** [if k not in d: d[k] = {}] *)
Definition ensure_dict (j : json) (k : string) : exn + json :=
  let? present := py_in k j in
  if present then inr j else json_set j k (JDict []).

(** A translation as the JSON object it is sent as. *)
Definition translation_json (t : list (string * string)) : json := JDict (map (fun '(l, m) => (l, JStr m)) t).

(** The [FailResponse] component (lines 52-65). *)
Definition fail_response_schema (example : list (string * string)) : json :=
  JDict [("type", JStr "object");
         ("properties", JDict [
            ("success", JDict [("type", JStr "boolean"); ("example", JBool false)]);
            ("message", JDict [("type", JStr "object"); ("additionalProperties", JDict [("type", JStr "string")]);
                               ("example", translation_json example)]);
            ("data", JDict [("type", JStr "object"); ("nullable", JBool true); ("example", JNull)]);
            ("error", JDict [("type", JStr "string"); ("example", JStr "User not found")])]);
         ("required", JList [JStr "success"; JStr "message"])].

(** The 422 response every operation gets (lines 70-77). *)
Definition validation_422 : json :=
  JDict [("description", JStr "Validation Error (custom)");
         ("content", JDict [("application/json", JDict [("schema", JDict [("$ref", JStr "#/components/schemas/FailResponse")])])])].

(** [if "422" in method["responses"]: method["responses"]["422"] = ...] *)
Definition patch_method (method : json) : exn + json :=
  let? responses := py_item method "responses" in
  let? has422 := py_in "422" responses in
  if has422 then let? responses' := json_set responses "422" validation_422 in json_set method "responses" responses'
  else inr method.

(** [for method in path.values(): ...] *)
Definition patch_path (path : json) : exn + json :=
  match path with
  | JDict ms => let? ms' := mapE (fun '(k, m) => let? m' := patch_method m in inr (k, m')) ms in inr (JDict ms')
  | _ => inl (PyException "AttributeError" "object has no attribute 'values'")
  end.

Definition patch_paths (schema : json) : exn + json :=
  let? paths := py_item schema "paths" in
  let? paths' := patch_path paths in
  json_set schema "paths" paths'.

(** [patch_openapi(app)]: [schema] is what [get_openapi] returned,
    [routes] is [app.routes]. *)
Definition patch_openapi (vcode : string) (schema : json) (routes : list AppRoute) : PyM TState json :=
  s1 ← lift_exn (let? s := ensure_dict schema "components" in
                 let? comps := py_item s "components" in
                 let? comps' := ensure_dict comps "schemas" in
                 json_set s "components" comps');
  example ← translate vcode;
  lift_exn (let? comps := py_item s1 "components" in
            let? schemas := py_item comps "schemas" in
            let? schemas' := json_set schemas "FailResponse" (fail_response_schema example) in
            let? comps' := json_set comps "schemas" schemas' in
            let? s2 := json_set s1 "components" comps' in
            let? s3 := patch_paths s2 in
            json_set s3 "x-tagGroups" (x_tag_groups routes)).

(** ** The exception handlers of main.py (lines 84-114) *)

(** The loop of [validation_exception_handler] over [exc.errors()]. *)
Definition error_message (error : json) : exn + json :=
  let? ty := py_item error "type" in
  match ty with
  | JStr "value_error.jsondecode" => inr (JDict [("error", JDict [("message", JStr "Invalid JSON body")]); ("status", JInt 0)])
  | _ => py_get error "msg" (JStr "")
  end.

(** [validation_exception_handler]: the messages it collects are not
    sent. *)
Definition validation_exception_handler (vcode : string) (errors : list json) : PyM TState (Z * json) :=
  messages ← lift_exn (mapE error_message errors);
  msg ← translate vcode;
  mret (422, JDict [("success", JBool false); ("data", JNull); ("message", translation_json msg);
                    ("error_code", JStr "VALIDATION_ERROR")]).

(** An [Error] of messages/base.py: its code and the messages
    [inject_messages] gave it. *)
Record CustomError := mkCustomError { err_code : string; err_messages : list (string * string) }.

(** [custom_exception_handler] *)
Definition custom_exception_handler (exc : CustomError) : Z * json :=
  (406, JDict [("success", JBool false); ("data", JNull); ("message", translation_json (err_messages exc));
               ("error", JStr (err_code exc))]).

(** ** Lemmas on the tags *)

Lemma dict_append_new k v d : k ∉ d.*1 -> dict_append k v d = d ++ [(k, [v])].
Proof.
  induction d as [|[k' vs] d IH]; [done|]. intros Hk. apply not_elem_of_cons in Hk as [Hne Hk]. simpl.
  rewrite (proj2 (String.eqb_neq k k') Hne), IH by done. done.
Qed.

Lemma foldl_add_tag_nodup tags ts : NoDup tags -> NoDup (foldl add_tag tags ts).
Proof.
  revert tags. induction ts as [|t ts IH]; intros tags H; [done|]. simpl. apply IH.
  unfold add_tag. case_bool_decide; [done|]. apply NoDup_app. split_and!; [done| |by apply NoDup_singleton].
  intros x Hx Hx'%list_elem_of_singleton. by subst.
Qed.

Lemma get_unique_tags_nodup routes : NoDup (get_unique_tags routes).
Proof.
  unfold get_unique_tags. generalize (NoDup_nil_2 : NoDup (@nil string)). generalize (@nil string).
  induction routes as [|[p|a] routes IH]; intros tags H; simpl; [done|by apply IH|].
  apply IH, foldl_add_tag_nodup, H.
Qed.

Lemma foldl_add_tag_elem tags ts t : t ∈ foldl add_tag tags ts -> t ∈ tags \/ t ∈ ts.
Proof.
  revert tags. induction ts as [|t' ts IH]; intros tags; simpl; [by left|].
  intros [H|H]%IH; [|right; by right]. unfold add_tag in H. case_bool_decide; [by left|].
  apply elem_of_app in H as [H|H%list_elem_of_singleton]; [by left|subst; right; by left].
Qed.

(** A tag of [get_unique_tags] is a tag of one of the API routes. *)
Lemma get_unique_tags_elem routes t :
  t ∈ get_unique_tags routes -> exists a, Api a ∈ routes /\ t ∈ rt_tags a.
Proof.
  unfold get_unique_tags. cut (forall tags, t ∈ foldl (fun tags r => match r with Api a => foldl add_tag tags (rt_tags a)
                                                                    | Starlette _ => tags end) tags routes ->
                                  t ∈ tags \/ exists a, Api a ∈ routes /\ t ∈ rt_tags a).
  { intros Hc Ht. destruct (Hc [] Ht) as [H|H]; [by apply not_elem_of_nil in H|done]. }
  induction routes as [|[p|a] routes IH]; intros tags; simpl; [by left|..].
  - intros [H|(a & Ha & Ht)]%IH; [by left|right; exists a; split; [by right|done]].
  - intros [[H|H]%foldl_add_tag_elem|(a' & Ha & Ht)]%IH; [by left|right; exists a; split; [left|done]|].
    right; exists a'; split; [by right|done].
Qed.

Lemma include_router_tags router tags prefix a : a ∈ include_router router tags prefix -> rt_tags a = tags.
Proof. unfold include_router. intros ([[m p] n] & -> & _)%list_elem_of_fmap. done. Qed.

(** The nine tags of main.py. *)
Definition main_tags : list string :=
  [tag "Public" "Auth"; tag "Studio" "User"; tag "Studio" "Channel"; tag "Studio" "Content";
   tag "Studio" "Setting"; tag "Studio" "Space"; tag "Play" "User"; tag "Play" "Space"; tag "Admin" "User"].

Lemma app_routes_tags su au t : t ∈ get_unique_tags (app_routes su au) -> t ∈ main_tags.
Proof.
  intros (a & Ha & Ht)%get_unique_tags_elem. unfold app_routes, doc_routes in Ha.
  apply elem_of_app in Ha as [Ha|(a' & [=<-] & Ha)%list_elem_of_fmap];
    [repeat (apply elem_of_cons in Ha as [Ha|Ha]; [discriminate|]); by apply not_elem_of_nil in Ha|].
  repeat (apply elem_of_app in Ha as [Ha|Ha];
          [rewrite (include_router_tags _ _ _ _ Ha) in Ht; apply list_elem_of_singleton in Ht as ->;
           apply (bool_decide_unpack _); by vm_compute|]).
  rewrite (include_router_tags _ _ _ _ Ha) in Ht. apply list_elem_of_singleton in Ht as ->. apply (bool_decide_unpack _). by vm_compute.
Qed.

(** Tags without the separator each make a group of their own. *)
Lemma categorize_no_sep sep tags :
  NoDup tags -> Forall (fun t => str_contains sep t = false) tags ->
  categorize_tags_by sep tags = map (fun t => (t, [t])) tags.
Proof.
  unfold categorize_tags_by. cut (forall acc, NoDup tags -> Forall (fun t => str_contains sep t = false) tags ->
    (forall t, t ∈ tags -> t ∉ acc.*1) ->
    foldl (fun d t => dict_append (category_of sep t) t d) acc tags = acc ++ map (fun t => (t, [t])) tags).
  { intros Hc Hn Hs. apply (Hc []); [done|done|]. intros t _ H. by apply not_elem_of_nil in H. }
  induction tags as [|t tags IH]; intros acc Hn Hs Hf; cbn [foldl map]; [by rewrite app_nil_r|].
  apply NoDup_cons in Hn as [Ht Hn]. apply Forall_cons in Hs as [Hs0 Hs].
  replace (category_of sep t) with t by (unfold category_of; by rewrite Hs0). rewrite dict_append_new by (apply Hf; by left).
  rewrite IH; [by rewrite <- app_assoc|done|done|].
  intros t' Ht'. rewrite fmap_app. simpl. apply not_elem_of_app. split; [apply Hf; by right|].
  intros Ht''%list_elem_of_singleton. by subst.
Qed.

Lemma main_tags_no_sep : Forall (fun t => str_contains SEP t = false) main_tags.
Proof. apply Forall_forall. intros t Ht. repeat (apply elem_of_cons in Ht as [->|Ht]; [by vm_compute|]). by apply not_elem_of_nil in Ht. Qed.

Lemma main_tags_arrow : Forall (fun t => str_contains (" " +:+ tri +:+ " ") t = true) main_tags.
Proof. apply Forall_forall. intros t Ht. repeat (apply elem_of_cons in Ht as [->|Ht]; [by vm_compute|]). by apply not_elem_of_nil in Ht. Qed.

(** With the separator main.py writes, the tags of the repository's
    routers would make three groups. *)
Lemma arrow_groups :
  categorize_tags_by (" " +:+ tri +:+ " ") (get_unique_tags (app_routes [] [])) =
    [("Public", [tag "Public" "Auth"]);
     ("Studio", [tag "Studio" "Channel"; tag "Studio" "Content"; tag "Studio" "Setting"; tag "Studio" "Space"]);
     ("Play", [tag "Play" "User"; tag "Play" "Space"])].
Proof. vm_compute. reflexivity. Qed.

(** (C14) ReDoc's tag groups group nothing: every tag of the app's routes,
    whatever the two routers missing from the repository hold, contains
    the separator [' ▸ '] main.py writes but not the mis-encoded [SEP] of
    openapi.py, so [x-tagGroups] has one group per tag, named after the
    whole tag. *)
Theorem tag_groups_flat su au :
  x_tag_groups (app_routes su au) = JList (map (fun t => tag_group t [t]) (get_unique_tags (app_routes su au))) /\
  Forall (fun t => str_contains (" " +:+ tri +:+ " ") t = true) (get_unique_tags (app_routes su au)).
Proof.
  assert (Hin : forall t, t ∈ get_unique_tags (app_routes su au) -> t ∈ main_tags) by apply app_routes_tags.
  split.
  - unfold x_tag_groups, categorize_tags. rewrite categorize_no_sep, map_map; [done|apply get_unique_tags_nodup|].
    apply Forall_forall. intros t Ht%Hin. exact (proj1 (Forall_forall _ _) main_tags_no_sep t Ht).
  - apply Forall_forall. intros t Ht%Hin. exact (proj1 (Forall_forall _ _) main_tags_arrow t Ht).
Qed.
