(* ===== verification/Requests.v ===== *)
(** * Request bodies through pydantic and the 422 handler

    FastAPI validates a request body with its pydantic model before the
    endpoint runs. A field validator that raises [ValueError] makes the
    validation fail with one error per field, in field order; FastAPI
    raises [RequestValidationError], which main.py's
    [validation_exception_handler] answers with 422. The endpoint, and
    every write it would make, is then skipped. This file composes the
    field validators of models/user.py ([Validation]), the auth handlers
    ([Auth]) and the 422 handler ([OpenApi], which translates its
    message and so writes the translation files) over one state holding
    the store and the translations. *)

From stdpp Require Import gmap.
From S2P Require Import Prelude ObjectId PyString Json Documents Auth AuthProps Validation Translations OpenApi.

(** ** The application's state *)

Record AppState := mkApp { app_db : DB; app_tr : TState }.

(** A computation on the store, or on the translations, run on the
    application's state. *)
Definition on_db {A} (m : PyM DB A) : PyM AppState A :=
  fun s => let '(r, d) := m (app_db s) in (r, mkApp d (app_tr s)).

Definition on_tr {A} (m : PyM TState A) : PyM AppState A :=
  fun s => let '(r, t) := m (app_tr s) in (r, mkApp (app_db s) t).

(** ** Validation errors *)

(** The entry of [exc.errors()] for a field validator that raised
    [ValueError(msg)]. *)
Definition value_error_json (field : string) (e : exn) : json :=
  let msg := match e with PyException _ m => m | HTTPException _ d => d end in
  JDict [("type", JStr "value_error"); ("loc", JList [JStr "body"; JStr field]); ("msg", JStr ("Value error, " +:+ msg))].

Definition field_errors {A} (field : string) (r : exn + A) : list json :=
  match r with inl e => [value_error_json field e] | inr _ => [] end.

(** [RefreshTokenRequest.validate_refresh_token] (models/user.py,
    lines 234-243): the value is already a [str]. *)
Definition validate_refresh_token (value : string) : exn + string :=
  if String.eqb value "" then inl (PyException "ValueError" "Refresh token must be a non-empty string") else inr value.


Definition password_errors (p : Password) : list json := field_errors "password" (validate_password (pw_password p)).

Definition refresh_errors (t : string) : list json := field_errors "refresh_token" (validate_refresh_token t).

(** ** Routes with a body *)

(** What a route answers: the 422 of [validation_exception_handler], or
    the endpoint's own reply. *)
Inductive answer := Invalid (status : Z) (body : json) | Handled (r : reply).

(** The body is validated; with errors FastAPI calls the app's handler
    for [RequestValidationError], otherwise the endpoint. [vcode] is
    [General_Message.VALIDATION_ERROR.value]. *)
Definition with_body (vcode : string) (errors : list json) (handler : PyM DB reply) : PyM AppState answer :=
  match errors with
  | [] => r ← on_db handler; mret (Handled r)
  | _ :: _ => cb ← on_tr (validation_exception_handler vcode errors); mret (Invalid cb.1 cb.2)
  end.

Section Routes.
Context `{Crypto}.


Definition post_update_password (vcode : string) (env : Env) (p : Password) : PyM AppState answer :=
  with_body vcode (password_errors p) (update_password env p).

Definition post_refresh_token (vcode : string) (env : Env) (t : string) : PyM AppState answer :=
  with_body vcode (refresh_errors t) (refresh_token env t).

End Routes.

(** ** Lemmas *)

Lemma on_db_run {A} (m : PyM DB A) s : on_db m s = (fst (m (app_db s)), mkApp (snd (m (app_db s))) (app_tr s)).
Proof. unfold on_db. by destruct (m (app_db s)). Qed.

Lemma on_tr_run {A} (m : PyM TState A) s : on_tr m s = (fst (m (app_tr s)), mkApp (app_db s) (snd (m (app_tr s)))).
Proof. unfold on_tr. by destruct (m (app_tr s)). Qed.

Lemma error_message_value_error field e : exists j, error_message (value_error_json field e) = inr j.
Proof. eexists. reflexivity. Qed.

Lemma mapE_value_errors errs :
  Forall (fun j => exists f e, j = value_error_json f e) errs -> exists ms, mapE error_message errs = inr ms.
Proof.
  induction 1 as [|j errs (f & e & ->) _ [ms IH]]; [by eexists|].
  destruct (error_message_value_error f e) as [m Hm]. cbn [mapE]. rewrite Hm. cbn [bindE]. rewrite IH. by eexists.
Qed.

Lemma field_errors_shape {A} field (r : exn + A) : Forall (fun j => exists f e, j = value_error_json f e) (field_errors field r).
Proof. destruct r; repeat constructor. eauto. Qed.

(** A valid body: the endpoint runs on the store, the translations are
    not touched. *)
Lemma with_body_valid vcode h s :
  with_body vcode [] h s = (sum_map id Handled (outcome h (app_db s)), mkApp (final h (app_db s)) (app_tr s)).
Proof. unfold with_body. rewrite bind_run, on_db_run. unfold outcome, final. by destruct (h (app_db s)) as [[e|r] d]. Qed.

(** An invalid body: 422 with the translated message, the store as it
    was, and the code added to the translations. *)
Lemma with_body_invalid vcode errs h s :
  errs <> [] -> Forall (fun j => exists f e, j = value_error_json f e) errs -> Forall (ready [] (app_tr s)) LANGUAGES ->
  exists msg t', with_body vcode errs h s =
    (inr (Invalid 422 (JDict [("success", JBool false); ("data", JNull); ("message", translation_json msg);
                              ("error_code", JStr "VALIDATION_ERROR")])), mkApp (app_db s) t') /\
    Forall (ready [vcode] t') LANGUAGES.
Proof.
  intros Hne Hshape Hready. destruct errs as [|j errs]; [done|]. unfold with_body.
  rewrite bind_run, on_tr_run. unfold validation_exception_handler.
  destruct (mapE_value_errors _ Hshape) as [ms Hms]. rewrite bind_run. unfold lift_exn. rewrite Hms. simpl.
  rewrite bind_run. destruct (translate_ready vcode [] (app_tr s) Hready) as [[msg Hmsg] Hready'].
  destruct (translate vcode (app_tr s)) as [[e|msg'] t'] eqn:E; simpl in *; [discriminate|].
  exists msg', t'. split; [reflexivity|done].
Qed.

Section Gates.
Context `{Crypto}.

(** [PATCH]-free password reset: [/update-password/] reaches
    [update_password] exactly when the new password matches
    [PASSWORD_REGEX]; otherwise it answers 422 and no user changes. *)
Lemma update_password_body_gate vcode env p s :
  Forall (ready [] (app_tr s)) LANGUAGES ->
  (password_match (pw_password p) = true ->
     post_update_password vcode env p s =
       (sum_map id Handled (outcome (update_password env p) (app_db s)),
        mkApp (final (update_password env p) (app_db s)) (app_tr s))) /\
  (password_match (pw_password p) = false ->
     exists msg t', post_update_password vcode env p s =
       (inr (Invalid 422 (JDict [("success", JBool false); ("data", JNull); ("message", translation_json msg);
                                 ("error_code", JStr "VALIDATION_ERROR")])), mkApp (app_db s) t')).
Proof.
  intros Hr. unfold post_update_password, password_errors, validate_password. split; intros Hm; rewrite Hm.
  - apply with_body_valid.
  - destruct (with_body_invalid vcode (field_errors "password" (inl weak_password : exn + string))
                (update_password env p) s) as (msg & t' & E & _); [done|apply field_errors_shape|done|]. eauto.
Qed.


(** An empty refresh token never reaches [refresh_token]. *)
Lemma refresh_token_empty_body vcode env s :
  Forall (ready [] (app_tr s)) LANGUAGES ->
  exists body t', post_refresh_token vcode env "" s = (inr (Invalid 422 body), mkApp (app_db s) t').
Proof.
  intros Hr. destruct (with_body_invalid vcode (refresh_errors "") (refresh_token env "") s) as (msg & t' & E & _);
    [discriminate|apply field_errors_shape|done|]. eauto.
Qed.
End Gates.


