(* ===== verification/Scripts.v ===== *)
(** * The maintenance scripts (scripts/fill_channel_db.py, scripts/cleanup_db.py)

    [fill_channel_db.py] seeds a demo user and a one-lesson channel by
    calling the model classes with keyword arguments and inserting each
    document. Such a call is pydantic's validation: each field of the
    class, in declaration order, takes its keyword argument (of the
    field's type), its default, or fails with [ValidationError]; keyword
    arguments that are not fields are dropped. [cleanup_db.py]
    drops a fixed list of collections. Collections are named by the
    models' [Settings.name], or by the class name when there is none
    (Beanie's default). *)

From S2P Require Import Prelude ObjectId PyString Json Documents Auth.

(** ** Keyword arguments *)

(** The Python values the scripts pass. *)
Inductive pyval := PStr (s : string) | PInt (z : Z) | PBool (b : bool) | POid (i : oid) | PNone
                 | PDict (j : json) | PStrs (l : list string).

Definition kwargs := list (string * pyval).

Fixpoint kw_get (kw : kwargs) (f : string) : option pyval :=
  match kw with [] => None | (k, v) :: kw' => if String.eqb k f then Some v else kw_get kw' f end.

Definition field_required (cls f : string) : exn :=
  PyException "ValidationError" ("1 validation error for " +:+ cls +:+ " " +:+ f +:+ " Field required").

Definition field_type (cls f ty : string) : exn :=
  PyException "ValidationError" ("1 validation error for " +:+ cls +:+ " " +:+ f +:+ " Input should be a valid " +:+ ty).

(** The conversions of pydantic's strict-enough types. *)
Definition as_str (cls f : string) (v : pyval) : exn + string :=
  match v with PStr s => inr s | _ => inl (field_type cls f "string") end.
Definition as_int (cls f : string) (v : pyval) : exn + Z :=
  match v with PInt z => inr z | _ => inl (field_type cls f "integer") end.
Definition as_bool (cls f : string) (v : pyval) : exn + bool :=
  match v with PBool b => inr b | _ => inl (field_type cls f "boolean") end.
Definition as_oid (cls f : string) (v : pyval) : exn + oid :=
  match v with POid i => inr i | PStr s => match parse_oid s with Some i => inr i | None => inl (field_type cls f "ObjectId") end
          | _ => inl (field_type cls f "ObjectId") end.
Definition as_dict (cls f : string) (v : pyval) : exn + json :=
  match v with PDict j => inr j | _ => inl (field_type cls f "dictionary") end.
Definition as_strs (cls f : string) (v : pyval) : exn + list string :=
  match v with PStrs l => inr l | _ => inl (field_type cls f "list") end.
(** [UserRole] and [AuthProvider] from their values. *)
Definition as_role (cls f : string) (v : pyval) : exn + user_role :=
  match v with
  | PStr "admin" => inr Admin | PStr "creator" => inr Creator | PStr "player" => inr Player
  | _ => inl (field_type cls f "enumeration member") end.
Definition as_provider (cls f : string) (v : pyval) : exn + auth_provider :=
  match v with PStr "local" => inr Local | PStr "google" => inr Google | _ => inl (field_type cls f "enumeration member") end.

(** A field without default, an [Optional] field with default [d], and
    a field of type [A] with default [d]. *)
Definition req {A} (conv : string -> string -> pyval -> exn + A) (cls f : string) (kw : kwargs) : exn + A :=
  match kw_get kw f with Some v => conv cls f v | None => inl (field_required cls f) end.
Definition opt {A} (conv : string -> string -> pyval -> exn + A) (d : option A) (cls f : string) (kw : kwargs)
  : exn + option A :=
  match kw_get kw f with
  | None => inr d
  | Some PNone => inr None
  | Some v => let? x := conv cls f v in inr (Some x)
  end.
Definition dflt {A} (conv : string -> string -> pyval -> exn + A) (d : A) (cls f : string) (kw : kwargs) : exn + A :=
  match kw_get kw f with Some v => conv cls f v | None => inr d end.

(** ** The model classes called with keyword arguments *)

(** [User(...)]: [User.__init__] (models/user.py, lines 119-123)
    drops [google_id] for a local account, then pydantic validates. *)
Definition user_init (kw : kwargs) : kwargs :=
  match kw_get kw "provider" with
  | Some (PStr "local") => filter (fun kv => negb (String.eqb kv.1 "google_id")) kw
  | _ => kw
  end.

Definition User_of (now : datetime) (kw0 : kwargs) : exn + User.t :=
  let kw := user_init kw0 in
  let c := "User" in
  let? email := req as_str c "email" kw in
  let? first_name := opt as_str None c "first_name" kw in
  let? last_name := opt as_str None c "last_name" kw in
  let? bio := opt as_str None c "bio" kw in
  let? avatar_url := opt as_str None c "avatar_url" kw in
  let? role := dflt as_role Player c "role" kw in
  let? provider := dflt as_provider Local c "provider" kw in
  let? verified := dflt as_bool false c "is_email_verified" kw in
  let? hashed_password := opt as_str None c "hashed_password" kw in
  let? google_id := opt as_str None c "google_id" kw in
  let? access_token := opt as_str None c "access_token" kw in
  let? access_exp := opt as_int None c "access_token_expires_at" kw in
  let? refresh_token := opt as_str None c "refresh_token" kw in
  let? refresh_exp := opt as_int None c "refresh_token_expires_at" kw in
  let? code := opt as_str None c "verification_code" kw in
  let? code_created := opt as_int None c "verification_code_created_at" kw in
  let? code_exp := opt as_int None c "verification_code_expires_at" kw in
  let? created_at := dflt as_int now c "created_at" kw in
  let? last_login := opt as_int None c "last_login" kw in
  let? locked_until := opt as_int None c "locked_until" kw in
  inr (User.mk email first_name last_name bio avatar_url role provider verified hashed_password google_id
               access_token access_exp refresh_token refresh_exp code code_created code_exp created_at
               last_login locked_until).

(** [Channel(...)] (models/channel.py, lines 11-31 and 135-139) *)
Definition Channel_of (now : datetime) (kw : kwargs) : exn + Channel.t :=
  let c := "Channel" in
  let? user_id := req as_oid c "user_id" kw in
  let? name := req as_str c "name" kw in
  let? channel_id := req as_str c "channel_id" kw in
  let? description := req as_str c "description" kw in
  let? section_count := dflt as_int 0 c "section_count" kw in
  let? unit_count := dflt as_int 0 c "unit_count" kw in
  let? activity_count := dflt as_int 0 c "activity_count" kw in
  let? lesson_count := dflt as_int 0 c "lesson_count" kw in
  let? quiz_count := dflt as_int 0 c "quiz_count" kw in
  let? question_count := dflt as_int 0 c "question_count" kw in
  let? total := dflt as_int 0 c "total_lesson_quiz_count" kw in
  let? enrolled := dflt as_int 0 c "enrolled_students" kw in
  let? primary_language := opt as_str None c "primary_language" kw in
  let? target_language := opt as_str None c "target_language" kw in
  let? avatar := opt as_str None c "avatar_file_id" kw in
  let? cover := opt as_str None c "cover_image_file_id" kw in
  let? published := opt as_bool (Some false) c "published" kw in
  let? channel_link := opt as_str None c "channel_link" kw in
  let? last_updated := dflt as_int now c "last_updated" kw in
  let? outline_content := dflt as_dict (JDict []) c "outline_content" kw in
  inr (Channel.mk user_id name channel_id description section_count unit_count activity_count lesson_count
                  quiz_count question_count total enrolled primary_language target_language avatar cover
                  published channel_link last_updated outline_content).

Definition SectionOutline_of (kw : kwargs) : exn + SectionOutline.t :=
  let c := "SectionOutline" in
  let? channel_id := req as_str c "channel_id" kw in
  let? name := req as_str c "name" kw in
  let? order := req as_int c "order" kw in
  inr (SectionOutline.mk channel_id name order).

Definition Section_of (kw : kwargs) : exn + Section.t :=
  let c := "Section" in
  let? so := req as_str c "section_outline_id" kw in
  let? name := req as_str c "name" kw in
  let? description := req as_str c "description" kw in
  let? file_id := opt as_str None c "file_id" kw in
  inr (Section.mk so name description file_id).

Definition UnitOutline_of (kw : kwargs) : exn + UnitOutline.t :=
  let c := "UnitOutline" in
  let? so := req as_str c "section_outline_id" kw in
  let? name := req as_str c "name" kw in
  let? order := req as_int c "order" kw in
  inr (UnitOutline.mk so name order).

Definition Unit_of (kw : kwargs) : exn + Unit.t :=
  let c := "Unit" in
  let? uo := req as_str c "unit_outline_id" kw in
  let? name := req as_str c "name" kw in
  let? description := req as_str c "description" kw in
  let? file_id := req as_str c "file_id" kw in
  inr (Unit.mk uo name description file_id).

Definition ActivityOutline_of (kw : kwargs) : exn + ActivityOutline.t :=
  let c := "ActivityOutline" in
  let? uo := req as_str c "unit_outline_id" kw in
  let? name := req as_str c "name" kw in
  let? order := req as_int c "order" kw in
  let? lqc := opt as_int (Some 0) c "lesson_quiz_count" kw in
  let? percentage := opt as_int (Some 0) c "percentage" kw in
  inr (ActivityOutline.mk uo name order lqc percentage).

Definition Activity_of (kw : kwargs) : exn + Activity.t :=
  let c := "Activity" in
  let? ao := req as_str c "activity_outline_id" kw in
  let? description := req as_str c "description" kw in
  let? file_id := req as_str c "file_id" kw in
  let? level := req as_int c "difficulty_level" kw in
  let? launched := opt as_bool (Some false) c "is_launched" kw in
  inr (Activity.mk ao description file_id level launched).

Definition LessonOutline_of (kw : kwargs) : exn + LessonOutline.t :=
  let c := "LessonOutline" in
  let? ao := req as_str c "activity_outline_id" kw in
  let? name := req as_str c "name" kw in
  let? order := req as_int c "order" kw in
  let? lesson_count := opt as_int (Some 0) c "lesson_count" kw in
  inr (LessonOutline.mk ao name order lesson_count).

Definition Lesson_of (kw : kwargs) : exn + Lesson.t :=
  let c := "Lesson" in
  let? lo := req as_str c "lesson_outline_id" kw in
  let? lesson_type := req as_str c "lesson_type" kw in
  let? text := opt as_str None c "text" kw in
  let? file_ids := opt as_strs None c "file_ids" kw in
  let? question_lesson := opt as_dict None c "question_lesson" kw in
  let? order := req as_int c "order" kw in
  let? launched := opt as_bool (Some false) c "is_launched" kw in
  let? free := opt as_bool (Some false) c "is_free" kw in
  inr (Lesson.mk lo lesson_type text file_ids question_lesson order launched free).

Definition QuizOutline_of (kw : kwargs) : exn + QuizOutline.t :=
  let c := "QuizOutline" in
  let? ao := req as_str c "activity_outline_id" kw in
  let? name := req as_str c "name" kw in
  let? order := req as_int c "order" kw in
  let? launched := opt as_bool (Some false) c "is_launched" kw in
  let? free := opt as_bool (Some false) c "is_free" kw in
  let? quiz_count := req as_int c "quiz_count" kw in
  inr (QuizOutline.mk ao name order launched free quiz_count).

Definition Question_of (kw : kwargs) : exn + Question.t :=
  let c := "Question" in
  let? qo := req as_str c "quiz_outline_id" kw in
  let? time_limit := opt as_int None c "time_limit" kw in
  let? points := opt as_int None c "points" kw in
  let? template := req as_dict c "template" kw in
  let? generated := opt as_dict None c "generated_question" kw in
  let? file_id := opt as_str None c "file_id" kw in
  let? check_function := opt as_str None c "check_function" kw in
  let? order := opt as_int None c "order" kw in
  let? accepted := opt as_bool None c "is_accepted" kw in
  inr (Question.mk qo time_limit points template generated file_id check_function order accepted).

(** ** fill_channel_db.py (lines 12-152) *)

Definition demo_user_kw (now : datetime) : kwargs :=
  [("email", PStr "demo@example.com"); ("username", PStr "demo_user"); ("first_name", PStr "Demo");
   ("last_name", PStr "User"); ("bio", PStr "Demo user for channel population script.");
   ("hashed_password", PStr "hashedpassword"); ("is_active", PBool true); ("is_admin", PBool false);
   ("created_at", PInt now)].

Definition channel_kw (now : datetime) (uid : oid) : kwargs :=
  [("name", PStr "Python Basics"); ("description", PStr "A channel for learning Python basics.");
   ("user_id", POid uid); ("section_count", PInt 0); ("unit_count", PInt 0); ("lesson_count", PInt 0);
   ("quiz_count", PInt 0); ("total_lesson_quiz_count", PInt 0); ("enrolled_students", PInt 10);
   ("last_updated", PInt now); ("outline_content", PDict (JDict []))].

(** [X(...)] then [await x.insert()]: the new document's id. *)
Definition construct_insert {D} `{Document D} (v : exn + D) : PyM DB oid := d ← lift_exn v; insert d.

Definition fill_channel_db (now : datetime) : PyM DB unit :=
  found ← find_one (D:=User.t) (fun _ u => String.eqb (User.email u) "demo@example.com");
  uid ← match found with
        | Some (i, _) => mret i
        | None => u ← lift_exn (User_of now (demo_user_kw now)); insert_user u
        end;
  cid ← construct_insert (Channel_of now (channel_kw now uid));
  so ← construct_insert (SectionOutline_of [("channel_id", PStr (oid_str cid)); ("name", PStr "Introduction"); ("order", PInt 1)]);
  construct_insert (Section_of [("section_outline_id", PStr (oid_str so)); ("name", PStr "Introduction");
                      ("description", PStr "Intro section."); ("url", PStr "https://example.com/section1.jpg");
                      ("order", PInt 1)]);;
  uo ← construct_insert (UnitOutline_of [("section_outline_id", PStr (oid_str so)); ("name", PStr "Getting Started");
                               ("order", PInt 1)]);
  construct_insert (Unit_of [("unit_outline_id", PStr (oid_str uo)); ("name", PStr "Getting Started");
                   ("description", PStr "Getting started with Python."); ("url", PStr "https://example.com/unit1.jpg")]);;
  ao ← construct_insert (ActivityOutline_of [("unit_outline_id", PStr (oid_str uo)); ("name", PStr "First Steps");
                                   ("order", PInt 1); ("count", PInt 1); ("percentage", PInt 10)]);
  construct_insert (Activity_of [("activity_outline_id", PStr (oid_str ao)); ("description", PStr "First steps in Python.");
                       ("url", PStr "https://example.com/activity1.jpg"); ("difficulty_level", PInt 1);
                       ("is_launched", PBool true)]);;
  lo ← construct_insert (LessonOutline_of [("activity_outline_id", PStr (oid_str ao)); ("name", PStr "Hello World");
                                 ("order", PInt 1); ("count", PInt 1)]);
  construct_insert (Lesson_of [("lesson_outline_id", PStr (oid_str lo)); ("lesson_type", PStr "text");
                     ("text", PStr "print('Hello, World!')"); ("urls", PStrs ["https://example.com/lesson1"]);
                     ("question_lesson", PNone); ("order", PInt 1); ("is_launched", PBool true);
                     ("is_free", PBool true)]);;
  qo ← construct_insert (QuizOutline_of [("activity_outline_id", PStr (oid_str ao)); ("name", PStr "Quiz 1"); ("order", PInt 2);
                               ("is_launched", PBool true); ("is_free", PBool false); ("count", PInt 1)]);
  construct_insert (Question_of [("quiz_outline_id", PStr (oid_str qo)); ("time_limit", PInt 30); ("points", PInt 10);
                       ("template", PDict (JDict [("type", JStr "multiple_choice");
                                               ("question", JStr "What does print('Hello, World!') do?");
                                               ("options", JList [JStr "Prints text"; JStr "Saves file"])]));
                       ("generated_question", PNone); ("url", PStrs ["https://example.com/q1.jpg"]);
                       ("check_function", PStr "def check_answer(ans): return ans == 'Prints text'");
                       ("order", PInt 1); ("is_accepted", PBool true)]);;
  mret tt.

(** ** cleanup_db.py (lines 10-57) *)

Definition COLLECTIONS : list string :=
  ["users"; "channels"; "section_outlines"; "sections"; "unit_outlines"; "units"; "activity_outlines";
   "activities"; "lesson_outlines"; "lessons"; "quiz_outlines"; "questions"; "channel_settings";
   "user_progress"; "file_items"; "files"; "dirs"; "errors"].

(** The collection a stored document lives in: its class's
    [Settings.name], else the class name. *)
Definition collection_name (d : doc) : string :=
  match d with
  | DChannel _ => "channels" | DChannelInfo _ => "ChannelInfo" | DPublishChannel _ => "publish_channels"
  | DSectionOutline _ => "section_outlines" | DSection _ => "sections" | DUnitOutline _ => "unit_outlines"
  | DUnit _ => "units" | DActivityOutline _ => "activity_outlines" | DActivity _ => "activities"
  | DLessonOutline _ => "lesson_outlines" | DLesson _ => "lessons" | DQuizOutline _ => "quiz_outlines"
  | DQuestion _ => "questions" | DFreeAccess _ => "FreeAccess" | DPlayerProgress _ => "user_progress"
  | DTier _ => "Tier" | DCoupon _ => "Coupon" | DUser _ => "users" | DErrorLog _ => "Error"
  | DGalleryFile _ => "gallery_files" | DGalleryDir _ => "gallery_directories"
  end.

(** [await db[collection].drop()] *)
Definition drop (c : string) (db : DB) : DB :=
  mkDB (List.filter (fun p => negb (String.eqb (collection_name p.2) c)) (docs db)) (next_id db).

(** [drop_collections()], given [await db.list_collection_names()]. *)
Definition drop_collections (existing : list string) : PyM DB unit :=
  py_foldM (fun _ c => if bool_decide (c ∈ existing) then modify (drop c) else mret tt) tt COLLECTIONS.

(** ** Lemmas *)

(** The user [User(...)] of the seed script builds. *)
Definition demo_user (now : datetime) : User.t :=
  User.mk "demo@example.com" (Some "Demo") (Some "User") (Some "Demo user for channel population script.") None
          Player Local false (Some "hashedpassword") None None None None None None None None now None None.

Lemma demo_user_of now : User_of now (demo_user_kw now) = inr (demo_user now).
Proof. reflexivity. Qed.

(** [Channel(...)] of the script lacks the required [channel_id]. *)
Lemma channel_of_script now uid : Channel_of now (channel_kw now uid) = inl (field_required "Channel" "channel_id").
Proof. reflexivity. Qed.

Lemma demo_user_no_clash db :
  find_one_in (D:=User.t) db (fun _ u => String.eqb (User.email u) "demo@example.com") = None ->
  forall now, existsb (fun p => user_clash (demo_user now) p.2) (collection (D:=User.t) db) = false.
Proof.
  intros Hn now. apply not_true_iff_false. intros ([j v] & Hin & Hc)%existsb_exists. apply list_elem_of_In in Hin.
  pose proof (find_one_in_none_inv _ _ j v Hn Hin) as Hv. simpl in Hc, Hv.
  unfold user_clash in Hc. simpl in Hc. rewrite Hv in Hc. done.
Qed.

Lemma create_channel_raises {A} now uid (k : oid -> PyM DB A) db :
  (construct_insert (Channel_of now (channel_kw now uid)) ≫= k) db = (inl (field_required "Channel" "channel_id"), db).
Proof. unfold construct_insert. rewrite !bind_run, channel_of_script. reflexivity. Qed.

Lemma insert_demo_user_run now db :
  find_one_in (D:=User.t) db (fun _ u => String.eqb (User.email u) "demo@example.com") = None ->
  (u ← lift_exn (User_of now (demo_user_kw now)); insert_user u) db = insert (demo_user now) db.
Proof.
  intros Hn. rewrite bind_run, demo_user_of. cbn [lift_exn fst snd]. unfold insert_user.
  rewrite bind_run. unfold gets. cbn [fst snd]. by rewrite (demo_user_no_clash db Hn now).
Qed.

(** (C38) The seed script scripts/fill_channel_db.py never seeds: its
    [Channel(...)] call gives no [channel_id], a required field of
    [ChannelFields], so on every store it raises pydantic's
    [ValidationError] there, before any channel, section, unit,
    activity, lesson or quiz is inserted; the only write it makes is the
    demo user, inserted when no user has its e-mail. *)
Theorem fill_channel_db_fails now db :
  fill_channel_db now db =
    (inl (field_required "Channel" "channel_id"),
     match find_one_in (D:=User.t) db (fun _ u => String.eqb (User.email u) "demo@example.com") with
     | Some _ => db
     | None => snd (insert (demo_user now) db)
     end).
Proof.
  unfold fill_channel_db, find_one. rewrite bind_run. unfold gets. cbn [fst snd].
  destruct (find_one_in (D:=User.t) db _) as [[i u]|] eqn:Ef.
  - rewrite bind_run, ret_run. cbn [fst snd]. apply create_channel_raises.
  - rewrite bind_run, (insert_demo_user_run now db Ef). unfold insert at 1. cbn [fst snd].
    apply create_channel_raises.
Qed.

Lemma filter_filter_andb {A} (f g : A -> bool) l : List.filter f (List.filter g l) = List.filter (fun x => g x && f x) l.
Proof. induction l as [|x l IH]; simpl; [done|]. destruct (g x); simpl; [destruct (f x); simpl|]; by rewrite IH. Qed.

Lemma drop_keeps_existing (existing : list string) c db :
  (forall p, p ∈ docs db -> collection_name p.2 ∈ existing) ->
  forall p, p ∈ docs (drop c db) -> collection_name p.2 ∈ existing.
Proof. intros H p Hp. apply H. unfold drop in Hp. cbn [docs] in Hp. apply list_elem_of_In in Hp. apply filter_In in Hp as [Hp _]. by apply list_elem_of_In. Qed.

(** The loop of [drop_collections] over a list [L] of names, on a store
    whose collections are all listed as existing, removes exactly the
    documents of the collections named in [L]. *)
Lemma drop_loop_docs (existing : list string) L db :
  (forall p, p ∈ docs db -> collection_name p.2 ∈ existing) ->
  docs (snd (py_foldM (fun _ c => if bool_decide (c ∈ existing) then modify (drop c) else mret tt) tt L db)) =
  List.filter (fun p => negb (bool_decide (collection_name p.2 ∈ L))) (docs db).
Proof.
  revert db. induction L as [|c L IH]; intros db Hex.
  - simpl. generalize (docs db). intros l. induction l as [|p ps IHp]; simpl; [done|]. by f_equal.
  - rewrite py_foldM_cons_run. case_bool_decide as Hc.
    + unfold modify. cbn [fst snd]. rewrite IH by (by apply drop_keeps_existing). unfold drop. simpl.
      rewrite filter_filter_andb. apply filter_ext. intros [i d]. simpl.
      destruct (String.eqb_spec (collection_name d) c) as [->|Hne].
      * rewrite (bool_decide_true (c ∈ c :: L)); [done|apply list_elem_of_here].
      * simpl. f_equal. apply bool_decide_ext. split; [intros; by right|].
        intros [Heq|?]%elem_of_cons; [by exfalso|done].
    + rewrite ret_run. cbn [fst snd]. rewrite IH by done. apply filter_ext_in. intros [i d] Hin. simpl.
      f_equal. apply bool_decide_ext. split; [intros; by right|].
      intros [Heq|?]%elem_of_cons; [|done]. exfalso. apply Hc. rewrite <- Heq.
      apply (Hex (i, d)). by apply list_elem_of_In.
Qed.

(** The collections of the models that [cleanup_db.py] does not drop. *)
Lemma cleanup_survivors d :
  bool_decide (collection_name d ∉ COLLECTIONS) =
  bool_decide (collection_name d ∈ ["ChannelInfo"; "publish_channels"; "FreeAccess"; "Tier"; "Coupon"; "Error";
                                   "gallery_files"; "gallery_directories"]).
Proof. destruct d; vm_compute; reflexivity. Qed.

(** After [cleanup_db.py], on a store whose collections all exist, the
    documents left are exactly those of the channel infos, publish
    records, free-access settings, tiers, coupons, error log and gallery,
    which the script's list misses. *)
Lemma cleanup_leaves (existing : list string) db :
  (forall p, p ∈ docs db -> collection_name p.2 ∈ existing) ->
  docs (final (drop_collections existing) db) =
  List.filter (fun p => bool_decide (collection_name p.2 ∈ ["ChannelInfo"; "publish_channels"; "FreeAccess"; "Tier";
                                                           "Coupon"; "Error"; "gallery_files"; "gallery_directories"]))
              (docs db).
Proof.
  intros Hex. unfold final, drop_collections. rewrite drop_loop_docs by done.
  apply filter_ext. intros p. rewrite <- cleanup_survivors. by rewrite bool_decide_not.
Qed.
